(** * xchem-align: collation, validation and alignment bookkeeping

    A shallow embedding of [xchemalign/validator.py], [xchemalign/collator.py]
    and the metadata part of [xchemalign/aligner.py], followed by the
    properties of the specification that were checked against it.

    Python values are embedded as follows: dictionaries are association
    lists in insertion order ([dict]), exceptions are the [Raise] results of
    a state-and-error monad, the file system is a finite map from path
    strings to nodes, and objects that the code mutates after they were put
    into a dictionary are kept in one store and named by reference. *)

From Stdlib Require Import Ascii String List ZArith Lia.
From stdpp Require Import base tactics option list gmap strings pretty.

(* ===================================================================== *)
(** * Python primitives *)
(* ===================================================================== *)

Module Py.

(** The exceptions the embedded code can raise. *)
Inductive exn :=
| KeyError | IndexError | ValueError | TypeError | AttributeError
| FileExistsError | FileNotFoundError | NotADirectoryError
| IsADirectoryError | SameFileError | YAMLError | RecursionError
| PlainException.

Inductive result (A : Type) :=
| Ok (a : A)
| Raise (e : exn).
Global Arguments Ok {A} a.
Global Arguments Raise {A} e.

Definition is_ok {A} (r : result A) : bool :=
  match r with Ok _ => true | Raise _ => false end.

(** State-and-error monad: a raised exception keeps the state reached. *)
Definition M (W A : Type) : Type := W -> result A * W.

Definition ret {W A} (a : A) : M W A := fun w => (Ok a, w).

Definition raise {W A} (e : exn) : M W A := fun w => (Raise e, w).

Definition bind {W A B} (m : M W A) (k : A -> M W B) : M W B :=
  fun w => match m w with
           | (Ok a, w') => k a w'
           | (Raise e, w') => (Raise e, w')
           end.

Definition gets {W A} (f : W -> A) : M W A := fun w => (Ok (f w), w).

Definition modify {W} (f : W -> W) : M W unit := fun w => (Ok tt, f w).

(** A pure computation that may raise. *)
Definition lift {W A} (r : result A) : M W A := fun w => (r, w).

(** [d[k]] on an optional field: [KeyError] when the key is absent. *)
Definition getitem {W A} (o : option A) : M W A :=
  match o with Some a => ret a | None => raise KeyError end.

(** [for x in l: body], without [return] or [break] in the body. *)
Fixpoint for_each {W A} (l : list A) (body : A -> M W unit) : M W unit :=
  match l with
  | [] => ret tt
  | x :: l' => bind (body x) (fun _ => for_each l' body)
  end.

(** [for x in l: body], threading the local variables [s] of the loop. *)
Fixpoint for_fold {W A S} (l : list A) (body : S -> A -> M W S) (s : S)
  : M W S :=
  match l with
  | [] => ret s
  | x :: l' => bind (body s x) (for_fold l' body)
  end.

(** [for x in l: body] where the body may [return r] from the enclosing
    function: [Some r] leaves the loop, [None] goes on. *)
Fixpoint for_return {W A R} (l : list A) (body : A -> M W (option R))
  : M W (option R) :=
  match l with
  | [] => ret None
  | x :: l' =>
      bind (body x) (fun r =>
        match r with
        | Some v => ret (Some v)
        | None => for_return l' body
        end)
  end.

(** [None] and strings, the values of the scalar entries that the code
    tests for truth. *)
Inductive pyval :=
| PyNone
| PyStr (s : string).

Definition truthy (v : pyval) : bool :=
  match v with
  | PyNone => false
  | PyStr s => negb (String.eqb s "")
  end.

(** A dictionary with string keys, in insertion order. *)
Abbreviation dict V := (list (string * V)).

Fixpoint dict_get {V} (d : dict V) (k : string) : option V :=
  match d with
  | [] => None
  | (k', v) :: d' => if String.eqb k' k then Some v else dict_get d' k
  end.

(** [d[k] = v]: replaces the value of an existing key in place, appends a
    new key. *)
Fixpoint dict_set {V} (d : dict V) (k : string) (v : V) : dict V :=
  match d with
  | [] => [(k, v)]
  | (k', v') :: d' =>
      if String.eqb k' k then (k', v) :: d' else (k', v') :: dict_set d' k v
  end.

Definition dict_mem {V} (d : dict V) (k : string) : bool :=
  match dict_get d k with Some _ => true | None => false end.

Definition dict_keys {V} (d : dict V) : list string := map fst d.

(** [str.format] with automatic field numbering, for templates whose
    fields are all written [{}]: every field takes the next positional
    argument and [IndexError] is raised when none is left. *)
Fixpoint format (template : string) (args : list string) : result string :=
  match template with
  | EmptyString => Ok EmptyString
  | String "{"%char (String "}"%char rest) =>
      match args with
      | a :: args' =>
          match format rest args' with
          | Ok s => Ok (a +:+ s)
          | Raise e => Raise e
          end
      | [] => Raise IndexError
      end
  | String c rest =>
      match format rest args with
      | Ok s => Ok (String c s)
      | Raise e => Raise e
      end
  end.

(** [str(n)] for a natural number. *)
Definition str (n : nat) : string := pretty n.
Global Arguments str : simpl never.

(** [hoare P m Q X]: from a state in [P], the computation [m] ends in a
    state in [Q a] when it returns [a], and in a state in [X] when it
    raises. *)
Definition hoare {W A} (P : W -> Prop) (m : M W A) (Q : A -> W -> Prop)
    (X : W -> Prop) : Prop :=
  forall w, P w ->
    match m w with
    | (Ok a, w') => Q a w'
    | (Raise _, w') => X w'
    end.

(** [keeps I m]: whatever [m] does, and whether it returns or raises, a
    state in [I] stays in [I]. *)
Definition keeps {W A} (I : W -> Prop) (m : M W A) : Prop :=
  forall w, I w -> I (snd (m w)).

End Py.
Export Py.

Declare Scope py_scope.
Delimit Scope py_scope with py.
Notation "x <- m ; k" := (bind m (fun x => k))
  (at level 20, m at level 100, k at level 200, only parsing) : py_scope.
Notation "' pat <- m ; k" := (bind m (fun x => match x with pat => k end))
  (at level 20, pat pattern, m at level 100, k at level 200, only parsing)
  : py_scope.
Notation "m ;; k" := (bind m (fun _ => k))
  (at level 100, k at level 200, right associativity, only parsing)
  : py_scope.
Open Scope py_scope.

(* ===================================================================== *)
(** * Paths ([posixpath]) *)
(* ===================================================================== *)

Module Path.

(** [p.startswith('/')] *)
Definition isabs (p : string) : bool :=
  match p with
  | String "/"%char _ => true
  | _ => false
  end.

(** [p.endswith('/')] *)
Fixpoint ends_with_sep (p : string) : bool :=
  match p with
  | EmptyString => false
  | String c EmptyString => Ascii.eqb c "/"
  | String _ rest => ends_with_sep rest
  end.

(** [os.path.join(a, b)]: an absolute [b] replaces [a]; otherwise [b] is
    appended, after a separator unless [a] is empty or ends with one. *)
Definition join (a b : string) : string :=
  if isabs b then b
  else if String.eqb a "" || ends_with_sep a then a +:+ b
  else a +:+ "/" +:+ b.

(** [p[:i], p[i:]] for [i = p.rfind('/') + 1]. *)
Fixpoint split_raw (p : string) : string * string :=
  match p with
  | EmptyString => (EmptyString, EmptyString)
  | String c rest =>
      match split_raw rest with
      | (EmptyString, _) =>
          if Ascii.eqb c "/" then (String c EmptyString, rest)
          else (EmptyString, String c rest)
      | (head, tail) => (String c head, tail)
      end
  end.

(** [s.rstrip('/')] *)
Fixpoint rstrip_sep (s : string) : string :=
  match s with
  | EmptyString => EmptyString
  | String c rest =>
      match rstrip_sep rest with
      | EmptyString => if Ascii.eqb c "/" then EmptyString else String c EmptyString
      | rest' => String c rest'
      end
  end.

(** [os.path.split(p)]: the head loses its trailing separators unless it
    consists of separators only. *)
Definition split (p : string) : string * string :=
  let '(head, tail) := split_raw p in
  match rstrip_sep head with
  | EmptyString => (head, tail)
  | head' => (head', tail)
  end.

Definition basename (p : string) : string := snd (split_raw p).

(** The text that [join d] puts in front of a relative path. *)
Definition dirpfx (d : string) : string :=
  if String.eqb d "" || ends_with_sep d then d else d +:+ "/".

(** [p] lies below the directory [d]. *)
Definition below (d p : string) : bool := String.prefix (dirpfx d) p.

(** [p] is the directory [d] or lies below it. *)
Definition within (d p : string) : bool := String.eqb p d || below d p.

(** A path component: not empty and without a separator. *)
Fixpoint no_sep (s : string) : bool :=
  match s with
  | EmptyString => true
  | String c rest => negb (Ascii.eqb c "/") && no_sep rest
  end.

Definition plain_name (s : string) : bool :=
  negb (String.eqb s "") && no_sep s.

(** The components [.] and [..], which name a directory that is there. *)
Definition dot_name (s : string) : bool :=
  String.eqb s "." || String.eqb s "..".

(** A text without the character NUL, which no path may contain. *)
Fixpoint no_nul (s : string) : bool :=
  match s with
  | EmptyString => true
  | String c rest => negb (Ascii.eqb c Ascii.zero) && no_nul rest
  end.

(** The name of a new entry of a directory: a component other than [.]
    and [..], without NUL. *)
Definition entry_name (s : string) : bool :=
  plain_name s && negb (dot_name s) && no_nul s.

(** [clean d]: the directory [d] is written without a separator at its
    end, and is not the empty path. *)
Definition clean (d : string) : Prop := d <> "" /\ ends_with_sep d = false.

(** [s.split('/')], with [cur] the text read since the last separator. *)
Fixpoint components_from (s cur : string) : list string :=
  match s with
  | EmptyString => [cur]
  | String c rest =>
      if Ascii.eqb c "/" then cur :: components_from rest EmptyString
      else components_from rest (cur +:+ String c EmptyString)
  end.

(** [str(pathlib.PurePosixPath(s))]: the root is [//] for a text that
    starts with exactly two separators; empty components and [.] are
    dropped, [..] is kept; the path without root and components is
    written [.]. *)
Definition pure_path (s : string) : string :=
  let root :=
    match s with
    | String "/"%char (String "/"%char (String "/"%char _)) => "/"
    | String "/"%char (String "/"%char _) => "//"
    | String "/"%char _ => "/"
    | _ => ""
    end in
  let parts :=
    List.filter (fun x => negb (String.eqb x "" || String.eqb x "."))
      (components_from s EmptyString) in
  let text := root +:+ String.concat "/" parts in
  if String.eqb text "" then "." else text.

(** [str(a / b)] for a [pathlib.Path] with the text [a] and a text [b]. *)
Definition div (a b : string) : string := pure_path (join a b).

End Path.

(* ===================================================================== *)
(** * The file system *)
(* ===================================================================== *)

Module FS.
Import Path.

(** Paths are compared as they are written: there are no links, and no
    component before the last one is [.] or [..]. Names and paths may
    have any length. *)
Inductive node :=
| Dir
| File (content : string).

Abbreviation fs := (gmap string node).

Definition exists_ (t : fs) (p : string) : bool :=
  match t !! p with Some _ => true | None => false end.

Definition isdir (t : fs) (p : string) : bool :=
  match t !! p with Some Dir => true | _ => false end.

Definition isfile (t : fs) (p : string) : bool :=
  match t !! p with Some (File _) => true | _ => false end.

(** The directory in which the last component of [p] is created: the
    working directory and the root always exist. *)
Definition parent_ok (t : fs) (p : string) : result unit :=
  let parent := fst (split p) in
  match rstrip_sep parent with
  | EmptyString => Ok tt
  | _ =>
      match t !! parent with
      | Some Dir => Ok tt
      | Some (File _) => Raise NotADirectoryError
      | None => Raise FileNotFoundError
      end
  end.

(** [shutil.rmtree(p)] *)
Definition rmtree (p : string) : M fs unit := fun t =>
  match t !! p with
  | None => (Raise FileNotFoundError, t)
  | Some (File _) => (Raise NotADirectoryError, t)
  | Some Dir => (Ok tt, filter (fun kv => within p (fst kv) = false) t)
  end.

(** [os.mkdir(p)]: a last component [.] or [..] names a directory that
    is there when the directory before it is. *)
Definition mkdir (p : string) : M fs unit := fun t =>
  match t !! p with
  | Some _ => (Raise FileExistsError, t)
  | None =>
      match parent_ok t p with
      | Ok _ =>
          if dot_name (basename p) then (Raise FileExistsError, t)
          else (Ok tt, <[p := Dir]> t)
      | Raise e => (Raise e, t)
      end
  end.

(** [try: m  except FileExistsError: pass] *)
Definition except_file_exists (m : M fs unit) : M fs unit := fun t =>
  match m t with
  | (Raise FileExistsError, t') => (Ok tt, t')
  | r => r
  end.

(** [os.makedirs(name)] with [exist_ok=False]; the recursion on the head
    of the path is bounded by the length of the path. *)
Fixpoint makedirs_go (fuel : nat) (name : string) : M fs unit :=
  match fuel with
  | O => raise RecursionError
  | S fuel' =>
      let '(head, tail) := split name in
      let '(head, tail) :=
        if String.eqb tail "" then split head else (head, tail) in
      make_leaf <-
        (if negb (String.eqb head "") && negb (String.eqb tail "") then
           head_exists <- gets (fun t => exists_ t head) ;
           if head_exists then ret true
           else
             except_file_exists (makedirs_go fuel' head) ;;
             ret (negb (String.eqb tail "."))
         else ret true) ;
      if make_leaf then mkdir name else ret tt
  end.

Definition makedirs (name : string) : M fs unit :=
  makedirs_go (S (String.length name)) name.

(** [shutil.copy2(src, dst)]: returns the path written. *)
Definition copy2 (src dst : string) : M fs string := fun t =>
  let dst := if isdir t dst then join dst (basename src) else dst in
  if String.eqb src dst then (Raise SameFileError, t)
  else
    match t !! src with
    | None => (Raise FileNotFoundError, t)
    | Some Dir => (Raise IsADirectoryError, t)
    | Some (File content) =>
        match t !! dst with
        | Some Dir => (Raise IsADirectoryError, t)
        | _ =>
            match parent_ok t dst with
            | Ok _ => (Ok dst, <[dst := File content]> t)
            | Raise e => (Raise e, t)
            end
        end
    end.

(** [open(p, 'r').read()] *)
Definition read_file (p : string) : M fs string := fun t =>
  match t !! p with
  | Some (File content) => (Ok content, t)
  | Some Dir => (Raise IsADirectoryError, t)
  | None => (Raise FileNotFoundError, t)
  end.

(** [open(p, 'w').write(content)] *)
Definition write_file (p content : string) : M fs unit := fun t =>
  match t !! p with
  | Some Dir => (Raise IsADirectoryError, t)
  | _ =>
      match parent_ok t p with
      | Ok _ => (Ok tt, <[p := File content]> t)
      | Raise e => (Raise e, t)
      end
  end.

End FS.

(* ===================================================================== *)
(** * The metadata documents *)
(* ===================================================================== *)

Module Data.

(** An entry of [crystallographic_files]: [None], the path written by the
    validator, or the [{'file': .., 'sha256': ..}] pair written by the
    collator. *)
Inductive file_entry :=
| NoFile
| FilePath (p : string)
| Copied (file sha256 : string).

Definition entry_truthy (e : file_entry) : bool :=
  match e with
  | NoFile => false
  | FilePath p => negb (String.eqb p "")
  | Copied _ _ => true
  end.

Record xtal_files := mk_xtal_files {
  xtal_pdb : file_entry;
  xtal_mtz : file_entry;
  ligand_cif : file_entry }.

(** The record of one crystal. A field of type [option] is a key that may
    be absent from the dictionary. *)
Record xtal_data := mk_xtal_data {
  last_updated : option pyval;
  crystallographic_files : xtal_files;
  status : option string;
  reason : option string }.

Record meta := mk_meta {
  run_on : string;
  input_dirs : list string;
  output_dir : string;
  crystals : dict xtal_data }.

(** A call of the logger: level 0 is information, 1 a warning, 2 an
    error. *)
Record log_entry := mk_log_entry {
  log_level : nat;
  log_text : string }.

Definition set_status (s : string) (x : xtal_data) : xtal_data :=
  mk_xtal_data (last_updated x) (crystallographic_files x) (Some s) (reason x).

Definition set_reason (s : string) (x : xtal_data) : xtal_data :=
  mk_xtal_data (last_updated x) (crystallographic_files x) (status x) (Some s).

Definition set_files (f : xtal_files) (x : xtal_data) : xtal_data :=
  mk_xtal_data (last_updated x) f (status x) (reason x).

(** The three kinds of crystallographic file. *)
Inductive file_kind := PDB | MTZ | CIF.

Global Instance file_kind_eq_dec : EqDecision file_kind.
Proof. solve_decision. Defined.

Definition get_file (k : file_kind) (f : xtal_files) : file_entry :=
  match k with
  | PDB => xtal_pdb f
  | MTZ => xtal_mtz f
  | CIF => ligand_cif f
  end.

Definition set_file (k : file_kind) (e : file_entry) (f : xtal_files)
  : xtal_files :=
  match k with
  | PDB => mk_xtal_files e (xtal_mtz f) (ligand_cif f)
  | MTZ => mk_xtal_files (xtal_pdb f) e (ligand_cif f)
  | CIF => mk_xtal_files (xtal_pdb f) (xtal_mtz f) e
  end.

End Data.
Export Data.

(* ===================================================================== *)
(** * validator.py *)
(* ===================================================================== *)

Module Validator.
Import Path FS.

(** [make_path_relative]: indexing the empty string raises. *)
Definition make_path_relative (filepath : string) : result string :=
  match filepath with
  | EmptyString => Raise IndexError
  | String c rest => if Ascii.eqb c "/" then Ok rest else Ok filepath
  end.

Definition generate_soakdb_file (base_dir input_dir : string)
  : result string :=
  match make_path_relative input_dir with
  | Ok rel =>
      Ok (join (join (join (join base_dir rel) "processing") "database")
            "soakDBDataFile.sqlite")
  | Raise e => Raise e
  end.

Definition generate_xtal_dir (input_dir xtal_name : string) : string :=
  join (join (join (join input_dir "processing") "analysis") "model_building")
    xtal_name.

Definition prepend_base (base_dir filepath : string) : result string :=
  if negb (String.eqb base_dir "") then
    match make_path_relative filepath with
    | Ok rel => Ok (join base_dir rel)
    | Raise e => Raise e
    end
  else Ok filepath.

Definition generate_filenames (filepath xtal_dir output_dir : string)
  : result (string * string) :=
  if isabs filepath then
    match make_path_relative filepath with
    | Ok rel => Ok (filepath, join output_dir rel)
    | Raise e => Raise e
    end
  else
    match make_path_relative xtal_dir with
    | Ok rel => Ok (join xtal_dir filepath, join (join output_dir rel) filepath)
    | Raise e => Raise e
    end.

(** A row of the table that [dbreader.filter_dbmeta] returns. A date is
    kept as a number; [LastUpdatedDate] is [None] when the row has none. *)
Record row := mk_row {
  CrystalName : pyval;
  RefinementPDB_latest : pyval;
  RefinementMTZ_latest : pyval;
  RefinementCIF : pyval;
  LastUpdatedDate : option Z }.

(** What the validator takes from outside this file: the table read from a
    database file, the clock, and the formatting of a date with
    [utils._DATETIME_FORMAT]. *)
Record externals := mk_externals {
  filter_dbmeta : string -> list row;
  now : string;
  strftime : Z -> string }.

Record validator := mk_validator {
  base_dir : string;
  v_input_dirs : list string;
  v_output_dir : string;
  target_name : string }.

Definition log (level : nat) (args : list string) : M (list log_entry) unit :=
  modify (fun l => l ++ [mk_log_entry level (String.concat " " args)]).

Definition logf (level : nat) (template : string) (args : list string)
  : M (list log_entry) unit :=
  text <- lift (format template args) ;
  log level [text].

Definition columns : list (string * (row -> pyval)) :=
  [ ("RefinementPDB_latest", RefinementPDB_latest);
    ("RefinementMTZ_latest", RefinementMTZ_latest);
    ("RefinementCIF", RefinementCIF) ].

Definition _check_file_exists (t : fs) (filepath : string) : bool :=
  if negb (isfile t filepath) then false else true.

Definition show (v : pyval) : string :=
  match v with PyNone => "None" | PyStr s => s end.

(** The body of [for colname in [...]]; the state is
    [(missing_files, expanded_files)]. *)
Definition check_column (self : validator) (t : fs) (r : row)
    (xtal_name xtal_dir : string) (st : nat * list (option string))
    (col : string * (row -> pyval)) : M (list log_entry) (nat * list (option string)) :=
  let '(missing_files, expanded_files) := st in
  let '(colname, column) := col in
  if String.eqb colname "" then                   (* [not colname] *)
    logf 2 "File not defined for {}" [colname] ;;
    ret (missing_files, expanded_files ++ [None])
  else
    let file := column r in
    if truthy file then
      '(inputpath, outputpath) <-
         lift (generate_filenames (show file) xtal_dir "") ;
      full_inputpath <- lift (prepend_base (base_dir self) inputpath) ;
      let ok := _check_file_exists t full_inputpath in
      if ok then ret (missing_files, expanded_files ++ [Some inputpath])
      else
        logf 1 "File {} for {} not found: {}" [colname; xtal_name; show file] ;;
        ret (missing_files + 1, expanded_files ++ [None])
    else
      logf 1 "Entry {} for {} not defined in SoakDB" [colname; xtal_name] ;;
      ret (missing_files, expanded_files ++ [None]).

Definition to_entry (o : option string) : file_entry :=
  match o with Some p => FilePath p | None => NoFile end.

(** The body of [for index, row in df.iterrows()]; the state is
    [(count, processed, valid_ids)]. *)
Definition check_row (E : externals) (self : validator) (t : fs)
    (input_dir : string) (st : nat * nat * dict xtal_data) (r : row)
  : M (list log_entry) (nat * nat * dict xtal_data) :=
  let '(count, processed, valid_ids) := st in
  let count := count + 1 in
  xtal_name <-
    match CrystalName r with
    | PyStr s => ret s
    | PyNone => raise TypeError      (* [os.path.join(.., None)] *)
    end ;
  let xtal_dir := generate_xtal_dir input_dir xtal_name in
  if negb (truthy (PyStr xtal_name)) then
    logf 2 "Crystal name not defined, cannot process row {}" [xtal_name] ;;
    ret (count, processed, valid_ids)
  else
    logf 0 "Processing crystal {} {}" [str count; xtal_name] ;;
    '(missing_files, expanded_files) <-
       for_fold columns (check_column self t r xtal_name xtal_dir) (0, []) ;
    if 0 <? missing_files then
      logf 1 "{} files for {} missing. Will not process"
        [str missing_files; xtal_name] ;;
      ret (count, processed, valid_ids)
    else
      let processed := processed + 1 in
      (if dict_mem valid_ids xtal_name then
         logf 1 "Crystal {} already exists, it's data will be overriden"
           [xtal_name]
       else ret tt) ;;
      let last_updated :=
        match LastUpdatedDate r with
        | Some d => Some (PyStr (strftime E d))
        | None => None
        end in
      pdb <- getitem (expanded_files !! 0) ;
      mtz <- getitem (expanded_files !! 1) ;
      cif <- getitem (expanded_files !! 2) ;
      let data :=
        mk_xtal_data last_updated
          (mk_xtal_files (to_entry pdb) (to_entry mtz) (to_entry cif))
          None None in
      ret (count, processed, dict_set valid_ids xtal_name data).

(** The body of [for input_dir in self.input_dirs]. *)
Definition check_input_dir (E : externals) (self : validator) (t : fs)
    (valid_ids : dict xtal_data) (input_dir : string)
  : M (list log_entry) (dict xtal_data) :=
  dbfile <- lift (generate_soakdb_file (base_dir self) input_dir) ;
  log 0 ["Opening DB file:"; dbfile] ;;
  let df := filter_dbmeta E dbfile in
  '(count, processed, valid_ids) <-
     for_fold df (check_row E self t input_dir) (0, 0, valid_ids) ;
  logf 0 "Validator handled {} rows from database, {} were valid"
    [str count; str processed] ;;
  ret valid_ids.

Definition validate_metadata (E : externals) (self : validator) (t : fs)
  : M (list log_entry) meta :=
  valid_ids <- for_fold (v_input_dirs self) (check_input_dir E self t) [] ;
  ret (mk_meta (now E) (v_input_dirs self) (v_output_dir self) valid_ids).

(** ** What the validation computes

    The entry for a column of a row: [Some None] for a column without
    value, [Some (Some p)] for the path [p] of a file that is there, and
    [None] for a file that is missing. *)
Definition column_path (self : validator) (t : fs) (xtal_dir : string)
    (file : pyval) : option (option string) :=
  if truthy file then
    match generate_filenames (show file) xtal_dir "" with
    | Ok (inputpath, _) =>
        match prepend_base (base_dir self) inputpath with
        | Ok full_inputpath =>
            if _check_file_exists t full_inputpath then Some (Some inputpath)
            else None
        | Raise _ => None
        end
    | Raise _ => None
    end
  else Some None.

(** The column of a kind of file. *)
Definition column_of (k : file_kind) : row -> pyval :=
  match k with
  | PDB => RefinementPDB_latest
  | MTZ => RefinementMTZ_latest
  | CIF => RefinementCIF
  end.

(** The record that a row of the database of [input_dir] adds to the
    crystals, if it adds one: the row has a name and none of its files is
    missing. *)
Definition row_result (E : externals) (self : validator) (t : fs)
    (input_dir : string) (r : row) : option (string * xtal_data) :=
  match CrystalName r with
  | PyStr xtal_name =>
      if String.eqb xtal_name "" then None
      else
        let xtal_dir := generate_xtal_dir input_dir xtal_name in
        match column_path self t xtal_dir (RefinementPDB_latest r),
              column_path self t xtal_dir (RefinementMTZ_latest r),
              column_path self t xtal_dir (RefinementCIF r) with
        | Some pdb, Some mtz, Some cif =>
            Some (xtal_name,
                  mk_xtal_data
                    (match LastUpdatedDate r with
                     | Some d => Some (PyStr (strftime E d))
                     | None => None
                     end)
                    (mk_xtal_files (to_entry pdb) (to_entry mtz) (to_entry cif))
                    None None)
        | _, _, _ => None
        end
  | PyNone => None
  end.

Definition accept_row (E : externals) (self : validator) (t : fs)
    (valid_ids : dict xtal_data) (item : string * row) : dict xtal_data :=
  match row_result E self t (fst item) (snd item) with
  | Some (xtal_name, data) => dict_set valid_ids xtal_name data
  | None => valid_ids
  end.

(** The rows of the databases of the input directories, each with its
    directory, in the order in which they are read. *)
Definition rows_of (E : externals) (self : validator) (input_dir : string)
  : list (string * row) :=
  match generate_soakdb_file (base_dir self) input_dir with
  | Ok dbfile => map (pair input_dir) (filter_dbmeta E dbfile)
  | Raise _ => []
  end.

Definition all_rows (E : externals) (self : validator) : list (string * row) :=
  flat_map (rows_of E self) (v_input_dirs self).

(** The record of the last row that adds one for the crystal
    [xtal_name]. *)
Definition adds_crystal (E : externals) (self : validator) (t : fs)
    (xtal_name : string) (item : string * row) : bool :=
  match row_result E self t (fst item) (snd item) with
  | Some (n, _) => String.eqb n xtal_name
  | None => false
  end.

Definition last_record (E : externals) (self : validator) (t : fs)
    (xtal_name : string) : option xtal_data :=
  match find (adds_crystal E self t xtal_name) (rev (all_rows E self)) with
  | Some item =>
      match row_result E self t (fst item) (snd item) with
      | Some (_, data) => Some data
      | None => None
      end
  | None => None
  end.

(** ** The validation of the paths

    The classes [[A-Za-z]] and [[A-Za-z0-9_\-]] of the pattern for the name
    of the target. *)
Definition is_letter (c : ascii) : bool :=
  let n := nat_of_ascii c in
  ((65 <=? n) && (n <=? 90)) || ((97 <=? n) && (n <=? 122)).

Definition is_name_char (c : ascii) : bool :=
  let n := nat_of_ascii c in
  is_letter c || ((48 <=? n) && (n <=? 57)) || Ascii.eqb c "_" || Ascii.eqb c "-".

(** [len(s)] for a text that is kept as its UTF-8 bytes: the bytes that
    do not continue a character are counted. *)
Fixpoint py_len (s : string) : nat :=
  match s with
  | EmptyString => 0
  | String c rest =>
      let n := nat_of_ascii c in
      (if (128 <=? n) && (n <? 192) then 0 else 1) + py_len rest
  end.

(** [[A-Za-z0-9_\-]*$]: [$] matches at the end of the text, and before a
    newline that is its last character. *)
Fixpoint name_chars_to_end (s : string) : bool :=
  match s with
  | EmptyString => true
  | String c rest =>
      if is_name_char c then name_chars_to_end rest
      else Ascii.eqb c (ascii_of_nat 10) && String.eqb rest ""
  end.

(** [re.search("^[A-Za-z]+[A-Za-z0-9_\\-]*$", s)] finds a match. *)
Definition target_name_matches (s : string) : bool :=
  match s with
  | EmptyString => false
  | String c rest => is_letter c && name_chars_to_end rest
  end.

(** The body of [for input_dir in self.input_dirs] in [validate_paths];
    the state is [errors]. *)
Definition check_input_path (self : validator) (t : fs) (errors : nat)
    (input_dir : string) : M (list log_entry) nat :=
  let input_path :=
    if negb (String.eqb (base_dir self) "") then base_dir self +:+ input_dir
    else input_dir in
  if negb (exists_ t input_path) then
    log 2 ["input_path does not exist:"; input_path] ;;
    ret (errors + 1)
  else if negb (isdir t input_path) then
    log 2 ["input_dir argument is not a directory:"; input_path] ;;
    ret (errors + 1)
  else
    dbfile <- lift (generate_soakdb_file (base_dir self) input_dir) ;
    if negb (isfile t dbfile) then
      log 2 ["SoakDB database not found:"; dbfile] ;;
      ret (errors + 1)
    else ret errors.

Definition validate_paths (self : validator) (t : fs)
  : M (list log_entry) (nat * nat) :=
  let errors := 0 in
  let warnings := 0 in
  errors <-
    (if negb (length (v_input_dirs self) =? 0) then
       for_fold (v_input_dirs self) (check_input_path self t) errors
     else
       log 2 ["input_dirs not defined in the config file"] ;;
       ret (errors + 1)) ;
  errors <-
    (if negb (String.eqb (v_output_dir self) "") then
       if negb (exists_ t (v_output_dir self)) then
         log 2 ["output_dir does not exist:"; v_output_dir self] ;;
         ret (errors + 1)
       else if negb (isdir t (v_output_dir self)) then
         log 2 ["output_dir argument is not a directory:"; v_output_dir self] ;;
         ret (errors + 1)
       else ret errors
     else
       log 2 ["Output dir not defined in the config file"] ;;
       ret (errors + 1)) ;
  errors <-
    (if String.eqb (target_name self) "" then
       log 2 ["target_name not defined"] ;;
       ret (errors + 1)
     else if py_len (target_name self) <? 4 then
       log 2 ["target_name must have at least 4 characters:"; target_name self] ;;
       ret (errors + 1)
     else if negb (target_name_matches (target_name self)) then
       log 2 ["Invalid target_name:"; target_name self] ;;
       ret (errors + 1)
     else ret errors) ;
  logf 0 "Path validation encountered {} errors and {} warnings"
    [str errors; str warnings] ;;
  ret (errors, warnings).

(** [validate_all]: [None] when the paths are not valid. *)
Definition validate_all (E : externals) (self : validator) (t : fs)
  : M (list log_entry) (option meta) :=
  '(errors, warnings) <- validate_paths self t ;
  if negb (errors =? 0) then
    log 2 ["Path validation failed with"; str errors; "errors"] ;;
    ret None
  else
    (if negb (warnings =? 0) then
       log 0 ["Continuing with"; str warnings; "warnings"]
     else ret tt) ;;
    meta <- validate_metadata E self t ;
    ret (Some meta).

(** ** Notions used in the statements about the validation of the paths

    The directory that [validate_paths] looks at for an input directory:
    the text of the base directory followed by the text of the input
    directory. *)
Definition input_path (self : validator) (input_dir : string) : string :=
  if negb (String.eqb (base_dir self) "") then base_dir self +:+ input_dir
  else input_dir.

(** An input directory passes: it is a directory, and its database is a
    file. *)
Definition input_dir_ok (self : validator) (t : fs) (input_dir : string)
  : bool :=
  isdir t (input_path self input_dir) &&
  match generate_soakdb_file (base_dir self) input_dir with
  | Ok dbfile => isfile t dbfile
  | Raise _ => false
  end.

Definition output_dir_ok (self : validator) (t : fs) : bool :=
  negb (String.eqb (v_output_dir self) "") && isdir t (v_output_dir self).

Definition target_name_ok (self : validator) : bool :=
  (4 <=? py_len (target_name self)) &&
  target_name_matches (target_name self).

(** The number of errors in the paths of a configuration. *)
Definition path_errors (self : validator) (t : fs) : nat :=
  (match v_input_dirs self with
   | [] => 1
   | dirs => length (filter (fun d => input_dir_ok self t d = false) dirs)
   end) +
  (if output_dir_ok self t then 0 else 1) +
  (if target_name_ok self then 0 else 1).

(** An entry of a validated record: null, or a path that is not empty and
    that [prepend_base] turns into the path of a file of [t]. *)
Definition file_found (self : validator) (t : fs) (e : file_entry) : Prop :=
  match e with
  | NoFile => True
  | FilePath p =>
      p <> "" /\
      exists full_inputpath,
        prepend_base (base_dir self) p = Ok full_inputpath /\
        isfile t full_inputpath = true
  | Copied _ _ => False
  end.

(** The calls of the logger with level 2. *)
Definition logged_errors (l : list log_entry) : list log_entry :=
  filter (fun e => log_level e = 2) l.

(** A list of calls of the logger that are all errors. *)
Definition all_errors (l : list log_entry) : Prop :=
  Forall (fun e => log_level e = 2) l.

(** The last message of [validate_paths]. *)
Definition summary (errors : nat) : log_entry :=
  mk_log_entry 0
    ("Path validation encountered " +:+ str errors +:+ " errors and " +:+
     str 0 +:+ " warnings").

End Validator.

(* ===================================================================== *)
(** * collator.py *)
(* ===================================================================== *)

Module Collator.
Import Path FS.

Definition _METADATA_FILENAME : string := "metadata.yaml".
Definition _CONFIG_FILENAME : string := "config.yaml".
Definition _VERSION_DIR_PREFIX : string := "upload_".

(** What the collator takes from outside this file: [utils.to_datetime]
    ([None] when the text is not a date, where Python raises), the SHA-256
    digest of a byte string, and the YAML reader and writers ([None] when
    the text is not a metadata document). *)
Record externals := mk_externals {
  to_datetime : string -> option Z;
  sha256 : string -> string;
  yaml_load : string -> option meta;
  yaml_dump_meta : option meta -> string;
  yaml_dump_xtals : dict xtal_data -> string }.

(** [config['overrides']], when the key is there. *)
Record overrides := mk_overrides {
  deprecations : option (dict string) }.

(** The fields that [__init__] reads from the configuration file. *)
Record config := mk_config {
  config_file : string;
  base_dir : string;
  cfg_input_dirs : list string;
  cfg_output_dir : string;
  target_name : string;
  cfg_overrides : option overrides }.

(** A value of [all_xtals] or [new_or_updated_xtals]: a record loaded from
    an earlier version, or the record at position [i] of the [crystals] of
    the upload being collated. The latter is the same object as in the
    metadata of the upload, so that a later change of that object is seen
    through the reference. *)
Inductive xref :=
| Hist (x : xtal_data)
| Cur (i : nat).

(** The state of a run: the file system, the calls of the logger, the
    metadata object of the upload, and the mutable fields of [self]. *)
Record world := mk_world {
  w_fs : fs;
  w_log : list log_entry;
  w_meta : meta;
  version_dir : option string;
  meta_history : list meta;
  all_xtals : option (dict xref);
  new_or_updated_xtals : option (dict xref) }.

Definition with_fs (f : fs -> fs) (w : world) : world :=
  mk_world (f (w_fs w)) (w_log w) (w_meta w) (version_dir w) (meta_history w)
    (all_xtals w) (new_or_updated_xtals w).

Definition with_log (f : list log_entry -> list log_entry) (w : world)
  : world :=
  mk_world (w_fs w) (f (w_log w)) (w_meta w) (version_dir w) (meta_history w)
    (all_xtals w) (new_or_updated_xtals w).

Definition with_crystals (f : dict xtal_data -> dict xtal_data) (w : world)
  : world :=
  let m := w_meta w in
  mk_world (w_fs w) (w_log w)
    (mk_meta (run_on m) (input_dirs m) (output_dir m) (f (crystals m)))
    (version_dir w) (meta_history w) (all_xtals w) (new_or_updated_xtals w).

Definition with_version_dir (v : option string) (w : world) : world :=
  mk_world (w_fs w) (w_log w) (w_meta w) v (meta_history w)
    (all_xtals w) (new_or_updated_xtals w).

Definition with_meta_history (f : list meta -> list meta) (w : world)
  : world :=
  mk_world (w_fs w) (w_log w) (w_meta w) (version_dir w) (f (meta_history w))
    (all_xtals w) (new_or_updated_xtals w).

Definition with_xtals (a n : dict xref) (w : world) : world :=
  mk_world (w_fs w) (w_log w) (w_meta w) (version_dir w) (meta_history w)
    (Some a) (Some n).

(** A file-system operation run in the state of the collator. *)
Definition on_fs {A} (m : M fs A) : M world A := fun w =>
  let '(r, t) := m (w_fs w) in (r, with_fs (fun _ => t) w).

Definition log (level : nat) (args : list string) : M world unit :=
  modify (with_log (fun l => l ++ [mk_log_entry level (String.concat " " args)])).

(** [logger.log(template.format(args), level)]: the message is formatted
    before the logger is called. *)
Definition logf (level : nat) (template : string) (args : list string)
  : M world unit :=
  text <- lift (format template args) ;
  log level [text].

Definition info := logf 0.
Definition warn := logf 1.

(** The record at position [i] of the upload. *)
Definition get_xtal (i : nat) : M world xtal_data :=
  o <- gets (fun w => crystals (w_meta w) !! i) ;
  match o with
  | Some (_, x) => ret x
  | None => raise KeyError
  end.

(** An assignment to a key of the record at position [i]. *)
Definition update_xtal (i : nat) (f : xtal_data -> xtal_data) : M world unit :=
  modify (with_crystals (alter (fun kv => (fst kv, f (snd kv))) i)).

(** The object that a reference names. *)
Definition deref (w : world) (r : xref) : option xtal_data :=
  match r with
  | Hist x => Some x
  | Cur i => snd <$> crystals (w_meta w) !! i
  end.

Definition load (r : xref) : M world xtal_data :=
  o <- gets (fun w => deref w r) ;
  getitem o.

(** The keys of a dictionary with their positions, as [items()] visits
    them. *)
Definition positions {V} (d : dict V) : list (nat * string) :=
  imap (fun i kv => (i, fst kv)) d.

Definition version_path (output_dir : string) (version : nat) : string :=
  join output_dir (_VERSION_DIR_PREFIX +:+ str version).

(** The [while True] loop of [_read_versions]: the first number from
    [version] on that has no directory. Every pass finds one more
    directory, so their number bounds the passes. *)
Fixpoint scan_versions (fuel : nat) (t : fs) (output_dir : string)
    (version : nat) : option nat :=
  match fuel with
  | O => None
  | S fuel' =>
      if isdir t (version_path output_dir version)
      then scan_versions fuel' t output_dir (S version)
      else Some version
  end.

Definition metadata_path (output_dir : string) (version : nat) : string :=
  join (version_path output_dir version) _METADATA_FILENAME.

(** The body of [for v in range(1, version)]: [Some None] stands for
    [return None]. A text that the reader does not load as a metadata
    document is taken to be malformed, so that [yaml.safe_load] raises; a
    text that loads as another value (the empty text loads as [None]),
    which the code appends to the history as it is, is not modelled. *)
Definition read_old_meta (E : externals) (self : config) (v : nat)
  : M world (option (option string)) :=
  logf 0 "Reading metadata for version {}" [str v] ;;
  let meta_file := metadata_path (cfg_output_dir self) v in
  is_file <- gets (fun w => isfile (w_fs w) meta_file) ;
  if is_file then
    text <- on_fs (read_file meta_file) ;
    match yaml_load E text with
    | Some meta =>
        modify (with_meta_history (fun h => h ++ [meta])) ;;
        ret None
    | None => raise YAMLError
    end
  else
    logf 2 "Metadata file {} not found" [meta_file] ;;
    ret (Some None).

Definition _read_versions (E : externals) (self : config)
  : M world (option string) :=
  scanned <- gets (fun w =>
    scan_versions (S (size (w_fs w))) (w_fs w) (cfg_output_dir self) 1) ;
  version <- match scanned with
             | Some v => ret v
             | None => raise RecursionError
             end ;
  if version =? 1 then
    log 2 ["No version directory found. Please create one named upload_1"] ;;
    ret None
  else
    let version := version - 1 in
    logf 0 "Version is {}" [str version] ;;
    let v_dir := version_path (cfg_output_dir self) version in
    r <- (if 1 <? version then
            for_return (seq 1 (version - 1)) (read_old_meta E self)
          else ret None) ;
    match r with
    | Some returned => ret returned
    | None =>
        modify (with_version_dir (Some v_dir)) ;;
        num_old_metas <- gets (fun w => length (meta_history w)) ;
        (if negb (num_old_metas =? 0) then
           logf 0 "Found {} metadata files from previous versions"
             [str num_old_metas]
         else ret tt) ;;
        ret (Some v_dir)
    end.

(** [self.version_dir] as an argument of [os.path.join]. *)
Definition get_version_dir : M world string :=
  o <- gets version_dir ;
  match o with
  | Some d => ret d
  | None => raise TypeError
  end.

Definition extension (k : file_kind) : string :=
  match k with PDB => ".pdb" | MTZ => ".mtz" | CIF => ".cif" end.

Definition label (k : file_kind) : string :=
  match k with PDB => "PDB" | MTZ => "MTZ" | CIF => "CIF" end.

(** [utils.gen_sha256(path)]: the digest of the bytes of the file. *)
Definition gen_sha256 (E : externals) (path : string) : M world string :=
  content <- on_fs (read_file path) ;
  ret (sha256 E content).

(** One of the three blocks [# handle the PDB file], [# handle the MTZ
    file], [# handle the CIF file] in the body of the loop of
    [_copy_files], which differ in the key, the extension and the name in
    the messages. The result [Some r] stands for [return r]. *)
Definition copy_block (E : externals) (self : config) (i : nat)
    (dir name : string) (k : file_kind) : M world (option (option unit)) :=
  data <- get_xtal i ;
  let xtal_files := crystallographic_files data in
  let entry := get_file k xtal_files in
  if entry_truthy entry then
    input <-
      match entry with
      | FilePath p => lift (Validator.prepend_base (base_dir self) p)
      | _ => raise (if String.eqb (base_dir self) "" then TypeError else KeyError)
      end ;
    let output := join dir (name +:+ extension k) in
    f <- on_fs (copy2 input output) ;
    if String.eqb f "" then
      logf 2 ("Failed to copy " +:+ label k +:+ " file {} to {}") [input; output] ;;
      ret (Some None)
    else
      digest <- gen_sha256 E output ;
      update_xtal i (fun x =>
        set_files (set_file k (Copied output digest) (crystallographic_files x)) x) ;;
      ret None
  else
    logf 1 (label k +:+ " entry missing for {}") [name] ;;
    ret None.

(** The body of [for name, data in meta['crystals'].items()]. *)
Definition copy_xtal (E : externals) (self : config) (cryst_dir : string)
    (item : nat * string) : M world (option (option unit)) :=
  let '(i, name) := item in
  let dir := join cryst_dir name in
  on_fs (makedirs dir) ;;
  r <- copy_block E self i dir name PDB ;
  match r with
  | Some returned => ret (Some returned)
  | None =>
      r <- copy_block E self i dir name MTZ ;
      match r with
      | Some returned => ret (Some returned)
      | None => copy_block E self i dir name CIF
      end
  end.

(** [_copy_files(meta)]: [Some tt] stands for the metadata object that was
    passed in, which is returned after it was changed in place. *)
Definition _copy_files (E : externals) (self : config)
  : M world (option unit) :=
  version_dir <- get_version_dir ;
  let cryst_dir := join version_dir "crystallographic" in
  log 0 ["Using cryst_dir of"; cryst_dir] ;;
  cryst_exists <- gets (fun w => exists_ (w_fs w) cryst_dir) ;
  (if cryst_exists then
     log 0 ["removing old cryst_dir"] ;;
     on_fs (rmtree cryst_dir)
   else ret tt) ;;
  log 0 ["creating cryst_dir"] ;;
  on_fs (makedirs cryst_dir) ;;
  items <- gets (fun w => positions (crystals (w_meta w))) ;
  r <- for_return items (copy_xtal E self cryst_dir) ;
  match r with
  | Some returned => ret returned
  | None => ret (Some tt)
  end.

(** The deprecations that the operator declared in the configuration. *)
Definition get_deprecations (self : config) : M world (dict string) :=
  match cfg_overrides self with
  | Some o =>
      match deprecations o with
      | Some d => ret d
      | None => ret []
      end
  | None => ret []
  end.

(** [utils.to_datetime(date)] *)
Definition parse_date (E : externals) (date : pyval) : M world Z :=
  match date with
  | PyStr s =>
      match to_datetime E s with
      | Some d => ret d
      | None => raise ValueError
      end
  | PyNone => raise TypeError
  end.

(** The loops over [self.meta_history]: every record of every earlier
    version is put into [all_xtals], a later one replacing an earlier one
    of the same name. *)
Definition munge_old_xtal (all_xtals : dict xref) (item : string * xtal_data)
  : dict xref :=
  dict_set all_xtals (fst item) (Hist (snd item)).

Definition munge_old_meta (st : nat * dict xref) (metad : meta)
  : M world (nat * dict xref) :=
  let '(count, all_xtals) := st in
  let count := count + 1 in
  info "Munging metadata {}" [str count] ;;
  let xtals := crystals metad in
  let all_xtals := fold_left munge_old_xtal xtals all_xtals in
  let total := length xtals in
  info "Metadata {} has {} items" [str count; str total] ;;
  ret (count, all_xtals).

(** The body of [for xtal_name, xtal_data in xtals.items()] over the
    current upload; the state is [(all_xtals, new_or_updated_xtals)]. *)
Definition munge_xtal (E : externals) (deprecations : dict string)
    (st : dict xref * dict xref) (item : nat * string)
  : M world (dict xref * dict xref) :=
  let '(all_xtals, new_or_updated_xtals) := st in
  let '(i, xtal_name) := item in
  new_or_updated_xtals <-
    (if dict_mem all_xtals xtal_name then
       old_ref <- getitem (dict_get all_xtals xtal_name) ;
       old_xtal_data <- load old_ref ;
       old_date <- getitem (last_updated old_xtal_data) ;
       xtal_data <- get_xtal i ;
       new_date <- getitem (last_updated xtal_data) ;
       if negb (truthy old_date) || negb (truthy new_date) then
         warn "Dates not defined for {}, must assume xtal is updated {} {}"
           [xtal_name] ;;
         update_xtal i (set_status "supersedes") ;;
         ret (dict_set new_or_updated_xtals xtal_name (Cur i))
       else
         new_dt <- parse_date E new_date ;
         old_dt <- parse_date E old_date ;
         if (old_dt <? new_dt)%Z then
           info "Xtal {} is updated" [xtal_name] ;;
           update_xtal i (set_status "supersedes") ;;
           ret (dict_set new_or_updated_xtals xtal_name (Cur i))
         else
           update_xtal i (set_status "unchanged") ;;
           ret new_or_updated_xtals
     else
       update_xtal i (set_status "new") ;;
       ret (dict_set new_or_updated_xtals xtal_name (Cur i))) ;
  let all_xtals := dict_set all_xtals xtal_name (Cur i) in
  (* look for any deprecations *)
  (if dict_mem deprecations xtal_name then
     update_xtal i (set_status "deprecated") ;;
     why <- getitem (dict_get deprecations xtal_name) ;
     update_xtal i (set_reason why) ;;
     info "Deprecating xtal {}" [xtal_name]
   else ret tt) ;;
  ret (all_xtals, new_or_updated_xtals).

Definition _munge_history (E : externals) (self : config)
  : M world (dict xref * dict xref) :=
  deprecations <- get_deprecations self ;
  info "{} deprecations were defined" [str (length deprecations)] ;;
  history <- gets meta_history ;
  '(count, all_xtals) <- for_fold history munge_old_meta (0, []) ;
  let count := count + 1 in
  info "Munging current metadata" [] ;;
  items <- gets (fun w => positions (crystals (w_meta w))) ;
  '(all_xtals, new_or_updated_xtals) <-
     for_fold items (munge_xtal E deprecations) (all_xtals, []) ;
  info "Metadata {} has {} items" [str count; str (length items)] ;;
  info "Munging resulted in {} total xtals, {} are new or updated"
    [str (length all_xtals); str (length new_or_updated_xtals)] ;;
  modify (with_xtals all_xtals new_or_updated_xtals) ;;
  ret (all_xtals, new_or_updated_xtals).

(** The records that a dictionary of references shows when it is written
    out. *)
Definition resolve (w : world) (d : dict xref) : dict xtal_data :=
  omap (fun kv => match deref w (snd kv) with
                  | Some x => Some (fst kv, x)
                  | None => None
                  end) d.

(** [_write_metadata(meta, all_xtals, new_xtals)], where [meta] is [None]
    or the metadata object of the upload. *)
Definition _write_metadata (E : externals) (meta : option unit)
    (all_xtals new_xtals : dict xref) : M world unit :=
  version_dir <- get_version_dir ;
  let f := join version_dir _METADATA_FILENAME in
  doc <- gets (fun w => match meta with
                        | Some _ => Some (w_meta w)
                        | None => None
                        end) ;
  on_fs (write_file f (yaml_dump_meta E doc)) ;;
  let f := join version_dir "all_xtals.yaml" in
  all_doc <- gets (fun w => resolve w all_xtals) ;
  on_fs (write_file f (yaml_dump_xtals E all_doc)) ;;
  let f := join version_dir "new_xtals.yaml" in
  new_doc <- gets (fun w => resolve w new_xtals) ;
  on_fs (write_file f (yaml_dump_xtals E new_doc)).

Definition _copy_config (self : config) : M world bool :=
  version_dir <- get_version_dir ;
  f <- on_fs (copy2 (config_file self) version_dir) ;
  if String.eqb f "" then ret false else ret true.

(** [run(meta)]: the argument is the metadata object in the state. *)
Definition run (E : externals) (self : config) : M world (option unit) :=
  log 0 ["Running collator..."] ;;
  v_dir <- _read_versions E self ;
  match v_dir with
  | None =>
      log 2 ["Error with version dir. Please fix and try again."] ;;
      ret None
  | Some v_dir =>
      if String.eqb v_dir "" then
        log 2 ["Error with version dir. Please fix and try again."] ;;
        ret None
      else
        logf 0 "Using version dir {}" [v_dir] ;;
        log 0 ["Coping files ..."] ;;
        new_meta <- _copy_files E self ;
        log 0 ["Munging the history ..."] ;;
        '(all_xtals, new_xtals) <- _munge_history E self ;
        log 0 ["Writing metadata ..."] ;;
        _write_metadata E new_meta all_xtals new_xtals ;;
        log 0 ["Copying config ..."] ;;
        _copy_config self ;;
        log 0 ["Run complete"] ;;
        ret new_meta
  end.

(** ** Notions used in the statements about the collator *)

(** What the block [# look for any deprecations] does to a record. *)
Definition deprecate (deps : dict string) (name : string) (x : xtal_data)
  : xtal_data :=
  match dict_get deps name with
  | Some why => set_reason why (set_status "deprecated" x)
  | None => x
  end.

(** The map of all records of the earlier versions, a later version
    replacing an earlier one. *)
Definition merged_history (history : list meta) : dict xref :=
  fold_left (fun acc metad => fold_left munge_old_xtal (crystals metad) acc)
    history [].

(** The deprecations of a configuration. *)
Definition declared_deprecations (self : config) : dict string :=
  match cfg_overrides self with
  | Some o => match deprecations o with Some d => d | None => [] end
  | None => []
  end.

(** The version that [_read_versions] works on: the last of the
    directories numbered from 1 on without a gap, 0 if there is none. *)
Definition current_version (t : fs) (output_dir : string) : nat :=
  match scan_versions (S (size t)) t output_dir 1 with
  | Some v => v - 1
  | None => 0
  end.

(** The directory of the crystallographic files of a version, and the
    path that the file of kind [k] of the crystal [name] is copied to. *)
Definition cryst_dir_of (version_dir : string) : string :=
  join version_dir "crystallographic".

Definition copied_path (version_dir name : string) (k : file_kind) : string :=
  join (join (cryst_dir_of version_dir) name) (name +:+ extension k).

(** The entry [e] of an upload can be copied: it is [None], or the path of
    a file of [t] that is not in the directory [cryst_dir], which
    [_copy_files] clears. *)
Definition source_ok (base_dir cryst_dir : string) (t : fs) (e : file_entry)
  : bool :=
  match e with
  | NoFile => true
  | FilePath p =>
      negb (entry_truthy e) ||
      match Validator.prepend_base base_dir p with
      | Ok src => isfile t src && negb (within cryst_dir src)
      | Raise _ => false
      end
  | Copied _ _ => false
  end.

(** The version directory is there for [_copy_files]: what is at the path
    of its directory of crystallographic files, if anything, is a
    directory, and no file is below a directory that is not there. *)
Definition version_dir_ready (t : fs) (version_dir : string) : Prop :=
  isdir t version_dir = true /\
  isfile t (cryst_dir_of version_dir) = false /\
  (exists_ t (cryst_dir_of version_dir) = false ->
   forall q, below (cryst_dir_of version_dir) q = true -> t !! q = None).

(** The bytes that the entry [e] names in the file system [t]. *)
Definition source_content (base_dir : string) (t : fs) (e : file_entry)
  : option string :=
  match e with
  | FilePath p =>
      match Validator.prepend_base base_dir p with
      | Ok src =>
          match t !! src with Some (File content) => Some content | _ => None end
      | Raise _ => None
      end
  | _ => None
  end.

(** The entry [e'] that stands for the entry [e] of kind [k] of the
    crystal [name] once the file was copied from [t] to [t']: the path of
    the copy with the digest of its bytes, which are the bytes of the
    source; an entry without path is as it was. *)
Definition copied_entry (E : externals) (base_dir : string) (t t' : fs)
    (version_dir name : string) (k : file_kind) (e e' : file_entry) : Prop :=
  if entry_truthy e then
    exists content,
      source_content base_dir t e = Some content /\
      t' !! copied_path version_dir name k = Some (File content) /\
      e' = Copied (copied_path version_dir name k) (sha256 E content)
  else e' = e.

(** Two states that differ at most in the records of the upload and in
    the log. *)
Definition same_but_crystals_log (w w' : world) : Prop :=
  w_fs w' = w_fs w /\ version_dir w' = version_dir w /\
  meta_history w' = meta_history w /\ all_xtals w' = all_xtals w /\
  new_or_updated_xtals w' = new_or_updated_xtals w.

(** An invariant that speaks of the file system, of [version_dir] and of
    the tags of the upload only is kept by every change of the other
    parts of the state. *)
Definition on_files (I : world -> Prop) : Prop :=
  forall w w', w_fs w' = w_fs w -> version_dir w' = version_dir w ->
    dict_keys (crystals (w_meta w')) = dict_keys (crystals (w_meta w)) ->
    I w -> I w'.

(** The file system is some given one. *)
Definition fs_is (t : fs) (w : world) : Prop := w_fs w = t.

(** A date that the test [not date] takes as missing, or a key that is
    not there. *)
Definition date_missing (o : option pyval) : Prop :=
  match o with
  | None => True
  | Some v => truthy v = false
  end.

(** What the loop over the upload did for the crystal [name] at position
    [i]: [st] is the status that the comparison of the dates gave, the
    maps before the loop are [all0] and [new0], the records before the loop
    are [xs0]. *)
Definition outcome (E : externals) (all0 new0 : dict xref)
    (xs0 : dict xtal_data) (new : dict xref) (i : nat) (name st : string)
  : Prop :=
  (dict_get all0 name = None /\ st = "new" /\
   dict_get new name = Some (Cur i)) \/
  (exists old_ref old x old_date new_date old_dt new_dt,
     dict_get all0 name = Some old_ref /\
     (exists w1, deref w1 old_ref = Some old) /\
     last_updated old = Some (PyStr old_date) /\
     (exists k, xs0 !! i = Some (k, x)) /\
     last_updated x = Some (PyStr new_date) /\
     old_date <> "" /\ new_date <> "" /\
     to_datetime E old_date = Some old_dt /\
     to_datetime E new_date = Some new_dt /\
     (((old_dt < new_dt)%Z /\ st = "supersedes" /\
       dict_get new name = Some (Cur i)) \/
      ((new_dt <= old_dt)%Z /\ st = "unchanged" /\
       dict_get new name = dict_get new0 name))).

(** The document of version [v] is there and is a metadata document. *)
Definition readable (E : externals) (t : fs) (out : string) (v : nat) : Prop :=
  exists text m,
    t !! metadata_path out v = Some (File text) /\ yaml_load E text = Some m.

(** The record has a date that [utils.to_datetime] reads. *)
Definition dated (E : externals) (x : xtal_data) : Prop :=
  exists s d,
    last_updated x = Some (PyStr s) /\ s <> "" /\ to_datetime E s = Some d.

(** Every crystal of the upload that an earlier version has is dated, in
    the upload and in the last of these versions. *)
Definition history_dated (E : externals) (w : world) : Prop :=
  forall i name x old,
    crystals (w_meta w) !! i = Some (name, x) ->
    dict_get (merged_history (meta_history w)) name = Some (Hist old) ->
    dated E old /\ dated E x.

(** The working version directory is [vdir], and outside of it the file
    system is [t0]. *)
Definition inside_only (vdir : string) (t0 : fs) (w : world) : Prop :=
  version_dir w = Some vdir /\
  (forall n, n ∈ dict_keys (crystals (w_meta w)) -> plain_name n = true) /\
  forall p, below vdir p = false -> w_fs w !! p = t0 !! p.

(** The same while the crystals are copied: the directory of the
    crystallographic files is there. *)
Definition copying (vdir : string) (t0 : fs) (w : world) : Prop :=
  inside_only vdir t0 w /\ w_fs w !! cryst_dir_of vdir = Some Dir.

(** The names of the documents that [_write_metadata] writes. *)
Definition yaml_names : list string :=
  [_METADATA_FILENAME; "all_xtals.yaml"; "new_xtals.yaml"].

(** The state after [_write_metadata] has written its documents to the
    directory [vdir]. *)
Definition written (E : externals) (vdir : string) (meta : option unit)
    (all new : dict xref) (w : world) : world :=
  with_fs (fun t =>
    <[join vdir "new_xtals.yaml" := File (yaml_dump_xtals E (resolve w new))]>
      (<[join vdir "all_xtals.yaml" := File (yaml_dump_xtals E (resolve w all))]>
         (<[join vdir _METADATA_FILENAME :=
              File (yaml_dump_meta E
                      (match meta with
                       | Some _ => Some (w_meta w)
                       | None => None
                       end))]> t))) w.

(** The documents of [_write_metadata] can be written to [vdir]: none
    of their paths is a directory. *)
Definition targets_free (t : fs) (vdir : string) : Prop :=
  forall name, name ∈ yaml_names -> t !! join vdir name <> Some Dir.

(** The configuration file can be copied to [vdir]: it is a file outside
    [vdir] with a name that is free there. *)
Definition config_ready (self : config) (t : fs) (vdir : string) : Prop :=
  let name := basename (config_file self) in
  isfile t (config_file self) = true /\
  below vdir (config_file self) = false /\
  name <> "" /\ name <> "crystallographic" /\ (name ∉ yaml_names) /\
  t !! join vdir name <> Some Dir.

(** The state [w'] differs from [w] at most in the file system, the log
    and the entries of the files of the records of the upload. *)
Definition same_but_files (w w' : world) : Prop :=
  version_dir w' = version_dir w /\ meta_history w' = meta_history w /\
  all_xtals w' = all_xtals w /\
  new_or_updated_xtals w' = new_or_updated_xtals w /\
  length (crystals (w_meta w')) = length (crystals (w_meta w)) /\
  forall i n x, crystals (w_meta w) !! i = Some (n, x) ->
    exists files, crystals (w_meta w') !! i = Some (n, set_files files x).

(** The date of a record, when it has one that [utils.to_datetime]
    reads. *)
Definition date_of (E : externals) (x : xtal_data) : option Z :=
  match last_updated x with
  | Some (PyStr s) => to_datetime E s
  | _ => None
  end.

(** The status that the comparison with the earlier versions gives the
    record [x] of the crystal [name] of the upload, both records being
    dated when the crystal is in the history. *)
Definition compared_status (E : externals) (history : list meta)
    (name : string) (x : xtal_data) : string :=
  match dict_get (merged_history history) name with
  | Some (Hist old) =>
      match date_of E old, date_of E x with
      | Some old_dt, Some new_dt =>
          if (old_dt <? new_dt)%Z then "supersedes" else "unchanged"
      | _, _ => "supersedes"
      end
  | _ => "new"
  end.

(** The record of a crystal of the upload after [_munge_history]. *)
Definition munged (E : externals) (self : config) (history : list meta)
    (item : string * xtal_data) : string * xtal_data :=
  (fst item,
   deprecate (declared_deprecations self) (fst item)
     (set_status (compared_status E history (fst item) (snd item)) (snd item))).

(** The metadata document of version [v], when the file is there and is
    one. *)
Definition document (E : externals) (t : fs) (out : string) (v : nat)
  : option meta :=
  match t !! metadata_path out v with
  | Some (File text) => yaml_load E text
  | _ => None
  end.

(** The state [w'] differs from [w] at most in the log and in the fields
    [version_dir] and [meta_history] of the collator. *)
Definition same_files_and_upload (w w' : world) : Prop :=
  w_fs w' = w_fs w /\ w_meta w' = w_meta w /\
  all_xtals w' = all_xtals w /\
  new_or_updated_xtals w' = new_or_updated_xtals w.

(** The directory of the crystallographic files of [vdir] holds the
    directories of the crystals [names] and copies of their files, and
    nothing else. *)
Definition only_copies (vdir : string) (names : list string) (t : fs) : Prop :=
  t !! cryst_dir_of vdir = Some Dir /\
  (forall n, n ∈ names -> t !! join (cryst_dir_of vdir) n = Some Dir) /\
  forall q node, below (cryst_dir_of vdir) q = true -> t !! q = Some node ->
    exists n, n ∈ names /\
      ((q = join (cryst_dir_of vdir) n /\ node = Dir) \/
       (exists k content, q = copied_path vdir n k /\ node = File content)).

(** The state while [_copy_files] copies: the crystals done so far are
    [names]. *)
Definition collected (vdir : string) (names : list string) (w : world) : Prop :=
  only_copies vdir names (w_fs w).

(** ** The states of [_copy_files]

    The upload was [c0] and the file system [t0] when [_copy_files] was
    called, and the version directory is [vdir]. *)

Section copy_states.
Context (E : externals) (base_dir vdir : string) (t0 : fs) (c0 : dict xtal_data).

(** The directory of the crystallographic files is there, and nothing
    has changed outside it. *)
Definition copy_frame (w : world) : Prop :=
  version_dir w = Some vdir /\
  w_fs w !! cryst_dir_of vdir = Some Dir /\
  forall q, within (cryst_dir_of vdir) q = false -> w_fs w !! q = t0 !! q.

(** Nothing is in the directories of the crystals other than [names]. *)
Definition copy_fresh (names : list string) (w : world) : Prop :=
  forall n q, plain_name n = true -> n ∉ names ->
    within (join (cryst_dir_of vdir) n) q = true -> w_fs w !! q = None.

(** Every record of the upload is still at its position, and is related
    to what it was by [P]. *)
Definition copy_records
    (P : nat -> string -> xtal_data -> xtal_data -> Prop) (w : world) : Prop :=
  forall i n x, c0 !! i = Some (n, x) ->
    exists x', crystals (w_meta w) !! i = Some (n, x') /\ P i n x x'.

(** The entries of the kinds [ks] of a record were copied, the others
    are as they were. *)
Definition xtal_copied (ks : list file_kind) (t : fs) (n : string)
    (x x' : xtal_data) : Prop :=
  forall k,
    (k ∈ ks ->
     copied_entry E base_dir t0 t vdir n k
       (get_file k (crystallographic_files x))
       (get_file k (crystallographic_files x'))) /\
    (k ∉ ks ->
     get_file k (crystallographic_files x') =
     get_file k (crystallographic_files x)).

(** All entries of a record were copied. *)
Definition xtal_done (t : fs) (n : string) (x x' : xtal_data) : Prop :=
  forall k,
    copied_entry E base_dir t0 t vdir n k
      (get_file k (crystallographic_files x))
      (get_file k (crystallographic_files x')).

(** The invariant of the loop of [_copy_files] after the items [done]. *)
Definition copy_inv (done : list (nat * string)) (w : world) : Prop :=
  copy_frame w /\ copy_fresh (done.*2) w /\
  copy_records (fun i n x x' =>
    if decide (i < length done)
    then xtal_done (w_fs w) n x x'
    else x' = x) w.

(** The state within the pass for the crystal [name], after the blocks
    for the kinds [ks]. *)
Definition copy_step_inv (done : list (nat * string)) (name : string)
    (ks : list file_kind) (w : world) : Prop :=
  copy_frame w /\ copy_fresh (done.*2 ++ [name]) w /\
  w_fs w !! join (cryst_dir_of vdir) name = Some Dir /\
  (forall k, k ∉ ks -> w_fs w !! copied_path vdir name k = None) /\
  copy_records (fun i n x x' =>
    if decide (i < length done)
    then xtal_done (w_fs w) n x x'
    else if decide (i = length done)
    then xtal_copied ks (w_fs w) n x x'
    else x' = x) w.

End copy_states.

End Collator.

(* ===================================================================== *)
(** * aligner.py *)
(* ===================================================================== *)

Module Aligner.
Import Path.

(** The keys of [utils.Constants] that the metadata of the aligner is
    built with, and the directory name [ALIGNED_STRUCTURES_DIR] of the
    alignment library. Neither module is part of the sources at hand, so
    the strings are left open. *)
Record constants := mk_constants {
  META_XTALFORMS : string;
  META_CONFORMER_SITES : string;
  META_CANONICAL_SITES : string;
  META_XTALFORM_SITES : string;
  META_ALIGNED_FILES : string;
  META_TRANSFORMS : string;
  META_TRANSFORMS_OBSERVATION_TO_CONFORMER_SITES : string;
  META_TRANSFORMS_CONFORMER_SITES_TO_CANON : string;
  META_TRANSFORMS_CANON_SITES_TO_GLOBAL : string;
  META_STATUS_NEW : string;
  ALIGNED_STRUCTURES_DIR : string }.

(** Modelled from the spec: the names that section 6 of the specification
    gives to the parts of the alignment metadata document ([utils.py] is
    missing); the names of the transform tables are not given there and
    are chosen after the constants. *)
Definition spec_constants : constants :=
  mk_constants "xtalforms" "conformer_sites" "canonical_sites"
    "xtalform_sites" "aligned_files" "transforms"
    "observation_to_conformer_sites" "conformer_sites_to_canon"
    "canon_sites_to_global" "new" "aligned_files".

(** The output of the alignment for one ligand: four tables from the site
    to a path. *)
Record ligand_output := mk_ligand_output {
  aligned_structures : dict string;
  aligned_artefacts : dict string;
  aligned_event_maps : dict string;
  aligned_xmaps : dict string }.

(** The entry [aligned_files[chain][ligand][site]] of a crystal. The
    last six keys are set by [_extract_components]. *)
Record site_files := mk_site_files {
  aligned_structure : string;
  aligned_artefacts_path : string;
  aligned_event_map : string;
  aligned_xmap : string;
  pdb_apo : option string;
  pdb_apo_solv : option string;
  pdb_apo_desolv : option string;
  ligand_mol : option string;
  ligand_pdb : option string;
  ligand_smiles : option pyval }.

Section Metadata.

(** [doc]: a YAML document that is passed on as it was read; [cell]: the
    unit cell that [gemmi] reads from a structure. *)
Context {doc cell : Type}.

Record xtalform_meta := mk_xtalform_meta {
  xtalform_reference : string;
  xtalform_space_group : string;
  xtalform_cell : cell }.

(** A value of the dictionary [new_meta]. *)
Inductive section :=
| Xtalforms (x : dict xtalform_meta)
| Opaque (d : doc)
| CrystalOutput (assigned_xtalform : string)
    (aligned_files : dict (dict (dict site_files)))
| Transforms (t : dict doc).

(** [dt.FSModel]: the alignment outputs and the paths of the documents
    of the alignment state. *)
Record fs_model := mk_fs_model {
  alignments : dict (dict (dict ligand_output));
  reference_alignments : doc;
  fm_xtalforms : string;
  fm_dataset_assignments : string;
  fm_conformer_sites : string;
  fm_canonical_sites : string;
  fm_xtalform_sites : string;
  fm_ligand_neighbourhood_transforms : string;
  fm_conformer_site_transforms : string }.

(** [dt.Dataset], without the binding events. *)
Record dataset := mk_dataset {
  dtag : string;
  pdb : string;
  mtz : string }.

(** A call of code outside this file, or of the logger. *)
Inductive call :=
| FromDir (p : string)
| SymlinkOldData
| Mkdir (p : string)
| Update
| ReadYaml (p : string)
| ReadStructure (p : string)
| CreateApoFile (p : string)
| CreateApoSolvDesolv (p : string)
| CreateLigands (p chain ligand cif : string)
| Log (level : nat) (text : string).

(** What the aligner takes from outside this file: the alignment library
    ([FSModel.from_dir]; the [_load_*] functions followed by [_update],
    which returns the model it was given and the updated one), the file
    system ([Path.resolve], [Path.exists], [Path.is_file]), the YAML
    reader by the document it reads, [gemmi.read_structure], and
    [PDBXtal]. *)
Record externals := mk_externals {
  from_dir : string -> result fs_model;
  update : fs_model -> option fs_model -> dict dataset -> dict dataset ->
           dict dataset -> result (fs_model * fs_model);
  resolve : string -> string;
  path_exists : string -> bool;
  is_file : string -> bool;
  read_xtalforms : string -> result (dict string);
  read_assignments : string -> result (dict string);
  read_doc : string -> result doc;
  doc_contains : doc -> string -> result bool;
  read_structure : string -> result (string * cell);
  pdbxtal_validate : string -> nat;
  pdbxtal_apo_file : string -> string;
  pdbxtal_apo_solv_file : string -> string;
  pdbxtal_apo_desolv_file : string -> string;
  pdbxtal_ligand_base_file : string -> string;
  pdbxtal_smiles : string -> string -> string -> string -> pyval }.

(** The fields of the aligner that the metadata is built from. *)
Record aligner := mk_aligner {
  version_dir : string;
  base_dir : string }.

(** The input metadata: [None] is a key that is absent. *)
Record input_meta := mk_input_meta {
  meta_crystals : option (dict xtal_data);
  previous_output_dir : option pyval }.

Definition trace : Type := list call.

(** A call to the outside: it is recorded, and its result is the one the
    outside gives. *)
Definition ext {A} (c : call) (r : result A) : M trace A :=
  fun tr => (r, tr ++ [c]).

Definition log (level : nat) (args : list string) : M trace unit :=
  ext (Log level (String.concat " " args)) (Ok tt).

Definition read_yaml {A} (read : string -> result A) (p : string) : M trace A :=
  ext (ReadYaml p) (read p).

Context (K : constants) (E : externals) (self : aligner).

(** [for k, v in d.items()] where the body changes the object [v] in
    place and updates the local variables [s] of the loop. *)
Fixpoint for_items {V S} (d : dict V) (body : S -> string -> V -> M trace (S * V))
    (s : S) : M trace (S * dict V) :=
  match d with
  | [] => ret (s, [])
  | (k, v) :: d' =>
      '(s, v') <- body s k v ;
      '(s, d'') <- for_items d' body s ;
      ret (s, (k, v') :: d'')
  end.

(** The body of the loop of [get_datasets_from_crystals]; the state is
    [(datasets, reference_datasets, new_datasets)]. The records at hand
    have no binding events and no reference mark. *)
Definition dataset_of_crystal (output_path : string)
    (st : dict dataset * dict dataset * dict dataset)
    (item : string * xtal_data)
  : M trace (dict dataset * dict dataset * dict dataset) :=
  let '(datasets, reference_datasets, new_datasets) := st in
  let '(dtag, crystal) := item in
  let files := crystallographic_files crystal in
  pdb_file <- match xtal_pdb files with
              | Copied f _ => ret f
              | _ => raise TypeError
              end ;
  mtz_file <- match xtal_mtz files with
              | Copied f _ => ret f
              | _ => raise AttributeError
              end ;
  let ds := mk_dataset dtag (div output_path pdb_file)
              (div output_path mtz_file) in
  let datasets := dict_set datasets dtag ds in
  crystal_status <- getitem (status crystal) ;
  let new_datasets :=
    if String.eqb crystal_status (META_STATUS_NEW K)
    then dict_set new_datasets dtag ds else new_datasets in
  ret (datasets, reference_datasets, new_datasets).

Definition get_datasets_from_crystals (crystals : dict xtal_data)
    (output_path : string)
  : M trace (dict dataset * dict dataset * dict dataset) :=
  '(datasets, reference_datasets, new_datasets) <-
     for_fold crystals (dataset_of_crystal output_path) ([], [], []) ;
  if (length datasets =? 0) || (length datasets =? 0) then raise PlainException
  else ret (datasets, reference_datasets, new_datasets).

(** [Constants.META_ALIGNED_FILES in v1] *)
Definition contains_aligned_files (v1 : section) : result bool :=
  match v1 with
  | Xtalforms x => Ok (dict_mem x (META_ALIGNED_FILES K))
  | Opaque d => doc_contains E d (META_ALIGNED_FILES K)
  | CrystalOutput _ _ => Ok true
  | Transforms t => Ok (dict_mem t (META_ALIGNED_FILES K))
  end.

(** The body of the innermost loop of [_extract_components]. *)
Definition extract_site (cif_file k1 k2 k3 : string) (num_errors : nat)
    (k4 : string) (v4 : site_files) : M trace (nat * site_files) :=
  let pdb := aligned_structure v4 in
  log 0 ["extracting components"; k1; k2; k3; k4; pdb] ;;
  let pth := div (version_dir self) pdb in
  if negb (is_file E pth) then
    log 2 ["can't find file"; pth] ;;
    ret (num_errors + 1, v4)
  else
    let errs := pdbxtal_validate E pth in
    if negb (errs =? 0) then
      log 2 ["validation errors - can't extract components"] ;;
      ret (num_errors + 1, v4)
    else
      ext (CreateApoFile pth) (Ok tt) ;;
      ext (CreateApoSolvDesolv pth) (Ok tt) ;;
      let v4 :=
        mk_site_files (aligned_structure v4) (aligned_artefacts_path v4)
          (aligned_event_map v4) (aligned_xmap v4)
          (Some (pdbxtal_apo_file E pth))
          (Some (pdbxtal_apo_solv_file E pth))
          (Some (pdbxtal_apo_desolv_file E pth))
          (ligand_mol v4) (ligand_pdb v4) (ligand_smiles v4) in
      if negb (String.eqb cif_file "") then
        let cif := div (base_dir self) cif_file in
        ext (CreateLigands pth k2 k3 cif) (Ok tt) ;;
        ret (num_errors,
             mk_site_files (aligned_structure v4) (aligned_artefacts_path v4)
               (aligned_event_map v4) (aligned_xmap v4)
               (pdb_apo v4) (pdb_apo_solv v4) (pdb_apo_desolv v4)
               (Some (pdbxtal_ligand_base_file E pth +:+ ".mol"))
               (Some (pdbxtal_ligand_base_file E pth +:+ ".pdb"))
               (Some (pdbxtal_smiles E pth k2 k3 cif)))
      else ret (num_errors, v4).

(** [crystals.get(k1).get(META_XTAL_FILES, {}).get(META_XTAL_CIF, {})
    .get(META_FILE)]: the defaults are only used for keys that are
    absent, and the records at hand have all of them. *)
Definition get_cif_file (crystals : dict xtal_data) (k1 : string)
  : M trace string :=
  match dict_get crystals k1 with
  | None => raise AttributeError
  | Some crystal =>
      match ligand_cif (crystallographic_files crystal) with
      | Copied f _ => ret f
      | _ => raise AttributeError
      end
  end.

(** The body of the outermost loop of [_extract_components]. *)
Definition extract_section (crystals : dict xtal_data) (num_errors : nat)
    (k1 : string) (v1 : section) : M trace (nat * section) :=
  let ignore_keys :=
    [META_CONFORMER_SITES K; META_CANONICAL_SITES K; META_XTALFORM_SITES K] in
  selected <-
    (if negb (existsb (String.eqb k1) ignore_keys)
     then lift (contains_aligned_files v1) else ret false) ;
  if selected then
    log 0 ["handling"; k1] ;;
    cif_file <- get_cif_file crystals k1 ;
    match v1 with
    | CrystalOutput assigned files =>
        '(num_errors, files) <-
           for_items files (fun n k2 v2 =>
             for_items v2 (fun n k3 v3 =>
               for_items v3 (extract_site cif_file k1 k2 k3) n) n)
             num_errors ;
        ret (num_errors, CrystalOutput assigned files)
    | _ =>
        (* the value under the key is not a table of chains, ligands
           and sites *)
        raise AttributeError
    end
  else ret (num_errors, v1).

(** [_extract_components(crystals, aligner_meta)]: the count of errors,
    with the metadata as the loop left it. *)
Definition _extract_components (crystals : dict xtal_data)
    (aligner_meta : dict section) : M trace (nat * dict section) :=
  for_items aligner_meta (extract_section crystals) 0.

(** The body of [for xtalform_id, xtalform in xtalforms.items()]. *)
Definition xtalform_summary (datasets : dict dataset)
    (meta_xtalforms : dict xtalform_meta) (item : string * string)
  : M trace (dict xtalform_meta) :=
  let '(xtalform_id, xtalform_reference) := item in
  ds <- getitem (dict_get datasets xtalform_reference) ;
  '(reference_spacegroup, reference_unit_cell) <-
     ext (ReadStructure (pdb ds)) (read_structure E (pdb ds)) ;
  ret (dict_set meta_xtalforms xtalform_id
         (mk_xtalform_meta xtalform_reference reference_spacegroup
            reference_unit_cell)).

(** The body of [for site_id, aligned_structure_path in
    ligand_output.aligned_structures.items()]. *)
Definition site_entry (ligand_output : ligand_output)
    (aligned_ligand_output : dict site_files) (item : string * string)
  : M trace (dict site_files) :=
  let '(site_id, aligned_structure_path) := item in
  aligned_artefacts_path <-
    getitem (dict_get (aligned_artefacts ligand_output) site_id) ;
  aligned_event_map_path <-
    getitem (dict_get (aligned_event_maps ligand_output) site_id) ;
  aligned_xmap_path <-
    getitem (dict_get (aligned_xmaps ligand_output) site_id) ;
  ret (dict_set aligned_ligand_output site_id
         (mk_site_files aligned_structure_path aligned_artefacts_path
            aligned_event_map_path aligned_xmap_path
            None None None None None None)).

Definition ligand_entry (aligned_chain_output : dict (dict site_files))
    (item : string * ligand_output) : M trace (dict (dict site_files)) :=
  let '(ligand_residue, ligand_output) := item in
  aligned_ligand_output <-
    for_fold (aligned_structures ligand_output) (site_entry ligand_output) [] ;
  ret (dict_set aligned_chain_output ligand_residue aligned_ligand_output).

Definition chain_entry (aligned_output : dict (dict (dict site_files)))
    (item : string * dict ligand_output)
  : M trace (dict (dict (dict site_files))) :=
  let '(chain_name, chain_output) := item in
  aligned_chain_output <- for_fold chain_output ligand_entry [] ;
  ret (dict_set aligned_output chain_name aligned_chain_output).

(** The body of [for dtag, crystal in crystals.items()] that adds the
    aligned files of a crystal to [new_meta]. *)
Definition crystal_entry (fs_model : fs_model)
    (assigned_xtalforms : dict string) (new_meta : dict section)
    (item : string * xtal_data) : M trace (dict section) :=
  let '(dtag, crystal) := item in
  (* Skip if no output for this dataset *)
  if negb (dict_mem (alignments fs_model) dtag) then ret new_meta
  else
    assigned_xtalform <- getitem (dict_get assigned_xtalforms dtag) ;
    dataset_output <- getitem (dict_get (alignments fs_model) dtag) ;
    aligned_output <- for_fold dataset_output chain_entry [] ;
    ret (dict_set new_meta dtag (CrystalOutput assigned_xtalform aligned_output)).

(** The part of [_perform_alignments] after [_update]: the metadata
    document, before the components are extracted. *)
Definition assemble_metadata (crystals : dict xtal_data)
    (datasets : dict dataset) (fs_model updated_fs_model : fs_model)
  : M trace (dict section) :=
  let new_meta : dict section := [] in
  (* Add the xtalform information *)
  xtalforms <- read_yaml (read_xtalforms E) (fm_xtalforms updated_fs_model) ;
  meta_xtalforms <- for_fold xtalforms (xtalform_summary datasets) [] ;
  let new_meta := dict_set new_meta (META_XTALFORMS K) (Xtalforms meta_xtalforms) in
  (* Add the conformer sites *)
  conformer_sites <-
    read_yaml (read_doc E) (fm_conformer_sites updated_fs_model) ;
  let new_meta := dict_set new_meta (META_CONFORMER_SITES K) (Opaque conformer_sites) in
  (* Add the canonical sites *)
  canonical_sites <- read_yaml (read_doc E) (fm_canonical_sites fs_model) ;
  let new_meta := dict_set new_meta (META_CANONICAL_SITES K) (Opaque canonical_sites) in
  (* Add the xtalform sites *)
  xtalform_sites <- read_yaml (read_doc E) (fm_xtalform_sites fs_model) ;
  let new_meta := dict_set new_meta (META_XTALFORM_SITES K) (Opaque xtalform_sites) in
  (* Add the output aligned files *)
  assigned_xtalforms <-
    read_yaml (read_assignments E) (fm_dataset_assignments fs_model) ;
  new_meta <-
    for_fold crystals (crystal_entry fs_model assigned_xtalforms) new_meta ;
  (* Get the observation to conformer site transforms *)
  let transforms : dict doc := [] in
  ligand_neighbourhood_transforms <-
    read_yaml (read_doc E) (fm_ligand_neighbourhood_transforms fs_model) ;
  let transforms :=
    dict_set transforms (META_TRANSFORMS_OBSERVATION_TO_CONFORMER_SITES K)
      ligand_neighbourhood_transforms in
  (* Get the conformer site to canonical site transforms *)
  conformer_site_transforms <-
    read_yaml (read_doc E) (fm_conformer_site_transforms fs_model) ;
  let transforms :=
    dict_set transforms (META_TRANSFORMS_CONFORMER_SITES_TO_CANON K)
      conformer_site_transforms in
  (* Get the canonical site to global transforms: nothing is added *)
  ret (dict_set new_meta (META_TRANSFORMS K) (Transforms transforms)).

(** [Path(previous_output_path)]: the constructor takes a string. *)
Definition to_path (v : pyval) : M trace string :=
  match v with
  | PyStr s => ret s
  | PyNone => raise TypeError
  end.

Definition _perform_alignments (meta : input_meta) : M trace (dict section) :=
  log 0 ["Performing alignments"] ;;
  crystals <- getitem (meta_crystals meta) ;
  (if length crystals =? 0 then
     log 2 ["Did not find any crystals in metadata file. Exiting."] ;;
     raise PlainException
   else ret tt) ;;
  let previous_output_path :=
    match previous_output_dir meta with
    | Some v => v
    | None => PyNone
    end in
  let output_path := version_dir self in
  (* Load the previous output dir if there is one *)
  source_fs_model <-
    match previous_output_path with
    | PyStr previous =>
        if truthy previous_output_path then
          m <- ext (FromDir previous) (from_dir E previous) ;
          ret (Some m)
        else ret None
    | PyNone => ret None
    end ;
  (* Load the fs model for the new output dir *)
  fs_model <- ext (FromDir output_path) (from_dir E output_path) ;
  let fs_model :=
    match source_fs_model with
    | Some source =>
        mk_fs_model (alignments source) (reference_alignments source)
          (fm_xtalforms fs_model) (fm_dataset_assignments fs_model)
          (fm_conformer_sites fs_model) (fm_canonical_sites fs_model)
          (fm_xtalform_sites fs_model)
          (fm_ligand_neighbourhood_transforms fs_model)
          (fm_conformer_site_transforms fs_model)
    | None => fs_model
    end in
  (* symlink old aligned files *)
  previous <- to_path previous_output_path ;
  (if negb (String.eqb (resolve E previous) (resolve E output_path))
   then ext SymlinkOldData (Ok tt) else ret tt) ;;
  (if negb (path_exists E output_path)
   then ext (Mkdir output_path) (Ok tt) else ret tt) ;;
  let aligned_structure_dir := div output_path (ALIGNED_STRUCTURES_DIR K) in
  (if negb (path_exists E aligned_structure_dir)
   then ext (Mkdir aligned_structure_dir) (Ok tt) else ret tt) ;;
  (* Get the datasets *)
  '(datasets, reference_datasets, new_datasets) <-
     get_datasets_from_crystals crystals (base_dir self) ;
  (* Load the alignment state and run the update *)
  '(fs_model, updated_fs_model) <-
     ext Update
       (update E fs_model source_fs_model datasets reference_datasets
          new_datasets) ;
  (* Update the metadata_file with aligned file locations and site
     information *)
  new_meta <- assemble_metadata crystals datasets fs_model updated_fs_model ;
  '(num_extract_errors, new_meta) <- _extract_components crystals new_meta ;
  (if negb (num_extract_errors =? 0) then
     log 2 ["there were problems extracting components. See above for details"]
   else ret tt) ;;
  ret new_meta.

(** ** What the extraction computes

    The file of the entry of a site is missing or is not valid. *)
Definition site_fails (v4 : site_files) : bool :=
  let pth := div (version_dir self) (aligned_structure v4) in
  negb (is_file E pth) || negb (pdbxtal_validate E pth =? 0).

(** The entry of a site whose components were extracted: the ligand files
    are added when the crystal has a ligand description. *)
Definition site_extracted (cif_file k2 k3 : string) (v4 : site_files)
  : site_files :=
  let pth := div (version_dir self) (aligned_structure v4) in
  let with_ligand := negb (String.eqb cif_file "") in
  let cif := div (base_dir self) cif_file in
  mk_site_files (aligned_structure v4) (aligned_artefacts_path v4)
    (aligned_event_map v4) (aligned_xmap v4)
    (Some (pdbxtal_apo_file E pth))
    (Some (pdbxtal_apo_solv_file E pth))
    (Some (pdbxtal_apo_desolv_file E pth))
    (if with_ligand then Some (pdbxtal_ligand_base_file E pth +:+ ".mol")
     else ligand_mol v4)
    (if with_ligand then Some (pdbxtal_ligand_base_file E pth +:+ ".pdb")
     else ligand_pdb v4)
    (if with_ligand then Some (pdbxtal_smiles E pth k2 k3 cif)
     else ligand_smiles v4).

(** The entry of a site after the extraction. *)
Definition site_result (cif_file k2 k3 : string) (v4 : site_files)
  : site_files :=
  if site_fails v4 then v4 else site_extracted cif_file k2 k3 v4.

(** The values of a dictionary changed by [f], the keys and their order
    kept; the sum of [c] over its items. *)
Definition map_items {V} (f : string -> V -> V) (d : dict V) : dict V :=
  map (fun kv => (fst kv, f (fst kv) (snd kv))) d.

Definition sum_items {V} (c : string -> V -> nat) (d : dict V) : nat :=
  fold_right (fun kv n => c (fst kv) (snd kv) + n) 0 d.

(** The aligned files of a crystal after the extraction, and the number
    of entries that failed. *)
Definition files_result (cif_file : string)
    (files : dict (dict (dict site_files))) : dict (dict (dict site_files)) :=
  map_items (fun k2 => map_items (fun k3 =>
    map_items (fun _ => site_result cif_file k2 k3))) files.

Definition files_failures (files : dict (dict (dict site_files))) : nat :=
  sum_items (fun _ => sum_items (fun _ =>
    sum_items (fun _ v4 => if site_fails v4 then 1 else 0))) files.

(** The same for a value of the metadata: only the output of a crystal
    is handled. *)
Definition cif_of (crystals : dict xtal_data) (k1 : string) : option string :=
  match dict_get crystals k1 with
  | Some crystal =>
      match ligand_cif (crystallographic_files crystal) with
      | Copied f _ => Some f
      | _ => None
      end
  | None => None
  end.

Definition section_result (crystals : dict xtal_data) (k1 : string)
    (v1 : section) : section :=
  match v1, cif_of crystals k1 with
  | CrystalOutput assigned files, Some cif_file =>
      CrystalOutput assigned (files_result cif_file files)
  | _, _ => v1
  end.

Definition section_failures (v1 : section) : nat :=
  match v1 with
  | CrystalOutput _ files => files_failures files
  | _ => 0
  end.

(** A value of the metadata that [_extract_components] can handle: the
    output of a crystal of the upload that has a ligand description, under
    a key that is not one of the site tables; or a value without aligned
    files, which is passed over. *)
Definition extractable (crystals : dict xtal_data) (k1 : string)
    (v1 : section) : Prop :=
  match v1 with
  | CrystalOutput _ _ =>
      existsb (String.eqb k1)
        [META_CONFORMER_SITES K; META_CANONICAL_SITES K; META_XTALFORM_SITES K]
      = false /\
      cif_of crystals k1 <> None
  | _ =>
      existsb (String.eqb k1)
        [META_CONFORMER_SITES K; META_CANONICAL_SITES K; META_XTALFORM_SITES K]
      = true \/
      contains_aligned_files v1 = Ok false
  end.

(** ** The transform tables

    The names of the tables under the key of the transforms, and the
    metadata that has the three tables from the observations to the
    conformer sites, from these to the canonical sites, and from these to
    the global frame. *)
Definition transform_tables (new_meta : dict section) : option (list string) :=
  match dict_get new_meta (META_TRANSFORMS K) with
  | Some (Transforms t) => Some (dict_keys t)
  | _ => None
  end.

Definition three_transform_tables (new_meta : dict section) : Prop :=
  exists names,
    transform_tables new_meta = Some names /\
    names ≡ₚ [META_TRANSFORMS_OBSERVATION_TO_CONFORMER_SITES K;
              META_TRANSFORMS_CONFORMER_SITES_TO_CANON K;
              META_TRANSFORMS_CANON_SITES_TO_GLOBAL K].

End Metadata.

(** ** Notions used in the statements about the datasets

    The path of a file that the collator copied. *)
Definition file_of (e : file_entry) : string :=
  match e with Copied f _ => f | _ => "" end.

Definition is_copied (e : file_entry) : bool :=
  match e with Copied _ _ => true | _ => false end.

(** The dataset of a crystal whose structure and reflections were
    copied. *)
Definition dataset_for (output_path dtag : string) (crystal : xtal_data)
  : dataset :=
  let files := crystallographic_files crystal in
  mk_dataset dtag (div output_path (file_of (xtal_pdb files)))
    (div output_path (file_of (xtal_mtz files))).

(** A record as the collator leaves it: the structure and the reflections
    were copied and the status is set. *)
Definition collated (crystal : xtal_data) : Prop :=
  is_copied (xtal_pdb (crystallographic_files crystal)) = true /\
  is_copied (xtal_mtz (crystallographic_files crystal)) = true /\
  status crystal <> None.

(** The exception that the record of a crystal makes
    [get_datasets_from_crystals] raise, if it does: the structure is
    looked up first, then the reflections, then the status. *)
Definition dataset_error (crystal : xtal_data) : option exn :=
  let files := crystallographic_files crystal in
  if negb (is_copied (xtal_pdb files)) then Some TypeError
  else if negb (is_copied (xtal_mtz files)) then Some AttributeError
  else match status crystal with
       | Some _ => None
       | None => Some KeyError
       end.

Definition is_new (K : constants) (crystal : xtal_data) : bool :=
  match status crystal with
  | Some s => String.eqb s (META_STATUS_NEW K)
  | None => false
  end.

(** ** [Aligner.validate]

    The paths that [__init__] sets and [validate] looks at, as texts, and
    what [validate] changes: a message goes to the logger and to
    [self.errors]; [self.warnings] is created empty and never added
    to. *)
Record paths := mk_paths {
  p_version_dir : string;
  metadata_file : string;
  xtalforms_file : string }.

Record checks := mk_checks {
  a_log : trace;
  a_errors : list string;
  a_warnings : list string }.

Definition _log_error (msg : string) : M checks unit :=
  modify (fun c =>
    mk_checks (a_log c ++ [Log 2 msg]) (a_errors c ++ [msg]) (a_warnings c)).

Definition validate (t : FS.fs) (self : paths) : M checks (nat * nat) :=
  (if negb (FS.exists_ t (p_version_dir self)) then
     _log_error ("version dir " +:+ p_version_dir self +:+ " does not exist")
   else if negb (FS.isdir t (p_version_dir self)) then
     _log_error ("version dir " +:+ p_version_dir self +:+ " is not a directory")
   else
     let p := metadata_file self in
     (if negb (FS.exists_ t p)
      then _log_error ("metadata file " +:+ p +:+ " does not exist")
      else ret tt) ;;
     (if negb (FS.isfile t p)
      then _log_error ("metadata file " +:+ p +:+ " is not a file")
      else ret tt) ;;
     let p := xtalforms_file self in
     if negb (FS.exists_ t p) then
       _log_error ("xtalforms file " +:+ p +:+ " does not exist")
     else if negb (FS.isfile t p) then
       _log_error ("xtalforms file " +:+ p +:+ " is not a file")
     else ret tt) ;;
  num_errors <- gets (fun c => length (a_errors c)) ;
  num_warnings <- gets (fun c => length (a_warnings c)) ;
  ret (num_errors, num_warnings).

Global Arguments xtalform_meta : clear implicits.
Global Arguments section : clear implicits.
Global Arguments fs_model : clear implicits.
Global Arguments externals : clear implicits.

End Aligner.

(* ===================================================================== *)
(** * Concrete inputs for the examples *)
(* ===================================================================== *)

Module Examples.
Import Path FS.

(** The number that the digits of a text spell, other characters left
    out: a date written as year, month and day becomes a number that
    grows with the date. *)
Fixpoint digits_value (s : string) (acc : Z) : Z :=
  match s with
  | EmptyString => acc
  | String c rest =>
      match Ascii.is_nat c with
      | Some d => digits_value rest (10 * acc + Z.of_nat d)
      | None => digits_value rest acc
      end
  end.

(** Stand-ins for the functions from outside: a date is read off its
    digits, a text without digits is not a date; the digest of a text is
    the text between brackets; no text is a metadata document. *)
Definition collator_externals : Collator.externals :=
  Collator.mk_externals
    (fun s => if (digits_value s 0 =? 0)%Z then None else Some (digits_value s 0))
    (fun content => "<" +:+ content +:+ ">")
    (fun text => if String.eqb text "meta" then Some (mk_meta "" [] "" []) else None)
    (fun _ => "meta")
    (fun _ => "xtals").

Definition no_files : xtal_files := mk_xtal_files NoFile NoFile NoFile.

(** A record as the validator writes it, with or without a date. *)
Definition dated (date : string) : xtal_data :=
  mk_xtal_data (Some (PyStr date)) no_files None None.

Definition undated : xtal_data := mk_xtal_data None no_files None None.

Definition null_dated : xtal_data :=
  mk_xtal_data (Some PyNone) no_files None None.

Definition collator_config (deps : dict string) : Collator.config :=
  Collator.mk_config "/etc/collator.yaml" "" ["/dls/visit"] "/out" "Mpro"
    (Some (Collator.mk_overrides (Some deps))).

Definition upload (xs : dict xtal_data) : meta :=
  mk_meta "2024-03-01" ["/dls/visit"] "/out" xs.

(** The state before [_munge_history]: the documents of the earlier
    versions were read, the upload is [current]. *)
Definition munge_state (history : list meta) (current : dict xtal_data)
  : Collator.world :=
  Collator.mk_world ∅ [] (upload current) (Some "/out/upload_2") history
    None None.

(** Upload 1 of the scenarios of the specification. *)
Definition upload_1 : meta :=
  upload [("ABC123", set_status "new" (dated "2024-01-01"));
          ("XYZ999", set_status "new" (dated "2024-01-01"))].

(** An output directory with three versions, of which the first has
    lost its metadata document. *)
Definition fs_gap : fs :=
  list_to_map
    [("/out", Dir);
     ("/out/upload_1", Dir);
     ("/out/upload_2", Dir); ("/out/upload_2/metadata.yaml", File "meta");
     ("/out/upload_3", Dir)].

(** An output directory with a collated first version and an empty
    second one, and the files of one crystal. *)
Definition fs_two_versions : fs :=
  list_to_map
    [("/out", Dir);
     ("/out/upload_1", Dir); ("/out/upload_1/metadata.yaml", File "meta");
     ("/out/upload_1/crystallographic", Dir);
     ("/out/upload_2", Dir);
     ("/etc/collator.yaml", File "base_dir: ...");
     ("/dls/visit/x0072.pdb", File "ATOM 1"); ("/dls/visit/x0072.mtz", File "MTZ")].

(** The same after a run that was given up: the second version has
    files of a crystal that is no longer part of the upload. *)
Definition fs_rerun : fs :=
  list_to_map
    [("/out", Dir);
     ("/out/upload_1", Dir); ("/out/upload_1/metadata.yaml", File "meta");
     ("/out/upload_2", Dir);
     ("/out/upload_2/crystallographic", Dir);
     ("/out/upload_2/crystallographic/Mpro-x0001", Dir);
     ("/out/upload_2/crystallographic/Mpro-x0001/Mpro-x0001.pdb", File "ATOM 0");
     ("/etc/collator.yaml", File "base_dir: ...");
     ("/dls/visit/x0072.pdb", File "ATOM 1"); ("/dls/visit/x0072.mtz", File "MTZ")].

(** The upload of that crystal, as the validator writes it: the ligand
    description is missing. *)
Definition x0072 : xtal_data :=
  mk_xtal_data (Some (PyStr "2024-02-01"))
    (mk_xtal_files (FilePath "/dls/visit/x0072.pdb")
       (FilePath "/dls/visit/x0072.mtz") NoFile)
    None None.

(** The state in which [run] starts, for a file system and an upload. *)
Definition start (t : fs) (current : dict xtal_data) : Collator.world :=
  Collator.mk_world t [] (upload current) None [] None None.

(** ** An alignment

    Four collated crystals; the alignment has an output for the first
    three, one site each. A YAML document stands for itself as
    its path, and there is one kind of unit cell. *)
Definition collated (name : string) : xtal_data :=
  let dir := "crystallographic/" +:+ name +:+ "/" +:+ name in
  mk_xtal_data (Some (PyStr "2024-02-01"))
    (mk_xtal_files (Copied (dir +:+ ".pdb") "1f") (Copied (dir +:+ ".mtz") "2e")
       (Copied (dir +:+ ".cif") "3d"))
    (Some "new") None.

Definition collated_crystals : dict xtal_data :=
  [("Mpro-x0072", collated "Mpro-x0072");
   ("Mpro-x0104", collated "Mpro-x0104");
   ("Mpro-x0107", collated "Mpro-x0107");
   ("Mpro-x0115", collated "Mpro-x0115")].

Definition aligned_pdb (name : string) : string :=
  "aligned_files/" +:+ name +:+ "/" +:+ name +:+ "_A_1101_0.pdb".

Definition one_site (name : string) : dict (dict Aligner.ligand_output) :=
  [("A", [("1101",
           Aligner.mk_ligand_output [("0", aligned_pdb name)]
             [("0", "artefacts.pdb")] [("0", "event.ccp4")]
             [("0", "xmap.ccp4")])])].

Definition alignment_model : Aligner.fs_model string :=
  Aligner.mk_fs_model
    [("Mpro-x0072", one_site "Mpro-x0072"); ("Mpro-x0104", one_site "Mpro-x0104");
     ("Mpro-x0107", one_site "Mpro-x0107")]
    "reference_alignments.yaml" "xtalforms.yaml" "assignments.yaml"
    "conformer_sites.yaml" "canonical_sites.yaml" "xtalform_sites.yaml"
    "neighbourhood_transforms.yaml" "conformer_site_transforms.yaml".

(** The outside of the aligner: every file is there but those in
    [missing], and every structure is valid. *)
Definition aligner_externals (missing : list string)
  : Aligner.externals string unit :=
  Aligner.mk_externals
    (fun _ => Ok alignment_model)
    (fun m _ _ _ _ => Ok (m, m))
    (fun p => p) (fun _ => true)
    (fun p => negb (existsb (String.eqb p) missing))
    (fun _ => Ok [("xtalform1", "Mpro-x0072")])
    (fun _ => Ok [("Mpro-x0072", "xtalform1"); ("Mpro-x0104", "xtalform1");
                  ("Mpro-x0107", "xtalform1")])
    (fun p => Ok p) (fun _ _ => Ok false)
    (fun _ => Ok ("P 1 21 1", tt))
    (fun _ => 0)
    (fun p => p +:+ "_apo.pdb") (fun p => p +:+ "_apo_solv.pdb")
    (fun p => p +:+ "_apo_desolv.pdb") (fun p => p +:+ "_ligand")
    (fun _ _ _ _ => PyStr "CCO").

Definition the_aligner : Aligner.aligner :=
  Aligner.mk_aligner "/out/upload_2" "/out/upload_2".

(** The metadata of the second run, and of a first run. *)
Definition second_run : Aligner.input_meta :=
  Aligner.mk_input_meta (Some collated_crystals) (Some (PyStr "/out/upload_1")).

Definition first_run : Aligner.input_meta :=
  Aligner.mk_input_meta (Some collated_crystals) None.

(** The dataset of the reference of the crystal form, and the file of
    the second crystal that the alignment did not write. *)
Definition reference_datasets : dict Aligner.dataset :=
  [("Mpro-x0072",
    Aligner.mk_dataset "Mpro-x0072"
      "/out/upload_2/crystallographic/Mpro-x0072/Mpro-x0072.pdb"
      "/out/upload_2/crystallographic/Mpro-x0072/Mpro-x0072.mtz")].

Definition lost_file : string :=
  "/out/upload_2/aligned_files/Mpro-x0104/Mpro-x0104_A_1101_0.pdb".

(** The structure without ligand of the site of a crystal in the
    metadata, when its components were extracted. *)
Definition apo_of (new_meta : dict (Aligner.section string unit))
    (dtag : string) : option (option string) :=
  match dict_get new_meta dtag with
  | Some (Aligner.CrystalOutput _ files) =>
      match dict_get files "A" with
      | Some chain =>
          match dict_get chain "1101" with
          | Some ligand => Aligner.pdb_apo <$> dict_get ligand "0"
          | None => None
          end
      | None => None
      end
  | _ => None
  end.

(** A crystal without ligand description, and an alignment output for
    it. *)
Definition without_cif (name : string) : xtal_data :=
  set_files
    (set_file CIF NoFile (crystallographic_files (collated name)))
    (collated name).

Definition apo_crystals : dict xtal_data :=
  [("Mpro-x0072", collated "Mpro-x0072"); ("Mpro-x0200", without_cif "Mpro-x0200")].

Definition site (name : string) : Aligner.site_files :=
  Aligner.mk_site_files (aligned_pdb name) "artefacts.pdb" "event.ccp4"
    "xmap.ccp4" None None None None None None.

Definition aligned_output (name : string)
  : string * Aligner.section string unit :=
  (name, Aligner.CrystalOutput "xtalform1" [("A", [("1101", [("0", site name)])])]).

(** ** A validation

    A database with three rows: the first crystal has no ligand
    description, the file of the second crystal is not there, and the
    third row is the first crystal again, without reflections and
    without date. *)
Definition soakdb : list Validator.row :=
  [Validator.mk_row (PyStr "Mpro-x0072") (PyStr "refine.pdb")
     (PyStr "refine.mtz") PyNone (Some 20240201%Z);
   Validator.mk_row (PyStr "Mpro-x0104") (PyStr "refine.pdb")
     (PyStr "refine.mtz") PyNone (Some 20240202%Z);
   Validator.mk_row (PyStr "Mpro-x0072") (PyStr "refine.pdb")
     PyNone PyNone None].

Definition validator_externals : Validator.externals :=
  Validator.mk_externals (fun _ => soakdb) "2024-02-03 10:00:00"
    (fun _ => "2024-02-01 00:00:00").

Definition the_validator : Validator.validator :=
  Validator.mk_validator "" ["/dls/visit"] "/out" "Mpro".

Definition fs_visit : fs :=
  list_to_map
    [("/dls/visit/processing/analysis/model_building/Mpro-x0072/refine.pdb",
      File "ATOM 1");
     ("/dls/visit/processing/analysis/model_building/Mpro-x0072/refine.mtz",
      File "MTZ");
     ("/dls/visit/processing/analysis/model_building/Mpro-x0104/refine.mtz",
      File "MTZ")].

(** ** A validation of the paths

    A site with a base directory: the visit with its database, and the
    output directory. The second configuration names a visit that is not
    there, no output directory, and a target with a name of two
    characters; the third has an input directory that is the empty
    text. *)
Definition fs_site : fs :=
  list_to_map
    [("/data", Dir); ("/data/dls", Dir); ("/data/dls/visit", Dir);
     ("/data/dls/visit/processing/database/soakDBDataFile.sqlite", File "db");
     ("/data/dls/visit/processing/analysis/model_building/Mpro-x0072/refine.pdb",
      File "ATOM 1");
     ("/out", Dir)].

Definition site_validator : Validator.validator :=
  Validator.mk_validator "/data" ["/dls/visit"] "/out" "Mpro".

Definition bad_validator : Validator.validator :=
  Validator.mk_validator "/data" ["/dls/visit"; "/dls/other"] "" "Mp".

Definition empty_dir_validator : Validator.validator :=
  Validator.mk_validator "/data" ["/dls/visit"; ""] "/out" "Mpro".

End Examples.

(* ===================================================================== *)
(** * Facts about the primitives *)
(* ===================================================================== *)

Module PyFacts.

Lemma bind_Ok {W A B} (m : M W A) (k : A -> M W B) w b w' :
  bind m k w = (Ok b, w') <->
  exists a w1, m w = (Ok a, w1) /\ k a w1 = (Ok b, w').
Proof.
  unfold bind. split.
  - destruct (m w) as [[a|e] w1]; intros H; [eauto | discriminate].
  - intros (a & w1 & -> & H). exact H.
Qed.

Lemma bind_Raise {W A B} (m : M W A) (k : A -> M W B) w e w' :
  bind m k w = (Raise e, w') <->
  m w = (Raise e, w') \/
  exists a w1, m w = (Ok a, w1) /\ k a w1 = (Raise e, w').
Proof.
  unfold bind. split.
  - destruct (m w) as [[a|e1] w1]; intros H.
    + right; eauto.
    + injection H as -> ->. left; reflexivity.
  - intros [-> | (a & w1 & -> & H)]; [reflexivity | exact H].
Qed.

Lemma bind_run {W A B} (m : M W A) (k : A -> M W B) w a w1 :
  m w = (Ok a, w1) -> bind m k w = k a w1.
Proof. unfold bind. intros ->. reflexivity. Qed.

Lemma bind_run_raise {W A B} (m : M W A) (k : A -> M W B) w e w1 :
  m w = (Raise e, w1) -> bind m k w = (Raise e, w1).
Proof. unfold bind. intros ->. reflexivity. Qed.

Lemma ret_Ok {W A} (a b : A) (w w' : W) :
  ret a w = (Ok b, w') <-> a = b /\ w = w'.
Proof. unfold ret. split; [intros [= -> ->] | intros [-> ->]]; auto. Qed.

Lemma getitem_Ok {W A} (o : option A) (a : A) (w w' : W) :
  getitem o w = (Ok a, w') <-> o = Some a /\ w = w'.
Proof.
  destruct o as [x|]; simpl; unfold ret, raise; split.
  - intros [= -> ->]; auto.
  - intros [[= ->] ->]; reflexivity.
  - discriminate.
  - intros [? _]; discriminate.
Qed.

Lemma gets_Ok {W A} (f : W -> A) (a : A) (w w' : W) :
  gets f w = (Ok a, w') <-> a = f w /\ w = w'.
Proof. unfold gets. split; [intros [= <- ->] | intros [-> ->]]; auto. Qed.

Lemma modify_Ok {W} (f : W -> W) u (w w' : W) :
  modify f w = (Ok u, w') <-> w' = f w.
Proof.
  unfold modify. destruct u. split; [intros [= <-] | intros ->]; auto.
Qed.

Lemma lift_Ok {W A} (r : result A) (a : A) (w w' : W) :
  lift r w = (Ok a, w') <-> r = Ok a /\ w = w'.
Proof. unfold lift. split; [intros [= -> ->] | intros [-> ->]]; auto. Qed.

(** ** Dictionaries *)

Lemma dict_get_set {V} (d : dict V) k v k' :
  dict_get (dict_set d k v) k' =
  if String.eqb k k' then Some v else dict_get d k'.
Proof.
  induction d as [|[k0 v0] d IH]; simpl.
  - reflexivity.
  - destruct (String.eqb_spec k0 k) as [->|Hne]; simpl.
    + destruct (String.eqb k k'); reflexivity.
    + rewrite IH. destruct (String.eqb_spec k0 k') as [->|Hne'].
      * destruct (String.eqb_spec k k'); [congruence | reflexivity].
      * reflexivity.
Qed.

Lemma dict_get_set_eq {V} (d : dict V) k v :
  dict_get (dict_set d k v) k = Some v.
Proof. rewrite dict_get_set, String.eqb_refl. reflexivity. Qed.

Lemma dict_get_set_ne {V} (d : dict V) k v k' :
  k <> k' -> dict_get (dict_set d k v) k' = dict_get d k'.
Proof.
  intros Hne. rewrite dict_get_set.
  destruct (String.eqb_spec k k'); [contradiction | reflexivity].
Qed.

Lemma dict_mem_set {V} (d : dict V) k v k' :
  dict_mem (dict_set d k v) k' = String.eqb k k' || dict_mem d k'.
Proof.
  unfold dict_mem. rewrite dict_get_set.
  destruct (String.eqb k k'); reflexivity.
Qed.

Lemma dict_get_None {V} (d : dict V) k :
  dict_get d k = None <-> k ∉ dict_keys d.
Proof.
  unfold dict_keys. induction d as [|[k0 v0] d IH]; simpl.
  - split; [intros _; apply not_elem_of_nil | reflexivity].
  - rewrite not_elem_of_cons.
    destruct (String.eqb_spec k0 k) as [->|Hne].
    + split; [discriminate | intros [? _]; congruence].
    + rewrite IH. split; [intros ?; split; [congruence | assumption] | tauto].
Qed.

Lemma dict_get_Some_elem {V} (d : dict V) k v :
  dict_get d k = Some v -> (k, v) ∈ d.
Proof.
  induction d as [|[k0 v0] d IH]; simpl; [discriminate |].
  destruct (String.eqb_spec k0 k) as [->|Hne].
  - intros [= ->]. apply list_elem_of_here.
  - intros H. apply list_elem_of_further, IH, H.
Qed.

Lemma dict_get_lookup {V} (d : dict V) i k v :
  NoDup (dict_keys d) -> d !! i = Some (k, v) -> dict_get d k = Some v.
Proof.
  unfold dict_keys. revert i. induction d as [|[k0 v0] d IH]; intros i Hnd Hi.
  - discriminate.
  - simpl in *. apply NoDup_cons in Hnd as [Hk0 Hnd]. destruct i as [|i].
    + injection Hi as -> ->. rewrite String.eqb_refl. reflexivity.
    + simpl in Hi. destruct (String.eqb_spec k0 k) as [->|Hne].
      * exfalso. apply Hk0. apply list_elem_of_fmap. exists (k, v).
        split; [reflexivity |]. eapply list_elem_of_lookup_2, Hi.
      * eapply IH; eauto.
Qed.

Lemma dict_keys_set {V} (d : dict V) k v k' :
  k' ∈ dict_keys (dict_set d k v) <-> k' = k \/ k' ∈ dict_keys d.
Proof.
  unfold dict_keys. induction d as [|[k0 v0] d IH]; simpl.
  - rewrite list_elem_of_singleton. split; [auto | intros [?|H]; [auto|]].
    inversion H.
  - destruct (String.eqb_spec k0 k) as [->|Hne]; simpl.
    + rewrite !elem_of_cons. tauto.
    + rewrite !elem_of_cons, IH. tauto.
Qed.


(** ** Triples *)

Section triples.
Context {W : Type}.
Implicit Types (P X : W -> Prop).

Lemma hoare_ret {A} P (Q : A -> W -> Prop) X (a : A) :
  (forall w, P w -> Q a w) -> hoare P (ret a) Q X.
Proof. intros H w Hw. simpl. auto. Qed.

Lemma hoare_raise {A} P (Q : A -> W -> Prop) X e :
  (forall w, P w -> X w) -> hoare P (raise e) Q X.
Proof. intros H w Hw. simpl. auto. Qed.

Lemma hoare_bind {A B} P (m : M W A) (k : A -> M W B) (R : A -> W -> Prop)
    (Q : B -> W -> Prop) X :
  hoare P m R X -> (forall a, hoare (R a) (k a) Q X) ->
  hoare P (bind m k) Q X.
Proof.
  intros Hm Hk w Hw. unfold bind. specialize (Hm w Hw).
  destruct (m w) as [[a|e] w1]; [apply Hk, Hm | exact Hm].
Qed.

Lemma hoare_conseq {A} P P' (m : M W A) (Q Q' : A -> W -> Prop) X X' :
  hoare P' m Q' X' ->
  (forall w, P w -> P' w) -> (forall a w, Q' a w -> Q a w) ->
  (forall w, X' w -> X w) ->
  hoare P m Q X.
Proof.
  intros Hm HP HQ HX w Hw. specialize (Hm w (HP w Hw)).
  destruct (m w) as [[a|e] w1]; auto.
Qed.

Lemma hoare_gets {A} P (f : W -> A) (Q : A -> W -> Prop) X :
  (forall w, P w -> Q (f w) w) -> hoare P (gets f) Q X.
Proof. intros H w Hw. simpl. auto. Qed.

Lemma hoare_modify P (f : W -> W) (Q : unit -> W -> Prop) X :
  (forall w, P w -> Q tt (f w)) -> hoare P (modify f) Q X.
Proof. intros H w Hw. simpl. auto. Qed.

Lemma hoare_lift {A} P (r : result A) (Q : A -> W -> Prop) X :
  (forall w, P w -> match r with Ok a => Q a w | Raise _ => X w end) ->
  hoare P (lift r) Q X.
Proof. intros H w Hw. unfold lift. destruct r; apply (H w Hw). Qed.

Lemma hoare_getitem {A} P (o : option A) (Q : A -> W -> Prop) X :
  (forall w, P w -> match o with Some a => Q a w | None => X w end) ->
  hoare P (getitem o) Q X.
Proof. intros H w Hw. destruct o; apply (H w Hw). Qed.

(** A loop keeps what every pass keeps. *)
Lemma hoare_for_each {A} (I : W -> Prop) (l : list A) (body : A -> M W unit) :
  (forall x, x ∈ l -> hoare I (body x) (fun _ => I) I) ->
  hoare I (for_each l body) (fun _ => I) I.
Proof.
  induction l as [|x l IH]; intros Hbody; simpl.
  - apply hoare_ret. auto.
  - eapply hoare_bind; [apply Hbody, list_elem_of_here |].
    intros u. apply IH. intros y Hy. apply Hbody, list_elem_of_further, Hy.
Qed.

Lemma hoare_for_fold {A S} (I : W -> Prop) (l : list A)
    (body : S -> A -> M W S) (s : S) :
  (forall s x, x ∈ l -> hoare I (body s x) (fun _ => I) I) ->
  hoare I (for_fold l body s) (fun _ => I) I.
Proof.
  revert s. induction l as [|x l IH]; intros s Hbody; simpl.
  - apply hoare_ret. auto.
  - eapply hoare_bind; [apply Hbody, list_elem_of_here |].
    intros s'. apply IH. intros s'' y Hy. apply Hbody, list_elem_of_further, Hy.
Qed.

Lemma hoare_for_return {A R} (I : W -> Prop) (l : list A)
    (body : A -> M W (option R)) :
  (forall x, x ∈ l -> hoare I (body x) (fun _ => I) I) ->
  hoare I (for_return l body) (fun _ => I) I.
Proof.
  induction l as [|x l IH]; intros Hbody; simpl.
  - apply hoare_ret. auto.
  - eapply hoare_bind; [apply Hbody, list_elem_of_here |].
    intros [v|].
    + apply hoare_ret. auto.
    + apply IH. intros y Hy. apply Hbody, list_elem_of_further, Hy.
Qed.

(** A loop whose invariant follows the items done so far. *)
Lemma hoare_for_return_steps {A R} (I : list A -> W -> Prop)
    (Qret : R -> W -> Prop) X (body : A -> M W (option R)) (l : list A) :
  (forall done x rest, l = done ++ x :: rest ->
     hoare (I done) (body x)
       (fun r w => match r with
                   | None => I (done ++ [x]) w
                   | Some v => Qret v w
                   end) X) ->
  hoare (I []) (for_return l body)
    (fun r w => match r with None => I l w | Some v => Qret v w end) X.
Proof.
  intros Hbody.
  enough (Hgen : forall rest done, l = done ++ rest ->
            hoare (I done) (for_return rest body)
              (fun r w => match r with None => I l w | Some v => Qret v w end) X)
    by (apply (Hgen l []); reflexivity).
  induction rest as [|x rest IH]; intros done Hl; simpl.
  - apply hoare_ret. rewrite app_nil_r in Hl. subst done. auto.
  - eapply hoare_bind; [apply (Hbody done x rest Hl) |].
    intros [v|].
    + apply hoare_ret. auto.
    + apply IH. rewrite <- app_assoc. exact Hl.
Qed.

Lemma hoare_for_fold_steps {A S} (I : list A -> S -> W -> Prop) X
    (body : S -> A -> M W S) (l : list A) (s0 : S) :
  (forall done x rest s, l = done ++ x :: rest ->
     hoare (I done s) (body s x) (fun s' w => I (done ++ [x]) s' w) X) ->
  hoare (I [] s0) (for_fold l body s0) (fun s w => I l s w) X.
Proof.
  intros Hbody.
  enough (Hgen : forall rest done s, l = done ++ rest ->
            hoare (I done s) (for_fold rest body s) (fun s w => I l s w) X)
    by (apply (Hgen l [] s0); reflexivity).
  induction rest as [|x rest IH]; intros done s Hl; simpl.
  - apply hoare_ret. rewrite app_nil_r in Hl. subst done. auto.
  - eapply hoare_bind; [apply (Hbody done x rest s Hl) |].
    intros s'. apply IH. rewrite <- app_assoc. exact Hl.
Qed.

End triples.


(** ** Invariants *)

Section invariants.
Context {W : Type}.
Implicit Types (I : W -> Prop).

Lemma keeps_ret {A} I (a : A) : keeps I (ret a).
Proof. intros w Hw. exact Hw. Qed.

Lemma keeps_raise {A} I e : keeps I (raise e : M W A).
Proof. intros w Hw. exact Hw. Qed.

Lemma keeps_gets {A} I (f : W -> A) : keeps I (gets f).
Proof. intros w Hw. exact Hw. Qed.

Lemma keeps_lift {A} I (r : result A) : keeps I (lift r).
Proof. intros w Hw. exact Hw. Qed.

Lemma keeps_getitem {A} I (o : option A) : keeps I (getitem o).
Proof. intros w Hw. destruct o; exact Hw. Qed.

Lemma keeps_modify I (f : W -> W) :
  (forall w, I w -> I (f w)) -> keeps I (modify f).
Proof. intros H w Hw. apply H, Hw. Qed.

Lemma keeps_bind {A B} I (m : M W A) (k : A -> M W B) :
  keeps I m -> (forall a, keeps I (k a)) -> keeps I (bind m k).
Proof.
  intros Hm Hk w Hw. unfold bind. specialize (Hm w Hw).
  destruct (m w) as [[a|e] w1]; simpl in *; [apply Hk, Hm | exact Hm].
Qed.

(** The same, when the rest is only known to keep [I] for the values
    that [m] returns from a state in [I]. *)
Lemma keeps_bind_value {A B} I (m : M W A) (k : A -> M W B)
    (V : A -> Prop) :
  keeps I m ->
  (forall w a w', I w -> m w = (Ok a, w') -> V a) ->
  (forall a, V a -> keeps I (k a)) ->
  keeps I (bind m k).
Proof.
  intros Hm HV Hk w Hw. unfold bind. specialize (Hm w Hw).
  destruct (m w) as [[a|e] w1] eqn:Hmw; simpl in *; [|exact Hm].
  apply Hk; [eapply HV; eauto | exact Hm].
Qed.

(** The same, when the rest needs more than [I], and [m] provides it
    when it returns. *)
Lemma keeps_bind_stronger {A B} I (J : W -> Prop) (m : M W A)
    (k : A -> M W B) :
  keeps I m ->
  (forall w a w', I w -> m w = (Ok a, w') -> J w') ->
  (forall a, keeps J (k a)) ->
  (forall w, J w -> I w) ->
  keeps I (bind m k).
Proof.
  intros Hm HJ Hk HJI w Hw. unfold bind. specialize (Hm w Hw).
  destruct (m w) as [[a|e] w1] eqn:Hmw; simpl in *; [|exact Hm].
  apply HJI, Hk. eapply HJ; eauto.
Qed.

Lemma keeps_for_each {A} I (l : list A) (body : A -> M W unit) :
  (forall x, x ∈ l -> keeps I (body x)) -> keeps I (for_each l body).
Proof.
  induction l as [|x l IH]; intros Hbody; simpl.
  - apply keeps_ret.
  - apply keeps_bind; [apply Hbody, list_elem_of_here |].
    intros u. apply IH. intros y Hy. apply Hbody, list_elem_of_further, Hy.
Qed.

Lemma keeps_for_fold {A S} I (l : list A) (body : S -> A -> M W S) (s : S) :
  (forall s x, x ∈ l -> keeps I (body s x)) -> keeps I (for_fold l body s).
Proof.
  revert s. induction l as [|x l IH]; intros s Hbody; simpl.
  - apply keeps_ret.
  - apply keeps_bind; [apply Hbody, list_elem_of_here |].
    intros s'. apply IH. intros s'' y Hy. apply Hbody, list_elem_of_further, Hy.
Qed.

Lemma keeps_for_return {A R} I (l : list A) (body : A -> M W (option R)) :
  (forall x, x ∈ l -> keeps I (body x)) -> keeps I (for_return l body).
Proof.
  induction l as [|x l IH]; intros Hbody; simpl.
  - apply keeps_ret.
  - apply keeps_bind; [apply Hbody, list_elem_of_here |].
    intros [v|]; [apply keeps_ret |].
    apply IH. intros y Hy. apply Hbody, list_elem_of_further, Hy.
Qed.

End invariants.

End PyFacts.

(* ===================================================================== *)
(** * Facts about paths *)
(* ===================================================================== *)

Module PathFacts.
Import Path.

Lemma append_cons c s t : String c s +:+ t = String c (s +:+ t).
Proof. reflexivity. Qed.

Lemma append_nil_l s : "" +:+ s = s.
Proof. reflexivity. Qed.

Lemma append_nil_r s : s +:+ "" = s.
Proof. induction s as [|c s IH]; [reflexivity |]. rewrite append_cons, IH. reflexivity. Qed.

Lemma append_assoc a b c : (a +:+ b) +:+ c = a +:+ (b +:+ c).
Proof.
  induction a as [|x a IH]; [reflexivity |].
  rewrite !append_cons, IH. reflexivity.
Qed.

Lemma prefix_spec a b : String.prefix a b = true <-> exists s, b = a +:+ s.
Proof.
  revert b. induction a as [|x a IH]; intros b.
  - split; [intros _; exists b; reflexivity | intros _; destruct b; reflexivity].
  - destruct b as [|y b]; simpl.
    + split; [discriminate | intros (s & Hs); discriminate].
    + destruct (Ascii.ascii_dec x y) as [->|Hne].
      * rewrite IH. split; intros (s & Hs); exists s.
        -- rewrite append_cons, Hs. reflexivity.
        -- rewrite append_cons in Hs. injection Hs as ->. reflexivity.
      * split; [discriminate |]. intros (s & Hs). rewrite append_cons in Hs.
        injection Hs as -> _. contradiction.
Qed.

Lemma prefix_append a s : String.prefix a (a +:+ s) = true.
Proof. apply prefix_spec. eauto. Qed.

Lemma isabs_append a b : a <> "" -> isabs (a +:+ b) = isabs a.
Proof. destruct a as [|c a]; [contradiction | reflexivity]. Qed.

(** A relative path is put after the prefix of the directory. *)
Lemma join_relative a b : isabs b = false -> join a b = dirpfx a +:+ b.
Proof.
  intros Hb. unfold join, dirpfx. rewrite Hb.
  destruct (String.eqb a "" || ends_with_sep a); [reflexivity |].
  rewrite append_assoc. reflexivity.
Qed.

Lemma below_join d b : isabs b = false -> below d (join d b) = true.
Proof.
  intros Hb. unfold below. rewrite (join_relative _ _ Hb). apply prefix_append.
Qed.

Lemma dirpfx_ext d : exists x, dirpfx d = d +:+ x.
Proof.
  unfold dirpfx. destruct (String.eqb d "" || ends_with_sep d).
  - exists "". symmetry. apply append_nil_r.
  - exists "/". reflexivity.
Qed.

(** What lies in a directory below [d] lies below [d]. *)
Lemma below_within d e p :
  below d e = true -> within e p = true -> below d p = true.
Proof.
  unfold within, below. intros He Hp.
  apply prefix_spec in He as (s & ->).
  apply orb_true_iff in Hp as [Hp | Hp].
  - apply String.eqb_eq in Hp as ->. apply prefix_append.
  - apply prefix_spec in Hp as (s' & ->).
    destruct (dirpfx_ext (dirpfx d +:+ s)) as (x & ->).
    rewrite !append_assoc. apply prefix_append.
Qed.

Lemma below_below d e p :
  below d e = true -> below e p = true -> below d p = true.
Proof.
  intros He Hp. apply (below_within d e p He). unfold within. rewrite Hp.
  apply orb_true_r.
Qed.

(** The paths of the version directories. *)
Lemma version_path_eq out v :
  Collator.version_path out v = dirpfx out +:+ "upload_" +:+ str v.
Proof. unfold Collator.version_path. apply join_relative. reflexivity. Qed.

Lemma version_path_inj out a b :
  Collator.version_path out a = Collator.version_path out b -> a = b.
Proof.
  rewrite !version_path_eq. intros H.
  apply String.app_inj in H. apply String.app_inj in H.
  apply (inj pretty) in H. exact H.
Qed.


(** ** Components *)

Lemma no_sep_append a b : no_sep (a +:+ b) = no_sep a && no_sep b.
Proof.
  induction a as [|c a IH]; [reflexivity |].
  rewrite append_cons. simpl. rewrite IH. apply andb_assoc.
Qed.

(** A text without separator is not one with a separator. *)
Lemma no_sep_no_slash a b t : no_sep a = true -> a <> b +:+ "/" +:+ t.
Proof.
  intros Ha Heq. rewrite Heq in Ha. rewrite !no_sep_append in Ha.
  simpl in Ha. rewrite andb_false_r in Ha. discriminate.
Qed.

(** The first separator of a path ends its first component. *)
Lemma sep_split_inj a b s t :
  no_sep a = true -> no_sep b = true ->
  a +:+ "/" +:+ s = b +:+ "/" +:+ t -> a = b /\ s = t.
Proof.
  revert b. induction a as [|x a IH]; intros [|y b] Ha Hb H.
  - rewrite !append_nil_l, !append_cons, !append_nil_l in H.
    injection H as ->. auto.
  - rewrite append_nil_l, !append_cons in H. injection H as <- _.
    simpl in Hb. discriminate.
  - rewrite append_nil_l, !append_cons in H. injection H as -> _.
    simpl in Ha. discriminate.
  - rewrite !append_cons in H. injection H as -> H.
    simpl in Ha, Hb. apply andb_true_iff in Ha as [_ Ha], Hb as [_ Hb].
    destruct (IH b Ha Hb H) as [-> ->]. auto.
Qed.

Lemma plain_name_no_sep n : plain_name n = true -> no_sep n = true.
Proof. unfold plain_name. intros H. apply andb_true_iff in H as [_ H]. exact H. Qed.

Lemma plain_name_nonempty n : plain_name n = true -> n <> "".
Proof.
  unfold plain_name. intros H. apply andb_true_iff in H as [H _].
  apply negb_true_iff, String.eqb_neq in H. exact H.
Qed.

Lemma no_sep_isabs n : no_sep n = true -> isabs n = false.
Proof.
  destruct n as [|c n]; [reflexivity |]. simpl. intros H.
  apply andb_true_iff in H as [H _]. apply negb_true_iff, Ascii.eqb_neq in H.
  destruct c as [[] [] [] [] [] [] [] []]; try reflexivity. contradiction H.
  reflexivity.
Qed.

(** ** Paths that do not end with a separator *)

Lemma ends_with_sep_append a b :
  b <> "" -> ends_with_sep (a +:+ b) = ends_with_sep b.
Proof.
  intros Hb. induction a as [|c a IH]; [reflexivity |].
  rewrite append_cons. simpl. rewrite IH.
  destruct (a +:+ b) eqn:Hab; [|reflexivity].
  destruct a; [rewrite append_nil_l in Hab; contradiction | discriminate].
Qed.

Lemma no_sep_ends_with_sep n : no_sep n = true -> ends_with_sep n = false.
Proof.
  induction n as [|c n IH]; [reflexivity |]. simpl. intros H.
  apply andb_true_iff in H as [Hc Hn]. destruct n as [|c' n].
  - apply negb_true_iff in Hc. exact Hc.
  - apply IH, Hn.
Qed.


Lemma clean_dirpfx d : clean d -> dirpfx d = d +:+ "/".
Proof.
  intros [Hne Hend]. unfold dirpfx. rewrite Hend.
  apply String.eqb_neq in Hne. rewrite Hne. reflexivity.
Qed.

Lemma append_nonempty a b : b <> "" -> a +:+ b <> "".
Proof.
  intros Hb. destruct a as [|c a]; [exact Hb | discriminate].
Qed.

Lemma clean_append a n : plain_name n = true -> clean (a +:+ n).
Proof.
  intros Hn. pose proof (plain_name_nonempty _ Hn) as Hne. split.
  - apply append_nonempty, Hne.
  - rewrite ends_with_sep_append by exact Hne.
    apply no_sep_ends_with_sep, plain_name_no_sep, Hn.
Qed.

Lemma join_clean d n :
  clean d -> no_sep n = true -> join d n = d +:+ "/" +:+ n.
Proof.
  intros Hd Hn. rewrite join_relative by (apply no_sep_isabs, Hn).
  rewrite clean_dirpfx by exact Hd. apply append_assoc.
Qed.

Lemma clean_join d n : clean d -> plain_name n = true -> clean (join d n).
Proof.
  intros Hd Hn. rewrite join_clean by (auto using plain_name_no_sep).
  rewrite <- append_assoc. apply clean_append, Hn.
Qed.


(** ** [os.path.split] of a path that ends with a component *)

Lemma split_raw_no_sep n : no_sep n = true -> split_raw n = ("", n).
Proof.
  induction n as [|c n IH]; [reflexivity |]. simpl. intros H.
  apply andb_true_iff in H as [Hc Hn]. rewrite (IH Hn).
  apply negb_true_iff in Hc. rewrite Hc. reflexivity.
Qed.

Lemma split_raw_append x n :
  no_sep n = true -> split_raw (x +:+ "/" +:+ n) = (x +:+ "/", n).
Proof.
  intros Hn. induction x as [|c x IH].
  - rewrite !append_nil_l, append_cons, append_nil_l. simpl.
    rewrite (split_raw_no_sep _ Hn). reflexivity.
  - rewrite (append_cons c x). simpl. rewrite IH.
    destruct x; reflexivity.
Qed.

Lemma clean_cons c x : x <> "" -> clean (String c x) -> clean x.
Proof.
  intros Hx [_ Hend]. split; [exact Hx |].
  destruct x; [contradiction | exact Hend].
Qed.

Lemma rstrip_sep_clean x : clean x -> rstrip_sep x = x.
Proof.
  induction x as [|c x IH]; intros Hx; [destruct Hx as [[] _]; reflexivity |].
  simpl. destruct x as [|c' x].
  - destruct Hx as [_ Hend]. simpl in Hend. simpl. rewrite Hend. reflexivity.
  - rewrite IH by (eapply clean_cons; [discriminate | exact Hx]). reflexivity.
Qed.

Lemma rstrip_sep_append_sep x : clean x -> rstrip_sep (x +:+ "/") = x.
Proof.
  induction x as [|c x IH]; intros Hx; [destruct Hx as [[] _]; reflexivity |].
  rewrite append_cons. simpl. destruct x as [|c' x].
  - destruct Hx as [_ Hend]. simpl in Hend. rewrite append_nil_l. simpl.
    rewrite Hend. reflexivity.
  - rewrite IH by (eapply clean_cons; [discriminate | exact Hx]). reflexivity.
Qed.

Lemma split_clean x n :
  clean x -> no_sep n = true -> split (x +:+ "/" +:+ n) = (x, n).
Proof.
  intros Hx Hn. unfold split. rewrite (split_raw_append _ _ Hn).
  rewrite (rstrip_sep_append_sep _ Hx).
  destruct x; [destruct Hx as [[] _]; reflexivity | reflexivity].
Qed.

Lemma split_join d n :
  clean d -> no_sep n = true -> split (join d n) = (d, n).
Proof.
  intros Hd Hn. rewrite (join_clean _ _ Hd Hn). apply split_clean; assumption.
Qed.

Lemma snd_split p : snd (split p) = basename p.
Proof.
  unfold split, basename. destruct (split_raw p) as [head tail].
  destruct (rstrip_sep head); reflexivity.
Qed.

Lemma basename_join d n :
  clean d -> no_sep n = true -> basename (join d n) = n.
Proof.
  intros Hd Hn. rewrite <- snd_split, (split_join d n Hd Hn). reflexivity.
Qed.

Lemma entry_name_plain n : entry_name n = true -> plain_name n = true.
Proof.
  unfold entry_name. intros H. apply andb_true_iff in H as [H _].
  apply andb_true_iff in H as [H _]. exact H.
Qed.

Lemma entry_name_not_dot n : entry_name n = true -> dot_name n = false.
Proof.
  unfold entry_name. intros H. apply andb_true_iff in H as [H _].
  apply andb_true_iff in H as [_ H]. apply negb_true_iff in H. exact H.
Qed.

Lemma basename_no_sep p : no_sep (basename p) = true.
Proof.
  unfold basename. induction p as [|c p IH]; [reflexivity |]. simpl.
  destruct (split_raw p) as [[|h hs] t] eqn:Hs; simpl in *.
  - destruct (Ascii.eqb c "/") eqn:Hc; simpl.
    + assert (Hp : p = t).
      { clear IH. revert t Hs. induction p as [|c' p IHp]; intros t Hs.
        - injection Hs as <-. reflexivity.
        - simpl in Hs. destruct (split_raw p) as [[|h' hs'] t'] eqn:Hs'.
          + destruct (Ascii.eqb c' "/"); [discriminate |].
            injection Hs as <-. reflexivity.
          + discriminate. }
      rewrite Hp. exact IH.
    + rewrite Hc. simpl.
      assert (Hp : p = t).
      { clear IH. revert t Hs. induction p as [|c' p IHp]; intros t Hs.
        - injection Hs as <-. reflexivity.
        - simpl in Hs. destruct (split_raw p) as [[|h' hs'] t'] eqn:Hs'.
          + destruct (Ascii.eqb c' "/"); [discriminate |].
            injection Hs as <-. reflexivity.
          + discriminate. }
      rewrite Hp. exact IH.
  - exact IH.
Qed.

(** ** The numbers in the names of the version directories *)

Lemma pretty_N_char_no_sep x : Ascii.eqb (pretty_N_char x) "/" = false.
Proof. unfold pretty_N_char. repeat case_match; reflexivity. Qed.

Lemma pretty_N_go_no_sep x : forall s,
  no_sep s = true -> no_sep (pretty_N_go x s) = true.
Proof.
  induction (N.lt_wf_0 x) as [x _ IH]; intros s Hs.
  destruct (decide (x = 0)%N) as [->|Hx]; [rewrite pretty_N_go_0; exact Hs |].
  rewrite pretty_N_go_step by lia. apply IH.
  - apply N.div_lt; lia.
  - simpl. rewrite pretty_N_char_no_sep, Hs. reflexivity.
Qed.

Lemma pretty_N_go_nonempty x : forall s, s <> "" -> pretty_N_go x s <> "".
Proof.
  induction (N.lt_wf_0 x) as [x _ IH]; intros s Hs.
  destruct (decide (x = 0)%N) as [->|Hx]; [rewrite pretty_N_go_0; exact Hs |].
  rewrite pretty_N_go_step by lia. apply IH; [apply N.div_lt; lia | discriminate].
Qed.

Lemma str_no_sep v : no_sep (str v) = true.
Proof.
  unfold str, pretty, pretty_nat, pretty, pretty_N.
  case_decide; [reflexivity |]. apply pretty_N_go_no_sep. reflexivity.
Qed.

Lemma str_nonempty v : str v <> "".
Proof.
  unfold str, pretty, pretty_nat, pretty, pretty_N.
  case_decide; [discriminate |].
  rewrite pretty_N_go_step by lia. apply pretty_N_go_nonempty. discriminate.
Qed.

Lemma str_plain v : plain_name (str v) = true.
Proof.
  unfold plain_name. rewrite str_no_sep, andb_true_r.
  apply negb_true_iff, String.eqb_neq, str_nonempty.
Qed.

Lemma version_path_clean out v : clean (Collator.version_path out v).
Proof.
  rewrite version_path_eq, <- append_assoc. apply clean_append, str_plain.
Qed.


(** ** A directory is not below itself *)

Lemma length_append a b :
  String.length (a +:+ b) = String.length a + String.length b.
Proof.
  induction a as [|c a IH]; [reflexivity |]. rewrite append_cons. simpl.
  rewrite IH. reflexivity.
Qed.

Lemma below_self d : clean d -> below d d = false.
Proof.
  intros Hd. unfold below. rewrite (clean_dirpfx _ Hd).
  destruct (String.prefix (d +:+ "/") d) eqn:Hp; [|reflexivity].
  apply prefix_spec in Hp as (s & Hs).
  apply (f_equal String.length) in Hs. rewrite !length_append in Hs.
  simpl in Hs. lia.
Qed.

(** A path below a directory below [d] is not [d]: what is not below [d]
    is not below a directory in [d]. *)
Lemma not_below_inner d e p :
  below d e = true -> below d p = false -> within e p = false.
Proof.
  intros He Hp. destruct (within e p) eqn:Hw; [|reflexivity].
  rewrite (below_within d e p He Hw) in Hp. discriminate.
Qed.

Lemma within_false e p : within e p = false -> p <> e /\ below e p = false.
Proof.
  unfold within. intros H. apply orb_false_elim in H as [H1 H2].
  apply String.eqb_neq in H1. auto.
Qed.

Lemma cryst_dir_below vdir : below vdir (Collator.cryst_dir_of vdir) = true.
Proof. apply below_join. reflexivity. Qed.

Lemma cryst_dir_clean vdir : clean vdir -> clean (Collator.cryst_dir_of vdir).
Proof. intros H. apply clean_join; [exact H | reflexivity]. Qed.

End PathFacts.

(* ===================================================================== *)
(** * Facts about the file system *)
(* ===================================================================== *)

Module FSFacts.
Import Path FS PyFacts PathFacts.

(** [rmtree] changes nothing outside the directory. *)
Lemma rmtree_outside d (t : fs) q :
  within d q = false -> snd (rmtree d t) !! q = t !! q.
Proof.
  intros Hq. unfold rmtree. destruct (t !! d) as [[|c]|]; try reflexivity.
  simpl. rewrite map_lookup_filter. destruct (t !! q) as [x|]; [|reflexivity].
  simpl. rewrite option_guard_True by exact Hq. reflexivity.
Qed.

Lemma rmtree_inside d (t : fs) q :
  fst (rmtree d t) = Ok tt -> within d q = true -> snd (rmtree d t) !! q = None.
Proof.
  intros Hok Hq. unfold rmtree in *. destruct (t !! d) as [[|c]|]; try discriminate.
  simpl. apply map_lookup_filter_None. destruct (t !! q) as [x|]; [right | left; reflexivity].
  intros y _ Hy. simpl in Hy. congruence.
Qed.

(** [mkdir] adds one directory, at a path where there was nothing. *)
Lemma mkdir_cases p (t : fs) :
  (exists e, mkdir p t = (Raise e, t)) \/
  (t !! p = None /\ mkdir p t = (Ok tt, <[p := Dir]> t)).
Proof.
  unfold mkdir. destruct (t !! p) as [x|]; [left; eauto |].
  destruct (parent_ok t p) as [[]|e]; [| left; eauto].
  destruct (dot_name (basename p)); [left; eauto | right; auto].
Qed.

(** The directory of a name that is not [.] or [..], in a directory that
    is there, is made. *)
Lemma mkdir_run p (t : fs) :
  t !! p = None -> parent_ok t p = Ok tt -> dot_name (basename p) = false ->
  mkdir p t = (Ok tt, <[p := Dir]> t).
Proof. intros Hp Hpar Hdot. unfold mkdir. rewrite Hp, Hpar, Hdot. reflexivity. Qed.


Lemma mkdir_Ok p (t t' : fs) u :
  mkdir p t = (Ok u, t') -> t !! p = None /\ t' = <[p := Dir]> t.
Proof.
  destruct (mkdir_cases p t) as [(e & ->) | (Hp & ->)]; [discriminate |].
  intros [= <-]. auto.
Qed.

(** [makedirs] of a path whose head exists is [mkdir]. *)
Lemma makedirs_head_exists name head tail (t : fs) :
  split name = (head, tail) -> head <> "" -> tail <> "" ->
  exists_ t head = true ->
  makedirs name t = mkdir name t.
Proof.
  intros Hsplit Hh Ht Hex. unfold makedirs. simpl. rewrite Hsplit.
  apply String.eqb_neq in Hh, Ht. rewrite Ht. simpl. rewrite Hh, Ht. simpl.
  erewrite bind_run by (erewrite bind_run by reflexivity; rewrite Hex;
                        reflexivity).
  reflexivity.
Qed.

Lemma makedirs_join d n (t : fs) :
  clean d -> plain_name n = true -> exists_ t d = true ->
  makedirs (join d n) t = mkdir (join d n) t.
Proof.
  intros Hd Hn Hex.
  apply (makedirs_head_exists _ d n);
    [apply split_join; auto using plain_name_no_sep | apply Hd |
     apply plain_name_nonempty, Hn | exact Hex].
Qed.

(** [copy2] writes one file, at the destination or below it. *)
Lemma copy2_outside src dst (t : fs) q :
  q <> dst -> below dst q = false -> snd (copy2 src dst t) !! q = t !! q.
Proof.
  intros Hq Hb. unfold copy2.
  set (dst' := if isdir t dst then join dst (basename src) else dst).
  assert (Hdst' : q <> dst').
  { unfold dst'. destruct (isdir t dst); [|exact Hq]. intros ->.
    rewrite below_join in Hb; [discriminate |].
    apply no_sep_isabs, basename_no_sep. }
  destruct (String.eqb src dst'); [reflexivity |].
  destruct (t !! src) as [[|content]|]; try reflexivity.
  destruct (t !! dst') as [[|c]|]; try reflexivity;
    (destruct (parent_ok t dst'); [|reflexivity]); simpl;
    apply lookup_insert_ne; congruence.
Qed.

(** What [copy2] has done when it returns the destination itself. *)
Lemma copy2_Ok src dst (t t' : fs) f :
  copy2 src dst t = (Ok f, t') ->
  exists content,
    t !! src = Some (File content) /\ t' = <[f := File content]> t /\
    f = (if isdir t dst then join dst (basename src) else dst).
Proof.
  unfold copy2.
  set (dst' := if isdir t dst then join dst (basename src) else dst).
  destruct (String.eqb src dst'); [discriminate |].
  destruct (t !! src) as [[|content]|]; try discriminate.
  destruct (t !! dst') as [[|c]|]; try discriminate;
    (destruct (parent_ok t dst'); [|discriminate]);
    intros [= <- <-]; eauto.
Qed.

Lemma write_file_outside p content (t : fs) q :
  q <> p -> snd (write_file p content t) !! q = t !! q.
Proof.
  intros Hq. unfold write_file.
  destruct (t !! p) as [[|c]|]; try reflexivity;
    (destruct (parent_ok t p); [|reflexivity]); simpl;
    apply lookup_insert_ne; congruence.
Qed.

End FSFacts.

(* ===================================================================== *)
(** * The state of the collator *)
(* ===================================================================== *)

Module WorldFacts.
Import Path FS Collator PyFacts.


Lemma dict_keys_alter {V} (f : V -> V) i (d : dict V) :
  dict_keys (alter (fun kv => (fst kv, f (snd kv))) i d) = dict_keys d.
Proof.
  unfold dict_keys. revert i. induction d as [|[k v] d IH]; intros [|i];
    simpl; try reflexivity.
  f_equal. apply IH.
Qed.

Lemma keeps_log I level args : on_files I -> keeps I (log level args).
Proof. intros HI w Hw. simpl. eapply HI; [| | |exact Hw]; reflexivity. Qed.

Lemma keeps_logf I level template args :
  on_files I -> keeps I (logf level template args).
Proof.
  intros HI. unfold logf. apply keeps_bind; [apply keeps_lift |].
  intros text. apply keeps_log, HI.
Qed.

Lemma keeps_update_xtal I i f : on_files I -> keeps I (update_xtal i f).
Proof.
  intros HI w Hw. simpl. eapply HI; [| | |exact Hw]; try reflexivity.
  simpl. apply dict_keys_alter.
Qed.

Lemma keeps_with_meta_history I f :
  on_files I -> keeps I (modify (with_meta_history f)).
Proof. intros HI w Hw. simpl. eapply HI; [| | |exact Hw]; reflexivity. Qed.

Lemma keeps_with_xtals I a n : on_files I -> keeps I (modify (with_xtals a n)).
Proof. intros HI w Hw. simpl. eapply HI; [| | |exact Hw]; reflexivity. Qed.

Lemma keeps_get_xtal I i : keeps I (get_xtal i).
Proof.
  unfold get_xtal. apply keeps_bind; [apply keeps_gets |].
  intros [[k x]|]; [apply keeps_ret | apply keeps_raise].
Qed.

Lemma keeps_load I r : keeps I (load r).
Proof.
  unfold load. apply keeps_bind; [apply keeps_gets | intros o; apply keeps_getitem].
Qed.

Lemma keeps_get_version_dir I : keeps I get_version_dir.
Proof.
  unfold get_version_dir. apply keeps_bind; [apply keeps_gets |].
  intros [d|]; [apply keeps_ret | apply keeps_raise].
Qed.

(** A file-system operation keeps what it keeps of the file system. *)
Lemma keeps_on_fs {A} (I : world -> Prop) (m : M fs A) :
  (forall w, I w -> I (with_fs (fun _ => snd (m (w_fs w))) w)) ->
  keeps I (on_fs m).
Proof.
  intros H w Hw. unfold on_fs. specialize (H w Hw).
  destruct (m (w_fs w)) as [r t]. exact H.
Qed.

Lemma read_file_fs p (t : fs) : snd (read_file p t) = t.
Proof. unfold read_file. destruct (t !! p) as [[|c]|]; reflexivity. Qed.

Lemma keeps_read_file I p : on_files I -> keeps I (on_fs (read_file p)).
Proof.
  intros HI. apply keeps_on_fs. intros w Hw. rewrite read_file_fs.
  eapply HI; [| | |exact Hw]; reflexivity.
Qed.


Lemma fs_is_on_files t : on_files (fs_is t).
Proof. intros w w' Hfs _ _ Hw. unfold fs_is in *. congruence. Qed.

End WorldFacts.

(* ===================================================================== *)
(** * The history merge of the collator *)
(* ===================================================================== *)

Module CollatorFacts.
Import Path FS Collator PyFacts.

Lemma logf_Ok level template args u w w' :
  logf level template args w = (Ok u, w') ->
  exists text, format template args = Ok text /\
    w' = with_log (fun l => l ++ [mk_log_entry level (String.concat " " [text])]) w.
Proof.
  unfold logf. intros H. apply bind_Ok in H as (text & w1 & H1 & H2).
  apply lift_Ok in H1 as [H1 <-]. exists text. split; [exact H1 |].
  unfold log in H2. apply modify_Ok in H2. exact H2.
Qed.


Lemma logf_run level template args w text :
  format template args = Ok text ->
  logf level template args w =
    (Ok tt, with_log (fun l => l ++ [mk_log_entry level (String.concat " " [text])]) w).
Proof. intros H. unfold logf, bind, lift. rewrite H. reflexivity. Qed.

Lemma logf_1_run level template a w text :
  format template [a] = Ok text ->
  logf level template [a] w =
    (Ok tt, with_log (fun l => l ++ [mk_log_entry level (String.concat " " [text])]) w).
Proof. apply logf_run. Qed.

Lemma get_xtal_run i n x w :
  crystals (w_meta w) !! i = Some (n, x) -> get_xtal i w = (Ok x, w).
Proof. intros H. unfold get_xtal, bind, gets. rewrite H. reflexivity. Qed.

Lemma update_xtal_Ok i f u w w' :
  update_xtal i f w = (Ok u, w') ->
  w' = with_crystals (alter (fun kv => (fst kv, f (snd kv))) i) w.
Proof. unfold update_xtal. intros H. apply modify_Ok in H. exact H. Qed.

Lemma get_xtal_Ok i x w w' :
  get_xtal i w = (Ok x, w') ->
  (exists k, crystals (w_meta w) !! i = Some (k, x)) /\ w' = w.
Proof.
  unfold get_xtal. intros H. apply bind_Ok in H as (o & w1 & H1 & H2).
  apply gets_Ok in H1 as [-> <-]. destruct (crystals (w_meta w) !! i) as [[k y]|].
  - apply ret_Ok in H2 as [-> ->]. eauto.
  - discriminate.
Qed.

Lemma load_Ok r x w w' :
  load r w = (Ok x, w') -> deref w r = Some x /\ w' = w.
Proof.
  unfold load. intros H. apply bind_Ok in H as (o & w1 & H1 & H2).
  apply gets_Ok in H1 as [-> <-]. apply getitem_Ok in H2 as [H2 <-]. auto.
Qed.

Lemma parse_date_Ok E v d w w' :
  parse_date E v w = (Ok d, w') ->
  exists s, v = PyStr s /\ to_datetime E s = Some d /\ w' = w.
Proof.
  destruct v as [|s]; simpl; [discriminate |].
  destruct (to_datetime E s) as [d'|] eqn:Hd; [|discriminate].
  intros H. apply ret_Ok in H as [-> ->]. exists s. auto.
Qed.

Lemma alter_pair_compose {A B} (f g : B -> B) i (l : list (A * B)) :
  alter (fun kv => (fst kv, f (snd kv))) i
    (alter (fun kv => (fst kv, g (snd kv))) i l) =
  alter (fun kv => (fst kv, f (g (snd kv)))) i l.
Proof.
  rewrite list_alter_alter_eq. apply list_alter_ext; [|reflexivity].
  intros [a b] _. reflexivity.
Qed.

Lemma deprecation_block_Ok deps i name u w w' :
  (if dict_mem deps name then
     update_xtal i (set_status "deprecated") ;;
     why <- getitem (dict_get deps name) ;
     update_xtal i (set_reason why) ;;
     info "Deprecating xtal {}" [name]
   else ret tt) w = (Ok u, w') ->
  crystals (w_meta w') =
    alter (fun kv => (fst kv, deprecate deps name (snd kv))) i
      (crystals (w_meta w)) /\
  same_but_crystals_log w w'.
Proof.
  unfold dict_mem, deprecate. destruct (dict_get deps name) as [why|].
  - intros H. apply bind_Ok in H as (? & w1 & H1 & H).
    apply update_xtal_Ok in H1 as ->.
    apply bind_Ok in H as (why' & w2 & H2 & H).
    apply getitem_Ok in H2 as [[= <-] <-].
    apply bind_Ok in H as (? & w3 & H3 & H).
    apply update_xtal_Ok in H3 as ->.
    apply logf_Ok in H as (text & _ & ->). simpl.
    rewrite alter_pair_compose. split; [reflexivity | repeat split].
  - intros H. apply ret_Ok in H as [_ <-]. split; [|repeat split].
    symmetry. apply list_alter_id. intros [k x]. reflexivity.
Qed.

Lemma munge_xtal_Ok E deps all new i name w all' new' w' :
  munge_xtal E deps (all, new) (i, name) w = (Ok (all', new'), w') ->
  exists st,
    all' = dict_set all name (Cur i) /\
    crystals (w_meta w') =
      alter (fun kv => (fst kv, deprecate deps name (set_status st (snd kv)))) i
        (crystals (w_meta w)) /\
    same_but_crystals_log w w' /\
    ((dict_get all name = None /\ st = "new" /\
      new' = dict_set new name (Cur i)) \/
     (exists old_ref old x old_date new_date old_dt new_dt,
        dict_get all name = Some old_ref /\ deref w old_ref = Some old /\
        last_updated old = Some (PyStr old_date) /\
        (exists k, crystals (w_meta w) !! i = Some (k, x)) /\
        last_updated x = Some (PyStr new_date) /\
        old_date <> "" /\ new_date <> "" /\
        to_datetime E old_date = Some old_dt /\
        to_datetime E new_date = Some new_dt /\
        (((old_dt < new_dt)%Z /\ st = "supersedes" /\
          new' = dict_set new name (Cur i)) \/
         ((new_dt <= old_dt)%Z /\ st = "unchanged" /\ new' = new)))).
Proof.
  unfold munge_xtal. intros H.
  apply bind_Ok in H as (new1 & w1 & Hclass & H).
  apply bind_Ok in H as (u & w2 & Hdep & H).
  apply ret_Ok in H as [[= <- <-] <-].
  apply deprecation_block_Ok in Hdep as (Hc2 & Hs2).
  destruct (dict_mem all name) eqn:Hmem.
  - unfold dict_mem in Hmem.
    apply bind_Ok in Hclass as (old_ref & w3 & H1 & Hclass).
    apply getitem_Ok in H1 as [Hget <-].
    apply bind_Ok in Hclass as (old & w3 & H1 & Hclass).
    apply load_Ok in H1 as [Hold ->].
    apply bind_Ok in Hclass as (old_date & w3 & H1 & Hclass).
    apply getitem_Ok in H1 as [Hod <-].
    apply bind_Ok in Hclass as (x & w3 & H1 & Hclass).
    apply get_xtal_Ok in H1 as [Hx ->].
    apply bind_Ok in Hclass as (new_date & w3 & H1 & Hclass).
    apply getitem_Ok in H1 as [Hnd <-].
    destruct (negb (truthy old_date) || negb (truthy new_date)) eqn:Htr.
    + apply bind_Ok in Hclass as (? & w3 & H1 & _).
      apply logf_Ok in H1 as (text & Hf & _). discriminate Hf.
    + apply orb_false_elim in Htr as [Ho Hn].
      apply negb_false_iff in Ho, Hn.
      apply bind_Ok in Hclass as (new_dt & w3 & H1 & Hclass).
      apply parse_date_Ok in H1 as (ns & -> & Hnp & ->).
      apply bind_Ok in Hclass as (old_dt & w3 & H1 & Hclass).
      apply parse_date_Ok in H1 as (os & -> & Hop & ->).
      simpl in Ho, Hn. apply negb_true_iff, String.eqb_neq in Ho, Hn.
      destruct (old_dt <? new_dt)%Z eqn:Hlt.
      * apply bind_Ok in Hclass as (? & w3 & H1 & Hclass).
        apply logf_Ok in H1 as (text & _ & ->).
        apply bind_Ok in Hclass as (? & w3 & H1 & Hclass).
        apply update_xtal_Ok in H1 as ->.
        apply ret_Ok in Hclass as [<- <-].
        exists "supersedes". split; [reflexivity |].
        split; [rewrite Hc2; simpl; apply alter_pair_compose |].
        split; [exact Hs2 |]. right.
        exists old_ref, old, x, os, ns, old_dt, new_dt.
        apply Z.ltb_lt in Hlt. repeat (split; [eassumption || assumption |]).
        left. auto.
      * apply bind_Ok in Hclass as (? & w3 & H1 & Hclass).
        apply update_xtal_Ok in H1 as ->.
        apply ret_Ok in Hclass as [<- <-].
        exists "unchanged". split; [reflexivity |].
        split; [rewrite Hc2; simpl; apply alter_pair_compose |].
        split; [exact Hs2 |]. right.
        exists old_ref, old, x, os, ns, old_dt, new_dt.
        apply Z.ltb_ge in Hlt. repeat (split; [eassumption || assumption |]).
        right. auto.
  - apply bind_Ok in Hclass as (? & w3 & H1 & Hclass).
    apply update_xtal_Ok in H1 as ->.
    apply ret_Ok in Hclass as [<- <-].
    exists "new". split; [reflexivity |].
    split; [rewrite Hc2; simpl; apply alter_pair_compose |].
    split; [exact Hs2 |]. left.
    unfold dict_mem in Hmem. destruct (dict_get all name); [discriminate | auto].
Qed.

Lemma same_but_crystals_log_trans w1 w2 w3 :
  same_but_crystals_log w1 w2 -> same_but_crystals_log w2 w3 ->
  same_but_crystals_log w1 w3.
Proof.
  unfold same_but_crystals_log.
  intros (?&?&?&?&?) (?&?&?&?&?). repeat split; congruence.
Qed.

Lemma munge_loop_Ok E deps items :
  forall all0 new0 w all new w',
  for_fold items (munge_xtal E deps) (all0, new0) w = (Ok (all, new), w') ->
  NoDup (items.*1) -> NoDup (items.*2) ->
  same_but_crystals_log w w' /\
  (forall j, j ∉ items.*1 ->
     crystals (w_meta w') !! j = crystals (w_meta w) !! j) /\
  (forall n, n ∉ items.*2 ->
     dict_get all n = dict_get all0 n /\ dict_get new n = dict_get new0 n) /\
  (forall i name, (i, name) ∈ items ->
     dict_get all name = Some (Cur i) /\
     exists st,
       crystals (w_meta w') !! i =
         (fun kv => (fst kv, deprecate deps name (set_status st (snd kv))))
           <$> crystals (w_meta w) !! i /\
       outcome E all0 new0 (crystals (w_meta w)) new i name st).
Proof.
  induction items as [|[i0 n0] items IH]; intros all0 new0 w all new w' H Hi Hn.
  - simpl in H. apply ret_Ok in H as [[= <- <-] <-].
    split; [repeat split |]. split; [auto |]. split; [auto |].
    intros i name Hin. inversion Hin.
  - simpl in H. apply bind_Ok in H as ([all1 new1] & w1 & Hstep & Hrest).
    rewrite fmap_cons in Hi. rewrite fmap_cons in Hn. simpl in Hi, Hn.
    apply NoDup_cons in Hi as [Hi0 Hi], Hn as [Hn0 Hn].
    apply munge_xtal_Ok in Hstep as (st0 & -> & Hc1 & Hs1 & Hout).
    apply IH in Hrest as (Hs & Hother & Hnames & Hitems); [|assumption..].
    split; [eapply same_but_crystals_log_trans; eassumption |].
    assert (Hnew1 : forall n, n <> n0 -> dict_get new1 n = dict_get new0 n).
    { intros n Hne.
      destruct Hout as [(_ & _ & ->) | (?&?&?&?&?&?&?&_&_&_&_&_&_&_&_&_&
        [(_ & _ & ->) | (_ & _ & ->)])];
        try reflexivity; apply dict_get_set_ne; congruence. }
    split; [|split].
    + intros j Hj. rewrite fmap_cons in Hj. simpl in Hj.
      apply not_elem_of_cons in Hj as [Hj0 Hj].
      rewrite (Hother j Hj), Hc1. apply list_lookup_alter_ne. congruence.
    + intros n Hnn. rewrite fmap_cons in Hnn. simpl in Hnn.
      apply not_elem_of_cons in Hnn as [Hnn0 Hnn].
      destruct (Hnames n Hnn) as [-> ->].
      split; [apply dict_get_set_ne; congruence | apply Hnew1; assumption].
    + intros i name Hin. apply elem_of_cons in Hin as [[= -> ->] | Hin].
      * destruct (Hnames n0 Hn0) as [Ha Hb].
        split; [rewrite Ha; apply dict_get_set_eq |].
        exists st0. split.
        { rewrite (Hother i0 Hi0), Hc1. apply list_lookup_alter_eq. }
        unfold outcome. rewrite Hb.
        destruct Hout as [(Hg & -> & ->) |
          (old_ref & old & x & od & nd & odt & ndt & Hg & Hd & Ho & Hx & Hnx &
           Hone & Hnne & Hop & Hnp & Hcmp)].
        -- left. split; [assumption |]. split; [reflexivity |].
           apply dict_get_set_eq.
        -- right. exists old_ref, old, x, od, nd, odt, ndt.
           split; [assumption |]. split; [eauto |].
           repeat (split; [assumption |]).
           destruct Hcmp as [(Hlt & -> & ->) | (Hge & -> & ->)].
           ++ left. split; [assumption |]. split; [reflexivity |].
              apply dict_get_set_eq.
           ++ right. auto.
      * assert (Hne : name <> n0).
        { intros ->. apply Hn0. apply list_elem_of_fmap. exists (i, n0). auto. }
        assert (Hnei : i <> i0).
        { intros ->. apply Hi0. apply list_elem_of_fmap. exists (i0, name). auto. }
        destruct (Hitems i name Hin) as (Hall & st & Hrec & Hout').
        split; [assumption |]. exists st. split.
        { rewrite Hrec, Hc1. rewrite list_lookup_alter_ne by congruence.
          reflexivity. }
        unfold outcome in *.
        rewrite dict_get_set_ne in Hout' by congruence.
        rewrite (Hnew1 name Hne) in Hout'.
        rewrite Hc1 in Hout'.
        rewrite list_lookup_alter_ne in Hout' by congruence.
        exact Hout'.
Qed.


(** ** The positions of a dictionary *)

Lemma positions_lookup {V} (d : dict V) i name :
  (i, name) ∈ positions d <-> exists x, d !! i = Some (name, x).
Proof.
  unfold positions. rewrite list_elem_of_lookup. split.
  - intros (j & Hj). apply list_lookup_imap_Some in Hj as ([k x] & Hx & [= -> ->]).
    eauto.
  - intros (x & Hx). exists i. rewrite list_lookup_imap, Hx. reflexivity.
Qed.

Lemma positions_fst {V} (d : dict V) : (positions d).*1 = seq 0 (length d).
Proof.
  unfold positions. apply list_eq. intros i.
  rewrite list_lookup_fmap, list_lookup_imap.
  destruct (d !! i) as [x|] eqn:Hx; simpl.
  - symmetry. apply lookup_seq. split; [reflexivity |].
    eapply lookup_lt_Some, Hx.
  - symmetry. apply lookup_seq_ge. apply lookup_ge_None in Hx. lia.
Qed.

Lemma positions_snd {V} (d : dict V) : (positions d).*2 = dict_keys d.
Proof.
  unfold positions, dict_keys. apply list_eq. intros i.
  rewrite !list_lookup_fmap, list_lookup_imap.
  destruct (d !! i) as [[k x]|]; reflexivity.
Qed.

(** ** The records of the earlier versions *)

Lemma munge_old_xtals_keys xs : forall acc n,
  n ∈ dict_keys (fold_left munge_old_xtal xs acc) <->
  n ∈ dict_keys acc \/ n ∈ dict_keys xs.
Proof.
  unfold dict_keys.
  induction xs as [|[k x] xs IH]; intros acc n; simpl.
  - split; [auto | intros [?|H]; [assumption | inversion H]].
  - rewrite IH. unfold munge_old_xtal at 1. simpl.
    fold (dict_keys (dict_set acc k (Hist x))).
    rewrite dict_keys_set, elem_of_cons. unfold dict_keys. tauto.
Qed.

Lemma merged_history_keys_from history : forall acc n,
  n ∈ dict_keys
        (fold_left (fun acc metad =>
                      fold_left munge_old_xtal (crystals metad) acc)
           history acc) <->
  n ∈ dict_keys acc \/
  exists metad, metad ∈ history /\ n ∈ dict_keys (crystals metad).
Proof.
  induction history as [|m history IH]; intros acc n; simpl.
  - split; [auto | intros [?|(? & H & _)]; [assumption | inversion H]].
  - rewrite IH, munge_old_xtals_keys. split.
    + intros [[?|?]|(m' & ? & ?)]; [auto | right; exists m | right; exists m'];
        (split; [|assumption]); [apply list_elem_of_here | apply list_elem_of_further; assumption].
    + intros [?|(m' & Hm & ?)]; [auto |].
      apply elem_of_cons in Hm as [->|Hm]; [auto | right; eauto].
Qed.

(** A tag is in the merged map exactly if a document of an earlier
    version has it. *)
Lemma merged_history_None history n :
  dict_get (merged_history history) n = None <->
  forall metad, metad ∈ history -> dict_get (crystals metad) n = None.
Proof.
  rewrite dict_get_None. unfold merged_history.
  rewrite merged_history_keys_from. split.
  - intros H m Hm. apply dict_get_None. intros Hin. apply H. right. eauto.
  - intros H [Hnil | (m & Hm & Hin)]; [inversion Hnil |].
    revert Hin. apply dict_get_None, H, Hm.
Qed.

Lemma munge_old_xtals_Hist xs : forall acc n r,
  (forall n r, dict_get acc n = Some r -> exists x, r = Hist x) ->
  dict_get (fold_left munge_old_xtal xs acc) n = Some r ->
  exists x, r = Hist x.
Proof.
  induction xs as [|[k x] xs IH]; intros acc n r Hacc; simpl.
  - apply Hacc.
  - apply IH. intros n' r'. unfold munge_old_xtal. simpl.
    rewrite dict_get_set. destruct (String.eqb k n').
    + intros [= <-]. eauto.
    + apply Hacc.
Qed.

(** The merged map holds records of the earlier versions only. *)
Lemma merged_history_Hist history n r :
  dict_get (merged_history history) n = Some r -> exists x, r = Hist x.
Proof.
  unfold merged_history.
  assert (Hnil : forall n r, dict_get ([] : dict xref) n = Some r ->
                             exists x, r = Hist x) by (intros ? ? [=]).
  revert Hnil. generalize ([] : dict xref).
  induction history as [|m history IH]; intros acc Hacc; simpl.
  - apply Hacc.
  - apply IH. intros n' r'. apply munge_old_xtals_Hist. exact Hacc.
Qed.

Lemma munge_old_metas_Ok history : forall count acc w count' all0 w',
  for_fold history munge_old_meta (count, acc) w = (Ok (count', all0), w') ->
  all0 = fold_left (fun acc metad =>
                      fold_left munge_old_xtal (crystals metad) acc)
           history acc /\
  crystals (w_meta w') = crystals (w_meta w) /\
  same_but_crystals_log w w'.
Proof.
  induction history as [|m history IH]; intros count acc w count' all0 w' H.
  - simpl in H. apply ret_Ok in H as [[= <- <-] <-]. repeat split.
  - simpl in H. apply bind_Ok in H as ([c1 a1] & w1 & Hstep & Hrest).
    unfold munge_old_meta in Hstep.
    apply bind_Ok in Hstep as (? & w2 & H1 & Hstep).
    apply logf_Ok in H1 as (t1 & _ & ->).
    apply bind_Ok in Hstep as (? & w3 & H2 & Hstep).
    apply logf_Ok in H2 as (t2 & _ & ->).
    apply ret_Ok in Hstep as [[= <- <-] <-].
    apply IH in Hrest as (-> & Hc & Hs). split; [reflexivity |].
    split; [rewrite Hc; reflexivity |].
    eapply same_but_crystals_log_trans; [|exact Hs]. repeat split.
Qed.

Lemma get_deprecations_Ok self d w w' :
  get_deprecations self w = (Ok d, w') ->
  d = declared_deprecations self /\ w' = w.
Proof.
  unfold get_deprecations, declared_deprecations.
  destruct (cfg_overrides self) as [[[deps|]]|]; intros H;
    apply ret_Ok in H as [<- <-]; auto.
Qed.

(** ** [_munge_history] when it returns *)

Lemma munge_history_Ok E self w all new w' :
  _munge_history E self w = (Ok (all, new), w') ->
  NoDup (dict_keys (crystals (w_meta w))) ->
  let deps := declared_deprecations self in
  let all0 := merged_history (meta_history w) in
  w_fs w' = w_fs w /\
  (forall n, n ∉ dict_keys (crystals (w_meta w)) ->
     dict_get all n = dict_get all0 n /\ dict_get new n = None) /\
  (forall i name x, crystals (w_meta w) !! i = Some (name, x) ->
     dict_get all name = Some (Cur i) /\
     exists st,
       crystals (w_meta w') !! i =
         Some (name, deprecate deps name (set_status st x)) /\
       outcome E all0 [] (crystals (w_meta w)) new i name st).
Proof.
  intros H Hnd deps all0. unfold _munge_history in H.
  apply bind_Ok in H as (d & w1 & H1 & H).
  apply get_deprecations_Ok in H1 as [-> ->]. fold deps in H.
  apply bind_Ok in H as (? & w2 & H2 & H).
  apply logf_Ok in H2 as (t2 & _ & ->).
  apply bind_Ok in H as (history & w3 & H3 & H).
  apply gets_Ok in H3 as [-> <-].
  apply bind_Ok in H as ([count a0] & w4 & H4 & H).
  apply munge_old_metas_Ok in H4 as (-> & Hc4 & Hs4).
  simpl in Hs4, Hc4. change (meta_history _) with (meta_history w) in H.
  fold (merged_history (meta_history w)) in H. fold all0 in H.
  apply bind_Ok in H as (? & w5 & H5 & H).
  apply logf_Ok in H5 as (t5 & _ & ->).
  apply bind_Ok in H as (items & w6 & H6 & H).
  apply gets_Ok in H6 as [-> <-]. simpl in H. rewrite Hc4 in H.
  apply bind_Ok in H as ([all1 new1] & w7 & H7 & H).
  apply munge_loop_Ok in H7 as (Hs7 & _ & Hnames & Hitems).
  2: { rewrite positions_fst. apply NoDup_seq. }
  2: { rewrite positions_snd. exact Hnd. }
  apply bind_Ok in H as (? & w8 & H8 & H).
  apply logf_Ok in H8 as (t8 & _ & ->).
  apply bind_Ok in H as (? & w9 & H9 & H).
  apply logf_Ok in H9 as (t9 & _ & ->).
  apply bind_Ok in H as (? & w10 & H10 & H).
  apply modify_Ok in H10 as ->.
  apply ret_Ok in H as [[= <- <-] <-]. simpl.
  simpl in Hs7, Hnames, Hitems. rewrite Hc4 in Hitems.
  split.
  { destruct Hs7 as (-> & _). simpl. apply Hs4. }
  split.
  { intros n Hn. apply Hnames. rewrite positions_snd. exact Hn. }
  intros i name xi Hx.
  destruct (Hitems i name) as (Hall & st & Hrec & Hout).
  { apply positions_lookup. eauto. }
  split; [exact Hall |]. exists st. rewrite Hrec, Hx. split; [reflexivity |].
  exact Hout.
Qed.


(** ** When [_munge_history] returns *)

Lemma truthy_PyStr s : s <> "" -> truthy (PyStr s) = true.
Proof. intros H. simpl. apply String.eqb_neq in H. rewrite H. reflexivity. Qed.

Lemma deprecation_block_returns deps i name w :
  exists w',
    (if dict_mem deps name then
       update_xtal i (set_status "deprecated") ;;
       why <- getitem (dict_get deps name) ;
       update_xtal i (set_reason why) ;;
       info "Deprecating xtal {}" [name]
     else ret tt) w = (Ok tt, w').
Proof.
  unfold dict_mem. destruct (dict_get deps name) as [why|];
    [|eexists; reflexivity].
  erewrite bind_run by reflexivity. erewrite bind_run by reflexivity.
  erewrite bind_run by reflexivity. eexists. apply logf_1_run. reflexivity.
Qed.

(** The pass for a crystal returns when the crystal is new, or is dated
    as its record of the earlier versions is. *)
Lemma munge_xtal_returns E deps all new i name x w :
  crystals (w_meta w) !! i = Some (name, x) ->
  (forall old_ref, dict_get all name = Some old_ref ->
     exists old, old_ref = Hist old /\ dated E old /\ dated E x) ->
  exists r w', munge_xtal E deps (all, new) (i, name) w = (Ok r, w').
Proof.
  intros Hx Hold. unfold munge_xtal.
  assert (Hclass : exists new1 w1,
    (if dict_mem all name then
       old_ref <- getitem (dict_get all name) ;
       old_xtal_data <- load old_ref ;
       old_date <- getitem (last_updated old_xtal_data) ;
       xtal_data <- get_xtal i ;
       new_date <- getitem (last_updated xtal_data) ;
       if negb (truthy old_date) || negb (truthy new_date) then
         warn "Dates not defined for {}, must assume xtal is updated {} {}"
           [name] ;;
         update_xtal i (set_status "supersedes") ;;
         ret (dict_set new name (Cur i))
       else
         new_dt <- parse_date E new_date ;
         old_dt <- parse_date E old_date ;
         if (old_dt <? new_dt)%Z then
           info "Xtal {} is updated" [name] ;;
           update_xtal i (set_status "supersedes") ;;
           ret (dict_set new name (Cur i))
         else
           update_xtal i (set_status "unchanged") ;;
           ret new
     else
       update_xtal i (set_status "new") ;;
       ret (dict_set new name (Cur i))) w = (Ok new1, w1)).
  { unfold dict_mem. destruct (dict_get all name) as [old_ref|] eqn:Hget.
    - destruct (Hold old_ref eq_refl)
        as (old & -> & (od & odt & Hod & Hone & Hodt)
                 & (nd & ndt & Hnd & Hnne & Hndt)).
      erewrite bind_run by reflexivity. erewrite bind_run by reflexivity.
      erewrite bind_run by (rewrite Hod; reflexivity).
      erewrite bind_run by (eapply get_xtal_run, Hx).
      erewrite bind_run by (rewrite Hnd; reflexivity).
      rewrite !truthy_PyStr by assumption. cbn [negb orb]. cbv iota.
      erewrite bind_run by (simpl; rewrite Hndt; reflexivity).
      erewrite bind_run by (simpl; rewrite Hodt; reflexivity).
      destruct (odt <? ndt)%Z.
      + erewrite bind_run by (apply logf_1_run; reflexivity).
        erewrite bind_run by reflexivity. eexists _, _. reflexivity.
      + erewrite bind_run by reflexivity. eexists _, _. reflexivity.
    - erewrite bind_run by reflexivity. eexists _, _. reflexivity. }
  destruct Hclass as (new1 & w1 & Hclass).
  erewrite bind_run by exact Hclass.
  destruct (deprecation_block_returns deps i name w1) as (w2 & Hdep).
  erewrite bind_run by exact Hdep. eexists _, _. reflexivity.
Qed.

Lemma dated_same E x x' :
  last_updated x' = last_updated x -> dated E x -> dated E x'.
Proof. unfold dated. intros ->. auto. Qed.

Lemma last_updated_deprecate deps name st x :
  last_updated (deprecate deps name (set_status st x)) = last_updated x.
Proof. unfold deprecate. destruct (dict_get deps name); reflexivity. Qed.

(** The loop over the upload returns. *)
Lemma munge_loop_returns E deps (c0 : dict xtal_data) (all0 : dict xref) :
  NoDup (dict_keys c0) ->
  (forall n r, dict_get all0 n = Some r -> exists old, r = Hist old) ->
  (forall i name x old, c0 !! i = Some (name, x) ->
     dict_get all0 name = Some (Hist old) -> dated E old /\ dated E x) ->
  forall items done all new w,
    positions c0 = done ++ items ->
    (forall j n x, c0 !! j = Some (n, x) ->
       exists x', crystals (w_meta w) !! j = Some (n, x') /\
                  last_updated x' = last_updated x) ->
    (forall n, n ∉ done.*2 -> dict_get all n = dict_get all0 n) ->
    exists r w', for_fold items (munge_xtal E deps) (all, new) w = (Ok r, w').
Proof.
  intros Hnd Hhist Hdated.
  induction items as [|[i name] items IH]; intros done all new w Hpos Hrec Hall.
  - eexists _, _. reflexivity.
  - assert (Hx : exists x, c0 !! i = Some (name, x)).
    { apply positions_lookup. rewrite Hpos. apply elem_of_app. right.
      apply list_elem_of_here. }
    destruct Hx as (x & Hx).
    destruct (Hrec i name x Hx) as (x' & Hx' & Hdate).
    assert (Hnew : name ∉ done.*2).
    { pose proof Hnd as Hnd'. rewrite <- positions_snd, Hpos in Hnd'.
      rewrite fmap_app, fmap_cons in Hnd'. simpl in Hnd'.
      apply NoDup_app in Hnd' as (_ & Hnd' & _). intros Hin.
      apply (Hnd' name Hin). apply list_elem_of_here. }
    destruct (munge_xtal_returns E deps all new i name x' w Hx')
      as ([all' new'] & w1 & Hrun).
    { intros old_ref Hget. rewrite (Hall name Hnew) in Hget.
      destruct (Hhist name old_ref Hget) as (old & ->). exists old.
      split; [reflexivity |].
      destruct (Hdated i name x old Hx Hget) as [Ho Hn].
      split; [exact Ho |]. apply (dated_same E x x' Hdate Hn). }
    pose proof (munge_xtal_Ok _ _ _ _ _ _ _ _ _ _ Hrun)
      as (st & -> & Hcrystals & _ & _).
    simpl. erewrite bind_run by exact Hrun.
    apply (IH (done ++ [(i, name)])).
    + rewrite <- app_assoc. exact Hpos.
    + intros j n y Hy. rewrite Hcrystals.
      destruct (Hrec j n y Hy) as (y' & Hy' & Hdy).
      destruct (decide (j = i)) as [->|Hne].
      * rewrite list_lookup_alter_eq, Hy'. simpl. eexists. split; [reflexivity |].
        rewrite last_updated_deprecate. exact Hdy.
      * rewrite list_lookup_alter_ne by congruence. eauto.
    + intros n Hn. rewrite fmap_app in Hn. apply not_elem_of_app in Hn as [Hn Hne].
      rewrite dict_get_set_ne; [apply Hall, Hn |].
      intros ->. apply Hne. apply list_elem_of_here.
Qed.

Lemma munge_old_metas_returns history : forall count acc w,
  exists r w', for_fold history munge_old_meta (count, acc) w = (Ok r, w').
Proof.
  induction history as [|m history IH]; intros count acc w.
  - eexists _, _. reflexivity.
  - simpl. unfold munge_old_meta at 1. unfold info.
    erewrite bind_run.
    2:{ erewrite bind_run by (apply logf_run; reflexivity).
        erewrite bind_run by (apply logf_run; reflexivity). reflexivity. }
    apply IH.
Qed.

Lemma get_deprecations_returns self w :
  get_deprecations self w = (Ok (declared_deprecations self), w).
Proof.
  unfold get_deprecations, declared_deprecations.
  destruct (cfg_overrides self) as [[[deps|]]|]; reflexivity.
Qed.

(** [_munge_history] returns when the tags of the upload are distinct and
    every crystal that an earlier version has is dated. *)
Lemma munge_history_returns E self w :
  NoDup (dict_keys (crystals (w_meta w))) -> history_dated E w ->
  exists all new w', _munge_history E self w = (Ok (all, new), w').
Proof.
  intros Hnd Hdated. unfold _munge_history, info.
  erewrite bind_run by apply get_deprecations_returns.
  erewrite bind_run by (apply logf_run; reflexivity).
  erewrite bind_run by reflexivity.
  match goal with |- exists _ _ _, bind (for_fold ?h _ ?s) _ ?w0 = _ =>
    destruct (munge_old_metas_returns h 0 [] w0) as ([count all0] & w1 & Hold)
  end.
  erewrite bind_run by exact Hold. cbv beta iota.
  apply munge_old_metas_Ok in Hold as (Hall0 & Hc & _).
  change (all0 = merged_history (meta_history w)) in Hall0.
  erewrite bind_run by (apply logf_run; reflexivity).
  erewrite bind_run by reflexivity.
  assert (Hhist : forall n r, dict_get all0 n = Some r -> exists old, r = Hist old).
  { intros n r Hget. rewrite Hall0 in Hget. eapply merged_history_Hist, Hget. }
  assert (Hboth : forall i name x old,
            crystals (w_meta w) !! i = Some (name, x) ->
            dict_get all0 name = Some (Hist old) -> dated E old /\ dated E x).
  { intros i name x old Hx Hget. rewrite Hall0 in Hget.
    apply (Hdated i name x old Hx Hget). }
  match goal with |- exists _ _ _, bind (for_fold ?l _ ?s) _ ?w0 = _ =>
    destruct (munge_loop_returns E (declared_deprecations self)
                (crystals (w_meta w)) all0 Hnd Hhist Hboth
                l [] all0 [] w0)
      as ([all new] & w2 & Hloop)
  end.
  - simpl. rewrite Hc. reflexivity.
  - intros j n x Hx. exists x. split; [|reflexivity].
    simpl. rewrite Hc. exact Hx.
  - reflexivity.
  - erewrite bind_run by exact Hloop. cbv beta iota.
    erewrite bind_run by (apply logf_run; reflexivity).
    erewrite bind_run by (apply logf_run; reflexivity).
    erewrite bind_run by reflexivity. eexists _, _, _. reflexivity.
Qed.

(** ** The status of the crystals of the upload *)


(** Whenever a crystal of the upload is in the merged history and one of
    the two dates is missing, [_munge_history] raises: nothing is
    returned and no status is set for the caller to see. *)
Lemma munge_history_missing_date_raises E self w i name x old :
  NoDup (dict_keys (crystals (w_meta w))) ->
  crystals (w_meta w) !! i = Some (name, x) ->
  dict_get (merged_history (meta_history w)) name = Some (Hist old) ->
  date_missing (last_updated old) \/ date_missing (last_updated x) ->
  exists e, fst (_munge_history E self w) = Raise e.
Proof.
  intros Hnd Hx Hold Hmiss.
  destruct (_munge_history E self w) as [[[all new]|e] w'] eqn:Hrun;
    [exfalso | eauto].
  apply munge_history_Ok in Hrun as (_ & _ & Hitems); [|exact Hnd].
  destruct (Hitems i name x Hx) as (_ & st & _ & Hout).
  destruct Hout as [(Hnone & _) |
    (old_ref & old' & x' & od & nd & odt & ndt & Hg & (w1 & Hd) & Ho & (k & Hx') &
     Hn & Hone & Hnne & _)].
  - congruence.
  - rewrite Hold in Hg. injection Hg as <-. simpl in Hd. injection Hd as <-.
    rewrite Hx in Hx'. injection Hx' as <- <-.
    destruct Hmiss as [Hm | Hm]; [rewrite Ho in Hm | rewrite Hn in Hm];
      simpl in Hm; apply negb_false_iff, String.eqb_eq in Hm; congruence.
Qed.

(** When [_munge_history] returns, a crystal of the upload that is in the
    merged history has both dates, and they decide its status: a later
    date gives [supersedes] and a place among the new or updated, any
    other date gives [unchanged] and no such place. The status is
    overwritten if the crystal is deprecated. *)
Lemma munge_history_compares_dates E self w all new w' i name x old :
  _munge_history E self w = (Ok (all, new), w') ->
  NoDup (dict_keys (crystals (w_meta w))) ->
  crystals (w_meta w) !! i = Some (name, x) ->
  dict_get (merged_history (meta_history w)) name = Some (Hist old) ->
  exists old_date new_date old_dt new_dt,
    last_updated old = Some (PyStr old_date) /\
    last_updated x = Some (PyStr new_date) /\
    to_datetime E old_date = Some old_dt /\
    to_datetime E new_date = Some new_dt /\
    ((old_dt < new_dt)%Z ->
       deref w' (Cur i) =
         Some (deprecate (declared_deprecations self) name
                 (set_status "supersedes" x)) /\
       dict_get new name = Some (Cur i)) /\
    ((new_dt <= old_dt)%Z ->
       deref w' (Cur i) =
         Some (deprecate (declared_deprecations self) name
                 (set_status "unchanged" x)) /\
       dict_get new name = None).
Proof.
  intros Hrun Hnd Hx Hold.
  apply munge_history_Ok in Hrun as (_ & _ & Hitems); [|exact Hnd].
  destruct (Hitems i name x Hx) as (_ & st & Hrec & Hout).
  destruct Hout as [(Hnone & _) |
    (old_ref & old' & x' & od & nd & odt & ndt & Hg & (w1 & Hd) & Ho & (k & Hx') &
     Hn & _ & _ & Hop & Hnp & Hcmp)].
  - congruence.
  - rewrite Hold in Hg. injection Hg as <-. simpl in Hd. injection Hd as <-.
    rewrite Hx in Hx'. injection Hx' as <- <-.
    exists od, nd, odt, ndt. repeat (split; [assumption |]).
    simpl. rewrite Hrec. simpl.
    destruct Hcmp as [(Hlt & -> & Hnew) | (Hge & -> & Hnew)]; split; intros Hc;
      try lia; split; try reflexivity; assumption.
Qed.

(** C1: the case of a missing date, at the inputs where the code fails.
    Upload 1 gave the crystal ABC123 a date. In the next upload the
    validator found no date for it and wrote the record without the key
    [last_updated]: [_munge_history] raises [KeyError]. With the key
    there and the value null or empty, the call that formats the warning
    raises [IndexError], since the template has three fields and one
    argument: no warning is logged and nothing is returned, where the
    specification has the status [supersedes], a warning and a normal
    end. *)
Theorem C1_missing_date_raises :
  let run current :=
    _munge_history Examples.collator_externals (Examples.collator_config [])
      (Examples.munge_state [Examples.upload_1] [("ABC123", current)]) in
  fst (run Examples.undated) = Raise KeyError /\
  fst (run Examples.null_dated) = Raise IndexError /\
  fst (run (Examples.dated "")) = Raise IndexError /\
  Forall (fun entry => log_level entry <> 1)
    (w_log (snd (run Examples.null_dated))).
Proof.
  repeat split; try reflexivity.
  vm_compute. repeat constructor; discriminate.
Qed.

(** C2: for a crystal of the upload whose tag is in no document of an
    earlier version, in an upload with distinct tags. [_munge_history]
    returns if every crystal that an earlier version has is dated; and
    whenever it returns, the crystal is given the status [new] and is in
    both maps that are returned, under its tag and as the record of the
    upload itself. The record that the maps show is the one with the
    status [new], after the deprecations were applied to it: they leave
    it as it is unless the operator deprecated this tag. *)
Theorem C2_absent_from_history_is_new E self w i name x :
  NoDup (dict_keys (crystals (w_meta w))) ->
  crystals (w_meta w) !! i = Some (name, x) ->
  (forall metad, metad ∈ meta_history w ->
     dict_get (crystals metad) name = None) ->
  (history_dated E w ->
   exists all new w', _munge_history E self w = (Ok (all, new), w')) /\
  (forall all new w',
     _munge_history E self w = (Ok (all, new), w') ->
     dict_get all name = Some (Cur i) /\
     dict_get new name = Some (Cur i) /\
     deref w' (Cur i) =
       Some (deprecate (declared_deprecations self) name (set_status "new" x)) /\
     (dict_get (declared_deprecations self) name = None ->
      deref w' (Cur i) = Some (set_status "new" x))).
Proof.
  intros Hnd Hx Habs. split; [apply munge_history_returns, Hnd |].
  intros all new w' Hrun.
  apply munge_history_Ok in Hrun as (_ & _ & Hitems); [|exact Hnd].
  destruct (Hitems i name x Hx) as (Hall & st & Hrec & Hout).
  apply merged_history_None in Habs.
  destruct Hout as [(_ & -> & Hnew) | (old_ref & ? & ? & ? & ? & ? & ? & Hg & _)].
  - split; [exact Hall |]. split; [exact Hnew |].
    simpl. rewrite Hrec. simpl. split; [reflexivity |].
    intros Hdep. unfold deprecate. rewrite Hdep. reflexivity.
  - congruence.
Qed.

Lemma C2_absent_from_history_is_new_witness :
  let w := Examples.munge_state [Examples.upload_1]
             [("ABC123", Examples.dated "2024-02-01");
              ("NEW001", Examples.dated "2024-02-01")] in
  let r := _munge_history Examples.collator_externals
             (Examples.collator_config []) w in
  exists all new,
    fst r = Ok (all, new) /\
    dict_get all "NEW001" = Some (Cur 1) /\
    dict_get new "NEW001" = Some (Cur 1) /\
    deref (snd r) (Cur 1) =
      Some (set_status "new" (Examples.dated "2024-02-01")).
Proof.
  intros w r.
  destruct (C2_absent_from_history_is_new Examples.collator_externals
              (Examples.collator_config []) w 1 "NEW001"
              (Examples.dated "2024-02-01")) as [Hreturns Hnew].
  - apply (bool_decide_unpack _). vm_compute. exact I.
  - reflexivity.
  - intros metad Hm. apply list_elem_of_singleton in Hm as ->. reflexivity.
  - destruct Hreturns as (all & new & w' & Hr).
    { intros [|[|j]] n y old Hy Hold; try discriminate Hy.
      - injection Hy as <- <-. vm_compute in Hold. injection Hold as <-.
        split; eexists _, _; (split; [reflexivity |]);
          (split; [discriminate | vm_compute; reflexivity]).
      - injection Hy as <- <-. vm_compute in Hold. discriminate Hold. }
    destruct (Hnew all new w' Hr) as (Ha & Hn & _ & Hs).
    exists all, new. subst r. rewrite Hr.
    split; [reflexivity |]. split; [exact Ha |]. split; [exact Hn |].
    apply Hs. reflexivity.
Defined.


(** C3, as the code has it: for a tag in the deprecations that is the tag
    of a crystal of the upload, in an upload with distinct tags.
    [_munge_history] returns if every crystal that an earlier version has
    is dated; and whenever it returns, the record that [all_xtals] maps
    the tag to is the record of the upload, its status is [deprecated]
    whatever the dates gave, its reason is the declared text, and its
    other keys are as they were. The same record is what the subset of
    the new or updated shows, if the tag is there. A tag that is not in
    the upload has in [all_xtals] what the earlier versions had for it.
    *)
Theorem C3_deprecation_of_uploaded_crystal E self w i name x why :
  NoDup (dict_keys (crystals (w_meta w))) ->
  crystals (w_meta w) !! i = Some (name, x) ->
  dict_get (declared_deprecations self) name = Some why ->
  (history_dated E w ->
   exists all new w', _munge_history E self w = (Ok (all, new), w')) /\
  (forall all new w',
     _munge_history E self w = (Ok (all, new), w') ->
     dict_get all name = Some (Cur i) /\
     (forall r, dict_get new name = Some r -> r = Cur i) /\
     (forall n, n ∉ dict_keys (crystals (w_meta w)) ->
        dict_get all n = dict_get (merged_history (meta_history w)) n) /\
     exists x',
       deref w' (Cur i) = Some x' /\
       status x' = Some "deprecated" /\
       reason x' = Some why /\
       last_updated x' = last_updated x /\
       crystallographic_files x' = crystallographic_files x).
Proof.
  intros Hnd Hx Hdep. split; [apply munge_history_returns, Hnd |].
  intros all new w' Hrun.
  apply munge_history_Ok in Hrun as (_ & Hothers & Hitems); [|exact Hnd].
  destruct (Hitems i name x Hx) as (Hall & st & Hrec & Hout).
  split; [exact Hall |]. split; [|split; [intros n Hn; apply Hothers, Hn |]].
  { intros r Hr.
    destruct Hout as [(_ & _ & Hnew) |
      (? & ? & ? & ? & ? & ? & ? & _ & _ & _ & _ & _ & _ & _ & _ & _ &
       [(_ & _ & Hnew) | (_ & _ & Hnew)])].
    - congruence.
    - congruence.
    - rewrite Hnew in Hr. discriminate Hr. }
  exists (deprecate (declared_deprecations self) name (set_status st x)).
  simpl. rewrite Hrec. unfold deprecate. rewrite Hdep. simpl.
  repeat split; reflexivity.
Qed.

Lemma C3_deprecation_of_uploaded_crystal_witness :
  let w := Examples.munge_state [Examples.upload_1]
             [("XYZ999", Examples.dated "2024-01-01")] in
  let r := _munge_history Examples.collator_externals
             (Examples.collator_config [("XYZ999", "low resolution")]) w in
  exists all new x',
    fst r = Ok (all, new) /\
    dict_get all "XYZ999" = Some (Cur 0) /\
    deref (snd r) (Cur 0) = Some x' /\
    status x' = Some "deprecated" /\
    reason x' = Some "low resolution".
Proof.
  intros w r.
  destruct (C3_deprecation_of_uploaded_crystal Examples.collator_externals
              (Examples.collator_config [("XYZ999", "low resolution")]) w
              0 "XYZ999" (Examples.dated "2024-01-01") "low resolution")
    as [Hreturns Hdeprecated].
  - apply (bool_decide_unpack _). vm_compute. exact I.
  - reflexivity.
  - reflexivity.
  - destruct Hreturns as (all & new & w' & Hr).
    { intros [|j] n y old Hy Hold; try discriminate Hy.
      injection Hy as <- <-. vm_compute in Hold. injection Hold as <-.
      split; eexists _, _; (split; [reflexivity |]);
        (split; [discriminate | vm_compute; reflexivity]). }
    destruct (Hdeprecated all new w' Hr) as (Ha & _ & _ & x' & Hd & Hs & Hw & _).
    exists all, new, x'. subst r. rewrite Hr. auto.
Defined.

(** C3 as it is stated fails for a tag that is deprecated but not part of
    the upload: the deprecations are looked up in the loop over the
    crystals of the upload only. Upload 1 has XYZ999, the operator
    deprecates it, and the next upload does not contain it: its record in
    [all_xtals] keeps the status [new] and has no reason. *)
Lemma C3_counterexample :
  let w := Examples.munge_state [Examples.upload_1]
             [("ABC123", Examples.dated "2024-02-01")] in
  let self := Examples.collator_config [("XYZ999", "low resolution")] in
  let r := _munge_history Examples.collator_externals self w in
  dict_get (declared_deprecations self) "XYZ999" = Some "low resolution" /\
  exists all new x,
    fst r = Ok (all, new) /\
    (dict_get all "XYZ999" ≫= deref (snd r)) = Some x /\
    status x = Some "new" /\
    status x <> Some "deprecated" /\
    reason x = None.
Proof.
  intros w self r. split; [reflexivity |].
  eexists _, _, _. split; [vm_compute; reflexivity |].
  split; [vm_compute; reflexivity |].
  split; [reflexivity |]. split; [discriminate | reflexivity].
Qed.

End CollatorFacts.

(* ===================================================================== *)
(** * The version directories *)
(* ===================================================================== *)

Module VersionFacts.
Import Path FS Collator PyFacts PathFacts WorldFacts CollatorFacts.

Lemma isdir_dom (t : fs) p : isdir t p = true -> p ∈ dom t.
Proof.
  unfold isdir. intros H. apply elem_of_dom.
  destruct (t !! p) as [[|c]|]; [eauto | discriminate..].
Qed.

Lemma scan_versions_Some fuel (t : fs) out : forall start v,
  scan_versions fuel t out start = Some v ->
  start <= v /\ isdir t (version_path out v) = false /\
  forall u, start <= u < v -> isdir t (version_path out u) = true.
Proof.
  induction fuel as [|fuel IH]; intros start v H; simpl in H; [discriminate |].
  destruct (isdir t (version_path out start)) eqn:Hd.
  - apply IH in H as (Hle & Hv & Hbelow). split; [lia |]. split; [exact Hv |].
    intros u Hu. destruct (decide (u = start)) as [->|Hne]; [exact Hd |].
    apply Hbelow. lia.
  - injection H as <-. split; [lia |]. split; [exact Hd |]. intros u Hu. lia.
Qed.

Lemma scan_versions_None fuel (t : fs) out : forall start,
  scan_versions fuel t out start = None ->
  forall u, start <= u < start + fuel -> isdir t (version_path out u) = true.
Proof.
  induction fuel as [|fuel IH]; intros start H u Hu; [lia |]. simpl in H.
  destruct (isdir t (version_path out start)) eqn:Hd; [|discriminate].
  destruct (decide (u = start)) as [->|Hne]; [exact Hd |].
  apply (IH (S start) H). lia.
Qed.

(** The loop ends: with one more pass than there are nodes in the file
    system, a number without a directory is found. *)
Lemma scan_versions_ends (t : fs) out :
  exists v, scan_versions (S (size t)) t out 1 = Some v.
Proof.
  destruct (scan_versions (S (size t)) t out 1) as [v|] eqn:Hscan; [eauto |].
  exfalso.
  pose proof (scan_versions_None _ _ _ _ Hscan) as Hall.
  set (l := version_path out <$> seq 1 (S (size t))).
  assert (Hnd : NoDup l).
  { apply NoDup_fmap_2; [|apply NoDup_seq].
    intros a b. apply version_path_inj. }
  assert (Hsub : list_to_set l ⊆ dom t).
  { intros p Hp. apply elem_of_list_to_set in Hp.
    apply list_elem_of_fmap in Hp as (u & -> & Hu).
    apply elem_of_seq in Hu. apply isdir_dom, Hall. lia. }
  apply subseteq_size in Hsub.
  rewrite size_list_to_set in Hsub by exact Hnd.
  rewrite size_dom in Hsub. unfold l in Hsub.
  rewrite length_fmap, length_seq in Hsub. lia.
Qed.

(** The current version is the last of the directories numbered from 1
    on without a gap. *)
Lemma current_version_spec (t : fs) out :
  scan_versions (S (size t)) t out 1 = Some (S (current_version t out)) /\
  isdir t (version_path out (S (current_version t out))) = false /\
  forall u, 1 <= u <= current_version t out ->
    isdir t (version_path out u) = true.
Proof.
  unfold current_version.
  destruct (scan_versions_ends t out) as (v & Hv). rewrite Hv.
  apply scan_versions_Some in Hv as Hspec. destruct Hspec as (Hle & Hnot & Hbelow).
  replace (S (v - 1)) with v by lia. split; [reflexivity |].
  split; [exact Hnot |]. intros u Hu. apply Hbelow. lia.
Qed.


(** ** [_read_versions] reads only *)

Lemma keeps_read_old_meta I E self v :
  on_files I -> keeps I (read_old_meta E self v).
Proof.
  intros HI. unfold read_old_meta.
  apply keeps_bind; [apply keeps_logf, HI | intros u].
  apply keeps_bind; [apply keeps_gets | intros is_file].
  destruct is_file.
  - apply keeps_bind; [apply keeps_read_file, HI | intros text].
    destruct (yaml_load E text) as [m|]; [|apply keeps_raise].
    apply keeps_bind; [apply keeps_with_meta_history, HI | intros u'].
    apply keeps_ret.
  - apply keeps_bind; [apply keeps_logf, HI | intros u']. apply keeps_ret.
Qed.

(** [_read_versions] keeps what depends on the file system and on the
    tags of the upload only. *)
Lemma read_versions_keeps E self (I : world -> Prop) :
  (forall w w', w_fs w' = w_fs w ->
     dict_keys (crystals (w_meta w')) = dict_keys (crystals (w_meta w)) ->
     I w -> I w') ->
  keeps I (_read_versions E self).
Proof.
  intros HI'.
  assert (HI : on_files I) by (intros w w' Hfs _ Hk; apply HI'; assumption).
  unfold _read_versions.
  apply keeps_bind; [apply keeps_gets | intros scanned].
  apply keeps_bind.
  { destruct scanned; [apply keeps_ret | apply keeps_raise]. }
  intros version. destruct (version =? 1).
  { apply keeps_bind; [apply keeps_log, HI | intros u]. apply keeps_ret. }
  apply keeps_bind; [apply keeps_logf, HI | intros u].
  apply keeps_bind.
  { destruct (1 <? version - 1); [|apply keeps_ret].
    apply keeps_for_return. intros v _. apply keeps_read_old_meta, HI. }
  intros [returned|]; [apply keeps_ret |].
  apply keeps_bind.
  { apply keeps_modify. intros w Hw. eapply HI'; [| |exact Hw]; reflexivity. }
  intros u'. apply keeps_bind; [apply keeps_gets | intros n].
  apply keeps_bind; [|intros u''; apply keeps_ret].
  destruct (negb (n =? 0)); [apply keeps_logf, HI | apply keeps_ret].
Qed.

Lemma read_versions_keeps_fs E self t : keeps (fs_is t) (_read_versions E self).
Proof.
  apply read_versions_keeps. intros w w' Hfs _ Hw. unfold fs_is in *. congruence.
Qed.

(** ** The documents of the earlier versions *)


Lemma read_old_meta_missing E self v w :
  isfile (w_fs w) (metadata_path (cfg_output_dir self) v) = false ->
  exists w', read_old_meta E self v w = (Ok (Some None), w').
Proof.
  intros Hf. unfold read_old_meta.
  unfold bind at 1. erewrite logf_1_run by reflexivity.
  unfold bind at 1. simpl. rewrite Hf.
  unfold bind. erewrite logf_1_run by reflexivity. simpl. eauto.
Qed.

Lemma isfile_File (t : fs) p text : t !! p = Some (File text) -> isfile t p = true.
Proof. unfold isfile. intros ->. reflexivity. Qed.

Lemma read_file_File (t : fs) p text :
  t !! p = Some (File text) -> read_file p t = (Ok text, t).
Proof. unfold read_file. intros ->. reflexivity. Qed.

Lemma on_fs_run {A} (m : M fs A) w r t :
  m (w_fs w) = (r, t) -> on_fs m w = (r, with_fs (fun _ => t) w).
Proof. unfold on_fs. intros ->. reflexivity. Qed.

Lemma read_old_meta_file E self v w text :
  w_fs w !! metadata_path (cfg_output_dir self) v = Some (File text) ->
  exists w', w_fs w' = w_fs w /\
    read_old_meta E self v w =
      match yaml_load E text with
      | Some m => (Ok None, w')
      | None => (Raise YAMLError, w')
      end.
Proof.
  intros Hfile. unfold read_old_meta.
  unfold bind at 1. erewrite logf_1_run by reflexivity.
  unfold bind at 1. unfold gets.
  change (w_fs (with_log _ w)) with (w_fs w).
  rewrite (isfile_File _ _ _ Hfile).
  unfold bind at 1. erewrite on_fs_run by (apply read_file_File; exact Hfile).
  cbv beta iota.
  destruct (yaml_load E text) as [m|]; eexists; (split; [|reflexivity]);
    reflexivity.
Qed.

Lemma read_old_meta_readable E self v w :
  readable E (w_fs w) (cfg_output_dir self) v ->
  exists w', read_old_meta E self v w = (Ok None, w') /\ w_fs w' = w_fs w.
Proof.
  intros (text & m & Hfile & Hload).
  destruct (read_old_meta_file E self v w text Hfile) as (w' & Hw & Hr).
  rewrite Hload in Hr. eauto.
Qed.

Lemma read_old_meta_cases E self v w :
  (exists w', read_old_meta E self v w = (Ok (Some None), w')) \/
  (exists w', read_old_meta E self v w = (Raise YAMLError, w')) \/
  (exists w', read_old_meta E self v w = (Ok None, w') /\ w_fs w' = w_fs w /\
     isfile (w_fs w) (metadata_path (cfg_output_dir self) v) = true).
Proof.
  destruct (isfile (w_fs w) (metadata_path (cfg_output_dir self) v)) eqn:Hf.
  - right. unfold isfile in Hf.
    destruct (w_fs w !! metadata_path (cfg_output_dir self) v)
      as [[|text]|] eqn:Hfile; try discriminate.
    destruct (read_old_meta_file E self v w text Hfile) as (w' & Hw & Hr).
    destruct (yaml_load E text) as [m|]; [right | left]; eauto.
  - left. apply read_old_meta_missing, Hf.
Qed.

(** A missing document stops the loop: it returns [None] from the
    function, unless an earlier document was not a metadata document. *)
Lemma read_old_metas_missing E self v : forall vs w,
  v ∈ vs ->
  isfile (w_fs w) (metadata_path (cfg_output_dir self) v) = false ->
  let r := fst (for_return vs (read_old_meta E self) w) in
  r = Ok (Some None) \/ r = Raise YAMLError.
Proof.
  induction vs as [|x vs IH]; intros w Hin Hf; [inversion Hin |]. simpl.
  unfold bind.
  destruct (read_old_meta_cases E self x w)
    as [(w' & ->) | [(w' & ->) | (w' & -> & Hw & Hx)]]; simpl; [auto | auto |].
  apply elem_of_cons in Hin as [->|Hin]; [congruence |].
  apply IH; [exact Hin | rewrite Hw; exact Hf].
Qed.

(** If the documents before the missing one are readable, the function
    returns [None]. *)
Lemma read_old_metas_first_missing E self v : forall before after w,
  (forall u, u ∈ before -> readable E (w_fs w) (cfg_output_dir self) u) ->
  isfile (w_fs w) (metadata_path (cfg_output_dir self) v) = false ->
  fst (for_return (before ++ v :: after) (read_old_meta E self) w) =
    Ok (Some None).
Proof.
  induction before as [|x before IH]; intros after w Hread Hf; simpl; unfold bind.
  - destruct (read_old_meta_missing E self v w Hf) as (w' & ->). reflexivity.
  - destruct (read_old_meta_readable E self x w) as (w' & -> & Hw).
    { apply Hread, list_elem_of_here. }
    apply IH; rewrite Hw; [|exact Hf].
    intros u Hu. apply Hread, list_elem_of_further, Hu.
Qed.


Lemma seq_split a n k :
  k < n -> seq a n = seq a k ++ (a + k) :: seq (S (a + k)) (n - S k).
Proof.
  intros Hk. replace n with (k + S (n - S k)) at 1 by lia.
  rewrite seq_app. reflexivity.
Qed.

(** [_read_versions] from the number that the scan found. *)
Lemma read_versions_no_dir E self w :
  scan_versions (S (size (w_fs w))) (w_fs w) (cfg_output_dir self) 1 = Some 1 ->
  fst (_read_versions E self w) = Ok None.
Proof.
  intros Hscan. unfold _read_versions, bind at 1, gets. rewrite Hscan.
  reflexivity.
Qed.

Lemma read_versions_loop E self w c :
  scan_versions (S (size (w_fs w))) (w_fs w) (cfg_output_dir self) 1 =
    Some (S (S (S c))) ->
  exists w1, w_fs w1 = w_fs w /\
    forall r0, fst (for_return (seq 1 (S c)) (read_old_meta E self) w1) = r0 ->
      (r0 = Ok (Some None) -> fst (_read_versions E self w) = Ok None) /\
      (forall e, r0 = Raise e -> fst (_read_versions E self w) = Raise e).
Proof.
  intros Hscan.
  pose proof (logf_1_run 0 "Version is {}" (str (S (S (S c)) - 1)) w _ eq_refl)
    as Hlog.
  exists (snd (logf 0 "Version is {}" [str (S (S (S c)) - 1)] w)).
  split; [rewrite Hlog; reflexivity |].
  intros r0 <-.
  unfold _read_versions.
  erewrite bind_run by reflexivity. rewrite Hscan.
  erewrite bind_run by reflexivity.
  change (S (S (S c)) =? 1) with false. cbv iota.
  erewrite bind_run by (exact Hlog).
  change (1 <? S (S (S c)) - 1) with true. cbv iota.
  change (S (S (S c)) - 1 - 1) with (S c).
  rewrite Hlog. cbn [snd].
  match goal with |- context [for_return _ _ ?w1] =>
    destruct (for_return (seq 1 (S c)) (read_old_meta E self) w1)
      as [[[returned|]|e] w2] eqn:Hloop end.
  - split; [intros [= ->] | intros e' [=]].
    erewrite bind_run by (exact Hloop). reflexivity.
  - split; [intros [=] | intros e' [=]].
  - split; [intros [=] | intros e' [= ->]].
    erewrite bind_run_raise by (exact Hloop). reflexivity.
Qed.

(** C4: [_read_versions] changes nothing in the file system, so that it
    never creates a version directory; it returns [None] when the output
    directory has no directory [upload_1], which is the case whenever it
    has no version directory at all; and when the metadata document of a
    version below the current one is missing, it does not return the
    version directory: it returns [None], or it has raised before on an
    earlier document that is not a metadata document. If the documents
    before the missing one are readable, it returns [None]. *)
Theorem C4_read_versions E self w :
  let t := w_fs w in
  let out := cfg_output_dir self in
  let r := _read_versions E self w in
  w_fs (snd r) = t /\
  (isdir t (version_path out 1) = false -> fst r = Ok None) /\
  (forall v, 1 <= v < current_version t out ->
     isfile t (metadata_path out v) = false ->
     (fst r = Ok None \/ fst r = Raise YAMLError) /\
     ((forall u, 1 <= u < v -> readable E t out u) -> fst r = Ok None)).
Proof.
  intros t out r. split; [|split].
  - apply (read_versions_keeps_fs E self t w). reflexivity.
  - intros Hno. apply read_versions_no_dir. simpl. fold t out. rewrite Hno.
    reflexivity.
  - intros v Hv Hmissing.
    destruct (current_version_spec t out) as (Hscan & _).
    destruct (current_version t out) as [|[|c]]; [lia | lia |].
    destruct (read_versions_loop E self w c Hscan) as (w1 & Hw1 & Hloop).
    assert (Hin : v ∈ seq 1 (S c)) by (apply elem_of_seq; lia).
    split.
    + pose proof (read_old_metas_missing E self v (seq 1 (S c)) w1 Hin) as Hr.
      rewrite Hw1 in Hr. specialize (Hr Hmissing). simpl in Hr.
      destruct (Hloop _ eq_refl) as (Hnone & Hraise).
      destruct Hr as [Hr | Hr]; [left; apply Hnone, Hr | right; apply Hraise, Hr].
    + intros Hread.
      destruct (Hloop _ eq_refl) as (Hnone & _). apply Hnone.
      rewrite (seq_split 1 (S c) (v - 1)) by lia.
      replace (1 + (v - 1)) with v by lia.
      apply read_old_metas_first_missing.
      * intros u Hu. apply elem_of_seq in Hu. rewrite Hw1. apply Hread. lia.
      * rewrite Hw1. exact Hmissing.
Qed.


Lemma C4_read_versions_witness :
  let w := Examples.start Examples.fs_gap [] in
  let r := _read_versions Examples.collator_externals
             (Examples.collator_config []) w in
  current_version Examples.fs_gap "/out" = 3 /\
  isfile Examples.fs_gap (metadata_path "/out" 1) = false /\
  fst r = Ok None /\ w_fs (snd r) = Examples.fs_gap.
Proof.
  intros w r.
  assert (Hcur : current_version Examples.fs_gap "/out" = 3)
    by (vm_compute; reflexivity).
  assert (Hmiss : isfile Examples.fs_gap (metadata_path "/out" 1) = false)
    by (vm_compute; reflexivity).
  destruct (C4_read_versions Examples.collator_externals
              (Examples.collator_config []) w) as (Hfs & _ & Hgap).
  destruct (Hgap 1) as (_ & Hnone).
  - change (1 <= 1 < current_version Examples.fs_gap "/out").
    rewrite Hcur. lia.
  - exact Hmiss.
  - split; [exact Hcur |]. split; [reflexivity |].
    split; [|exact Hfs]. apply Hnone. intros u Hu. lia.
Defined.


(** ** [_read_versions] when it returns a directory *)

Lemma read_old_metas_return E self : forall vs w x w',
  for_return vs (read_old_meta E self) w = (Ok (Some x), w') -> x = None.
Proof.
  induction vs as [|v vs IH]; intros w x w' H; simpl in H.
  - discriminate.
  - apply bind_Ok in H as (r & w1 & Hbody & H).
    destruct r as [returned|].
    + apply ret_Ok in H as [[= <-] _].
      destruct (read_old_meta_cases E self v w)
        as [(w2 & Hr) | [(w2 & Hr) | (w2 & Hr & _)]];
        rewrite Hr in Hbody; congruence.
    + eapply IH, H.
Qed.

Lemma read_versions_Some E self w d w' :
  _read_versions E self w = (Ok (Some d), w') ->
  d = version_path (cfg_output_dir self)
        (current_version (w_fs w) (cfg_output_dir self)) /\
  version_dir w' = Some d /\
  1 <= current_version (w_fs w) (cfg_output_dir self).
Proof.
  intros H. unfold _read_versions in H.
  apply bind_Ok in H as (scanned & w1 & H1 & H).
  apply gets_Ok in H1 as [-> <-].
  destruct (current_version_spec (w_fs w) (cfg_output_dir self)) as (Hscan & _).
  rewrite Hscan in H.
  apply bind_Ok in H as (version & w1 & H1 & H).
  apply ret_Ok in H1 as [<- <-].
  set (cur := current_version (w_fs w) (cfg_output_dir self)) in *.
  destruct (S cur =? 1) eqn:Hone.
  { apply bind_Ok in H as (u & w1 & _ & H). apply ret_Ok in H as [[=] _]. }
  apply bind_Ok in H as (u & w1 & _ & H).
  apply bind_Ok in H as (r & w2 & Hloop & H).
  replace (S cur - 1) with cur in * by lia.
  destruct r as [returned|].
  - apply ret_Ok in H as [-> _].
    destruct (1 <? cur); [|apply ret_Ok in Hloop as [[=] _]].
    apply read_old_metas_return in Hloop. discriminate.
  - apply bind_Ok in H as (u' & w3 & Hset & H).
    apply modify_Ok in Hset as ->.
    apply bind_Ok in H as (n & w4 & Hn & H).
    apply gets_Ok in Hn as [-> <-].
    apply bind_Ok in H as (u'' & w5 & Hlog & H).
    apply ret_Ok in H as [[= <-] <-]. split; [reflexivity |].
    apply Nat.eqb_neq in Hone. split; [|lia].
    destruct (negb _).
    + apply logf_Ok in Hlog as (text & _ & ->). reflexivity.
    + apply ret_Ok in Hlog as [_ <-]. reflexivity.
Qed.

(** ** The version directories of two file systems *)

Lemma current_version_unique (t : fs) out c :
  (forall u, 1 <= u <= c -> isdir t (version_path out u) = true) ->
  isdir t (version_path out (S c)) = false ->
  current_version t out = c.
Proof.
  intros Hall Hnot.
  destruct (current_version_spec t out) as (_ & Hnot' & Hall').
  destruct (Nat.lt_trichotomy (current_version t out) c) as [Hlt | [Heq | Hgt]].
  - rewrite Hall in Hnot' by lia. discriminate.
  - exact Heq.
  - rewrite Hall' in Hnot by lia. discriminate.
Qed.

(** What is in one version directory is not below another. *)
Lemma version_dirs_disjoint out k c p :
  k <> c -> within (version_path out k) p = true ->
  below (version_path out c) p = false.
Proof.
  intros Hne Hin. destruct (below (version_path out c) p) eqn:Hb; [|reflexivity].
  exfalso. unfold below in Hb.
  rewrite (clean_dirpfx _ (version_path_clean out c)) in Hb.
  apply prefix_spec in Hb as (s & ->).
  unfold within, below in Hin.
  rewrite (clean_dirpfx _ (version_path_clean out k)) in Hin.
  rewrite !version_path_eq in Hin. rewrite !append_assoc in Hin.
  apply orb_true_iff in Hin as [Hin | Hin].
  - apply String.eqb_eq in Hin.
    apply String.app_inj in Hin. apply String.app_inj in Hin.
    symmetry in Hin. revert Hin. apply no_sep_no_slash, str_no_sep.
  - apply prefix_spec in Hin as (s' & Hin). rewrite !append_assoc in Hin.
    apply String.app_inj in Hin. apply String.app_inj in Hin.
    apply sep_split_inj in Hin as [Hin _]; try apply str_no_sep.
    apply (inj pretty) in Hin. congruence.
Qed.

End VersionFacts.

(* ===================================================================== *)
(** * What a run of the collator writes *)
(* ===================================================================== *)

Module FrameFacts.
Import Path FS Collator PyFacts PathFacts FSFacts WorldFacts CollatorFacts.
Import VersionFacts.

Section frame.
Context (E : externals) (self : config).
Context (vdir : string) (t0 : fs).
Context (Hclean : clean vdir) (Hdir : isdir t0 vdir = true).

Local Abbreviation inside_only := (Collator.inside_only vdir t0).
Local Abbreviation copying := (Collator.copying vdir t0).

Lemma inside_only_on_files : on_files inside_only.
Proof.
  intros w w' Hfs Hv Hk (Hvd & Hpl & Hout). split; [congruence |].
  split; [rewrite Hk; exact Hpl |].
  intros p Hp. rewrite Hfs. apply Hout, Hp.
Qed.

Lemma copying_on_files : on_files copying.
Proof.
  intros w w' Hfs Hv Hk [Hin Hc]. split.
  - eapply inside_only_on_files; eauto.
  - rewrite Hfs. exact Hc.
Qed.

Lemma inside_only_vdir w : inside_only w -> exists_ (w_fs w) vdir = true.
Proof.
  intros (_ & _ & Hout). unfold exists_.
  rewrite Hout by (apply below_self, Hclean).
  unfold isdir in Hdir. destruct (t0 !! vdir) as [[|c]|]; [reflexivity | discriminate..].
Qed.

Lemma inside_only_isdir w : inside_only w -> isdir (w_fs w) vdir = true.
Proof.
  intros (_ & _ & Hout). unfold isdir.
  rewrite Hout by (apply below_self, Hclean).
  exact Hdir.
Qed.

(** A file-system operation that changes paths below [vdir] only. *)
Lemma inside_only_step {A} (m : M fs A) w :
  inside_only w ->
  (forall q, below vdir q = false -> snd (m (w_fs w)) !! q = w_fs w !! q) ->
  inside_only (with_fs (fun _ => snd (m (w_fs w))) w).
Proof.
  intros (Hvd & Hpl & Hout) Hm. split; [exact Hvd |]. split; [exact Hpl |].
  intros p Hp. simpl. rewrite (Hm p Hp). apply Hout, Hp.
Qed.

(** A file-system operation that changes paths below the directory of
    the crystallographic files only. *)
Lemma copying_step {A} (m : M fs A) w :
  copying w ->
  (forall q, below (cryst_dir_of vdir) q = false ->
     snd (m (w_fs w)) !! q = w_fs w !! q) ->
  copying (with_fs (fun _ => snd (m (w_fs w))) w).
Proof.
  intros [Hin Hc] Hm. split.
  - apply inside_only_step; [exact Hin |]. intros q Hq. apply Hm.
    destruct (below (cryst_dir_of vdir) q) eqn:Hb; [|reflexivity].
    rewrite (below_below _ _ _ (cryst_dir_below vdir) Hb) in Hq. discriminate.
  - simpl. rewrite Hm; [exact Hc |]. apply below_self, cryst_dir_clean, Hclean.
Qed.

Lemma mkdir_touches p (t : fs) q : q <> p -> snd (mkdir p t) !! q = t !! q.
Proof.
  intros Hq. destruct (mkdir_cases p t) as [(e & ->) | (_ & ->)]; [reflexivity |].
  simpl. apply lookup_insert_ne. congruence.
Qed.

(** ** [_copy_files] *)

Lemma keeps_makedirs_crystal cryst_name :
  plain_name cryst_name = true ->
  keeps copying (on_fs (makedirs (join (cryst_dir_of vdir) cryst_name))).
Proof.
  intros Hn. apply keeps_on_fs. intros w Hw.
  assert (Hex : exists_ (w_fs w) (cryst_dir_of vdir) = true).
  { unfold exists_. destruct Hw as [_ ->]. reflexivity. }
  rewrite (makedirs_join _ _ _ (cryst_dir_clean _ Hclean) Hn Hex).
  apply (copying_step (mkdir _)); [exact Hw |].
  intros q Hq. apply mkdir_touches. intros ->.
  rewrite below_join in Hq; [discriminate |].
  apply no_sep_isabs, plain_name_no_sep, Hn.
Qed.

Lemma output_below cryst_name k :
  plain_name cryst_name = true ->
  below (join (cryst_dir_of vdir) cryst_name)
    (join (join (cryst_dir_of vdir) cryst_name) (cryst_name +:+ extension k)) = true.
Proof.
  intros Hn. apply below_join, no_sep_isabs. rewrite no_sep_append.
  rewrite (plain_name_no_sep _ Hn). destruct k; reflexivity.
Qed.

Lemma crystal_dir_below cryst_name :
  plain_name cryst_name = true ->
  below (cryst_dir_of vdir) (join (cryst_dir_of vdir) cryst_name) = true.
Proof. intros Hn. apply below_join, no_sep_isabs, plain_name_no_sep, Hn. Qed.

Lemma keeps_copy_block i cryst_name k :
  plain_name cryst_name = true ->
  keeps copying
    (copy_block E self i (join (cryst_dir_of vdir) cryst_name) cryst_name k).
Proof.
  intros Hn. pose proof copying_on_files as HI. unfold copy_block.
  apply keeps_bind; [apply keeps_get_xtal | intros data].
  destruct (entry_truthy _).
  - apply keeps_bind.
    { destruct (get_file k _); [apply keeps_raise | apply keeps_lift | apply keeps_raise]. }
    intros input. apply keeps_bind.
    { apply keeps_on_fs. intros w Hw. apply (copying_step (copy2 _ _)); [exact Hw |].
      intros q Hq.
      pose proof (below_below _ _ _ (crystal_dir_below _ Hn) (output_below _ k Hn))
        as Hout.
      apply copy2_outside.
      - intros ->. congruence.
      - match goal with |- below ?out q = false =>
          destruct (below out q) eqn:Hb; [|reflexivity] end.
        rewrite (below_below _ _ _ Hout Hb) in Hq. discriminate. }
    intros f. destruct (String.eqb f "").
    + apply keeps_bind; [apply keeps_logf, HI | intros u; apply keeps_ret].
    + apply keeps_bind.
      { unfold gen_sha256. apply keeps_bind; [apply keeps_read_file, HI |].
        intros content. apply keeps_ret. }
      intros digest. apply keeps_bind; [apply keeps_update_xtal, HI |].
      intros u. apply keeps_ret.
  - apply keeps_bind; [apply keeps_logf, HI | intros u; apply keeps_ret].
Qed.

Lemma keeps_copy_xtal i cryst_name :
  plain_name cryst_name = true ->
  keeps copying (copy_xtal E self (cryst_dir_of vdir) (i, cryst_name)).
Proof.
  intros Hn. unfold copy_xtal.
  apply keeps_bind; [apply keeps_makedirs_crystal, Hn | intros u].
  apply keeps_bind; [apply keeps_copy_block, Hn | intros [r|]; [apply keeps_ret |]].
  apply keeps_bind; [apply keeps_copy_block, Hn | intros [r|]; [apply keeps_ret |]].
  apply keeps_copy_block, Hn.
Qed.

Lemma on_fs_Ok {A} (m : M fs A) w a w' :
  on_fs m w = (Ok a, w') ->
  exists t', m (w_fs w) = (Ok a, t') /\ w' = with_fs (fun _ => t') w.
Proof.
  unfold on_fs. destruct (m (w_fs w)) as [r t']. intros [= -> <-]. eauto.
Qed.

Lemma get_version_dir_Ok d w w' :
  get_version_dir w = (Ok d, w') -> version_dir w = Some d /\ w' = w.
Proof.
  unfold get_version_dir. intros H. apply bind_Ok in H as (o & w1 & H1 & H2).
  apply gets_Ok in H1 as [-> <-]. destruct (version_dir w) as [d'|]; [|discriminate].
  apply ret_Ok in H2 as [-> ->]. auto.
Qed.

Lemma makedirs_cryst_dir w :
  inside_only w ->
  makedirs (cryst_dir_of vdir) (w_fs w) = mkdir (cryst_dir_of vdir) (w_fs w).
Proof.
  intros Hw. apply makedirs_join; [exact Hclean | reflexivity |].
  apply inside_only_vdir, Hw.
Qed.

Lemma keeps_copy_files : keeps inside_only (_copy_files E self).
Proof.
  pose proof inside_only_on_files as HI. unfold _copy_files.
  apply (keeps_bind_value _ _ _ (fun d => d = vdir)).
  { apply keeps_get_version_dir. }
  { intros w d w' (Hvd & _) Hget. apply get_version_dir_Ok in Hget as [Hd _].
    congruence. }
  intros d ->. fold (cryst_dir_of vdir).
  apply keeps_bind; [apply keeps_log, HI | intros u].
  apply keeps_bind; [apply keeps_gets | intros cryst_exists].
  apply keeps_bind.
  { destruct cryst_exists; [|apply keeps_ret].
    apply keeps_bind; [apply keeps_log, HI | intros u'].
    apply keeps_on_fs. intros w Hw. apply (inside_only_step (rmtree _)); [exact Hw |].
    intros q Hq. apply rmtree_outside.
    apply (not_below_inner vdir); [apply cryst_dir_below | exact Hq]. }
  intros u'. apply keeps_bind; [apply keeps_log, HI | intros u''].
  apply (keeps_bind_stronger _ copying).
  - apply keeps_on_fs. intros w Hw. rewrite (makedirs_cryst_dir w Hw).
    apply (inside_only_step (mkdir _)); [exact Hw |].
    intros q Hq. apply mkdir_touches. intros ->.
    rewrite cryst_dir_below in Hq. discriminate.
  - intros w a w' Hw Hrun. apply on_fs_Ok in Hrun as (t' & Hrun & ->).
    rewrite (makedirs_cryst_dir w Hw) in Hrun.
    apply mkdir_Ok in Hrun as (Hnone & ->).
    destruct Hw as (Hvd & Hpl & Hout). split.
    + split; [exact Hvd |]. split; [exact Hpl |].
      intros p Hp. simpl. rewrite lookup_insert_ne; [apply Hout, Hp |].
      intros <-. rewrite cryst_dir_below in Hp. discriminate.
    + simpl. apply lookup_insert_eq.
  - intros a.
    apply (keeps_bind_value _ _ _
             (fun items => forall i n, (i, n) ∈ items -> plain_name n = true)).
    { apply keeps_gets. }
    { intros w items w' ((_ & Hpl & _) & _) Hget. apply gets_Ok in Hget as [-> _].
      intros i n Hin. apply Hpl. rewrite <- positions_snd.
      apply list_elem_of_fmap. exists (i, n). auto. }
    intros items Hitems. apply keeps_bind.
    { apply keeps_for_return. intros [i n] Hin. apply keeps_copy_xtal.
      eapply Hitems, Hin. }
    intros [returned|]; apply keeps_ret.
  - intros w [Hw _]. exact Hw.
Qed.

(** ** The rest of a run *)

Lemma keeps_munge_history I : on_files I -> keeps I (_munge_history E self).
Proof.
  intros HI. unfold _munge_history.
  apply keeps_bind.
  { unfold get_deprecations. destruct (cfg_overrides self) as [[[d|]]|];
      apply keeps_ret. }
  intros deps. apply keeps_bind; [apply keeps_logf, HI | intros u].
  apply keeps_bind; [apply keeps_gets | intros history].
  apply keeps_bind.
  { apply keeps_for_fold. intros [count all] metad _. unfold munge_old_meta.
    apply keeps_bind; [apply keeps_logf, HI | intros u1].
    apply keeps_bind; [apply keeps_logf, HI | intros u2]. apply keeps_ret. }
  intros [count all]. apply keeps_bind; [apply keeps_logf, HI | intros u1].
  apply keeps_bind; [apply keeps_gets | intros items].
  apply keeps_bind.
  { apply keeps_for_fold. intros [all1 new1] [i xtal_name] _. unfold munge_xtal.
    apply keeps_bind.
    { destruct (dict_mem all1 xtal_name).
      - apply keeps_bind; [apply keeps_getitem | intros old_ref].
        apply keeps_bind; [apply keeps_load | intros old].
        apply keeps_bind; [apply keeps_getitem | intros old_date].
        apply keeps_bind; [apply keeps_get_xtal | intros x].
        apply keeps_bind; [apply keeps_getitem | intros new_date].
        destruct (negb (truthy old_date) || negb (truthy new_date)).
        + apply keeps_bind; [apply keeps_logf, HI | intros u2].
          apply keeps_bind; [apply keeps_update_xtal, HI | intros u3].
          apply keeps_ret.
        + apply keeps_bind.
          { unfold parse_date. destruct new_date as [|s]; [apply keeps_raise |].
            destruct (to_datetime E s); [apply keeps_ret | apply keeps_raise]. }
          intros new_dt. apply keeps_bind.
          { unfold parse_date. destruct old_date as [|s]; [apply keeps_raise |].
            destruct (to_datetime E s); [apply keeps_ret | apply keeps_raise]. }
          intros old_dt. destruct (old_dt <? new_dt)%Z.
          * apply keeps_bind; [apply keeps_logf, HI | intros u2].
            apply keeps_bind; [apply keeps_update_xtal, HI | intros u3].
            apply keeps_ret.
          * apply keeps_bind; [apply keeps_update_xtal, HI | intros u3].
            apply keeps_ret.
      - apply keeps_bind; [apply keeps_update_xtal, HI | intros u3].
        apply keeps_ret. }
    intros new2. apply keeps_bind; [|intros u4; apply keeps_ret].
    destruct (dict_mem deps xtal_name); [|apply keeps_ret].
    apply keeps_bind; [apply keeps_update_xtal, HI | intros u5].
    apply keeps_bind; [apply keeps_getitem | intros why].
    apply keeps_bind; [apply keeps_update_xtal, HI | intros u6].
    apply keeps_logf, HI. }
  intros [all2 new2]. apply keeps_bind; [apply keeps_logf, HI | intros u7].
  apply keeps_bind; [apply keeps_logf, HI | intros u8].
  apply keeps_bind; [apply keeps_with_xtals, HI | intros u9]. apply keeps_ret.
Qed.

Lemma keeps_write_below name content :
  isabs name = false ->
  keeps inside_only (on_fs (write_file (join vdir name) content)).
Proof.
  intros Hn. apply keeps_on_fs. intros w Hw.
  apply (inside_only_step (write_file _ _)); [exact Hw |].
  intros q Hq. apply write_file_outside. intros ->.
  rewrite (below_join _ _ Hn) in Hq. discriminate.
Qed.

Lemma keeps_write_metadata new_meta all new :
  keeps inside_only (_write_metadata E new_meta all new).
Proof.
  unfold _write_metadata.
  apply (keeps_bind_value _ _ _ (fun d => d = vdir)).
  { apply keeps_get_version_dir. }
  { intros w d w' (Hvd & _) Hget. apply get_version_dir_Ok in Hget as [Hd _].
    congruence. }
  intros d ->.
  apply keeps_bind; [apply keeps_gets | intros doc].
  apply keeps_bind; [apply keeps_write_below; reflexivity | intros u].
  apply keeps_bind; [apply keeps_gets | intros all_doc].
  apply keeps_bind; [apply keeps_write_below; reflexivity | intros u'].
  apply keeps_bind; [apply keeps_gets | intros new_doc].
  apply keeps_write_below; reflexivity.
Qed.

Lemma keeps_copy_config : keeps inside_only (_copy_config self).
Proof.
  unfold _copy_config.
  apply (keeps_bind_value _ _ _ (fun d => d = vdir)).
  { apply keeps_get_version_dir. }
  { intros w d w' (Hvd & _) Hget. apply get_version_dir_Ok in Hget as [Hd _].
    congruence. }
  intros d ->. apply keeps_bind.
  - apply keeps_on_fs. intros w Hw.
    apply (inside_only_step (copy2 _ _)); [exact Hw |].
    intros q Hq. unfold copy2. rewrite (inside_only_isdir w Hw).
    set (dst := join vdir (basename (config_file self))).
    assert (Hdst : q <> dst).
    { intros ->. unfold dst in Hq. rewrite below_join in Hq; [discriminate |].
      apply no_sep_isabs, basename_no_sep. }
    destruct (String.eqb (config_file self) dst); [reflexivity |].
    destruct (w_fs w !! config_file self) as [[|content]|]; try reflexivity.
    destruct (w_fs w !! dst) as [[|c]|]; try reflexivity;
      (destruct (parent_ok (w_fs w) dst); [|reflexivity]); simpl;
      apply lookup_insert_ne; congruence.
  - intros f. destruct (String.eqb f ""); apply keeps_ret.
Qed.

(** What follows [_read_versions] in [run]. *)
Lemma keeps_run_rest v_dir :
  keeps inside_only
    (logf 0 "Using version dir {}" [v_dir] ;;
     log 0 ["Coping files ..."] ;;
     new_meta <- _copy_files E self ;
     log 0 ["Munging the history ..."] ;;
     '(all_xtals, new_xtals) <- _munge_history E self ;
     log 0 ["Writing metadata ..."] ;;
     _write_metadata E new_meta all_xtals new_xtals ;;
     log 0 ["Copying config ..."] ;;
     _copy_config self ;;
     log 0 ["Run complete"] ;;
     ret new_meta).
Proof.
  pose proof inside_only_on_files as HI.
  apply keeps_bind; [apply keeps_logf, HI | intros u1].
  apply keeps_bind; [apply keeps_log, HI | intros u2].
  apply keeps_bind; [apply keeps_copy_files | intros new_meta].
  apply keeps_bind; [apply keeps_log, HI | intros u3].
  apply keeps_bind; [apply keeps_munge_history, HI | intros [all new]].
  apply keeps_bind; [apply keeps_log, HI | intros u4].
  apply keeps_bind; [apply keeps_write_metadata | intros u5].
  apply keeps_bind; [apply keeps_log, HI | intros u6].
  apply keeps_bind; [apply keeps_copy_config | intros b].
  apply keeps_bind; [apply keeps_log, HI | intros u7].
  apply keeps_ret.
Qed.

End frame.

(** A run changes the file system below the current version directory
    only. *)
Lemma run_inside E self w p :
  (forall n, n ∈ dict_keys (crystals (w_meta w)) -> plain_name n = true) ->
  below (version_path (cfg_output_dir self)
           (current_version (w_fs w) (cfg_output_dir self))) p = false ->
  w_fs (snd (run E self w)) !! p = w_fs w !! p.
Proof.
  intros Hplain Hp. unfold run.
  erewrite bind_run by reflexivity.
  set (w0 := with_log _ w).
  pose proof (read_versions_keeps E self
    (fun w1 => w_fs w1 = w_fs w /\
               dict_keys (crystals (w_meta w1)) =
               dict_keys (crystals (w_meta w)))) as Hkeep.
  specialize (Hkeep ltac:(intros a b Hfs Hk [H1 H2]; split; congruence) w0
                (conj eq_refl eq_refl)).
  destruct (_read_versions E self w0) as [[[d|]|e] w1] eqn:Hrv;
    simpl in Hkeep; destruct Hkeep as [Hfs Hkeys].
  - erewrite bind_run by exact Hrv.
    apply read_versions_Some in Hrv as (Hd & Hvd & Hcur).
    change (w_fs w0) with (w_fs w) in Hd, Hcur.
    destruct (String.eqb d "").
    + erewrite bind_run by reflexivity. simpl. rewrite Hfs. reflexivity.
    + assert (Hin : inside_only d (w_fs w) w1).
      { split; [exact Hvd |]. split; [rewrite Hkeys; exact Hplain |].
        intros q _. rewrite Hfs. reflexivity. }
      assert (Hdir : isdir (w_fs w) d = true).
      { rewrite Hd. apply current_version_spec. lia. }
      assert (Hclean : clean d) by (rewrite Hd; apply version_path_clean).
      pose proof (keeps_run_rest E self d (w_fs w) Hclean Hdir d w1 Hin)
        as (_ & _ & Hout).
      apply Hout. rewrite Hd. exact Hp.
  - erewrite bind_run by exact Hrv. cbv beta iota.
    erewrite bind_run by reflexivity. simpl. rewrite Hfs. reflexivity.
  - erewrite bind_run_raise by exact Hrv. simpl. rewrite Hfs. reflexivity.
Qed.

(** C5: in a run of the collator over crystals whose tags are plain
    names (not empty and without a separator), every path that is not
    below the current version directory keeps what it had, whether the run
    returns or raises: nothing is created, changed or deleted there. In
    particular every other version directory, with all that is in it, is
    as before, and so is the set of the version directories: the run
    makes no new version. A second run on the outcome of the first works
    on the same version and again leaves everything else as it was. *)
Theorem C5_run_writes_current_version_only E self w :
  (forall n, n ∈ dict_keys (crystals (w_meta w)) -> plain_name n = true) ->
  let t := w_fs w in
  let out := cfg_output_dir self in
  let cur := current_version t out in
  let t' := w_fs (snd (run E self w)) in
  (forall p, below (version_path out cur) p = false -> t' !! p = t !! p) /\
  (forall k p, k <> cur -> within (version_path out k) p = true ->
     t' !! p = t !! p) /\
  current_version t' out = cur /\
  (forall w2, w_fs w2 = t' ->
     (forall n, n ∈ dict_keys (crystals (w_meta w2)) -> plain_name n = true) ->
     let t'' := w_fs (snd (run E self w2)) in
     current_version t'' out = cur /\
     forall k p, k <> cur -> within (version_path out k) p = true ->
       t'' !! p = t !! p).
Proof.
  intros Hplain t out cur t'.
  assert (Hframe : forall w1,
    (forall n, n ∈ dict_keys (crystals (w_meta w1)) -> plain_name n = true) ->
    let c := current_version (w_fs w1) out in
    let t1 := w_fs (snd (run E self w1)) in
    (forall k p, k <> c -> within (version_path out k) p = true ->
       t1 !! p = w_fs w1 !! p) /\
    current_version t1 out = c).
  { intros w1 Hpl c t1.
    assert (Hother : forall k p, k <> c ->
              within (version_path out k) p = true -> t1 !! p = w_fs w1 !! p).
    { intros k p Hk Hin. apply run_inside; [exact Hpl |].
      eapply version_dirs_disjoint; eassumption. }
    split; [exact Hother |].
    assert (Hsame : forall u,
              isdir t1 (version_path out u) = isdir (w_fs w1) (version_path out u)).
    { intros u. unfold isdir. destruct (decide (u = c)) as [->|Hu].
      - unfold t1. rewrite run_inside; [reflexivity | exact Hpl |].
        apply below_self, version_path_clean.
      - rewrite (Hother u); [reflexivity | exact Hu |].
        unfold within. rewrite String.eqb_refl. reflexivity. }
    destruct (current_version_spec (w_fs w1) out) as (_ & Hnot & Hall).
    apply current_version_unique.
    - intros u Hu. rewrite Hsame. apply Hall, Hu.
    - rewrite Hsame. exact Hnot. }
  destruct (Hframe w Hplain) as (Hother & Hcur).
  split; [intros p Hp; apply run_inside; assumption |].
  split; [exact Hother |]. split; [exact Hcur |].
  intros w2 Hw2 Hpl2 t''.
  destruct (Hframe w2 Hpl2) as (Hother2 & Hcur2).
  subst t' t''. rewrite Hw2, Hcur in Hother2, Hcur2.
  split; [exact Hcur2 |].
  intros k p Hk Hin. rewrite (Hother2 k p Hk Hin).
  apply (Hother k p Hk Hin).
Qed.

Lemma C5_run_writes_current_version_only_witness :
  let w := Examples.start Examples.fs_two_versions
             [("Mpro-x0072", Examples.x0072)] in
  let r := run Examples.collator_externals (Examples.collator_config []) w in
  fst r = Ok (Some tt) /\
  current_version (w_fs w) "/out" = 2 /\
  w_fs (snd r) !! "/out/upload_2/metadata.yaml" = Some (File "meta") /\
  (forall p, within "/out/upload_1" p = true ->
     w_fs (snd r) !! p = Examples.fs_two_versions !! p) /\
  current_version (w_fs (snd r)) "/out" = 2.
Proof.
  intros w r.
  assert (Hplain : forall n,
            n ∈ dict_keys (crystals (w_meta w)) -> plain_name n = true).
  { intros n Hn. change (n ∈ ["Mpro-x0072"]) in Hn.
    apply list_elem_of_singleton in Hn. subst n. vm_compute. reflexivity. }
  destruct (C5_run_writes_current_version_only Examples.collator_externals
              (Examples.collator_config []) w Hplain)
    as (_ & Hother & Hcur & _).
  assert (Hv : current_version (w_fs w) "/out" = 2) by (vm_compute; reflexivity).
  change (cfg_output_dir (Examples.collator_config [])) with "/out"
    in Hother, Hcur.
  rewrite Hv in Hother, Hcur.
  split; [vm_compute; reflexivity |]. split; [exact Hv |].
  split; [vm_compute; reflexivity |]. split; [| exact Hcur].
  intros p Hp. apply (Hother 1); [lia |].
  replace (version_path "/out" 1) with "/out/upload_1"
    by (vm_compute; reflexivity).
  exact Hp.
Defined.

(** C5 as it is stated fails for a crystal whose tag is a path:
    [os.path.join] then gives the tag itself as the directory of the
    crystal, and the tag with the extension as the path of a copy. With
    the tag [/out/upload_1/evil], which the validator lets through, the
    run on version 2 returns and has written a file into the directory
    of version 1. *)
Lemma C5_counterexample :
  let w := Examples.start Examples.fs_two_versions
             [("/out/upload_1/evil", Examples.x0072)] in
  let r := run Examples.collator_externals (Examples.collator_config []) w in
  fst r = Ok (Some tt) /\
  current_version (w_fs w) "/out" = 2 /\
  within (version_path "/out" 1) "/out/upload_1/evil.pdb" = true /\
  w_fs w !! "/out/upload_1/evil.pdb" = None /\
  w_fs (snd r) !! "/out/upload_1/evil.pdb" = Some (File "ATOM 1") /\
  ~ (forall k p, k <> current_version (w_fs w) "/out" ->
       within (version_path "/out" k) p = true ->
       w_fs (snd r) !! p = w_fs w !! p).
Proof.
  intros w r.
  assert (Hv : current_version (w_fs w) "/out" = 2) by (vm_compute; reflexivity).
  assert (Hin : within (version_path "/out" 1) "/out/upload_1/evil.pdb" = true)
    by (vm_compute; reflexivity).
  assert (Hbefore : w_fs w !! "/out/upload_1/evil.pdb" = None)
    by (vm_compute; reflexivity).
  assert (Hafter : w_fs (snd r) !! "/out/upload_1/evil.pdb" =
                   Some (File "ATOM 1")) by (vm_compute; reflexivity).
  split; [vm_compute; reflexivity |]. split; [exact Hv |].
  split; [exact Hin |]. split; [exact Hbefore |]. split; [exact Hafter |].
  intros Hall. specialize (Hall 1 "/out/upload_1/evil.pdb").
  rewrite Hv, Hbefore, Hafter in Hall.
  discriminate Hall; [lia | exact Hin].
Qed.

End FrameFacts.

(* ===================================================================== *)
(** * What [_copy_files] copies *)
(* ===================================================================== *)

Module CopyFacts.
Import Path FS Collator PyFacts PathFacts FSFacts WorldFacts CollatorFacts VersionFacts.

(** ** The paths of the copies *)

(** Two directories of one directory with a common path are the same. *)
Lemma join_disjoint d a b q :
  clean d -> plain_name a = true -> plain_name b = true ->
  within (join d a) q = true -> within (join d b) q = true -> a = b.
Proof.
  intros Hd Ha Hb Hqa Hqb.
  pose proof (plain_name_no_sep _ Ha) as Hsa.
  pose proof (plain_name_no_sep _ Hb) as Hsb.
  unfold within, below in Hqa, Hqb.
  rewrite (clean_dirpfx _ (clean_join _ _ Hd Ha)) in Hqa.
  rewrite (clean_dirpfx _ (clean_join _ _ Hd Hb)) in Hqb.
  rewrite !(join_relative d) in Hqa, Hqb by (apply no_sep_isabs; assumption).
  apply orb_true_iff in Hqa as [Hqa | Hqa], Hqb as [Hqb | Hqb].
  - apply String.eqb_eq in Hqa, Hqb. subst q.
    apply String.app_inj in Hqb. auto.
  - apply String.eqb_eq in Hqa. subst q.
    apply prefix_spec in Hqb as (s & Hs). rewrite !append_assoc in Hs.
    apply String.app_inj in Hs. exfalso. revert Hs. apply no_sep_no_slash, Hsa.
  - apply String.eqb_eq in Hqb. subst q.
    apply prefix_spec in Hqa as (s & Hs). rewrite !append_assoc in Hs.
    apply String.app_inj in Hs. exfalso. revert Hs. apply no_sep_no_slash, Hsb.
  - apply prefix_spec in Hqa as (s & ->).
    apply prefix_spec in Hqb as (s' & Hs). rewrite !append_assoc in Hs.
    apply String.app_inj in Hs.
    apply sep_split_inj in Hs as [Hs _]; auto.
Qed.

Lemma within_self d : within d d = true.
Proof. unfold within. rewrite String.eqb_refl. reflexivity. Qed.

Lemma below_is_within d q : below d q = true -> within d q = true.
Proof. unfold within. intros ->. apply orb_true_r. Qed.

Lemma plain_file_name n k : plain_name n = true -> plain_name (n +:+ extension k) = true.
Proof.
  intros Hn. unfold plain_name. rewrite no_sep_append.
  rewrite (plain_name_no_sep _ Hn).
  destruct n as [|c n]; [discriminate |]. destruct k; reflexivity.
Qed.

Section paths.
Context (vdir : string) (Hclean : clean vdir).

Lemma crystal_dir_clean n :
  plain_name n = true -> clean (join (cryst_dir_of vdir) n).
Proof. intros Hn. apply clean_join; [apply cryst_dir_clean, Hclean | exact Hn]. Qed.

Lemma crystal_dir_in n :
  plain_name n = true ->
  below (cryst_dir_of vdir) (join (cryst_dir_of vdir) n) = true.
Proof. intros Hn. apply below_join, no_sep_isabs, plain_name_no_sep, Hn. Qed.

Lemma copied_path_in n k :
  plain_name n = true ->
  below (join (cryst_dir_of vdir) n) (copied_path vdir n k) = true.
Proof.
  intros Hn. apply below_join, no_sep_isabs, plain_name_no_sep, plain_file_name, Hn.
Qed.

Lemma copied_path_in_cryst_dir n k :
  plain_name n = true -> within (cryst_dir_of vdir) (copied_path vdir n k) = true.
Proof.
  intros Hn. apply below_is_within.
  apply (below_below _ _ _ (crystal_dir_in n Hn) (copied_path_in n k Hn)).
Qed.

Lemma copied_path_not_dir n k :
  plain_name n = true -> copied_path vdir n k <> join (cryst_dir_of vdir) n.
Proof.
  intros Hn Heq. pose proof (copied_path_in n k Hn) as Hb.
  rewrite Heq in Hb. rewrite below_self in Hb; [discriminate |].
  apply crystal_dir_clean, Hn.
Qed.

Lemma copied_path_split n k :
  plain_name n = true ->
  split (copied_path vdir n k) = (join (cryst_dir_of vdir) n, n +:+ extension k).
Proof.
  intros Hn. apply split_join; [apply crystal_dir_clean, Hn |].
  apply plain_name_no_sep, plain_file_name, Hn.
Qed.

Lemma copied_path_kind n k k' :
  plain_name n = true -> copied_path vdir n k = copied_path vdir n k' -> k = k'.
Proof.
  intros Hn H. unfold copied_path in H.
  rewrite !(join_relative (join _ n)) in H
    by apply no_sep_isabs, plain_name_no_sep, plain_file_name, Hn.
  apply String.app_inj in H. apply String.app_inj in H.
  destruct k, k'; (reflexivity || discriminate).
Qed.

End paths.

(** ** The steps of a block *)

Lemma parent_ok_join d n (t : fs) :
  clean d -> plain_name n = true -> t !! d = Some Dir ->
  parent_ok t (join d n) = Ok tt.
Proof.
  intros Hd Hn Ht. unfold parent_ok.
  rewrite (split_join d n Hd (plain_name_no_sep _ Hn)). simpl.
  rewrite (rstrip_sep_clean _ Hd), Ht.
  destruct d as [|c d]; [destruct Hd as [Hd _]; congruence | reflexivity].
Qed.

Lemma copy2_run src dst (t : fs) content :
  t !! src = Some (File content) -> src <> dst -> t !! dst = None ->
  parent_ok t dst = Ok tt ->
  copy2 src dst t = (Ok dst, <[dst := File content]> t).
Proof.
  intros Hs Hne Hd Hp. unfold copy2, isdir. rewrite Hd.
  apply String.eqb_neq in Hne. rewrite Hne, Hs, Hd, Hp. reflexivity.
Qed.

Lemma missing_entry_logged k n w :
  exists f, logf 1 (label k +:+ " entry missing for {}") [n] w = (Ok tt, with_log f w).
Proof. destruct k; eexists; apply logf_1_run; reflexivity. Qed.

Section block.
Context (E : externals) (self : config) (vdir : string) (Hclean : clean vdir).

(** The block of a kind without entry logs a warning. *)
Lemma copy_block_skips i n x k w :
  crystals (w_meta w) !! i = Some (n, x) ->
  entry_truthy (get_file k (crystallographic_files x)) = false ->
  exists f,
    copy_block E self i (join (cryst_dir_of vdir) n) n k w =
    (Ok None, with_log f w).
Proof.
  intros Hx He. destruct (missing_entry_logged k n w) as (f & Hf).
  exists f. unfold copy_block.
  erewrite bind_run by (eapply get_xtal_run, Hx).
  cbv beta iota zeta. rewrite He.
  erewrite bind_run by exact Hf. reflexivity.
Qed.

(** The block of a kind with a path copies the file, reads the copy
    again for its digest and writes both to the record. *)
Lemma copy_block_copies i n x k p src content w :
  plain_name n = true ->
  crystals (w_meta w) !! i = Some (n, x) ->
  get_file k (crystallographic_files x) = FilePath p -> p <> "" ->
  Validator.prepend_base (base_dir self) p = Ok src ->
  w_fs w !! src = Some (File content) ->
  within (cryst_dir_of vdir) src = false ->
  w_fs w !! join (cryst_dir_of vdir) n = Some Dir ->
  w_fs w !! copied_path vdir n k = None ->
  copy_block E self i (join (cryst_dir_of vdir) n) n k w =
  (Ok None,
   with_crystals
     (alter (fun kv =>
        (fst kv,
         set_files
           (set_file k (Copied (copied_path vdir n k) (sha256 E content))
              (crystallographic_files (snd kv))) (snd kv))) i)
     (with_fs (fun _ => <[copied_path vdir n k := File content]> (w_fs w)) w)).
Proof.
  intros Hn Hx He Hp Hsrc Hc Hout Hdir Hfree. unfold copy_block.
  erewrite bind_run by (eapply get_xtal_run, Hx).
  cbv beta iota zeta. rewrite He.
  assert (Ht : entry_truthy (FilePath p) = true)
    by (simpl; apply String.eqb_neq in Hp; rewrite Hp; reflexivity).
  rewrite Ht.
  erewrite bind_run by (unfold lift; rewrite Hsrc; reflexivity).
  fold (copied_path vdir n k).
  assert (Hne : src <> copied_path vdir n k).
  { intros ->. rewrite (copied_path_in_cryst_dir vdir n k Hn) in Hout.
    discriminate. }
  erewrite bind_run.
  2:{ apply on_fs_run. apply (copy2_run _ _ _ content Hc Hne Hfree).
      unfold copied_path. apply parent_ok_join;
        [apply crystal_dir_clean; assumption | apply plain_file_name, Hn | exact Hdir]. }
  assert (Hcl : clean (copied_path vdir n k)).
  { apply clean_join; [apply crystal_dir_clean; assumption |].
    apply plain_file_name, Hn. }
  destruct Hcl as [Hnonempty _]. apply String.eqb_neq in Hnonempty.
  cbv beta. rewrite Hnonempty.
  erewrite bind_run.
  2:{ unfold gen_sha256. erewrite bind_run; [reflexivity |].
      apply on_fs_run, read_file_File. simpl. apply lookup_insert_eq. }
  erewrite bind_run by reflexivity. reflexivity.
Qed.

End block.

(** ** The invariant of the loop *)

Lemma get_set_file k0 k e f :
  get_file k0 (set_file k e f) = if decide (k0 = k) then e else get_file k0 f.
Proof. destruct k0, k; reflexivity. Qed.

Lemma mtz_after_pdb : MTZ ∉ [PDB].
Proof. intros H. apply list_elem_of_singleton in H. discriminate. Qed.

Lemma cif_after_mtz : CIF ∉ [MTZ; PDB].
Proof.
  rewrite !not_elem_of_cons. repeat split; try discriminate. apply not_elem_of_nil.
Qed.

Lemma every_kind k : k ∈ [CIF; MTZ; PDB].
Proof. rewrite !elem_of_cons. destruct k; auto. Qed.

Lemma on_fs_run_same {A} (m : M fs A) w r :
  m (w_fs w) = (r, w_fs w) -> on_fs m w = (r, w).
Proof. unfold on_fs. intros ->. destruct w; reflexivity. Qed.

Section loop.
Context (E : externals) (self : config) (vdir : string) (t0 : fs).
Context (c0 : dict xtal_data).
Context (Hclean : clean vdir).
Context (Hnodup : NoDup (dict_keys c0)).
Context (Hentry : forall n, n ∈ dict_keys c0 -> entry_name n = true).
Context (Hsources : forall i n x k, c0 !! i = Some (n, x) ->
  source_ok (base_dir self) (cryst_dir_of vdir) t0
    (get_file k (crystallographic_files x)) = true).

Local Abbreviation cdir := (cryst_dir_of vdir).
Local Abbreviation frame := (copy_frame vdir t0).
Local Abbreviation fresh := (copy_fresh vdir).
Local Abbreviation entry_copied := (copied_entry E (base_dir self) t0).
Local Abbreviation done_in := (xtal_done E (base_dir self) vdir t0).
Local Abbreviation copied_in := (xtal_copied E (base_dir self) vdir t0).
Local Abbreviation inv := (copy_inv E (base_dir self) vdir t0 c0).
Local Abbreviation step_inv := (copy_step_inv E (base_dir self) vdir t0 c0).

Lemma upload_name_entry i n x : c0 !! i = Some (n, x) -> entry_name n = true.
Proof.
  intros Hi. apply Hentry. unfold dict_keys.
  apply list_elem_of_fmap. exists (n, x). split; [reflexivity |].
  eapply list_elem_of_lookup_2, Hi.
Qed.

Lemma upload_name_plain i n x : c0 !! i = Some (n, x) -> plain_name n = true.
Proof. intros Hi. eapply entry_name_plain, upload_name_entry, Hi. Qed.

Lemma upload_names_differ i j n m x y :
  c0 !! i = Some (n, x) -> c0 !! j = Some (m, y) -> i <> j -> n <> m.
Proof.
  intros Hi Hj Hne ->. apply Hne.
  apply (NoDup_lookup (dict_keys c0) i j m Hnodup);
    unfold dict_keys; rewrite list_lookup_fmap; [rewrite Hi | rewrite Hj];
    reflexivity.
Qed.

(** The source that an entry with a path names. *)
Lemma upload_source i n x k :
  c0 !! i = Some (n, x) ->
  entry_truthy (get_file k (crystallographic_files x)) = true ->
  exists p src content,
    get_file k (crystallographic_files x) = FilePath p /\ p <> "" /\
    Validator.prepend_base (base_dir self) p = Ok src /\
    t0 !! src = Some (File content) /\ within cdir src = false /\
    source_content (base_dir self) t0 (get_file k (crystallographic_files x))
      = Some content.
Proof.
  intros Hi Ht. pose proof (Hsources i n x k Hi) as Hs.
  destruct (get_file k (crystallographic_files x)) as [|p|f d];
    [discriminate | | discriminate].
  unfold source_ok in Hs. rewrite Ht in Hs. simpl in Hs, Ht.
  destruct (Validator.prepend_base (base_dir self) p) as [src|e] eqn:Hsrc;
    [|discriminate].
  apply andb_true_iff in Hs as [Hf Hw]. apply negb_true_iff in Hw.
  unfold isfile in Hf.
  destruct (t0 !! src) as [[|content]|] eqn:Hc; try discriminate.
  exists p, src, content. repeat split; try assumption || reflexivity.
  - intros ->. discriminate.
  - simpl. rewrite Hsrc, Hc. reflexivity.
Qed.

(** A copy stays what it is when its file is not touched. *)
Lemma entry_copied_stable (t t' : fs) n k e e' :
  t' !! copied_path vdir n k = t !! copied_path vdir n k ->
  entry_copied t vdir n k e e' -> entry_copied t' vdir n k e e'.
Proof.
  intros Hsame. unfold copied_entry. destruct (entry_truthy e); [|auto].
  intros (content & H1 & H2 & H3). exists content. rewrite Hsame. auto.
Qed.

Lemma done_in_stable (t t' : fs) n x x' :
  (forall k, t' !! copied_path vdir n k = t !! copied_path vdir n k) ->
  done_in t n x x' -> done_in t' n x x'.
Proof. intros Hsame H k. eapply entry_copied_stable; [apply Hsame | apply H]. Qed.

Lemma copied_in_stable ks (t t' : fs) n x x' :
  (forall k, k ∈ ks -> t' !! copied_path vdir n k = t !! copied_path vdir n k) ->
  copied_in ks t n x x' -> copied_in ks t' n x x'.
Proof.
  intros Hsame H k. split; [|apply H].
  intros Hk. eapply entry_copied_stable; [apply Hsame, Hk | apply H, Hk].
Qed.

(** The paths of two crystals differ. *)
Lemma copied_paths_differ n m k k' :
  plain_name n = true -> plain_name m = true -> n <> m ->
  copied_path vdir n k <> copied_path vdir m k'.
Proof.
  intros Hn Hm Hne Heq. apply Hne.
  apply (join_disjoint cdir n m (copied_path vdir n k));
    [apply cryst_dir_clean, Hclean | exact Hn | exact Hm | |].
  - apply below_is_within, copied_path_in, Hn.
  - rewrite Heq. apply below_is_within, copied_path_in, Hm.
Qed.

Lemma copied_path_not_other_dir n m k :
  plain_name n = true -> plain_name m = true -> n <> m ->
  copied_path vdir n k <> join cdir m.
Proof.
  intros Hn Hm Hne Heq. apply Hne.
  apply (join_disjoint cdir n m (copied_path vdir n k));
    [apply cryst_dir_clean, Hclean | exact Hn | exact Hm | |].
  - apply below_is_within, copied_path_in, Hn.
  - rewrite Heq. apply within_self.
Qed.

(** What a pass for the crystal [n] writes leaves the other crystals. *)
Lemma other_paths_kept (t t' : fs) n :
  plain_name n = true ->
  (forall q, within (join cdir n) q = false -> t' !! q = t !! q) ->
  forall m k, plain_name m = true -> m <> n ->
    t' !! copied_path vdir m k = t !! copied_path vdir m k.
Proof.
  intros Hn Hkept m k Hm Hne. apply Hkept.
  destruct (within (join cdir n) (copied_path vdir m k)) eqn:Hw; [|reflexivity].
  exfalso. apply Hne.
  apply (join_disjoint cdir m n (copied_path vdir m k));
    [apply cryst_dir_clean, Hclean | exact Hm | exact Hn | | exact Hw].
  apply below_is_within, copied_path_in, Hm.
Qed.

(** The state within a pass is kept by a change of the log, and by a
    copy to the path of a kind that was not yet handled. *)
Lemma step_inv_log done n ks k x f w :
  c0 !! length done = Some (n, x) -> k ∉ ks ->
  entry_truthy (get_file k (crystallographic_files x)) = false ->
  step_inv done n ks w -> step_inv done n (k :: ks) (with_log f w).
Proof.
  intros Hx Hk Ht (Hframe & Hfresh & Hdir & Hfree & Hrec).
  split; [exact Hframe |]. split; [exact Hfresh |]. split; [exact Hdir |].
  split. { intros k' Hk'. apply Hfree. set_solver. }
  intros i m y Hy. destruct (Hrec i m y Hy) as (y' & Hy' & HP).
  exists y'. split; [exact Hy' |].
  change (w_fs (with_log f w)) with (w_fs w).
  destruct (decide (i < length done)); [exact HP |].
  destruct (decide (i = length done)) as [->|]; [|exact HP].
  rewrite Hx in Hy. injection Hy as <- <-.
  intros k'. destruct (HP k') as [Hin Hout]. split.
  - intros Hk'. apply elem_of_cons in Hk' as [->|Hk']; [|apply Hin, Hk'].
    unfold copied_entry. rewrite Ht. apply Hout, Hk.
  - intros Hk'. apply Hout. set_solver.
Qed.

Lemma step_inv_copy done n ks k x content w :
  c0 !! length done = Some (n, x) -> k ∉ ks ->
  entry_truthy (get_file k (crystallographic_files x)) = true ->
  source_content (base_dir self) t0 (get_file k (crystallographic_files x))
    = Some content ->
  step_inv done n ks w ->
  step_inv done n (k :: ks)
    (with_crystals
       (alter (fun kv =>
          (fst kv,
           set_files
             (set_file k (Copied (copied_path vdir n k) (sha256 E content))
                (crystallographic_files (snd kv))) (snd kv))) (length done))
       (with_fs (fun _ => <[copied_path vdir n k := File content]> (w_fs w)) w)).
Proof.
  intros Hx Hk Ht Hcontent (Hframe & Hfresh & Hdir & Hfree & Hrec).
  pose proof (upload_name_plain _ _ _ Hx) as Hn.
  set (out := copied_path vdir n k).
  match goal with |- step_inv _ _ _ ?s => set (w' := s) end.
  assert (Hfs : w_fs w' = <[out := File content]> (w_fs w)) by reflexivity.
  assert (Hkept : forall q, within (join cdir n) q = false ->
            w_fs w' !! q = w_fs w !! q).
  { intros q Hq. rewrite Hfs. apply lookup_insert_ne. intros <-.
    unfold out in Hq.
    rewrite (below_is_within _ _ (copied_path_in vdir n k Hn)) in Hq.
    discriminate. }
  split; [|split; [|split; [|split]]].
  - destruct Hframe as (Hv & Hcd & Hrest). split; [exact Hv |]. split.
    + rewrite Hkept; [exact Hcd |]. apply not_below_inner with (d := cdir).
      * apply crystal_dir_in, Hn.
      * apply below_self, cryst_dir_clean, Hclean.
    + intros q Hq. rewrite Hkept; [apply Hrest, Hq |].
      apply not_below_inner with (d := cdir); [apply crystal_dir_in, Hn |].
      apply within_false in Hq as [_ Hq]. exact Hq.
  - intros m q Hm Hnot Hq. rewrite Hkept; [apply (Hfresh m q Hm Hnot Hq) |].
    destruct (within (join cdir n) q) eqn:Hw; [|reflexivity].
    exfalso. apply Hnot. apply elem_of_app. right.
    apply list_elem_of_singleton.
    apply (join_disjoint cdir m n q); auto using cryst_dir_clean.
  - rewrite Hfs, lookup_insert_ne; [exact Hdir |].
    apply copied_path_not_dir; assumption.
  - intros k' Hk'. rewrite Hfs, lookup_insert_ne.
    + apply Hfree. set_solver.
    + intros Heq. apply copied_path_kind in Heq; [|exact Hn]. set_solver.
  - intros i m y Hy. destruct (Hrec i m y Hy) as (y' & Hy' & HP).
    change (crystals (w_meta w')) with
      (alter (fun kv : string * xtal_data =>
          (fst kv,
           set_files
             (set_file k (Copied out (sha256 E content))
                (crystallographic_files (snd kv))) (snd kv))) (length done)
         (crystals (w_meta w))).
    destruct (decide (i = length done)) as [->|Hi].
    + rewrite Hx in Hy. injection Hy as <- <-.
      rewrite list_lookup_alter_eq, Hy'. simpl. eexists. split; [reflexivity |].
      rewrite decide_False by lia. rewrite decide_False in HP by lia.
      intros k'. destruct (HP k') as [Hin Hout]. simpl. rewrite get_set_file.
      split.
      * intros Hk'. destruct (decide (k' = k)) as [->|Hne].
        -- unfold copied_entry. rewrite Ht. exists content.
           split; [exact Hcontent |]. split; [|reflexivity].
           rewrite ?Hfs. apply lookup_insert_eq.
        -- apply entry_copied_stable with (t := w_fs w).
           ++ rewrite ?Hfs. apply lookup_insert_ne. intros Heq.
              apply copied_path_kind in Heq; [|exact Hn]. congruence.
           ++ apply Hin. apply elem_of_cons in Hk' as [Hk'|Hk'];
                [congruence | exact Hk'].
      * intros Hk'. apply not_elem_of_cons in Hk' as [Hne Hk'].
        rewrite decide_False by exact Hne. apply Hout, Hk'.
    + rewrite list_lookup_alter_ne by congruence. exists y'.
      split; [exact Hy' |].
      destruct (decide (i < length done)); [|exact HP].
      apply done_in_stable with (t := w_fs w); [|exact HP].
      intros k'. apply (other_paths_kept _ _ n Hn Hkept).
      * eapply upload_name_plain, Hy.
      * apply (upload_names_differ _ _ _ _ _ _ Hy Hx Hi).
Qed.

(** A block takes the state within a pass to the next one. *)
Lemma copy_block_step done n x ks k w :
  c0 !! length done = Some (n, x) -> k ∉ ks ->
  step_inv done n ks w ->
  exists w',
    copy_block E self (length done) (join cdir n) n k w = (Ok None, w') /\
    step_inv done n (k :: ks) w'.
Proof.
  intros Hx Hk Hinv.
  pose proof (upload_name_plain _ _ _ Hx) as Hn.
  pose proof Hinv as (Hframe & Hfresh & Hdir & Hfree & Hrec).
  destruct (Hrec _ _ _ Hx) as (x' & Hx' & Hcur). cbv beta in Hcur.
  rewrite decide_False in Hcur by lia.
  rewrite decide_True in Hcur by reflexivity.
  assert (Hsame : get_file k (crystallographic_files x') =
                  get_file k (crystallographic_files x)) by (apply Hcur, Hk).
  destruct (entry_truthy (get_file k (crystallographic_files x))) eqn:Ht.
  - destruct (upload_source _ _ _ k Hx Ht)
      as (p & src & content & He & Hp & Hsrc & Hc & Hout & Hcontent).
    destruct Hframe as (Hv & Hcd & Hrest).
    eexists. split.
    + apply (copy_block_copies E self vdir Hclean _ n x' k p src content);
        try assumption.
      * rewrite Hsame. exact He.
      * rewrite Hrest by exact Hout. exact Hc.
      * apply Hfree, Hk.
    + apply (step_inv_copy done n ks k x content w); assumption.
  - destruct (copy_block_skips E self vdir (length done) n x' k w Hx')
      as (f & Hf); [rewrite Hsame; exact Ht |].
    exists (with_log f w). split; [exact Hf |].
    apply (step_inv_log done n ks k x f w); assumption.
Qed.

(** The directory of the next crystal starts a pass. *)
Lemma step_inv_start done i n rest w :
  positions c0 = done ++ (i, n) :: rest ->
  inv done w ->
  i = length done /\ (exists x, c0 !! length done = Some (n, x)) /\
  w_fs w !! join cdir n = None /\
  step_inv done n []
    (with_fs (fun _ => <[join cdir n := Dir]> (w_fs w)) w).
Proof.
  intros Hpos (Hframe & Hfresh & Hrec).
  assert (Hi : i = length done).
  { apply (f_equal (fmap fst)) in Hpos. rewrite positions_fst in Hpos.
    rewrite fmap_app, fmap_cons in Hpos. simpl in Hpos.
    apply (f_equal (fun l => l !! length done)) in Hpos.
    rewrite lookup_app_r in Hpos by (rewrite length_fmap; lia).
    rewrite length_fmap, Nat.sub_diag in Hpos. simpl in Hpos.
    apply lookup_seq in Hpos as [Hpos _]. lia. }
  subst i.
  assert (Hx : exists x, c0 !! length done = Some (n, x)).
  { apply positions_lookup. rewrite Hpos. apply elem_of_app. right.
    apply list_elem_of_here. }
  destruct Hx as (x & Hx).
  pose proof (upload_name_plain _ _ _ Hx) as Hn.
  assert (Hnew : n ∉ done.*2).
  { pose proof Hnodup as Hnd. rewrite <- positions_snd, Hpos in Hnd.
    rewrite fmap_app, fmap_cons in Hnd. simpl in Hnd.
    apply NoDup_app in Hnd as (_ & Hnd & _). intros Hin.
    apply (Hnd n Hin). apply list_elem_of_here. }
  assert (Hnone : w_fs w !! join cdir n = None).
  { apply (Hfresh n _ Hn Hnew). apply within_self. }
  split; [reflexivity |]. split; [eauto |]. split; [exact Hnone |].
  match goal with |- step_inv _ _ _ ?s => set (w' := s) end.
  assert (Hfs : w_fs w' = <[join cdir n := Dir]> (w_fs w)) by reflexivity.
  assert (Hkept : forall q, within (join cdir n) q = false ->
            w_fs w' !! q = w_fs w !! q).
  { intros q Hq. rewrite Hfs. apply lookup_insert_ne. intros <-.
    rewrite within_self in Hq. discriminate. }
  split; [|split; [|split; [|split]]].
  - destruct Hframe as (Hv & Hcd & Hrest). split; [exact Hv |]. split.
    + rewrite Hkept; [exact Hcd |]. apply not_below_inner with (d := cdir).
      * apply crystal_dir_in, Hn.
      * apply below_self, cryst_dir_clean, Hclean.
    + intros q Hq. rewrite Hkept; [apply Hrest, Hq |].
      apply not_below_inner with (d := cdir); [apply crystal_dir_in, Hn |].
      apply within_false in Hq as [_ Hq]. exact Hq.
  - intros m q Hm Hnot Hq. apply not_elem_of_app in Hnot as [Hnot Hne].
    rewrite Hkept; [apply (Hfresh m q Hm Hnot Hq) |].
    destruct (within (join cdir n) q) eqn:Hw; [|reflexivity].
    exfalso. apply Hne. apply list_elem_of_singleton.
    apply (join_disjoint cdir m n q); auto using cryst_dir_clean.
  - rewrite Hfs. apply lookup_insert_eq.
  - intros k _. rewrite Hfs, lookup_insert_ne.
    + apply (Hfresh n _ Hn Hnew). apply below_is_within, copied_path_in, Hn.
    + intros Heq. symmetry in Heq. revert Heq.
      apply copied_path_not_dir; assumption.
  - intros i m y Hy. destruct (Hrec i m y Hy) as (y' & Hy' & HP).
    exists y'. split; [exact Hy' |]. cbv beta in HP |- *.
    destruct (decide (i < length done)) as [Hlt|Hge].
    + apply done_in_stable with (t := w_fs w); [|exact HP].
      intros k. apply (other_paths_kept _ _ n Hn Hkept).
      * eapply upload_name_plain, Hy.
      * apply (upload_names_differ _ _ _ _ _ _ Hy Hx). lia.
    + subst y'. destruct (decide (i = length done)); [|reflexivity].
      intros k. split; [intros Hk; inversion Hk | reflexivity].
Qed.

(** A pass of the loop of [_copy_files] does not return, and takes the
    invariant to the next crystal. *)
Lemma copy_xtal_step done i n rest w :
  positions c0 = done ++ (i, n) :: rest ->
  inv done w ->
  exists w',
    copy_xtal E self cdir (i, n) w = (Ok None, w') /\
    inv (done ++ [(i, n)]) w'.
Proof.
  intros Hpos Hinv.
  destruct (step_inv_start done i n rest w Hpos Hinv)
    as (-> & (x & Hx) & Hnone & H0).
  pose proof (upload_name_plain _ _ _ Hx) as Hn.
  destruct Hinv as ((_ & Hcd & _) & _).
  destruct (copy_block_step done n x [] PDB _ Hx ltac:(apply not_elem_of_nil) H0)
    as (w1 & Hrun1 & H1).
  destruct (copy_block_step done n x [PDB] MTZ _ Hx mtz_after_pdb H1)
    as (w2 & Hrun2 & H2).
  destruct (copy_block_step done n x [MTZ; PDB] CIF _ Hx cif_after_mtz H2)
    as (w3 & Hrun3 & H3).
  exists w3. split.
  - unfold copy_xtal. erewrite bind_run.
    2:{ apply on_fs_run.
        rewrite makedirs_join;
          [| apply cryst_dir_clean, Hclean | exact Hn
           | unfold exists_; rewrite Hcd; reflexivity].
        apply mkdir_run; [exact Hnone | |].
        - apply parent_ok_join;
            [apply cryst_dir_clean, Hclean | exact Hn | exact Hcd].
        - rewrite basename_join
            by (apply cryst_dir_clean, Hclean || apply plain_name_no_sep, Hn).
          eapply entry_name_not_dot, upload_name_entry, Hx. }
    erewrite bind_run by exact Hrun1. cbv beta iota.
    erewrite bind_run by exact Hrun2. cbv beta iota. exact Hrun3.
  - destruct H3 as (Hframe & Hfresh & _ & _ & Hrec).
    split; [exact Hframe |]. split.
    { rewrite fmap_app. exact Hfresh. }
    intros j m y Hy. destruct (Hrec j m y Hy) as (y' & Hy' & HP).
    exists y'. split; [exact Hy' |]. cbv beta in HP |- *.
    rewrite length_app. simpl length.
    destruct (decide (j < length done)) as [Hlt|Hge].
    + rewrite decide_True by lia. exact HP.
    + destruct (decide (j = length done)) as [->|Hne].
      * rewrite decide_True by lia. intros k. apply HP, every_kind.
      * rewrite decide_False by lia. exact HP.
Qed.

(** The directory of the crystallographic files is cleared and made
    again, which starts the loop. *)
Lemma cryst_dir_not_above : within cdir vdir = false.
Proof.
  apply not_below_inner with (d := vdir); [apply cryst_dir_below |].
  apply below_self, Hclean.
Qed.

Lemma cryst_dir_cleared :
  version_dir_ready t0 vdir ->
  exists t1 : fs,
    (if exists_ t0 cdir then rmtree cdir t0 = (Ok tt, t1) else t1 = t0) /\
    t1 !! cdir = None /\ t1 !! vdir = Some Dir /\
    (forall q, within cdir q = false -> t1 !! q = t0 !! q) /\
    (forall q, below cdir q = true -> t1 !! q = None).
Proof.
  intros (Hdir & Hfile & Hempty).
  assert (Hv : t0 !! vdir = Some Dir).
  { unfold isdir in Hdir. destruct (t0 !! vdir) as [[|c]|]; congruence. }
  destruct (exists_ t0 cdir) eqn:Hex.
  - assert (Hcd : t0 !! cdir = Some Dir).
    { unfold exists_ in Hex. unfold isfile in Hfile.
      destruct (t0 !! cdir) as [[|c]|]; congruence. }
    assert (Hrun : rmtree cdir t0 = (Ok tt, snd (rmtree cdir t0))).
    { unfold rmtree. rewrite Hcd. reflexivity. }
    assert (Hok : fst (rmtree cdir t0) = Ok tt) by (rewrite Hrun; reflexivity).
    exists (snd (rmtree cdir t0)). split; [exact Hrun |].
    split; [apply (rmtree_inside _ _ _ Hok), within_self |].
    split; [rewrite rmtree_outside; [exact Hv | apply cryst_dir_not_above] |].
    split; [intros q Hq; apply rmtree_outside, Hq |].
    intros q Hq. apply (rmtree_inside _ _ _ Hok), below_is_within, Hq.
  - exists t0. split; [reflexivity |]. split.
    { unfold exists_ in Hex. destruct (t0 !! cdir); congruence. }
    split; [exact Hv |]. split; [reflexivity |]. apply Hempty. reflexivity.
Qed.

(** [_copy_files] returns the metadata, with the invariant of its loop
    for all crystals. *)
Lemma copy_files_run w :
  version_dir w = Some vdir -> w_fs w = t0 -> crystals (w_meta w) = c0 ->
  version_dir_ready t0 vdir ->
  exists w', _copy_files E self w = (Ok (Some tt), w') /\ inv (positions c0) w'.
Proof.
  intros Hv Hfs Hc Hready.
  destruct (cryst_dir_cleared Hready) as (t1 & Hclear & Hnone & Hvd & Hout & Hin).
  assert (Hstart : forall w2,
            version_dir w2 = Some vdir -> w_fs w2 = <[cdir := Dir]> t1 ->
            crystals (w_meta w2) = c0 -> inv [] w2).
  { intros w2 Hv2 Hfs2 Hc2. split; [|split].
    - split; [exact Hv2 |]. rewrite Hfs2. split; [apply lookup_insert_eq |].
      intros q Hq. rewrite lookup_insert_ne; [apply Hout, Hq |].
      intros <-. rewrite within_self in Hq. discriminate.
    - intros n q Hn _ Hq. rewrite Hfs2, lookup_insert_ne.
      + apply Hin. apply (below_within _ _ _ (crystal_dir_in vdir n Hn) Hq).
      + intros <-.
        pose proof (below_within _ _ _ (crystal_dir_in vdir n Hn) Hq) as Hb.
        rewrite below_self in Hb by apply cryst_dir_clean, Hclean.
        discriminate.
    - intros i n x Hx. exists x. split; [|reflexivity].
      rewrite Hc2. exact Hx. }
  assert (Hloop : forall w2, inv [] w2 ->
            exists w', for_return (positions c0) (copy_xtal E self cdir) w2
                       = (Ok None, w') /\ inv (positions c0) w').
  { intros w2 H2.
    pose proof (hoare_for_return_steps inv (fun (_ : option unit) _ => False)
                  (fun _ => False) (copy_xtal E self cdir) (positions c0)) as Hl.
    specialize (Hl ltac:(
      intros done [i n] rest Hpos w3 H3;
      destruct (copy_xtal_step done i n rest w3 Hpos H3) as (w4 & -> & H4);
      exact H4) w2 H2).
    destruct (for_return _ _ w2) as [[[r|]|e] w']; [destruct Hl | eauto | destruct Hl]. }
  assert (Hmk : makedirs cdir t1 = (Ok tt, <[cdir := Dir]> t1)).
  { change (cryst_dir_of vdir) with (join vdir "crystallographic").
    rewrite makedirs_join;
      [| exact Hclean | reflexivity | unfold exists_; rewrite Hvd; reflexivity].
    apply mkdir_run; [exact Hnone | |].
    - apply parent_ok_join; [exact Hclean | reflexivity | exact Hvd].
    - rewrite basename_join by (exact Hclean || reflexivity). reflexivity. }
  unfold _copy_files.
  erewrite bind_run by (unfold get_version_dir, bind, gets; rewrite Hv; reflexivity).
  fold cdir. erewrite bind_run by reflexivity.
  erewrite bind_run by reflexivity. cbv beta.
  change (w_fs (with_log _ w)) with (w_fs w). rewrite Hfs.
  destruct (exists_ t0 cdir).
  - erewrite bind_run.
    2:{ erewrite bind_run by reflexivity. apply on_fs_run.
        change (w_fs (with_log _ (with_log _ w))) with (w_fs w).
        rewrite Hfs. exact Hclear. }
    erewrite bind_run by reflexivity.
    erewrite bind_run by (apply on_fs_run; exact Hmk).
    erewrite bind_run by reflexivity.
    change (crystals (w_meta _)) with (crystals (w_meta w)). rewrite Hc.
    match goal with |- exists w', bind _ _ ?s = _ /\ _ =>
      destruct (Hloop s) as (w' & Hrun & Hinv) end.
    { apply Hstart; [exact Hv | reflexivity | exact Hc]. }
    erewrite bind_run by exact Hrun. eauto.
  - subst t1. erewrite bind_run by reflexivity.
    erewrite bind_run by reflexivity.
    erewrite bind_run.
    2:{ apply on_fs_run. change (w_fs (with_log _ (with_log _ w))) with (w_fs w).
        rewrite Hfs. exact Hmk. }
    erewrite bind_run by reflexivity.
    change (crystals (w_meta _)) with (crystals (w_meta w)). rewrite Hc.
    match goal with |- exists w', bind _ _ ?s = _ /\ _ =>
      destruct (Hloop s) as (w' & Hrun & Hinv) end.
    { apply Hstart; [exact Hv | reflexivity | exact Hc]. }
    erewrite bind_run by exact Hrun. eauto.
Qed.

End loop.

(** ** The result of [_copy_files] *)

(** C6: [_copy_files] completes and returns the metadata when the version
    directory (a path [vdir] that is not empty and does not end with a
    separator) is there, the tags of the upload are distinct names of
    directory entries (not empty, without a separator or NUL, not [.] or [..])
    and every entry of the upload is null or the path of a file outside
    the directory of the copies; null entries do not make it fail. Then
    every crystal is still at its position in the upload, an entry that
    was null is null, and an entry with a path has become the pair of the
    path of the copy and a digest: the copy has the bytes of the source,
    and the digest is the one that [gen_sha256] computes again from the
    copy. *)
Theorem C6_copy_files_digest_round_trip E self vdir w :
  version_dir w = Some vdir -> clean vdir ->
  version_dir_ready (w_fs w) vdir ->
  NoDup (dict_keys (crystals (w_meta w))) ->
  (forall n, n ∈ dict_keys (crystals (w_meta w)) -> entry_name n = true) ->
  (forall i n x k, crystals (w_meta w) !! i = Some (n, x) ->
     source_ok (base_dir self) (cryst_dir_of vdir) (w_fs w)
       (get_file k (crystallographic_files x)) = true) ->
  exists w',
    _copy_files E self w = (Ok (Some tt), w') /\
    forall i n x, crystals (w_meta w) !! i = Some (n, x) ->
      exists x',
        crystals (w_meta w') !! i = Some (n, x') /\
        forall k,
          let e := get_file k (crystallographic_files x) in
          let e' := get_file k (crystallographic_files x') in
          (e = NoFile -> e' = NoFile) /\
          (entry_truthy e = true ->
           exists content,
             source_content (base_dir self) (w_fs w) e = Some content /\
             e' = Copied (copied_path vdir n k) (sha256 E content) /\
             w_fs w' !! copied_path vdir n k = Some (File content) /\
             gen_sha256 E (copied_path vdir n k) w' =
               (Ok (sha256 E content), w')).
Proof.
  intros Hv Hclean Hready Hnodup Hplain Hsources.
  destruct (copy_files_run E self vdir (w_fs w) (crystals (w_meta w))
              Hclean Hnodup Hplain Hsources w Hv eq_refl eq_refl Hready)
    as (w' & Hrun & (_ & _ & Hrec)).
  exists w'. split; [exact Hrun |].
  intros i n x Hx. destruct (Hrec i n x Hx) as (x' & Hx' & HP).
  exists x'. split; [exact Hx' |]. cbv beta in HP.
  rewrite decide_True in HP.
  2:{ apply lookup_lt_Some in Hx. unfold positions. rewrite length_imap. exact Hx. }
  intros k e e'. specialize (HP k). fold e e' in HP. unfold copied_entry in HP.
  split.
  - intros He. rewrite He in HP. exact HP.
  - intros Ht. rewrite Ht in HP. destruct HP as (content & Hc & Hfile & He').
    exists content. split; [exact Hc |]. split; [exact He' |].
    split; [exact Hfile |].
    unfold gen_sha256. erewrite bind_run; [reflexivity |].
    apply on_fs_run_same, read_file_File, Hfile.
Qed.

Lemma C6_copy_files_digest_round_trip_witness :
  let w := with_version_dir (Some "/out/upload_2")
             (Examples.start Examples.fs_two_versions
                [("Mpro-x0072", Examples.x0072)]) in
  exists w' x',
    _copy_files Examples.collator_externals (Examples.collator_config []) w
      = (Ok (Some tt), w') /\
    crystals (w_meta w') !! 0 = Some ("Mpro-x0072", x') /\
    xtal_pdb (crystallographic_files x') =
      Copied "/out/upload_2/crystallographic/Mpro-x0072/Mpro-x0072.pdb"
        "<ATOM 1>" /\
    ligand_cif (crystallographic_files x') = NoFile.
Proof.
  intros w.
  assert (Hclean : clean "/out/upload_2") by (split; [discriminate | reflexivity]).
  assert (Hready : version_dir_ready (w_fs w) "/out/upload_2").
  { split; [vm_compute; reflexivity |]. split; [vm_compute; reflexivity |].
    intros _ q Hq.
    destruct (w_fs w !! q) as [v|] eqn:Hl; [exfalso | reflexivity].
    apply elem_of_list_to_map_2 in Hl.
    repeat (apply elem_of_cons in Hl as [Hl | Hl];
            [injection Hl as -> _; vm_compute in Hq; discriminate |]).
    inversion Hl. }
  assert (Hnodup : NoDup (dict_keys (crystals (w_meta w))))
    by apply NoDup_singleton.
  assert (Hplain : forall n,
            n ∈ dict_keys (crystals (w_meta w)) -> entry_name n = true).
  { intros n Hn. change (n ∈ ["Mpro-x0072"]) in Hn.
    apply list_elem_of_singleton in Hn. subst n. vm_compute. reflexivity. }
  assert (Hsources : forall i n x k,
            crystals (w_meta w) !! i = Some (n, x) ->
            source_ok (base_dir (Examples.collator_config []))
              (cryst_dir_of "/out/upload_2") (w_fs w)
              (get_file k (crystallographic_files x)) = true).
  { intros [|i] n x k Hx; [|discriminate]. injection Hx as <- <-.
    destruct k; vm_compute; reflexivity. }
  destruct (C6_copy_files_digest_round_trip Examples.collator_externals
              (Examples.collator_config []) "/out/upload_2" w
              eq_refl Hclean Hready Hnodup Hplain Hsources)
    as (w' & Hrun & Hall).
  destruct (Hall 0 "Mpro-x0072" Examples.x0072 eq_refl) as (x' & Hx' & Hk).
  exists w', x'. split; [exact Hrun |]. split; [exact Hx' |]. split.
  - destruct (Hk PDB) as [_ Hpdb].
    destruct Hpdb as (content & Hc & He & _); [reflexivity |].
    vm_compute in Hc. injection Hc as <-. exact He.
  - destruct (Hk CIF) as [Hcif _]. apply Hcif. reflexivity.
Defined.

End CopyFacts.

(* ===================================================================== *)
(** * The metadata of the aligner *)
(* ===================================================================== *)

Module AlignerFacts.
Import Path Aligner PyFacts.

Section aligner.
Context {doc cell : Type}.
Context (K : constants) (E : externals doc cell) (self : aligner).

(** ** The first run *)

(** C9: for metadata without an entry for the previous output directory,
    [_perform_alignments] raises, and its calls to the outside up to then
    neither run the alignment ([Update]) nor link old data; when the
    metadata has crystals and the model of the version directory can be
    loaded, the exception is the [TypeError] of [Path(None)]. *)
Theorem C9_first_run_raises (meta : input_meta) (tr : trace) :
  previous_output_dir meta = None ->
  exists e calls,
    _perform_alignments K E self meta tr = (Raise e, tr ++ calls) /\
    (Update ∉ calls) /\ (SymlinkOldData ∉ calls) /\
    (forall crystals m,
       meta_crystals meta = Some crystals -> crystals <> [] ->
       from_dir E (version_dir self) = Ok m -> e = TypeError).
Proof.
  intros Hprev. unfold _perform_alignments. rewrite Hprev.
  destruct meta as [[crystals|] prev]; simpl.
  - unfold bind, log, ext, ret, raise.
    destruct crystals as [|c crystals]; simpl.
    + exists PlainException, [Log 0 "Performing alignments";
        Log 2 "Did not find any crystals in metadata file. Exiting."].
      split; [rewrite <- app_assoc; reflexivity |].
      split; [|split].
      * rewrite !not_elem_of_cons. repeat split; try discriminate.
        apply not_elem_of_nil.
      * rewrite !not_elem_of_cons. repeat split; try discriminate.
        apply not_elem_of_nil.
      * intros crystals m [= <-] Hne. congruence.
    + destruct (from_dir E (version_dir self)) as [m|e] eqn:Hm.
      * exists TypeError, [Log 0 "Performing alignments"; FromDir (version_dir self)].
        split; [rewrite <- app_assoc; reflexivity |].
        split; [|split; [|reflexivity]].
        -- rewrite !not_elem_of_cons. repeat split; try discriminate.
           apply not_elem_of_nil.
        -- rewrite !not_elem_of_cons. repeat split; try discriminate.
           apply not_elem_of_nil.
      * exists e, [Log 0 "Performing alignments"; FromDir (version_dir self)].
        split; [rewrite <- app_assoc; reflexivity |].
        split; [|split].
        -- rewrite !not_elem_of_cons. repeat split; try discriminate.
           apply not_elem_of_nil.
        -- rewrite !not_elem_of_cons. repeat split; try discriminate.
           apply not_elem_of_nil.
        -- intros crystals' m _ _ [=].
  - exists KeyError, [Log 0 "Performing alignments"].
    split; [reflexivity |]. split; [|split].
    + rewrite !not_elem_of_cons. repeat split; try discriminate.
      apply not_elem_of_nil.
    + rewrite !not_elem_of_cons. repeat split; try discriminate.
      apply not_elem_of_nil.
    + intros crystals m [=].
Qed.

(** ** The extraction of the components *)

(** A loop over the items whose passes all return: it returns the sum of
    what the passes count and the values they leave. *)
Lemma for_items_total {V} (f : string -> V -> V) (c : string -> V -> nat)
    (body : nat -> string -> V -> M trace (nat * V)) (d : dict V) :
  (forall n k v tr, (k, v) ∈ d ->
     exists tr', body n k v tr = (Ok (n + c k v, f k v), tr')) ->
  forall n tr,
    exists tr',
      for_items d body n tr = (Ok (n + sum_items c d, map_items f d), tr').
Proof.
  induction d as [|[k v] d IH]; intros Hbody n tr.
  - exists tr. simpl. rewrite Nat.add_0_r. reflexivity.
  - destruct (Hbody n k v tr (list_elem_of_here _ _)) as (tr1 & H1).
    destruct (IH (fun n k v tr Hin =>
                    Hbody n k v tr (list_elem_of_further _ _ _ Hin))
                (n + c k v) tr1) as (tr2 & H2).
    exists tr2. simpl. erewrite bind_run by exact H1. cbv beta iota.
    erewrite bind_run by exact H2. cbv beta iota.
    rewrite Nat.add_assoc. reflexivity.
Qed.

(** The pass for the entry of a site: it does not raise. *)
Lemma extract_site_run cif_file k1 k2 k3 n k4 v4 tr :
  exists tr',
    extract_site E self cif_file k1 k2 k3 n k4 v4 tr =
    (Ok (n + (if site_fails E self v4 then 1 else 0),
         site_result E self cif_file k2 k3 v4), tr').
Proof.
  unfold extract_site, site_result, site_fails, site_extracted.
  unfold bind, log, ext, ret.
  destruct (is_file E _); simpl.
  - destruct (pdbxtal_validate E _ =? 0); simpl.
    + destruct (String.eqb cif_file ""); simpl;
        rewrite Nat.add_0_r; eexists; reflexivity.
    + eexists; reflexivity.
  - eexists; reflexivity.
Qed.

(** The loops over the chains, the ligands and the sites of a crystal. *)
Lemma extract_files_run cif_file k1 files n tr :
  exists tr',
    for_items files (fun n k2 v2 =>
      for_items v2 (fun n k3 v3 =>
        for_items v3 (extract_site E self cif_file k1 k2 k3) n) n) n tr =
    (Ok (n + files_failures E self files, files_result E self cif_file files),
     tr').
Proof.
  apply for_items_total with
    (f := fun k2 => map_items (fun k3 =>
            map_items (fun _ => site_result E self cif_file k2 k3)))
    (c := fun _ => sum_items (fun _ =>
            sum_items (fun _ v4 => if site_fails E self v4 then 1 else 0))).
  intros n2 k2 v2 tr2 _.
  apply for_items_total with
    (f := fun k3 => map_items (fun _ => site_result E self cif_file k2 k3))
    (c := fun _ => sum_items (fun _ v4 => if site_fails E self v4 then 1 else 0)).
  intros n3 k3 v3 tr3 _.
  apply for_items_total with
    (f := fun _ => site_result E self cif_file k2 k3)
    (c := fun _ v4 => if site_fails E self v4 then 1 else 0).
  intros n4 k4 v4 tr4 _. apply extract_site_run.
Qed.

(** The pass for a value of the metadata. *)
Lemma extract_section_run crystals n k1 v1 tr :
  extractable K E crystals k1 v1 ->
  exists tr',
    extract_section K E self crystals n k1 v1 tr =
    (Ok (n + section_failures E self v1, section_result E self crystals k1 v1),
     tr').
Proof.
  intros Hv. unfold extract_section.
  assert (Hskip : forall v, section_failures E self v = 0 ->
            section_result E self crystals k1 v = v ->
            exists tr', ret (n, v) tr
              = (Ok (n + section_failures E self v,
                     section_result E self crystals k1 v), tr')).
  { intros v -> ->. rewrite Nat.add_0_r. eexists; reflexivity. }
  cbv zeta.
  destruct v1 as [x|d|assigned files|t]; unfold extractable in Hv.
  3:{ destruct Hv as [Hkey Hcif]. rewrite Hkey. simpl negb. cbv iota.
      erewrite bind_run by reflexivity. cbv iota.
      erewrite bind_run by reflexivity.
      unfold section_result, section_failures.
      unfold cif_of in Hcif |- *. unfold get_cif_file.
      destruct (dict_get crystals k1) as [crystal|]; [|congruence].
      destruct (ligand_cif (crystallographic_files crystal)) as [|p|cif digest];
        [congruence | congruence |].
      erewrite bind_run by reflexivity.
      match goal with |- exists _, bind _ _ ?s = _ =>
        destruct (extract_files_run cif k1 files n s) as (tr' & Hrun) end.
      exists tr'. erewrite bind_run by exact Hrun. reflexivity. }
  all: destruct Hv as [Hkey | Hnone];
    [ rewrite Hkey; simpl negb; cbv iota;
      erewrite bind_run by reflexivity; cbv iota; apply Hskip; reflexivity
    | destruct (existsb _ _); simpl negb; cbv iota;
      [ erewrite bind_run by reflexivity; cbv iota; apply Hskip; reflexivity
      | erewrite bind_run by (unfold lift; rewrite Hnone; reflexivity);
        cbv iota; apply Hskip; reflexivity ] ].
Qed.

(** ** The crystals without alignment *)

Lemma crystal_entry_skips (m : fs_model doc) assigned
    (new_meta : dict (section doc cell)) dtag crystal tr :
  dict_mem (alignments m) dtag = false ->
  crystal_entry m assigned new_meta (dtag, crystal) tr = (Ok new_meta, tr).
Proof. intros H. unfold crystal_entry. rewrite H. reflexivity. Qed.

Lemma crystal_entry_other (m : fs_model doc) assigned
    (new_meta new_meta' : dict (section doc cell)) item tr tr' dtag :
  crystal_entry m assigned new_meta item tr = (Ok new_meta', tr') ->
  dict_mem (alignments m) dtag = false ->
  dict_get new_meta' dtag = dict_get new_meta dtag.
Proof.
  destruct item as [d crystal]. unfold crystal_entry. intros H Hdtag.
  destruct (dict_mem (alignments m) d) eqn:Hd; simpl in H.
  - apply bind_Ok in H as (x & tr1 & _ & H).
    apply bind_Ok in H as (o & tr2 & _ & H).
    apply bind_Ok in H as (a & tr3 & _ & H).
    injection H as <- _. apply dict_get_set_ne. congruence.
  - injection H as <- _. reflexivity.
Qed.

Lemma crystal_entries_other (m : fs_model doc) assigned dtag :
  dict_mem (alignments m) dtag = false ->
  forall xtals (new_meta new_meta' : dict (section doc cell)) tr tr',
    for_fold xtals (crystal_entry m assigned) new_meta tr
      = (Ok new_meta', tr') ->
    dict_get new_meta' dtag = dict_get new_meta dtag.
Proof.
  intros Hdtag. induction xtals as [|item xtals IH];
    intros new_meta new_meta' tr tr' H; simpl in H.
  - injection H as <- _. reflexivity.
  - apply bind_Ok in H as (nm1 & tr1 & H1 & H).
    rewrite (IH _ _ _ _ H). eapply crystal_entry_other; eassumption.
Qed.

(** C7: a crystal without alignment output is passed over when the
    metadata is assembled: its pass returns the metadata as it was, and
    the loop over the crystals leaves what is under its tag. The
    extraction of the components returns the number of site entries
    whose aligned file is missing or not valid, with every such entry as
    it was and every other entry completed, for metadata whose crystal
    outputs are those of crystals of the upload with a ligand
    description: the pass for an entry never raises. *)
Theorem C7_extraction_counts_failures (crystals : dict xtal_data) :
  (forall (m : fs_model doc) assigned (new_meta : dict (section doc cell))
          dtag crystal tr,
     dict_mem (alignments m) dtag = false ->
     crystal_entry m assigned new_meta (dtag, crystal) tr = (Ok new_meta, tr) /\
     forall new_meta' tr',
       for_fold crystals (crystal_entry m assigned) new_meta tr
         = (Ok new_meta', tr') ->
       dict_get new_meta' dtag = dict_get new_meta dtag) /\
  (forall (aligner_meta : dict (section doc cell)) tr,
     (forall k1 v1, (k1, v1) ∈ aligner_meta -> extractable K E crystals k1 v1) ->
     exists tr',
       _extract_components K E self crystals aligner_meta tr =
       (Ok (sum_items (fun _ => section_failures E self) aligner_meta,
            map_items (section_result E self crystals) aligner_meta), tr')) /\
  (forall cif_file k1 k2 k3 n k4 v4 tr,
     exists tr' v4',
       extract_site E self cif_file k1 k2 k3 n k4 v4 tr
         = (Ok (if site_fails E self v4 then n + 1 else n, v4'), tr') /\
       if site_fails E self v4 then v4' = v4
       else pdb_apo v4' <> None /\ pdb_apo_solv v4' <> None /\
            pdb_apo_desolv v4' <> None /\
            v4' = site_result E self cif_file k2 k3 v4).
Proof.
  split; [|split].
  - intros m assigned new_meta dtag crystal tr Hdtag.
    split; [apply crystal_entry_skips, Hdtag |].
    intros new_meta' tr'. apply crystal_entries_other, Hdtag.
  - intros aligner_meta tr Hall. unfold _extract_components.
    destruct (for_items_total (section_result E self crystals)
                (fun _ => section_failures E self)
                (extract_section K E self crystals) aligner_meta) with
      (n := 0) (tr := tr) as (tr' & Hrun).
    + intros n k1 v1 tr1 Hin. apply extract_section_run, Hall, Hin.
    + exists tr'. exact Hrun.
  - intros cif_file k1 k2 k3 n k4 v4 tr.
    destruct (extract_site_run cif_file k1 k2 k3 n k4 v4 tr) as (tr' & Hrun).
    exists tr', (site_result E self cif_file k2 k3 v4). rewrite Hrun.
    unfold site_result. destruct (site_fails E self v4).
    + split; reflexivity.
    + rewrite Nat.add_0_r. split; [reflexivity |].
      unfold site_extracted. simpl. repeat split; discriminate.
Qed.

(** ** The transforms *)

Lemma hoare_any {W A} (P : W -> Prop) (m : M W A) :
  hoare P m (fun _ _ => True) (fun _ => True).
Proof. intros w _. destruct (m w) as [[a|e] w']; exact I. Qed.

(** What a loop over the items does to the values, when it returns. *)
Lemma for_items_related {V S} (R : string -> V -> V -> Prop)
    (body : S -> string -> V -> M trace (S * V)) :
  (forall s k v tr s' v' tr',
     body s k v tr = (Ok (s', v'), tr') -> R k v v') ->
  forall d s tr s' d' tr',
    for_items d body s tr = (Ok (s', d'), tr') ->
    Forall2 (fun kv kv' => fst kv = fst kv' /\ R (fst kv) (snd kv) (snd kv')) d d'.
Proof.
  intros Hbody. induction d as [|[k v] d IH]; intros s tr s' d' tr' H.
  - simpl in H. injection H as <- <- <-. constructor.
  - simpl in H. apply bind_Ok in H as ([s1 v1] & tr1 & H1 & H).
    apply bind_Ok in H as ([s2 d2] & tr2 & H2 & H).
    injection H as <- <- <-. constructor.
    + simpl. split; [reflexivity |]. eapply Hbody, H1.
    + eapply IH, H2.
Qed.

Lemma dict_get_related {V} (R : string -> V -> V -> Prop) (d d' : dict V) k v :
  Forall2 (fun kv kv' => fst kv = fst kv' /\ R (fst kv) (snd kv) (snd kv')) d d' ->
  dict_get d k = Some v -> exists v', dict_get d' k = Some v' /\ R k v v'.
Proof.
  induction 1 as [|[k0 v0] [k0' v0'] d d' [Hk HR] _ IH]; simpl; [discriminate |].
  simpl in Hk, HR. subst k0'.
  destruct (String.eqb_spec k0 k) as [->|Hne]; [|exact IH].
  intros [= ->]. eauto.
Qed.

(** The extraction leaves the transforms as they are. *)
Lemma extract_section_transforms crystals n k1 v1 tr n' v1' tr' :
  extract_section K E self crystals n k1 v1 tr = (Ok (n', v1'), tr') ->
  forall t, v1 = Transforms t -> v1' = v1.
Proof.
  intros H t ->. unfold extract_section in H.
  apply bind_Ok in H as (selected & tr1 & _ & H).
  destruct selected.
  - apply bind_Ok in H as (u & tr2 & _ & H).
    apply bind_Ok in H as (cif & tr3 & _ & H). discriminate.
  - injection H as _ <- _. reflexivity.
Qed.

Lemma assemble_metadata_transforms crystals datasets m m' :
  hoare (fun _ => True) (assemble_metadata K E crystals datasets m m')
    (fun new_meta _ =>
       exists t,
         dict_get new_meta (META_TRANSFORMS K) = Some (Transforms t) /\
         dict_keys t =
           if String.eqb (META_TRANSFORMS_OBSERVATION_TO_CONFORMER_SITES K)
                (META_TRANSFORMS_CONFORMER_SITES_TO_CANON K)
           then [META_TRANSFORMS_OBSERVATION_TO_CONFORMER_SITES K]
           else [META_TRANSFORMS_OBSERVATION_TO_CONFORMER_SITES K;
                 META_TRANSFORMS_CONFORMER_SITES_TO_CANON K])
    (fun _ => True).
Proof.
  unfold assemble_metadata.
  do 9 (eapply hoare_bind; [apply hoare_any | intros ?]).
  apply hoare_ret. intros tr _. eexists. split; [apply dict_get_set_eq |].
  simpl. destruct (String.eqb _ _); reflexivity.
Qed.

Lemma hoare_const {W A} (P : Prop) (m : M W A) :
  hoare (fun _ => P) m (fun _ _ => P) (fun _ => True).
Proof. intros w HP. destruct (m w) as [[a|e] w']; [exact HP | exact I]. Qed.

Lemma extract_components_transforms crystals new_meta tr n new_meta' tr' t :
  _extract_components K E self crystals new_meta tr = (Ok (n, new_meta'), tr') ->
  dict_get new_meta (META_TRANSFORMS K) = Some (Transforms t) ->
  dict_get new_meta' (META_TRANSFORMS K) = Some (Transforms t).
Proof.
  intros Hrun Hget. unfold _extract_components in Hrun.
  apply (for_items_related (fun _ v v' => forall t, v = Transforms t -> v' = v))
    in Hrun.
  - destruct (dict_get_related
                (fun _ v v' => forall t, v = Transforms t -> v' = v)
                _ _ _ _ Hrun Hget) as (v' & Hv' & Hsame).
    rewrite Hv'. f_equal. eapply Hsame. reflexivity.
  - intros s k v tr0 s' v' tr0' Hbody. eapply extract_section_transforms, Hbody.
Qed.

(** C8: the metadata that [_perform_alignments] returns has a transforms
    section whose tables are the one from the observations to the
    conformer sites and the one from the conformer sites to the canonical
    sites, in this order (one table, should the two have the same name):
    there is no table from the canonical sites to the global frame. *)
Theorem C8_transforms_has_two_tables (meta : input_meta) (tr : trace)
    (new_meta : dict (section doc cell)) (tr' : trace) :
  _perform_alignments K E self meta tr = (Ok new_meta, tr') ->
  transform_tables K new_meta =
    Some (if String.eqb (META_TRANSFORMS_OBSERVATION_TO_CONFORMER_SITES K)
               (META_TRANSFORMS_CONFORMER_SITES_TO_CANON K)
          then [META_TRANSFORMS_OBSERVATION_TO_CONFORMER_SITES K]
          else [META_TRANSFORMS_OBSERVATION_TO_CONFORMER_SITES K;
                META_TRANSFORMS_CONFORMER_SITES_TO_CANON K]) /\
  ~ three_transform_tables K new_meta.
Proof.
  intros Hrun.
  set (Q := fun nm : dict (section doc cell) =>
         exists t,
           dict_get nm (META_TRANSFORMS K) = Some (Transforms t) /\
           dict_keys t =
             if String.eqb (META_TRANSFORMS_OBSERVATION_TO_CONFORMER_SITES K)
                  (META_TRANSFORMS_CONFORMER_SITES_TO_CANON K)
             then [META_TRANSFORMS_OBSERVATION_TO_CONFORMER_SITES K]
             else [META_TRANSFORMS_OBSERVATION_TO_CONFORMER_SITES K;
                   META_TRANSFORMS_CONFORMER_SITES_TO_CANON K]).
  assert (Hhoare : hoare (fun _ => True) (_perform_alignments K E self meta)
            (fun nm _ => Q nm) (fun _ => True)).
  { unfold _perform_alignments.
    do 9 (eapply hoare_bind; [apply hoare_any | intros ?]).
    eapply hoare_bind; [apply hoare_any | intros [[datasets rds] nds]].
    eapply hoare_bind; [apply hoare_any | intros [fm ufm]].
    eapply hoare_bind; [apply assemble_metadata_transforms | intros nm].
    apply hoare_bind with (R := fun r _ => Q (snd r)).
    { intros w (t & Hget & Hkeys).
      destruct (_extract_components K E self _ nm w) as [[[n nm']|e] w'] eqn:Hex;
        [|exact I].
      exists t. split; [|exact Hkeys].
      apply (extract_components_transforms _ _ _ _ _ _ _ Hex Hget). }
    intros [n nm']. eapply hoare_bind; [apply hoare_const | intros u].
    apply hoare_ret. auto. }
  specialize (Hhoare tr I). rewrite Hrun in Hhoare.
  destruct Hhoare as (t & Hget & Hkeys).
  assert (Htables : transform_tables K new_meta = Some (dict_keys t))
    by (unfold transform_tables; rewrite Hget; reflexivity).
  split; [rewrite Htables, Hkeys; reflexivity |].
  intros (names & Hnames & Hperm). rewrite Htables in Hnames.
  injection Hnames as <-. apply Permutation_length in Hperm.
  rewrite Hkeys in Hperm. destruct (String.eqb _ _); discriminate.
Qed.

End aligner.

(** ** The example *)

Lemma C9_first_run_raises_witness :
  exists calls,
    _perform_alignments spec_constants (Examples.aligner_externals [])
      Examples.the_aligner Examples.first_run []
    = (Raise TypeError, calls) /\ (Update ∉ calls).
Proof.
  destruct (C9_first_run_raises spec_constants (Examples.aligner_externals [])
              Examples.the_aligner Examples.first_run [] eq_refl)
    as (e & calls & Hrun & Hupdate & _ & He).
  exists calls.
  rewrite (He Examples.collated_crystals Examples.alignment_model eq_refl
             ltac:(discriminate) eq_refl) in Hrun.
  split; [exact Hrun | exact Hupdate].
Defined.

Lemma C8_transforms_has_two_tables_witness :
  exists new_meta tr,
    _perform_alignments spec_constants (Examples.aligner_externals [])
      Examples.the_aligner Examples.second_run []
    = (Ok new_meta, tr) /\
    transform_tables spec_constants new_meta =
      Some ["observation_to_conformer_sites"; "conformer_sites_to_canon"].
Proof.
  destruct (_perform_alignments spec_constants (Examples.aligner_externals [])
              Examples.the_aligner Examples.second_run [])
    as [[new_meta|e] tr] eqn:Hrun.
  - exists new_meta, tr. split; [reflexivity |].
    exact (proj1 (C8_transforms_has_two_tables spec_constants
                    (Examples.aligner_externals []) Examples.the_aligner
                    Examples.second_run [] new_meta tr Hrun)).
  - vm_compute in Hrun. discriminate.
Defined.

(** The metadata of a run does not have three tables of transforms. *)
Lemma C8_counterexample :
  exists new_meta tr,
    _perform_alignments spec_constants (Examples.aligner_externals [])
      Examples.the_aligner Examples.second_run []
    = (Ok new_meta, tr) /\
    ~ three_transform_tables spec_constants new_meta.
Proof.
  eexists _, _. split; [vm_compute; reflexivity |].
  intros (names & Hnames & Hperm). vm_compute in Hnames.
  injection Hnames as <-. apply Permutation_length in Hperm. discriminate.
Qed.

Lemma C7_extraction_counts_failures_witness :
  let E := Examples.aligner_externals [Examples.lost_file] in
  exists new_meta tr new_meta' tr',
    assemble_metadata spec_constants E Examples.collated_crystals
      Examples.reference_datasets Examples.alignment_model
      Examples.alignment_model [] = (Ok new_meta, tr) /\
    dict_get new_meta "Mpro-x0115" = None /\
    _extract_components spec_constants E Examples.the_aligner
      Examples.collated_crystals new_meta tr = (Ok (1, new_meta'), tr') /\
    Examples.apo_of new_meta' "Mpro-x0072" =
      Some (Some "/out/upload_2/aligned_files/Mpro-x0072/Mpro-x0072_A_1101_0.pdb_apo.pdb") /\
    Examples.apo_of new_meta' "Mpro-x0104" = Some None /\
    Examples.apo_of new_meta' "Mpro-x0107" =
      Some (Some "/out/upload_2/aligned_files/Mpro-x0107/Mpro-x0107_A_1101_0.pdb_apo.pdb").
Proof.
  intros E.
  destruct (C7_extraction_counts_failures spec_constants E Examples.the_aligner
              Examples.collated_crystals) as (_ & Hcount & _).
  destruct (assemble_metadata spec_constants E Examples.collated_crystals
              Examples.reference_datasets Examples.alignment_model
              Examples.alignment_model []) as [[new_meta|e] tr] eqn:Hasm;
    [|vm_compute in Hasm; discriminate].
  assert (Hall : forall k1 v1, (k1, v1) ∈ new_meta ->
            extractable spec_constants E Examples.collated_crystals k1 v1).
  { vm_compute in Hasm. injection Hasm as <- _. intros k1 v1 Hin.
    repeat (apply elem_of_cons in Hin as [Hin | Hin];
            [injection Hin as -> ->; vm_compute;
             first [ split; [reflexivity | discriminate]
                   | left; reflexivity | right; reflexivity ] |]).
    inversion Hin. }
  destruct (Hcount new_meta tr Hall) as (tr' & Hrun).
  exists new_meta, tr,
    (map_items (section_result E Examples.the_aligner Examples.collated_crystals)
       new_meta), tr'.
  split; [reflexivity |].
  vm_compute in Hasm. injection Hasm as <- <-.
  split; [reflexivity |]. split; [exact Hrun |].
  repeat split; vm_compute; reflexivity.
Defined.

End AlignerFacts.

(* ===================================================================== *)
(** * The metadata of the validator *)
(* ===================================================================== *)

Module ValidatorFacts.
Import Path FS Validator PyFacts PathFacts.

(** ** The paths of a row *)

Lemma join_nonempty a b : b <> "" -> join a b <> "".
Proof.
  intros Hb. unfold join. destruct (isabs b); [exact Hb |].
  destruct (_ || _); [apply append_nonempty, Hb |].
  apply append_nonempty, append_nonempty, Hb.
Qed.

Lemma make_path_relative_Ok p :
  p <> "" -> exists q, make_path_relative p = Ok q.
Proof.
  destruct p as [|c p]; [congruence |]. intros _. simpl.
  destruct (Ascii.eqb c "/"); eauto.
Qed.

Lemma generate_xtal_dir_nonempty input_dir xtal_name :
  xtal_name <> "" -> generate_xtal_dir input_dir xtal_name <> "".
Proof. apply join_nonempty. Qed.

Lemma generate_filenames_Ok file xtal_dir :
  file <> "" -> xtal_dir <> "" ->
  exists inputpath outputpath,
    generate_filenames file xtal_dir "" = Ok (inputpath, outputpath) /\
    inputpath <> "".
Proof.
  intros Hf Hd. unfold generate_filenames. destruct (isabs file).
  - destruct (make_path_relative_Ok file Hf) as (q & ->). eauto.
  - destruct (make_path_relative_Ok xtal_dir Hd) as (q & ->).
    eexists _, _. split; [reflexivity |]. apply join_nonempty, Hf.
Qed.

Lemma prepend_base_Ok base p :
  p <> "" -> exists q, prepend_base base p = Ok q.
Proof.
  intros Hp. unfold prepend_base. destruct (negb _); [|eauto].
  destruct (make_path_relative_Ok p Hp) as (q & ->). eauto.
Qed.

Lemma truthy_nonempty file : truthy file = true -> show file <> "".
Proof.
  destruct file as [|s]; [discriminate |]. simpl. intros H ->. discriminate.
Qed.

(** ** The passes of the loops *)

Lemma validator_logf_run level template args text (l : list log_entry) :
  format template args = Ok text ->
  logf level template args l =
    (Ok tt, l ++ [mk_log_entry level (String.concat " " [text])]).
Proof. intros H. unfold logf, bind, lift. rewrite H. reflexivity. Qed.

Section validator.
Context (E : externals) (self : validator) (t : fs).

(** The pass for a column: it does not raise. *)
Lemma check_column_run r xtal_name xtal_dir missing expanded colname column l :
  colname <> "" -> xtal_dir <> "" ->
  exists l',
    check_column self t r xtal_name xtal_dir (missing, expanded)
      (colname, column) l =
    (Ok (match column_path self t xtal_dir (column r) with
         | Some o => (missing, expanded ++ [o])
         | None => (missing + 1, expanded ++ [None])
         end), l').
Proof.
  intros Hc Hd. unfold check_column, column_path.
  apply String.eqb_neq in Hc. rewrite Hc.
  destruct (truthy (column r)) eqn:Ht.
  - destruct (generate_filenames_Ok (show (column r)) xtal_dir
                (truthy_nonempty _ Ht) Hd) as (i & o & Hg & Hi).
    destruct (prepend_base_Ok (base_dir self) i Hi) as (full & Hfull).
    erewrite bind_run by (unfold lift; rewrite Hg; reflexivity).
    cbv beta iota.
    erewrite bind_run by (unfold lift; rewrite Hfull; reflexivity).
    rewrite Hg, Hfull. cbv beta iota zeta.
    destruct (_check_file_exists t full).
    + eexists; reflexivity.
    + erewrite bind_run by (apply validator_logf_run; reflexivity).
      eexists; reflexivity.
  - erewrite bind_run by (apply validator_logf_run; reflexivity).
    eexists; reflexivity.
Qed.

(** The three columns of a row. *)
Lemma check_columns_run r xtal_name xtal_dir l :
  xtal_dir <> "" ->
  exists l' missing expanded,
    for_fold columns (check_column self t r xtal_name xtal_dir) (0, []) l =
    (Ok (missing, expanded), l') /\
    match column_path self t xtal_dir (RefinementPDB_latest r),
          column_path self t xtal_dir (RefinementMTZ_latest r),
          column_path self t xtal_dir (RefinementCIF r) with
    | Some pdb, Some mtz, Some cif =>
        (0 <? missing) = false /\ expanded = [pdb; mtz; cif]
    | _, _, _ => (0 <? missing) = true
    end.
Proof.
  intros Hd. unfold columns. simpl for_fold.
  destruct (check_column_run r xtal_name xtal_dir 0 []
              "RefinementPDB_latest" RefinementPDB_latest l
              ltac:(discriminate) Hd) as (l1 & H1).
  erewrite bind_run by exact H1.
  destruct (column_path self t xtal_dir (RefinementPDB_latest r)) as [pdb|];
    match goal with |- context [check_column _ _ _ _ _ (?m, ?e) _] =>
      destruct (check_column_run r xtal_name xtal_dir m e
                  "RefinementMTZ_latest" RefinementMTZ_latest l1
                  ltac:(discriminate) Hd) as (l2 & H2)
    end;
    erewrite bind_run by exact H2;
    destruct (column_path self t xtal_dir (RefinementMTZ_latest r)) as [mtz|];
    match goal with |- context [check_column _ _ _ _ _ (?m, ?e) _] =>
      destruct (check_column_run r xtal_name xtal_dir m e
                  "RefinementCIF" RefinementCIF l2
                  ltac:(discriminate) Hd) as (l3 & H3)
    end;
    erewrite bind_run by exact H3;
    destruct (column_path self t xtal_dir (RefinementCIF r)) as [cif|];
    eexists _, _, _; (split; [reflexivity |]); try reflexivity.
  split; reflexivity.
Qed.

(** The pass for a row with a name: it does not raise, and the crystals
    are those that [accept_row] gives. *)
Lemma check_row_run input_dir count processed valid_ids r xtal_name l :
  CrystalName r = PyStr xtal_name ->
  exists l' processed',
    check_row E self t input_dir (count, processed, valid_ids) r l =
    (Ok (count + 1, processed',
         accept_row E self t valid_ids (input_dir, r)), l').
Proof.
  intros Hname. unfold check_row, accept_row, row_result. simpl fst. simpl snd.
  rewrite Hname. erewrite bind_run by reflexivity.
  change (truthy (PyStr xtal_name)) with (negb (String.eqb xtal_name "")).
  destruct (String.eqb xtal_name "") eqn:Hempty; cbn [negb]; cbv iota.
  - erewrite bind_run by (apply validator_logf_run; reflexivity).
    eexists _, _. reflexivity.
  - erewrite bind_run by (apply validator_logf_run; reflexivity).
    apply String.eqb_neq in Hempty.
    match goal with |- exists _ _, bind _ _ ?s = _ =>
      destruct (check_columns_run r xtal_name
                  (generate_xtal_dir input_dir xtal_name) s
                  (generate_xtal_dir_nonempty _ _ Hempty))
        as (l1 & missing & expanded & Hrun & Hcols)
    end.
    erewrite bind_run by exact Hrun. cbv beta iota zeta.
    destruct (column_path self t _ (RefinementPDB_latest r)) as [pdb|];
      [destruct (column_path self t _ (RefinementMTZ_latest r)) as [mtz|];
       [destruct (column_path self t _ (RefinementCIF r)) as [cif|] |] |].
    2,3,4: rewrite Hcols;
      (erewrite bind_run by (apply validator_logf_run; reflexivity));
      eexists _, _; reflexivity.
    destruct Hcols as [-> ->].
    destruct (dict_mem valid_ids xtal_name).
    + erewrite bind_run by (apply validator_logf_run; reflexivity).
      eexists _, _. reflexivity.
    + erewrite bind_run by reflexivity. eexists _, _. reflexivity.
Qed.

(** The rows of a database. *)
Lemma check_rows_run input_dir : forall df count processed valid_ids l,
  (forall r, r ∈ df -> CrystalName r <> PyNone) ->
  exists l' count' processed',
    for_fold df (check_row E self t input_dir) (count, processed, valid_ids) l =
    (Ok (count', processed',
         fold_left (accept_row E self t) (map (pair input_dir) df) valid_ids),
     l').
Proof.
  induction df as [|r df IH]; intros count processed valid_ids l Hnamed.
  - eexists _, _, _. reflexivity.
  - destruct (CrystalName r) as [|xtal_name] eqn:Hname.
    { exfalso. apply (Hnamed r); [apply list_elem_of_here | exact Hname]. }
    destruct (check_row_run input_dir count processed valid_ids r xtal_name l
                Hname) as (l1 & processed1 & H1).
    destruct (IH (count + 1) processed1
                (accept_row E self t valid_ids (input_dir, r)) l1)
      as (l' & count' & processed' & H2).
    { intros r' Hr'. apply Hnamed, list_elem_of_further, Hr'. }
    exists l', count', processed'. simpl.
    erewrite bind_run by exact H1. exact H2.
Qed.

(** The databases of the input directories. *)
Lemma check_input_dir_run valid_ids input_dir l :
  input_dir <> "" ->
  (forall item, item ∈ rows_of E self input_dir ->
     CrystalName (snd item) <> PyNone) ->
  exists l',
    check_input_dir E self t valid_ids input_dir l =
    (Ok (fold_left (accept_row E self t) (rows_of E self input_dir) valid_ids),
     l').
Proof.
  intros Hdir Hnamed. unfold check_input_dir, rows_of in *.
  unfold generate_soakdb_file in *.
  destruct (make_path_relative_Ok input_dir Hdir) as (rel & Hrel).
  rewrite Hrel in *.
  erewrite bind_run by reflexivity. erewrite bind_run by reflexivity.
  cbv zeta.
  match goal with |- exists _, bind (for_fold ?df _ _) _ ?s = _ =>
    destruct (check_rows_run input_dir df 0 0 valid_ids s)
      as (l1 & count & processed & Hrun)
  end.
  { intros r Hr. apply (Hnamed (input_dir, r)).
    apply list_elem_of_fmap. exists r. auto. }
  erewrite bind_run by exact Hrun. cbv beta iota.
  erewrite bind_run by (apply validator_logf_run; reflexivity).
  eexists. reflexivity.
Qed.

Lemma check_input_dirs_run : forall dirs valid_ids l,
  (forall dir, dir ∈ dirs -> dir <> "") ->
  (forall item, item ∈ flat_map (rows_of E self) dirs ->
     CrystalName (snd item) <> PyNone) ->
  exists l',
    for_fold dirs (check_input_dir E self t) valid_ids l =
    (Ok (fold_left (accept_row E self t) (flat_map (rows_of E self) dirs)
           valid_ids), l').
Proof.
  induction dirs as [|dir dirs IH]; intros valid_ids l Hdirs Hnamed.
  - eexists. reflexivity.
  - simpl in Hnamed.
    destruct (check_input_dir_run valid_ids dir l) as (l1 & H1).
    { apply Hdirs, list_elem_of_here. }
    { intros item Hitem. apply Hnamed, elem_of_app. auto. }
    destruct (IH (fold_left (accept_row E self t) (rows_of E self dir) valid_ids)
                l1) as (l' & H2).
    { intros d Hd. apply Hdirs, list_elem_of_further, Hd. }
    { intros item Hitem. apply Hnamed, elem_of_app. auto. }
    exists l'. simpl. erewrite bind_run by exact H1.
    rewrite fold_left_app. exact H2.
Qed.

(** ** The crystals of the result *)

Lemma find_app_first {A} (P : A -> bool) (l1 l2 : list A) :
  find P (l1 ++ l2) =
  match find P l1 with Some x => Some x | None => find P l2 end.
Proof.
  induction l1 as [|x l1 IH]; [reflexivity |]. simpl.
  destruct (P x); [reflexivity | exact IH].
Qed.

(** The record of a crystal is the one of the last row that adds it. *)
Lemma accepted_last xtal_name : forall rows valid_ids,
  dict_get (fold_left (accept_row E self t) rows valid_ids) xtal_name =
  match find (adds_crystal E self t xtal_name) (rev rows) with
  | Some item =>
      match row_result E self t (fst item) (snd item) with
      | Some (_, data) => Some data
      | None => None
      end
  | None => dict_get valid_ids xtal_name
  end.
Proof.
  induction rows as [|item rows IH]; intros valid_ids; [reflexivity |].
  simpl fold_left. rewrite IH. simpl rev. rewrite find_app_first.
  destruct (find _ (rev rows)); [reflexivity |].
  simpl find. unfold adds_crystal, accept_row.
  destruct (row_result E self t (fst item) (snd item)) as [[n data]|] eqn:Hrow;
    [|reflexivity].
  destruct (String.eqb_spec n xtal_name) as [->|Hne].
  - rewrite dict_get_set_eq, Hrow. reflexivity.
  - apply dict_get_set_ne, Hne.
Qed.

Lemma check_file_exists_isfile p : _check_file_exists t p = isfile t p.
Proof. unfold _check_file_exists. destruct (isfile t p); reflexivity. Qed.

(** What the entry of a column says about the column. *)
Lemma column_path_cases xtal_dir file :
  match column_path self t xtal_dir file with
  | Some None => truthy file = false
  | Some (Some inputpath) =>
      truthy file = true /\
      exists outputpath full_inputpath,
        generate_filenames (show file) xtal_dir "" = Ok (inputpath, outputpath) /\
        prepend_base (base_dir self) inputpath = Ok full_inputpath /\
        isfile t full_inputpath = true
  | None =>
      truthy file = true /\
      forall inputpath outputpath full_inputpath,
        generate_filenames (show file) xtal_dir "" = Ok (inputpath, outputpath) ->
        prepend_base (base_dir self) inputpath = Ok full_inputpath ->
        isfile t full_inputpath = false
  end.
Proof.
  unfold column_path. destruct (truthy file); [|reflexivity].
  destruct (generate_filenames _ _ _) as [[i o]|e].
  - destruct (prepend_base _ i) as [full|e] eqn:Hfull.
    + rewrite check_file_exists_isfile. destruct (isfile t full) eqn:Hf.
      * split; [reflexivity |]. exists o, full. auto.
      * split; [reflexivity |]. intros i' o' full' [= <- <-] Hp.
        rewrite Hfull in Hp. injection Hp as <-. exact Hf.
    + split; [reflexivity |]. intros i' o' full' [= <- <-] Hp.
      rewrite Hfull in Hp. discriminate.
  - split; [reflexivity |]. intros i' o' full' [=].
Qed.

(** A row with a name adds a record if and only if every column with a
    value names a file that is there. *)
Lemma row_result_iff dir r xtal_name :
  CrystalName r = PyStr xtal_name -> xtal_name <> "" ->
  (exists data, row_result E self t dir r = Some (xtal_name, data)) <->
  (forall k, truthy (column_of k r) = true ->
     exists inputpath outputpath full_inputpath,
       generate_filenames (show (column_of k r))
         (generate_xtal_dir dir xtal_name) "" = Ok (inputpath, outputpath) /\
       prepend_base (base_dir self) inputpath = Ok full_inputpath /\
       isfile t full_inputpath = true).
Proof.
  intros Hname Hne. unfold row_result. rewrite Hname.
  apply String.eqb_neq in Hne. rewrite Hne. cbv zeta.
  pose proof (column_path_cases (generate_xtal_dir dir xtal_name)
                (RefinementPDB_latest r)) as Hpdb.
  pose proof (column_path_cases (generate_xtal_dir dir xtal_name)
                (RefinementMTZ_latest r)) as Hmtz.
  pose proof (column_path_cases (generate_xtal_dir dir xtal_name)
                (RefinementCIF r)) as Hcif.
  assert (Hfound : forall file o,
            column_path self t (generate_xtal_dir dir xtal_name) file = Some o ->
            truthy file = true ->
            exists inputpath outputpath full_inputpath,
              generate_filenames (show file) (generate_xtal_dir dir xtal_name) ""
                = Ok (inputpath, outputpath) /\
              prepend_base (base_dir self) inputpath = Ok full_inputpath /\
              isfile t full_inputpath = true).
  { intros file o Ho Ht.
    pose proof (column_path_cases (generate_xtal_dir dir xtal_name) file) as Hc.
    rewrite Ho in Hc. destruct o as [p|]; [|congruence].
    destruct Hc as (_ & o' & full & H). eauto. }
  assert (Hmissing : forall file,
            column_path self t (generate_xtal_dir dir xtal_name) file = None ->
            ~ (truthy file = true ->
               exists inputpath outputpath full_inputpath,
                 generate_filenames (show file)
                   (generate_xtal_dir dir xtal_name) ""
                   = Ok (inputpath, outputpath) /\
                 prepend_base (base_dir self) inputpath = Ok full_inputpath /\
                 isfile t full_inputpath = true)).
  { intros file Hnone Hall.
    pose proof (column_path_cases (generate_xtal_dir dir xtal_name) file) as Hc.
    rewrite Hnone in Hc. destruct Hc as (Ht & Hno).
    destruct (Hall Ht) as (i & o & full & Hg & Hp & Hf).
    rewrite (Hno i o full Hg Hp) in Hf. discriminate. }
  destruct (column_path self t _ (RefinementPDB_latest r)) as [pdb|] eqn:H1;
    [destruct (column_path self t _ (RefinementMTZ_latest r)) as [mtz|] eqn:H2;
     [destruct (column_path self t _ (RefinementCIF r)) as [cif|] eqn:H3 |] |].
  - split; [|eauto]. intros _ [| |]; simpl; eauto.
  - split; [intros (data & [=]) |]. intros Hall.
    destruct (Hmissing _ H3 (Hall CIF)).
  - split; [intros (data & [=]) |]. intros Hall.
    destruct (Hmissing _ H2 (Hall MTZ)).
  - split; [intros (data & [=]) |]. intros Hall.
    destruct (Hmissing _ H1 (Hall PDB)).
Qed.

(** The record that a row adds: a column without value is a null entry,
    and the date is left out when the row has none. *)
Lemma row_result_data dir r xtal_name data :
  row_result E self t dir r = Some (xtal_name, data) ->
  (last_updated data = None <-> LastUpdatedDate r = None) /\
  (forall k, truthy (column_of k r) = false ->
     get_file k (crystallographic_files data) = NoFile) /\
  status data = None /\ reason data = None.
Proof.
  unfold row_result. destruct (CrystalName r) as [|n]; [discriminate |].
  destruct (String.eqb n ""); [discriminate |]. cbv zeta.
  pose proof (column_path_cases (generate_xtal_dir dir n)
                (RefinementPDB_latest r)) as Hpdb.
  pose proof (column_path_cases (generate_xtal_dir dir n)
                (RefinementMTZ_latest r)) as Hmtz.
  pose proof (column_path_cases (generate_xtal_dir dir n)
                (RefinementCIF r)) as Hcif.
  destruct (column_path self t _ (RefinementPDB_latest r)) as [pdb|];
    [|discriminate].
  destruct (column_path self t _ (RefinementMTZ_latest r)) as [mtz|];
    [|discriminate].
  destruct (column_path self t _ (RefinementCIF r)) as [cif|];
    [|discriminate].
  intros [= <- <-]. simpl. split; [|split; [|split; reflexivity]].
  - destruct (LastUpdatedDate r); split; congruence.
  - intros [| |] Ht; simpl in Ht |- *.
    + destruct pdb as [p|]; [destruct Hpdb; congruence | reflexivity].
    + destruct mtz as [p|]; [destruct Hmtz; congruence | reflexivity].
    + destruct cif as [p|]; [destruct Hcif; congruence | reflexivity].
Qed.

(** C10: for input directories that are not empty texts and databases
    whose rows all have a crystal name, [validate_metadata] returns the
    metadata, and under every name its crystals have the record of the
    last row that adds one for the name, none when no row does: a later
    row replaces the record of an earlier one. A row with a name adds its
    record if and only if every column with a value names a file that is
    there; in the record a column without value is a null entry, and
    [last_updated] is left out when the row has no date. *)
Theorem C10_validate_metadata_crystals (l : list log_entry) :
  (forall dir, dir ∈ v_input_dirs self -> dir <> "") ->
  (forall item, item ∈ all_rows E self -> CrystalName (snd item) <> PyNone) ->
  exists m l',
    validate_metadata E self t l = (Ok m, l') /\
    (forall xtal_name,
       dict_get (crystals m) xtal_name = last_record E self t xtal_name) /\
    (forall dir r xtal_name,
       CrystalName r = PyStr xtal_name -> xtal_name <> "" ->
       (exists data, row_result E self t dir r = Some (xtal_name, data)) <->
       (forall k, truthy (column_of k r) = true ->
          exists inputpath outputpath full_inputpath,
            generate_filenames (show (column_of k r))
              (generate_xtal_dir dir xtal_name) ""
              = Ok (inputpath, outputpath) /\
            prepend_base (base_dir self) inputpath = Ok full_inputpath /\
            isfile t full_inputpath = true)) /\
    (forall dir r xtal_name data,
       row_result E self t dir r = Some (xtal_name, data) ->
       (last_updated data = None <-> LastUpdatedDate r = None) /\
       (forall k, truthy (column_of k r) = false ->
          get_file k (crystallographic_files data) = NoFile) /\
       status data = None /\ reason data = None).
Proof.
  intros Hdirs Hnamed.
  destruct (check_input_dirs_run (v_input_dirs self) [] l Hdirs Hnamed)
    as (l' & Hrun).
  eexists _, l'. split.
  { unfold validate_metadata. erewrite bind_run by exact Hrun. reflexivity. }
  split; [|split].
  - intros xtal_name. simpl. rewrite accepted_last. reflexivity.
  - apply row_result_iff.
  - apply row_result_data.
Qed.

End validator.

Lemma C10_validate_metadata_crystals_witness :
  exists m l',
    validate_metadata Examples.validator_externals Examples.the_validator
      Examples.fs_visit [] = (Ok m, l') /\
    dict_get (crystals m) "Mpro-x0072" =
      Some (mk_xtal_data None
              (mk_xtal_files
                 (FilePath
                    "/dls/visit/processing/analysis/model_building/Mpro-x0072/refine.pdb")
                 NoFile NoFile)
              None None) /\
    dict_get (crystals m) "Mpro-x0104" = None.
Proof.
  destruct (C10_validate_metadata_crystals Examples.validator_externals
              Examples.the_validator Examples.fs_visit [])
    as (m & l' & Hrun & Hlast & _).
  - intros dir Hdir. apply list_elem_of_singleton in Hdir. subst dir.
    discriminate.
  - intros item Hin.
    change (item ∈ map (pair "/dls/visit") Examples.soakdb) in Hin.
    apply list_elem_of_fmap in Hin as (r & -> & Hr).
    repeat (apply elem_of_cons in Hr as [-> | Hr]; [discriminate |]).
    inversion Hr.
  - exists m, l'. split; [exact Hrun |]. rewrite !Hlast.
    split; vm_compute; reflexivity.
Defined.

End ValidatorFacts.

(* ===================================================================== *)
(** * More about dictionaries and loops *)
(* ===================================================================== *)

Module DictFacts.
Import PyFacts.

(** An assignment keeps the keys and their order, and puts a new key at
    the end. *)
Lemma dict_keys_set_order {V} (d : dict V) k v :
  dict_keys (dict_set d k v) =
  if dict_mem d k then dict_keys d else dict_keys d ++ [k].
Proof.
  unfold dict_keys, dict_mem. induction d as [|[k0 v0] d IH]; simpl.
  - reflexivity.
  - destruct (String.eqb_spec k0 k) as [->|Hne]; simpl.
    + reflexivity.
    + rewrite IH. destruct (dict_get d k); reflexivity.
Qed.

Lemma dict_mem_keys {V} (d : dict V) k :
  dict_mem d k = true <-> k ∈ dict_keys d.
Proof.
  unfold dict_mem. pose proof (dict_get_None d k) as H.
  destruct (dict_get d k).
  - split; [intros _ | reflexivity].
    destruct (decide (k ∈ dict_keys d)) as [Hin|Hout]; [exact Hin |].
    apply H in Hout. discriminate.
  - split; [discriminate |]. intros Hin. exfalso.
    apply (proj1 H eq_refl), Hin.
Qed.

Lemma NoDup_dict_set {V} (d : dict V) k v :
  NoDup (dict_keys d) -> NoDup (dict_keys (dict_set d k v)).
Proof.
  intros Hnd. rewrite dict_keys_set_order.
  destruct (dict_mem d k) eqn:Hmem; [exact Hnd |].
  apply NoDup_app. split; [exact Hnd |]. split; [|apply NoDup_singleton].
  intros x Hx Hk. apply list_elem_of_singleton in Hk. subst x.
  apply dict_mem_keys in Hx. congruence.
Qed.

Lemma dict_get_elem {V} (d : dict V) k v :
  NoDup (dict_keys d) -> (k, v) ∈ d -> dict_get d k = Some v.
Proof.
  intros Hnd Hin. apply list_elem_of_lookup_1 in Hin as (i & Hi).
  eapply dict_get_lookup; eassumption.
Qed.

(** A loop whose body raises at an item raises there. *)
Lemma for_fold_raise {W A S} (body : S -> A -> M W S) e :
  forall (before : list A) (x : A) (after : list A) s w s1 w1 w2,
  for_fold before body s w = (Ok s1, w1) ->
  body s1 x w1 = (Raise e, w2) ->
  for_fold (before ++ x :: after) body s w = (Raise e, w2).
Proof.
  induction before as [|y before IH]; intros x after s w s1 w1 w2 H1 H2.
  - simpl in H1. injection H1 as <- <-. simpl.
    erewrite bind_run_raise by exact H2. reflexivity.
  - simpl in H1 |- *. unfold bind in H1 |- *.
    destruct (body s y w) as [[s'|e'] w']; [|discriminate].
    eapply IH; eassumption.
Qed.

Lemma for_fold_app {W A S} (body : S -> A -> M W S) :
  forall (l1 l2 : list A) s w,
  for_fold (l1 ++ l2) body s w =
  bind (for_fold l1 body s) (for_fold l2 body) w.
Proof.
  induction l1 as [|x l1 IH]; intros l2 s w; [reflexivity |].
  simpl. unfold bind. destruct (body s x w) as [[s'|e] w'].
  - rewrite IH. reflexivity.
  - reflexivity.
Qed.

End DictFacts.

(* ===================================================================== *)
(** * The validation of the paths *)
(* ===================================================================== *)

Module ValidatorPaths.
Import Path FS Validator PyFacts PathFacts ValidatorFacts DictFacts.

Lemma all_errors_nil : all_errors [].
Proof. constructor. Qed.

Lemma all_errors_one text : all_errors [mk_log_entry 2 text].
Proof. repeat constructor. Qed.

Lemma all_errors_app l1 l2 : all_errors l1 -> all_errors l2 -> all_errors (l1 ++ l2).
Proof. intros H1 H2. apply Forall_app. split; assumption. Qed.

Lemma logged_errors_all l : all_errors l -> logged_errors l = l.
Proof.
  unfold logged_errors. induction 1 as [|e l He _ IH]; [reflexivity |].
  rewrite filter_cons_True by exact He. rewrite IH. reflexivity.
Qed.

Lemma logged_errors_app l1 l2 :
  logged_errors (l1 ++ l2) = logged_errors l1 ++ logged_errors l2.
Proof. apply filter_app. Qed.

Section paths.
Context (self : validator) (t : fs).

Lemma isdir_exists p : isdir t p = true -> exists_ t p = true.
Proof. unfold isdir, exists_. destruct (t !! p) as [[|]|]; congruence. Qed.

(** The pass for an input directory counts an error, and logs it, unless
    the directory passes. *)
Lemma check_input_path_run errors d l :
  d <> "" ->
  exists errs,
    check_input_path self t errors d l =
      (Ok (errors + if input_dir_ok self t d then 0 else 1), l ++ errs) /\
    all_errors errs /\
    length errs = if input_dir_ok self t d then 0 else 1.
Proof.
  intros Hd. unfold check_input_path, input_dir_ok.
  fold (input_path self d).
  destruct (make_path_relative_Ok d Hd) as (rel & Hrel).
  unfold generate_soakdb_file. rewrite Hrel.
  destruct (exists_ t (input_path self d)) eqn:Hex; cbn [negb].
  - destruct (isdir t (input_path self d)) eqn:Hdir; cbn [negb andb].
    + unfold bind at 1, lift.
      match goal with |- context [isfile t ?f] => destruct (isfile t f) end;
        cbn [negb].
      * exists []. rewrite app_nil_r, Nat.add_0_r.
        repeat split. apply all_errors_nil.
      * eexists [_]. repeat split. apply all_errors_one.
    + eexists [_]. repeat split. apply all_errors_one.
  - assert (isdir t (input_path self d) = false) as ->.
    { destruct (isdir t (input_path self d)) eqn:Hdir; [|reflexivity].
      apply isdir_exists in Hdir. congruence. }
    eexists [_]. repeat split. apply all_errors_one.
Qed.

Lemma check_input_paths_run : forall dirs errors l,
  (forall d, d ∈ dirs -> d <> "") ->
  exists errs,
    for_fold dirs (check_input_path self t) errors l =
      (Ok (errors + length (filter (fun d => input_dir_ok self t d = false) dirs)),
       l ++ errs) /\
    all_errors errs /\
    length errs = length (filter (fun d => input_dir_ok self t d = false) dirs).
Proof.
  induction dirs as [|d dirs IH]; intros errors l Hne.
  - exists []. simpl. rewrite app_nil_r, Nat.add_0_r.
    repeat split. apply all_errors_nil.
  - destruct (check_input_path_run errors d l) as (e1 & H1 & Ha1 & Hl1).
    { apply Hne. left. }
    destruct (IH (errors + if input_dir_ok self t d then 0 else 1) (l ++ e1))
      as (e2 & H2 & Ha2 & Hl2).
    { intros d' Hd'. apply Hne. right. exact Hd'. }
    exists (e1 ++ e2). simpl. erewrite bind_run by exact H1. rewrite H2.
    rewrite length_app, Hl1, Hl2, app_assoc.
    destruct (input_dir_ok self t d) eqn:Hok.
    + rewrite filter_cons_False by (simpl; congruence).
      repeat split; [| apply all_errors_app; assumption].
      rewrite Nat.add_0_r. reflexivity.
    + rewrite filter_cons_True by exact Hok. simpl length.
      repeat split; [| apply all_errors_app; assumption].
      do 2 f_equal. lia.
Qed.

(** The three parts of [validate_paths]. *)
Lemma input_dirs_part errors l :
  (forall d, d ∈ v_input_dirs self -> d <> "") ->
  let n := match v_input_dirs self with
           | [] => 1
           | dirs => length (filter (fun d => input_dir_ok self t d = false) dirs)
           end in
  exists errs,
    (if negb (length (v_input_dirs self) =? 0) then
       for_fold (v_input_dirs self) (check_input_path self t) errors
     else
       log 2 ["input_dirs not defined in the config file"] ;;
       ret (errors + 1)) l = (Ok (errors + n), l ++ errs) /\
    all_errors errs /\ length errs = n.
Proof.
  intros Hne n. subst n. destruct (v_input_dirs self) as [|d dirs] eqn:Hdirs.
  - eexists [_]. repeat split. apply all_errors_one.
  - apply check_input_paths_run, Hne.
Qed.

Lemma output_dir_part errors l :
  exists errs,
    (if negb (String.eqb (v_output_dir self) "") then
       if negb (exists_ t (v_output_dir self)) then
         log 2 ["output_dir does not exist:"; v_output_dir self] ;;
         ret (errors + 1)
       else if negb (isdir t (v_output_dir self)) then
         log 2 ["output_dir argument is not a directory:"; v_output_dir self] ;;
         ret (errors + 1)
       else ret errors
     else
       log 2 ["Output dir not defined in the config file"] ;;
       ret (errors + 1)) l =
      (Ok (errors + if output_dir_ok self t then 0 else 1), l ++ errs) /\
    all_errors errs /\
    length errs = if output_dir_ok self t then 0 else 1.
Proof.
  unfold output_dir_ok.
  destruct (String.eqb (v_output_dir self) ""); cbn [negb andb].
  - eexists [_]. repeat split. apply all_errors_one.
  - destruct (exists_ t (v_output_dir self)) eqn:Hex; cbn [negb].
    + destruct (isdir t (v_output_dir self)); cbn [negb].
      * exists []. rewrite app_nil_r, Nat.add_0_r.
        repeat split. apply all_errors_nil.
      * eexists [_]. repeat split. apply all_errors_one.
    + assert (isdir t (v_output_dir self) = false) as ->.
      { destruct (isdir t (v_output_dir self)) eqn:Hdir; [|reflexivity].
        apply isdir_exists in Hdir. congruence. }
      eexists [_]. repeat split. apply all_errors_one.
Qed.

(** A name that the pattern matches has one byte for every character. *)
Lemma name_char_single c :
  is_name_char c || Ascii.eqb c (ascii_of_nat 10) = true ->
  (128 <=? nat_of_ascii c) && (nat_of_ascii c <? 192) = false.
Proof.
  destruct c as [[] [] [] [] [] [] [] []]; vm_compute; intros H;
    first [reflexivity | discriminate H].
Qed.

Lemma name_chars_len s :
  name_chars_to_end s = true -> py_len s = String.length s.
Proof.
  induction s as [|c s IH]; [reflexivity |].
  cbn [py_len name_chars_to_end String.length]. cbv zeta. intros H.
  destruct (is_name_char c) eqn:Hc.
  - rewrite name_char_single by (rewrite Hc; reflexivity).
    rewrite (IH H). reflexivity.
  - apply andb_true_iff in H as [Hnl Hs]. apply String.eqb_eq in Hs. subst s.
    rewrite name_char_single by (rewrite Hnl; apply orb_true_r). reflexivity.
Qed.

Lemma matched_name_len s :
  target_name_matches s = true -> py_len s = String.length s.
Proof.
  destruct s as [|c s]; [discriminate |].
  cbn [py_len target_name_matches String.length]. cbv zeta. intros H.
  apply andb_true_iff in H as [Hc Hs].
  rewrite name_char_single, (name_chars_len _ Hs); [reflexivity |].
  unfold is_name_char. rewrite Hc. reflexivity.
Qed.

Lemma target_name_part errors l :
  exists errs,
    (if String.eqb (target_name self) "" then
       log 2 ["target_name not defined"] ;;
       ret (errors + 1)
     else if py_len (target_name self) <? 4 then
       log 2 ["target_name must have at least 4 characters:"; target_name self] ;;
       ret (errors + 1)
     else if negb (target_name_matches (target_name self)) then
       log 2 ["Invalid target_name:"; target_name self] ;;
       ret (errors + 1)
     else ret errors) l =
      (Ok (errors + if target_name_ok self then 0 else 1), l ++ errs) /\
    all_errors errs /\
    length errs = if target_name_ok self then 0 else 1.
Proof.
  unfold target_name_ok.
  destruct (String.eqb (target_name self) "") eqn:Hempty.
  - apply String.eqb_eq in Hempty. rewrite Hempty. simpl.
    eexists [_]. repeat split. apply all_errors_one.
  - destruct (py_len (target_name self) <? 4) eqn:Hlen.
    + apply Nat.ltb_lt in Hlen.
      assert ((4 <=? py_len (target_name self)) = false) as ->
        by (apply Nat.leb_gt; exact Hlen).
      eexists [_]. repeat split. apply all_errors_one.
    + apply Nat.ltb_ge in Hlen.
      assert ((4 <=? py_len (target_name self)) = true) as ->
        by (apply Nat.leb_le; exact Hlen).
      destruct (target_name_matches (target_name self)); cbn [negb andb].
      * exists []. rewrite app_nil_r, Nat.add_0_r.
        repeat split. apply all_errors_nil.
      * eexists [_]. repeat split. apply all_errors_one.
Qed.

Lemma validate_paths_run l :
  (forall d, d ∈ v_input_dirs self -> d <> "") ->
  exists errs,
    validate_paths self t l =
      (Ok (path_errors self t, 0),
       l ++ errs ++ [summary (path_errors self t)]) /\
    all_errors errs /\ length errs = path_errors self t.
Proof.
  intros Hne. unfold validate_paths, path_errors.
  destruct (input_dirs_part 0 l Hne) as (e1 & H1 & Ha1 & Hl1).
  cbv zeta in H1. erewrite bind_run by exact H1.
  match type of H1 with (_ = (Ok ?n, _)) =>
    destruct (output_dir_part n (l ++ e1)) as (e2 & H2 & Ha2 & Hl2)
  end.
  erewrite bind_run by exact H2.
  match type of H2 with (_ = (Ok ?n, _)) =>
    destruct (target_name_part n ((l ++ e1) ++ e2)) as (e3 & H3 & Ha3 & Hl3)
  end.
  erewrite bind_run by exact H3.
  erewrite bind_run by (apply validator_logf_run; reflexivity).
  exists (e1 ++ e2 ++ e3).
  split; [| split; [auto using all_errors_app |]].
  - unfold ret. f_equal. rewrite <- !app_assoc. reflexivity.
  - rewrite !length_app, Hl1, Hl2, Hl3. lia.
Qed.

(** Whenever [validate_paths] returns, it returns the number of errors in
    the paths. *)
Lemma check_input_path_empty errors l n :
  fst (check_input_path self t errors "" l) = Ok n ->
  n = errors + 1 /\ isdir t (input_path self "") = false.
Proof.
  unfold check_input_path. fold (input_path self "").
  destruct (exists_ t (input_path self "")) eqn:Hex; cbn [negb].
  - destruct (isdir t (input_path self "")); cbn [negb].
    + discriminate.
    + simpl. intros [= <-]. auto.
  - simpl. intros [= <-]. split; [reflexivity |].
    destruct (isdir t (input_path self "")) eqn:Hdir; [|reflexivity].
    apply isdir_exists in Hdir. congruence.
Qed.

Lemma check_input_paths_Ok : forall dirs errors l n,
  fst (for_fold dirs (check_input_path self t) errors l) = Ok n ->
  n = errors + length (filter (fun d => input_dir_ok self t d = false) dirs).
Proof.
  induction dirs as [|d dirs IH]; intros errors l n H.
  - simpl in H. injection H as <-. simpl. lia.
  - simpl in H. unfold bind in H.
    destruct (check_input_path self t errors d l) as [[n1|e] l1] eqn:H1;
      [|discriminate].
    apply IH in H. subst n.
    assert (n1 = errors + if input_dir_ok self t d then 0 else 1) as ->.
    { destruct (decide (d = "")) as [->|Hd].
      - pose proof (check_input_path_empty errors l n1) as Hn.
        rewrite H1 in Hn. destruct (Hn eq_refl) as [-> Hdir].
        unfold input_dir_ok. rewrite Hdir. reflexivity.
      - destruct (check_input_path_run errors d l Hd) as (errs & Hrun & _).
        rewrite Hrun in H1. congruence. }
    destruct (input_dir_ok self t d) eqn:Hok.
    + rewrite filter_cons_False by (simpl; congruence). lia.
    + rewrite filter_cons_True by exact Hok. simpl length. lia.
Qed.

Lemma validate_paths_Ok l n m :
  fst (validate_paths self t l) = Ok (n, m) -> n = path_errors self t /\ m = 0.
Proof.
  unfold validate_paths, path_errors. intros H. unfold bind at 1 in H.
  match type of H with context [match ?m0 with _ => _ end] =>
    destruct m0 as [[n1|e] l1] eqn:H1; [|discriminate] end.
  assert (n1 = match v_input_dirs self with
               | [] => 1
               | dirs => length (filter (fun d => input_dir_ok self t d = false) dirs)
               end) as Hn1.
  { destruct (v_input_dirs self) as [|d dirs] eqn:Hdirs.
    - simpl in H1. injection H1 as <- _. reflexivity.
    - change (negb (length (d :: dirs) =? 0)) with true in H1. cbv iota in H1.
      pose proof (check_input_paths_Ok (d :: dirs) 0 l n1) as Hc.
      rewrite H1 in Hc. apply Hc. reflexivity. }
  destruct (output_dir_part n1 l1) as (e2 & H2 & _).
  unfold bind at 1 in H. rewrite H2 in H.
  match type of H2 with (_ = (Ok ?k, ?s)) =>
    destruct (target_name_part k s) as (e3 & H3 & _) end.
  unfold bind at 1 in H. rewrite H3 in H.
  erewrite bind_run in H by (apply validator_logf_run; reflexivity).
  injection H as <- <-. split; [|reflexivity]. rewrite Hn1. reflexivity.
Qed.

(** There is no error in the paths if and only if every part passes. *)
Lemma path_errors_zero :
  path_errors self t = 0 <->
  v_input_dirs self <> [] /\
  (forall d, d ∈ v_input_dirs self -> input_dir_ok self t d = true) /\
  output_dir_ok self t = true /\ target_name_ok self = true.
Proof.
  unfold path_errors. split.
  - intros H. destruct (v_input_dirs self) as [|d dirs] eqn:Hdirs; [lia |].
    destruct (output_dir_ok self t); [|lia].
    destruct (target_name_ok self); [|lia].
    split; [discriminate |]. split; [|auto].
    intros d' Hd'. destruct (input_dir_ok self t d') eqn:Hok; [reflexivity |].
    assert (d' ∈ filter (fun d => input_dir_ok self t d = false) (d :: dirs))
      as Hin by (apply list_elem_of_filter; auto).
    destruct (filter _ (d :: dirs)); [inversion Hin | simpl in H; lia].
  - intros (Hne & Hall & -> & ->).
    destruct (v_input_dirs self) as [|d dirs] eqn:Hdirs; [congruence |].
    assert (filter (fun d => input_dir_ok self t d = false) (d :: dirs) = [])
      as ->; [|reflexivity].
    destruct (filter _ (d :: dirs)) as [|d' bad] eqn:Hbad; [reflexivity |].
    assert (d' ∈ filter (fun d => input_dir_ok self t d = false) (d :: dirs))
      as Hin by (rewrite Hbad; left).
    apply list_elem_of_filter in Hin as [Hno Hin].
    rewrite (Hall d' Hin) in Hno. discriminate.
Qed.

Lemma input_dir_ok_nonempty d : input_dir_ok self t d = true -> d <> "".
Proof.
  intros H ->. unfold input_dir_ok in H. simpl in H.
  rewrite andb_false_r in H. discriminate.
Qed.

(** X1: when no input directory of the configuration is the empty text,
    [validate_paths] returns the number of errors in the paths together
    with zero warnings. It keeps the messages logged before, logs one error
    for every error it counts and nothing else but the summary, which is
    its last message. The errors are: every input directory that is not a
    directory or whose database is not a file, or the absence of input
    directories; an output directory that is not given or is not a
    directory; a name of the target that is shorter than four characters
    or that the pattern does not match. *)
Theorem validate_paths_counts_errors (l : list log_entry) :
  (forall d, d ∈ v_input_dirs self -> d <> "") ->
  exists errs,
    validate_paths self t l =
      (Ok (path_errors self t, 0),
       l ++ errs ++ [summary (path_errors self t)]) /\
    all_errors errs /\ length errs = path_errors self t.
Proof. apply validate_paths_run. Qed.

(** X2: [validate_paths] returns without error, that is [(0, 0)], if and
    only if there is an input directory, every input directory is a
    directory at the text of the base directory followed by its own and
    has a database file, the output directory is given and is a
    directory, and the name of the target has at least four characters
    and matches the pattern. *)
Theorem validate_paths_accepts (l : list log_entry) :
  fst (validate_paths self t l) = Ok (0, 0) <->
  v_input_dirs self <> [] /\
  (forall d, d ∈ v_input_dirs self ->
     isdir t (input_path self d) = true /\
     exists dbfile,
       generate_soakdb_file (base_dir self) d = Ok dbfile /\
       isfile t dbfile = true) /\
  (v_output_dir self <> "" /\ isdir t (v_output_dir self) = true) /\
  (4 <= String.length (target_name self) /\
   target_name_matches (target_name self) = true).
Proof.
  assert (Hdir : forall d,
            input_dir_ok self t d = true <->
            isdir t (input_path self d) = true /\
            exists dbfile,
              generate_soakdb_file (base_dir self) d = Ok dbfile /\
              isfile t dbfile = true).
  { intros d. unfold input_dir_ok. rewrite andb_true_iff.
    destruct (generate_soakdb_file (base_dir self) d) as [f|e].
    - split; [intros [? ?]; eauto |]. intros (? & f' & [= <-] & ?). auto.
    - split; [intros [_ [=]] | intros (_ & f' & [=] & _)]. }
  assert (Hout : output_dir_ok self t = true <->
                 v_output_dir self <> "" /\ isdir t (v_output_dir self) = true).
  { unfold output_dir_ok. rewrite andb_true_iff, negb_true_iff.
    rewrite String.eqb_neq. reflexivity. }
  assert (Hname : target_name_ok self = true <->
                  4 <= String.length (target_name self) /\
                  target_name_matches (target_name self) = true).
  { unfold target_name_ok. rewrite andb_true_iff, Nat.leb_le.
    split; intros [Hlen Hm]; (split; [|exact Hm]);
      rewrite (matched_name_len _ Hm) in *; exact Hlen. }
  rewrite <- Hout, <- Hname. split.
  - intros H. apply validate_paths_Ok in H as [H _]. symmetry in H.
    apply path_errors_zero in H as (Hne & Hall & Ho & Hn).
    split; [exact Hne |]. split; [|auto].
    intros d Hd. apply Hdir, Hall, Hd.
  - intros (Hne & Hall & Ho & Hn).
    assert (Hzero : path_errors self t = 0).
    { apply path_errors_zero. split; [exact Hne |]. split; [|auto].
      intros d Hd. apply Hdir, Hall, Hd. }
    destruct (validate_paths_run l) as (errs & Hrun & _).
    { intros d Hd. eapply input_dir_ok_nonempty, Hdir, Hall, Hd. }
    rewrite Hrun, Hzero. reflexivity.
Qed.

(** X3: an input directory that is the empty text makes [validate_paths]
    raise [IndexError] when the base directory is given and is a
    directory: the directory looked at is then the base directory itself,
    and the path of the database cannot be built from the empty text. The
    input directories before it were checked, and no error is returned. *)
Theorem validate_paths_empty_input_dir (l : list log_entry) before after :
  v_input_dirs self = before ++ "" :: after ->
  (forall d, d ∈ before -> d <> "") ->
  base_dir self <> "" ->
  isdir t (base_dir self) = true ->
  fst (validate_paths self t l) = Raise IndexError.
Proof.
  intros Hdirs Hbefore Hbase Hisdir. unfold validate_paths.
  rewrite Hdirs at 1.
  assert (negb (length (before ++ "" :: after) =? 0) = true) as ->.
  { rewrite length_app. simpl. apply negb_true_iff, Nat.eqb_neq. lia. }
  rewrite Hdirs.
  destruct (check_input_paths_run before 0 l Hbefore) as (errs & Hrun & _).
  erewrite bind_run_raise; [reflexivity |].
  eapply for_fold_raise; [exact Hrun |].
  unfold check_input_path.
  apply String.eqb_neq in Hbase. rewrite Hbase. cbn [negb].
  rewrite append_nil_r, (isdir_exists _ Hisdir), Hisdir. reflexivity.
Qed.

End paths.

(** X4: [validate_all] returns [None] exactly when the paths have an
    error, and then it logs how many and does not look at any database;
    without error it goes on with [validate_metadata] in the state that
    the validation of the paths left, and returns its metadata or raises
    what it raises. The input directories are not empty texts. *)
Theorem validate_all_gates E self t (l : list log_entry) :
  (forall d, d ∈ v_input_dirs self -> d <> "") ->
  exists l1,
    validate_paths self t l = (Ok (path_errors self t, 0), l1) /\
    (path_errors self t <> 0 ->
     validate_all E self t l =
       (Ok None,
        l1 ++ [mk_log_entry 2
                 ("Path validation failed with " +:+ str (path_errors self t) +:+
                  " errors")])) /\
    (path_errors self t = 0 ->
     validate_all E self t l =
       match validate_metadata E self t l1 with
       | (Ok m, l2) => (Ok (Some m), l2)
       | (Raise e, l2) => (Raise e, l2)
       end).
Proof.
  intros Hne. destruct (validate_paths_run self t l Hne) as (errs & Hrun & _).
  eexists. split; [exact Hrun |]. unfold validate_all.
  erewrite bind_run by exact Hrun. split.
  - intros Herr. apply Nat.eqb_neq in Herr. rewrite Herr. reflexivity.
  - intros ->. change (negb (0 =? 0)) with false. cbv iota.
    erewrite bind_run by reflexivity. unfold bind.
    destruct (validate_metadata E self t _) as [[m|e] l2]; reflexivity.
Qed.

(** ** The paths below the base directory *)

Lemma clean_join_relative base rel :
  clean base -> isabs rel = false -> join base rel = base +:+ "/" +:+ rel.
Proof.
  intros Hclean Hrel. rewrite (join_relative _ _ Hrel), (clean_dirpfx _ Hclean).
  apply append_assoc.
Qed.

(** X5: with a base directory written without a slash at its end,
    [prepend_base] puts a path that is not empty below the base directory:
    an absolute path is appended to the text of the base directory as it
    is, a relative one after a slash. The one exception is a path that
    begins with two slashes: it loses the first and is returned without
    the base directory. The empty path raises [IndexError]. *)
Theorem prepend_base_below base :
  clean base ->
  (forall p, p <> "" -> String.prefix "//" p = false ->
     exists q,
       prepend_base base p = Ok q /\ below base q = true /\
       q = if isabs p then base +:+ p else base +:+ "/" +:+ p) /\
  (forall rest, prepend_base base ("//" +:+ rest) = Ok ("/" +:+ rest)) /\
  prepend_base base "" = Raise IndexError.
Proof.
  intros Hclean. pose proof Hclean as [Hne _]. unfold prepend_base.
  apply String.eqb_neq in Hne. rewrite Hne. cbn [negb].
  split; [|split; reflexivity].
  intros p Hp Hslashes. destruct p as [|c p]; [congruence |].
  unfold make_path_relative. destruct (Ascii.eqb_spec c "/") as [->|Hc].
  - assert (Hrel : isabs p = false).
    { destruct p as [|c' p]; [reflexivity |].
      destruct (Ascii.eqb_spec c' "/") as [->|Hc'].
      - pose proof (prefix_append "//" p) as Hpre.
        change ("//" +:+ p) with (String "/" (String "/" p)) in Hpre.
        congruence.
      - simpl. destruct c' as [[] [] [] [] [] [] [] []]; try reflexivity.
        congruence. }
    eexists. split; [reflexivity |]. split; [apply below_join, Hrel |].
    rewrite (clean_join_relative _ _ Hclean Hrel). reflexivity.
  - assert (Hrel : isabs (String c p) = false).
    { simpl. destruct c as [[] [] [] [] [] [] [] []]; try reflexivity.
      congruence. }
    eexists. split; [reflexivity |]. split; [apply below_join, Hrel |].
    rewrite Hrel. apply clean_join_relative; assumption.
Qed.

(** X6: for a base directory written without a slash at its end and an
    input directory that is absolute, the database that
    [generate_soakdb_file] names is the file
    [processing/database/soakDBDataFile.sqlite] of the directory that
    [validate_paths] looks at, the text of the base directory followed by
    the input directory. *)
Theorem soakdb_file_in_input_path self rel :
  clean (base_dir self) -> isabs rel = false ->
  generate_soakdb_file (base_dir self) ("/" +:+ rel) =
    Ok (join (join (join (input_path self ("/" +:+ rel)) "processing")
                "database") "soakDBDataFile.sqlite").
Proof.
  intros Hclean Hrel. pose proof Hclean as [Hne _].
  change ("/" +:+ rel) with (String "/" rel).
  unfold generate_soakdb_file, input_path, make_path_relative.
  change (Ascii.eqb "/" "/") with true. cbv iota.
  apply String.eqb_neq in Hne. rewrite Hne. cbn [negb].
  rewrite (clean_join_relative _ _ Hclean Hrel). reflexivity.
Qed.

(** ** The files of the validated crystals *)

Section validated.
Context (E : externals) (self : validator) (t : fs).

(** The entry of a file in a validated record: null, or a path that is
    not empty and that names a file under the base directory. *)
Lemma column_entry_found xtal_dir file o :
  xtal_dir <> "" ->
  column_path self t xtal_dir file = Some o ->
  file_found self t (to_entry o).
Proof.
  intros Hdir Hcol. pose proof (column_path_cases self t xtal_dir file) as Hc.
  rewrite Hcol in Hc. destruct o as [p|]; [|exact I].
  destruct Hc as (Ht & out & full & Hg & Hp & Hf). simpl.
  split; [|eauto].
  destruct (generate_filenames_Ok (show file) xtal_dir (truthy_nonempty _ Ht) Hdir)
    as (i & o' & Hg' & Hi).
  congruence.
Qed.

Lemma row_result_found dir r n data :
  row_result E self t dir r = Some (n, data) ->
  n <> "" /\ status data = None /\
  forall k, file_found self t (get_file k (crystallographic_files data)).
Proof.
  unfold row_result. destruct (CrystalName r) as [|name]; [discriminate |].
  destruct (String.eqb_spec name "") as [|Hne]; [discriminate |]. cbv zeta.
  pose proof (generate_xtal_dir_nonempty dir name Hne) as Hdir.
  destruct (column_path self t _ (RefinementPDB_latest r)) as [pdb|] eqn:H1;
    [|discriminate].
  destruct (column_path self t _ (RefinementMTZ_latest r)) as [mtz|] eqn:H2;
    [|discriminate].
  destruct (column_path self t _ (RefinementCIF r)) as [cif|] eqn:H3;
    [|discriminate].
  intros [= <- <-]. split; [exact Hne |]. split; [reflexivity |].
  intros [| |]; simpl; eapply column_entry_found; eassumption.
Qed.

Lemma accepted_found rows : forall valid_ids,
  NoDup (dict_keys valid_ids) ->
  (forall n data, dict_get valid_ids n = Some data ->
     n <> "" /\ status data = None /\
     forall k, file_found self t (get_file k (crystallographic_files data))) ->
  let result := fold_left (accept_row E self t) rows valid_ids in
  NoDup (dict_keys result) /\
  (forall n data, dict_get result n = Some data ->
     n <> "" /\ status data = None /\
     forall k, file_found self t (get_file k (crystallographic_files data))).
Proof.
  induction rows as [|item rows IH]; intros valid_ids Hnd Hall; [auto |].
  simpl. apply IH; unfold accept_row;
    destruct (row_result E self t (fst item) (snd item)) as [[n data]|] eqn:Hrow;
    try assumption.
  - apply NoDup_dict_set, Hnd.
  - intros n' data'. rewrite dict_get_set.
    destruct (String.eqb_spec n n') as [<-|Hne]; [|apply Hall].
    intros [= <-]. eapply row_result_found, Hrow.
Qed.

(** X7: [validate_metadata] returns an upload with the input directories
    and the output directory of the configuration, in which the names of
    the crystals are distinct and not empty, no record has a status yet,
    and every entry of a file is null or a path, not empty, that
    [prepend_base] turns into the path of a file that is there. The input
    directories are not empty texts and every row of the databases has a
    crystal name. *)
Theorem validated_files_exist (l : list log_entry) :
  (forall dir, dir ∈ v_input_dirs self -> dir <> "") ->
  (forall item, item ∈ all_rows E self -> CrystalName (snd item) <> PyNone) ->
  exists m l',
    validate_metadata E self t l = (Ok m, l') /\
    input_dirs m = v_input_dirs self /\ output_dir m = v_output_dir self /\
    NoDup (dict_keys (crystals m)) /\
    (forall n data, dict_get (crystals m) n = Some data ->
       n <> "" /\ status data = None /\
       forall k, file_found self t (get_file k (crystallographic_files data))).
Proof.
  intros Hdirs Hnamed.
  destruct (check_input_dirs_run E self t (v_input_dirs self) [] l Hdirs Hnamed)
    as (l' & Hrun).
  eexists _, l'. split.
  { unfold validate_metadata. erewrite bind_run by exact Hrun. reflexivity. }
  split; [reflexivity |]. split; [reflexivity |]. simpl.
  apply accepted_found; [apply NoDup_nil_2 | discriminate].
Qed.

End validated.

Lemma prepend_base_below_witness :
  prepend_base "/data" "/dls/visit/x0072.pdb" = Ok "/data/dls/visit/x0072.pdb" /\
  prepend_base "/data" "x0072.pdb" = Ok "/data/x0072.pdb" /\
  prepend_base "/data" "//dls/visit" = Ok "/dls/visit".
Proof.
  destruct (prepend_base_below "/data") as (Hbelow & Hslashes & _).
  - split; [discriminate | reflexivity].
  - split; [|split; [|apply (Hslashes "dls/visit")]].
    + destruct (Hbelow "/dls/visit/x0072.pdb") as (q & Hq & _ & ->);
        [discriminate | reflexivity | exact Hq].
    + destruct (Hbelow "x0072.pdb") as (q & Hq & _ & ->);
        [discriminate | reflexivity | exact Hq].
Defined.

Lemma soakdb_file_in_input_path_witness :
  generate_soakdb_file "/data" "/dls/visit" =
  Ok "/data/dls/visit/processing/database/soakDBDataFile.sqlite".
Proof.
  apply (soakdb_file_in_input_path Examples.site_validator "dls/visit").
  - split; [discriminate | reflexivity].
  - reflexivity.
Defined.

Lemma validated_files_exist_witness :
  exists m l',
    validate_metadata Examples.validator_externals Examples.the_validator
      Examples.fs_visit [] = (Ok m, l') /\
    dict_keys (crystals m) = ["Mpro-x0072"].
Proof.
  destruct (validated_files_exist Examples.validator_externals
              Examples.the_validator Examples.fs_visit [])
    as (m & l' & Hrun & _).
  - intros dir Hdir. apply list_elem_of_singleton in Hdir. subst dir.
    discriminate.
  - intros item Hin.
    change (item ∈ map (pair "/dls/visit") Examples.soakdb) in Hin.
    apply list_elem_of_fmap in Hin as (r & -> & Hr).
    repeat (apply elem_of_cons in Hr as [-> | Hr]; [discriminate |]).
    inversion Hr.
  - exists m, l'. split; [exact Hrun |].
    vm_compute in Hrun. injection Hrun as <- _. reflexivity.
Defined.

Lemma validate_paths_counts_errors_witness :
  exists errs,
    validate_paths Examples.bad_validator Examples.fs_site [] =
      (Ok (3, 0), errs ++ [summary 3]) /\
    all_errors errs /\ length errs = 3.
Proof.
  destruct (validate_paths_counts_errors Examples.bad_validator
              Examples.fs_site []) as (errs & Hrun & Hall & Hlen).
  - intros d Hd.
    repeat (apply elem_of_cons in Hd as [-> | Hd]; [discriminate |]).
    inversion Hd.
  - exists errs. split; [exact Hrun | split; assumption].
Defined.

Lemma validate_paths_empty_input_dir_witness :
  fst (validate_paths Examples.empty_dir_validator Examples.fs_site []) =
  Raise IndexError.
Proof.
  apply (validate_paths_empty_input_dir Examples.empty_dir_validator
           Examples.fs_site [] ["/dls/visit"] []).
  - reflexivity.
  - intros d Hd. apply list_elem_of_singleton in Hd. subst d. discriminate.
  - discriminate.
  - reflexivity.
Defined.

Lemma validate_all_gates_witness :
  validate_all Examples.validator_externals Examples.bad_validator
    Examples.fs_site [] =
  (Ok None,
   snd (validate_paths Examples.bad_validator Examples.fs_site []) ++
   [mk_log_entry 2 "Path validation failed with 3 errors"]).
Proof.
  destruct (validate_all_gates Examples.validator_externals
              Examples.bad_validator Examples.fs_site [])
    as (l1 & Hrun & Hfail & _).
  - intros d Hd.
    repeat (apply elem_of_cons in Hd as [-> | Hd]; [discriminate |]).
    inversion Hd.
  - rewrite Hrun. apply Hfail. discriminate.
Defined.

End ValidatorPaths.

(* ===================================================================== *)
(** * The versions that the collator reads *)
(* ===================================================================== *)

Module CollatorVersions.
Import Path FS Collator PyFacts PathFacts FSFacts WorldFacts CollatorFacts.
Import VersionFacts DictFacts.

Lemma same_files_and_upload_refl w : same_files_and_upload w w.
Proof. repeat split. Qed.

Lemma same_files_and_upload_trans w1 w2 w3 :
  same_files_and_upload w1 w2 -> same_files_and_upload w2 w3 ->
  same_files_and_upload w1 w3.
Proof.
  unfold same_files_and_upload.
  intros (?&?&?&?) (?&?&?&?). repeat split; congruence.
Qed.

Section versions.
Context (E : externals) (self : config).

Local Abbreviation out := (cfg_output_dir self).

(** The pass for a version whose document is there appends the
    document to the history. *)
Lemma read_old_meta_loads v w m :
  document E (w_fs w) out v = Some m ->
  exists w',
    read_old_meta E self v w = (Ok None, w') /\
    same_files_and_upload w w' /\ version_dir w' = version_dir w /\
    meta_history w' = meta_history w ++ [m].
Proof.
  unfold document. intros Hdoc.
  destruct (w_fs w !! metadata_path out v) as [[|text]|] eqn:Hfile;
    try discriminate.
  unfold read_old_meta.
  unfold bind at 1. erewrite logf_1_run by reflexivity.
  unfold bind at 1. unfold gets.
  change (w_fs (with_log _ w)) with (w_fs w).
  rewrite (isfile_File _ _ _ Hfile).
  unfold bind at 1. erewrite on_fs_run by (apply read_file_File; exact Hfile).
  cbv beta iota. rewrite Hdoc.
  eexists. split; [reflexivity |]. repeat split.
Qed.

Lemma read_old_metas_load : forall vs metas w,
  map (document E (w_fs w) out) vs = map Some metas ->
  exists w',
    for_return vs (read_old_meta E self) w = (Ok None, w') /\
    same_files_and_upload w w' /\ version_dir w' = version_dir w /\
    meta_history w' = meta_history w ++ metas.
Proof.
  induction vs as [|v vs IH]; intros metas w Hdocs.
  - destruct metas; [|discriminate]. exists w. rewrite app_nil_r.
    repeat split.
  - destruct metas as [|m metas]; [discriminate |].
    simpl in Hdocs. injection Hdocs as Hdoc Hdocs.
    destruct (read_old_meta_loads v w m Hdoc) as (w1 & Hrun1 & Hs1 & Hv1 & Hh1).
    destruct (IH metas w1) as (w2 & Hrun2 & Hs2 & Hv2 & Hh2).
    { destruct Hs1 as (-> & _). exact Hdocs. }
    exists w2. simpl. erewrite bind_run by exact Hrun1.
    split; [exact Hrun2 |].
    split; [eapply same_files_and_upload_trans; eassumption |].
    split; [congruence |]. rewrite Hh2, Hh1, <- app_assoc. reflexivity.
Qed.

(** [_read_versions] when the documents of the versions below the
    current one are there. *)
Lemma read_versions_run w c metas :
  current_version (w_fs w) out = S c ->
  map (document E (w_fs w) out) (seq 1 c) = map Some metas ->
  exists w',
    _read_versions E self w = (Ok (Some (version_path out (S c))), w') /\
    same_files_and_upload w w' /\
    version_dir w' = Some (version_path out (S c)) /\
    meta_history w' = meta_history w ++ metas.
Proof.
  intros Hcur Hdocs.
  destruct (current_version_spec (w_fs w) out) as (Hscan & _).
  rewrite Hcur in Hscan. unfold _read_versions.
  erewrite bind_run by reflexivity. rewrite Hscan.
  erewrite bind_run by reflexivity.
  change (S (S c) =? 1) with false. cbv iota.
  erewrite bind_run by (apply logf_1_run; reflexivity).
  replace (S (S c) - 1) with (S c) by lia.
  replace (S c - 1) with c by lia.
  set (w0 := with_log _ w).
  assert (Hloop : exists w1,
            (if 1 <? S c
             then for_return (seq 1 c) (read_old_meta E self)
             else ret None) w0 = (Ok None, w1) /\
            same_files_and_upload w0 w1 /\ version_dir w1 = version_dir w0 /\
            meta_history w1 = meta_history w0 ++ metas).
  { destruct c as [|c].
    - destruct metas; [|discriminate]. exists w0. rewrite app_nil_r.
      repeat split.
    - change (1 <? S (S c)) with true. cbv iota.
      apply read_old_metas_load. exact Hdocs. }
  destruct Hloop as (w1 & Hloop & Hs1 & Hv1 & Hh1).
  erewrite bind_run by exact Hloop. cbv iota.
  erewrite bind_run by reflexivity.
  erewrite bind_run by reflexivity.
  assert (Hlast : exists w2,
            (if negb (length (meta_history (with_version_dir
                        (Some (version_path out (S c))) w1)) =? 0)
             then logf 0 "Found {} metadata files from previous versions"
                    [str (length (meta_history (with_version_dir
                        (Some (version_path out (S c))) w1)))]
             else ret tt)
              (with_version_dir (Some (version_path out (S c))) w1) =
              (Ok tt, w2) /\
            same_files_and_upload w1 w2 /\
            version_dir w2 = Some (version_path out (S c)) /\
            meta_history w2 = meta_history w1).
  { destruct (negb _).
    - eexists. split; [apply logf_1_run; reflexivity |]. repeat split.
    - eexists. split; [reflexivity |]. repeat split. }
  destruct Hlast as (w2 & Hlast & Hs2 & Hv2 & Hh2).
  erewrite bind_run by exact Hlast.
  exists w2. split; [reflexivity |].
  split; [|split; [exact Hv2 | rewrite Hh2, Hh1; reflexivity]].
  eapply same_files_and_upload_trans; [|exact Hs2].
  eapply same_files_and_upload_trans; [|exact Hs1].
  repeat split.
Qed.

(** X8: when the output directory has the version directories 1 to
    [c + 1] and the metadata documents of the versions 1 to [c] are there,
    [_read_versions] returns the directory of version [c + 1] and makes it
    the working version directory; it appends the documents of the
    versions 1 to [c], in this order, to the history that the collator
    already holds, and leaves the file system and the upload as they
    were. *)
Theorem read_versions_loads_history w c metas :
  current_version (w_fs w) out = S c ->
  map (document E (w_fs w) out) (seq 1 c) = map Some metas ->
  exists w',
    _read_versions E self w = (Ok (Some (version_path out (S c))), w') /\
    version_dir w' = Some (version_path out (S c)) /\
    meta_history w' = meta_history w ++ metas /\
    w_fs w' = w_fs w /\ w_meta w' = w_meta w.
Proof.
  intros Hcur Hdocs.
  destruct (read_versions_run w c metas Hcur Hdocs)
    as (w' & Hrun & (Hfs & Hmeta & _) & Hv & Hh).
  exists w'. auto.
Qed.

End versions.

Lemma read_versions_loads_history_witness :
  exists w',
    _read_versions Examples.collator_externals (Examples.collator_config [])
      (Examples.start Examples.fs_two_versions []) =
      (Ok (Some "/out/upload_2"), w') /\
    meta_history w' = [mk_meta "" [] "" []].
Proof.
  destruct (read_versions_loads_history Examples.collator_externals
              (Examples.collator_config [])
              (Examples.start Examples.fs_two_versions []) 1
              [mk_meta "" [] "" []])
    as (w' & Hrun & _ & Hh & _).
  - vm_compute. reflexivity.
  - vm_compute. reflexivity.
  - exists w'. split; [exact Hrun | exact Hh].
Defined.

End CollatorVersions.

(* ===================================================================== *)
(** * What [_copy_files] leaves in the version directory *)
(* ===================================================================== *)

Module CollatorCopy.
Import Path FS Collator PyFacts PathFacts FSFacts WorldFacts CollatorFacts.
Import VersionFacts FrameFacts CopyFacts DictFacts.

(** What a computation keeps in every case, it keeps when it returns. *)
Lemma keeps_hoare {W A} (I : W -> Prop) (m : M W A) :
  keeps I m -> hoare I m (fun _ => I) (fun _ => True).
Proof.
  intros Hk w Hw. specialize (Hk w Hw).
  destruct (m w) as [[a|e] w']; [exact Hk | exact Logic.I].
Qed.

Lemma hoare_on_fs {A} (P : world -> Prop) (m : M fs A)
    (Q : A -> world -> Prop) :
  (forall w a t', P w -> m (w_fs w) = (Ok a, t') ->
     Q a (with_fs (fun _ => t') w)) ->
  hoare P (on_fs m) Q (fun _ => True).
Proof.
  intros H w Hw. unfold on_fs.
  destruct (m (w_fs w)) as [[a|e] t'] eqn:Hm; [|exact Logic.I].
  eapply H; eassumption.
Qed.

(** ** The path that [copy2] returns is not empty *)

Lemma join_nonempty_l a b : a <> "" -> isabs b = false -> join a b <> "".
Proof.
  intros Ha Hb. rewrite (join_relative _ _ Hb).
  destruct (dirpfx_ext a) as (x & ->).
  destruct a as [|c a]; [congruence | discriminate].
Qed.

Lemma copy2_returns_path src dst (t t' : fs) f :
  dst <> "" -> copy2 src dst t = (Ok f, t') -> f <> "".
Proof.
  intros Hdst Hrun. apply copy2_Ok in Hrun as (content & _ & _ & ->).
  destruct (isdir t dst); [|exact Hdst].
  apply join_nonempty_l; [exact Hdst |].
  apply no_sep_isabs, basename_no_sep.
Qed.

Lemma output_nonempty dir name k : join dir (name +:+ extension k) <> "".
Proof.
  apply ValidatorFacts.join_nonempty, append_nonempty. destruct k; discriminate.
Qed.

Section never_none.
Context (E : externals) (self : config).

(** A block does not leave the function. *)
Lemma copy_block_goes_on i dir name k w r w' :
  copy_block E self i dir name k w = (Ok r, w') -> r = None.
Proof.
  unfold copy_block. intros H.
  apply bind_Ok in H as (data & w1 & _ & H).
  destruct (entry_truthy _).
  - apply bind_Ok in H as (input & w2 & _ & H).
    apply bind_Ok in H as (f & w3 & Hcopy & H).
    apply on_fs_Ok in Hcopy as (t' & Hcopy & _).
    apply copy2_returns_path in Hcopy; [|apply output_nonempty].
    apply String.eqb_neq in Hcopy. rewrite Hcopy in H.
    apply bind_Ok in H as (digest & w4 & _ & H).
    apply bind_Ok in H as (u & w5 & _ & H).
    apply ret_Ok in H as [<- _]. reflexivity.
  - apply bind_Ok in H as (u & w2 & _ & H).
    apply ret_Ok in H as [<- _]. reflexivity.
Qed.

Lemma copy_xtal_goes_on cryst_dir item w r w' :
  copy_xtal E self cryst_dir item w = (Ok r, w') -> r = None.
Proof.
  destruct item as [i name]. unfold copy_xtal. intros H.
  apply bind_Ok in H as (u & w1 & _ & H).
  apply bind_Ok in H as (r1 & w2 & H1 & H).
  apply copy_block_goes_on in H1 as ->.
  apply bind_Ok in H as (r2 & w3 & H2 & H).
  apply copy_block_goes_on in H2 as ->.
  eapply copy_block_goes_on, H.
Qed.

Lemma copy_loop_goes_on cryst_dir : forall items w r w',
  for_return items (copy_xtal E self cryst_dir) w = (Ok r, w') -> r = None.
Proof.
  induction items as [|item items IH]; intros w r w' H; simpl in H.
  - apply ret_Ok in H as [<- _]. reflexivity.
  - apply bind_Ok in H as (r1 & w1 & H1 & H).
    apply copy_xtal_goes_on in H1 as ->. eapply IH, H.
Qed.

Lemma copy_files_Ok w r w' :
  _copy_files E self w = (Ok r, w') -> r = Some tt.
Proof.
  unfold _copy_files. intros H.
  apply bind_Ok in H as (d & w1 & _ & H).
  apply bind_Ok in H as (u1 & w2 & _ & H).
  apply bind_Ok in H as (b & w3 & _ & H).
  apply bind_Ok in H as (u2 & w4 & _ & H).
  apply bind_Ok in H as (u3 & w5 & _ & H).
  apply bind_Ok in H as (u4 & w6 & _ & H).
  apply bind_Ok in H as (items & w7 & _ & H).
  apply bind_Ok in H as (r1 & w8 & Hloop & H).
  apply copy_loop_goes_on in Hloop as ->.
  apply ret_Ok in H as [<- _]. reflexivity.
Qed.

(** [_read_versions] changes neither the files nor the upload. *)
Lemma keeps_same_logf w0 level template args :
  keeps (same_files_and_upload w0) (logf level template args).
Proof.
  unfold logf. apply keeps_bind; [apply keeps_lift | intros text].
  intros w Hw. exact Hw.
Qed.

Lemma keeps_same_read_old_meta w0 v :
  keeps (same_files_and_upload w0) (read_old_meta E self v).
Proof.
  unfold read_old_meta.
  apply keeps_bind; [apply keeps_same_logf | intros u].
  apply keeps_bind; [apply keeps_gets | intros is_file].
  destruct is_file.
  - apply keeps_bind.
    { apply keeps_on_fs. intros w Hw. rewrite read_file_fs. exact Hw. }
    intros text. destruct (yaml_load E text) as [m|]; [|apply keeps_raise].
    apply keeps_bind; [|intros u'; apply keeps_ret].
    apply keeps_modify. intros w Hw. exact Hw.
  - apply keeps_bind; [apply keeps_same_logf | intros u'; apply keeps_ret].
Qed.

Lemma keeps_same_read_versions w0 :
  keeps (same_files_and_upload w0) (_read_versions E self).
Proof.
  unfold _read_versions.
  apply keeps_bind; [apply keeps_gets | intros scanned].
  apply keeps_bind.
  { destruct scanned; [apply keeps_ret | apply keeps_raise]. }
  intros version. destruct (version =? 1).
  { apply keeps_bind; [|intros u; apply keeps_ret]. intros w Hw. exact Hw. }
  apply keeps_bind; [apply keeps_same_logf | intros u].
  apply keeps_bind.
  { destruct (1 <? version - 1); [|apply keeps_ret].
    apply keeps_for_return. intros v _. apply keeps_same_read_old_meta. }
  intros [returned|]; [apply keeps_ret |].
  apply keeps_bind.
  { apply keeps_modify. intros w Hw. exact Hw. }
  intros u'. apply keeps_bind; [apply keeps_gets | intros n].
  apply keeps_bind; [|intros u''; apply keeps_ret].
  destruct (negb (n =? 0)); [apply keeps_same_logf | apply keeps_ret].
Qed.

(** X9: [run] returns [None] if and only if [_read_versions] returns
    [None], that is when there is no version directory to work on; the
    file system and the upload are then as they were. In particular
    [_copy_files] never returns [None]: the path that [shutil.copy2]
    returns is never empty, so that a copy that fails is an exception of
    [run], never a result [None]. *)
Theorem run_none_without_version w :
  let w0 :=
    with_log (fun l => l ++ [mk_log_entry 0 "Running collator..."]) w in
  (fst (run E self w) = Ok None <-> fst (_read_versions E self w0) = Ok None) /\
  (fst (run E self w) = Ok None ->
   w_fs (snd (run E self w)) = w_fs w /\ w_meta (snd (run E self w)) = w_meta w) /\
  (forall w1, fst (_copy_files E self w1) <> Ok None).
Proof.
  intros w0.
  assert (Hcopy : forall w1, fst (_copy_files E self w1) <> Ok None).
  { intros w1 H.
    destruct (_copy_files E self w1) as [[r|e] w2] eqn:Hrun; [|discriminate].
    apply copy_files_Ok in Hrun. simpl in H. congruence. }
  assert (Hrun : run E self w =
                 bind (_read_versions E self) (fun v_dir =>
                   match v_dir with
                   | None =>
                       log 2 ["Error with version dir. Please fix and try again."] ;;
                       ret None
                   | Some v_dir =>
                       if String.eqb v_dir "" then
                         log 2 ["Error with version dir. Please fix and try again."] ;;
                         ret None
                       else
                         logf 0 "Using version dir {}" [v_dir] ;;
                         log 0 ["Coping files ..."] ;;
                         new_meta <- _copy_files E self ;
                         log 0 ["Munging the history ..."] ;;
                         '(all_xtals, new_xtals) <- _munge_history E self ;
                         log 0 ["Writing metadata ..."] ;;
                         _write_metadata E new_meta all_xtals new_xtals ;;
                         log 0 ["Copying config ..."] ;;
                         _copy_config self ;;
                         log 0 ["Run complete"] ;;
                         ret new_meta
                   end) w0) by reflexivity.
  assert (Hnone : fst (_read_versions E self w0) = Ok None ->
            fst (run E self w) = Ok None /\
            w_fs (snd (run E self w)) = w_fs w /\
            w_meta (snd (run E self w)) = w_meta w).
  { intros Hrv. rewrite Hrun.
    pose proof (keeps_same_read_versions w w0) as Hkeep.
    destruct (_read_versions E self w0) as [[v|e] w1] eqn:Hrv'; [|discriminate].
    simpl in Hrv. injection Hrv as ->.
    erewrite bind_run by exact Hrv'. simpl. split; [reflexivity |].
    destruct Hkeep as (Hfs & Hmeta & _); [repeat split |]. auto. }
  assert (Hiff : fst (run E self w) = Ok None ->
                 fst (_read_versions E self w0) = Ok None).
  { rewrite Hrun. unfold bind at 1.
    destruct (_read_versions E self w0) as [[[d|]|e] w1] eqn:Hrv;
      [| reflexivity | discriminate].
    apply read_versions_Some in Hrv as (Hd & _).
    assert (Hne : String.eqb d "" = false).
    { apply String.eqb_neq. rewrite Hd. apply version_path_clean. }
    rewrite Hne. intros H. exfalso.
    destruct (bind _ _ w1) as [[r|e] w2] eqn:Hrest; [|discriminate].
    simpl in H. injection H as ->.
    apply bind_Ok in Hrest as (u1 & w3 & _ & Hrest).
    apply bind_Ok in Hrest as (u2 & w4 & _ & Hrest).
    apply bind_Ok in Hrest as (new_meta & w5 & Hc & Hrest).
    apply copy_files_Ok in Hc as ->.
    apply bind_Ok in Hrest as (u3 & w6 & _ & Hrest).
    apply bind_Ok in Hrest as ([all new] & w7 & _ & Hrest).
    apply bind_Ok in Hrest as (u4 & w8 & _ & Hrest).
    apply bind_Ok in Hrest as (u5 & w9 & _ & Hrest).
    apply bind_Ok in Hrest as (u6 & w10 & _ & Hrest).
    apply bind_Ok in Hrest as (b & w11 & _ & Hrest).
    apply bind_Ok in Hrest as (u7 & w12 & _ & Hrest).
    apply ret_Ok in Hrest as [[=] _]. }
  split; [split; [exact Hiff | apply Hnone] |].
  split; [intros H; apply Hnone, Hiff, H | exact Hcopy].
Qed.

End never_none.

(** ** The content of the directory of the crystallographic files *)

Section content.
Context (E : externals) (self : config) (vdir : string).
Context (Hclean : clean vdir).

Local Abbreviation cdir := (cryst_dir_of vdir).

Lemma only_copies_more names names' (t : fs) :
  only_copies vdir names t -> names ⊆ names' ->
  (forall n, n ∈ names' -> t !! join cdir n = Some Dir) ->
  only_copies vdir names' t.
Proof.
  intros (Hcd & _ & Honly) Hsub Hdirs. split; [exact Hcd |].
  split; [exact Hdirs |]. intros q node Hq Hnode.
  destruct (Honly q node Hq Hnode) as (n & Hn & Hcase).
  exists n. split; [apply Hsub, Hn | exact Hcase].
Qed.

(** The directory of a further crystal. *)
Lemma only_copies_dir names n (t : fs) :
  plain_name n = true -> only_copies vdir names t ->
  only_copies vdir (names ++ [n]) (<[join cdir n := Dir]> t).
Proof.
  intros Hn (Hcd & Hdirs & Honly).
  assert (Hne : join cdir n <> cdir).
  { intros Heq. pose proof (crystal_dir_in vdir n Hn) as Hb.
    rewrite Heq, below_self in Hb by apply cryst_dir_clean, Hclean.
    discriminate. }
  split; [rewrite lookup_insert_ne by exact Hne; exact Hcd |]. split.
  - intros m Hm. destruct (decide (join cdir n = join cdir m)) as [Heq|Hneq].
    + rewrite Heq. apply lookup_insert_eq.
    + rewrite lookup_insert_ne by exact Hneq.
      apply elem_of_app in Hm as [Hm | Hm]; [apply Hdirs, Hm |].
      apply list_elem_of_singleton in Hm. congruence.
  - intros q node Hq Hnode.
    destruct (decide (join cdir n = q)) as [<-|Hneq].
    + rewrite lookup_insert_eq in Hnode. injection Hnode as <-.
      exists n. split; [apply elem_of_app; right; left | left; auto].
    + rewrite lookup_insert_ne in Hnode by exact Hneq.
      destruct (Honly q node Hq Hnode) as (m & Hm & Hcase).
      exists m. split; [apply elem_of_app; left; exact Hm | exact Hcase].
Qed.

(** The copy of a file of a crystal that has its directory. *)
Lemma only_copies_file names n k content (t : fs) :
  plain_name n = true -> n ∈ names -> only_copies vdir names t ->
  (forall m, m ∈ names -> plain_name m = true) ->
  only_copies vdir names (<[copied_path vdir n k := File content]> t).
Proof.
  intros Hn Hin (Hcd & Hdirs & Honly) Hplain.
  assert (Hne : copied_path vdir n k <> cdir).
  { intros Heq. pose proof (copied_path_in_cryst_dir vdir n k Hn) as Hb.
    rewrite Heq in Hb. unfold within in Hb. rewrite String.eqb_refl in Hb.
    pose proof (below_below _ _ _ (crystal_dir_in vdir n Hn)
                  (copied_path_in vdir n k Hn)) as Hb'.
    rewrite Heq, below_self in Hb' by apply cryst_dir_clean, Hclean.
    discriminate. }
  split; [rewrite lookup_insert_ne by exact Hne; exact Hcd |]. split.
  - intros m Hm. rewrite lookup_insert_ne; [apply Hdirs, Hm |].
    destruct (decide (n = m)) as [->|Hnm].
    + apply copied_path_not_dir; [exact Hclean | exact Hn].
    + apply copied_path_not_other_dir; auto.
  - intros q node Hq Hnode.
    destruct (decide (copied_path vdir n k = q)) as [<-|Hneq].
    + rewrite lookup_insert_eq in Hnode. injection Hnode as <-.
      exists n. split; [exact Hin | right; eauto].
    + rewrite lookup_insert_ne in Hnode by exact Hneq.
      apply (Honly q node Hq Hnode).
Qed.

(** The path of a copy is not a directory. *)
Lemma copy_target_not_dir names n k (t : fs) :
  plain_name n = true -> only_copies vdir names t ->
  (forall m, m ∈ names -> plain_name m = true) ->
  isdir t (copied_path vdir n k) = false.
Proof.
  intros Hn (_ & _ & Honly) Hplain. unfold isdir.
  destruct (t !! copied_path vdir n k) as [[|c]|] eqn:Hnode; try reflexivity.
  exfalso.
  assert (Hb : below cdir (copied_path vdir n k) = true).
  { apply (below_below _ _ _ (crystal_dir_in vdir n Hn)
             (copied_path_in vdir n k Hn)). }
  destruct (Honly _ _ Hb Hnode) as (m & Hm & [(Heq & _) | (k' & c & _ & [=])]).
  revert Heq. destruct (decide (n = m)) as [->|Hnm].
  - apply copied_path_not_dir; [exact Hclean | exact Hn].
  - apply copied_path_not_other_dir; auto.
Qed.

Section pass.
Context (names : list string).
Context (Hplain : forall m, m ∈ names -> plain_name m = true).

Lemma collected_on_files : on_files (collected vdir names).
Proof. intros w w' Hfs _ _ Hw. unfold collected in *. rewrite Hfs. exact Hw. Qed.

Lemma keeps_collected_block i n k :
  n ∈ names ->
  keeps (collected vdir names) (copy_block E self i (join cdir n) n k).
Proof.
  intros Hin. pose proof (Hplain n Hin) as Hn.
  pose proof collected_on_files as HI. unfold copy_block.
  apply keeps_bind; [apply keeps_get_xtal | intros data].
  destruct (entry_truthy _).
  - apply keeps_bind.
    { destruct (get_file k _);
        [apply keeps_raise | apply keeps_lift | apply keeps_raise]. }
    intros input. apply keeps_bind.
    { apply keeps_on_fs. intros w Hw. unfold collected in *. simpl.
      fold (copied_path vdir n k). unfold copy2.
      rewrite (copy_target_not_dir names n k _ Hn Hw Hplain).
      destruct (String.eqb input _); [exact Hw |].
      destruct (w_fs w !! input) as [[|content]|]; try exact Hw.
      destruct (w_fs w !! copied_path vdir n k) as [[|c]|]; try exact Hw;
        (destruct (parent_ok (w_fs w) _); [|exact Hw]); simpl;
        apply only_copies_file; assumption. }
    intros f. destruct (String.eqb f "").
    + apply keeps_bind; [apply keeps_logf, HI | intros u; apply keeps_ret].
    + apply keeps_bind.
      { unfold gen_sha256. apply keeps_bind; [apply keeps_read_file, HI |].
        intros content. apply keeps_ret. }
      intros digest. apply keeps_bind; [apply keeps_update_xtal, HI |].
      intros u. apply keeps_ret.
  - apply keeps_bind; [apply keeps_logf, HI | intros u; apply keeps_ret].
Qed.

End pass.

(** A pass of the loop adds the directory of its crystal and copies of
    its files. *)
Lemma hoare_collected_xtal done i n :
  plain_name n = true ->
  (forall m, m ∈ done -> plain_name m = true) ->
  hoare (collected vdir done) (copy_xtal E self cdir (i, n))
    (fun _ => collected vdir (done ++ [n])) (fun _ => True).
Proof.
  intros Hn Hdone.
  assert (Hplain : forall m, m ∈ done ++ [n] -> plain_name m = true).
  { intros m Hm. apply elem_of_app in Hm as [Hm | Hm]; [apply Hdone, Hm |].
    apply list_elem_of_singleton in Hm. subst m. exact Hn. }
  assert (Hin : n ∈ done ++ [n]) by (apply elem_of_app; right; left).
  unfold copy_xtal.
  apply hoare_bind with (R := fun _ => collected vdir (done ++ [n])).
  { apply hoare_on_fs. intros w u t' Hw Hrun. unfold collected in *. simpl.
    pose proof Hw as (Hcd & _).
    rewrite makedirs_join in Hrun;
      [| apply cryst_dir_clean, Hclean | exact Hn
       | unfold exists_; rewrite Hcd; reflexivity].
    apply mkdir_Ok in Hrun as (_ & ->). apply only_copies_dir; assumption. }
  intros u. eapply hoare_bind.
  { apply keeps_hoare, keeps_collected_block; assumption. }
  intros [r|]; [apply hoare_ret; auto |]. eapply hoare_bind.
  { apply keeps_hoare, keeps_collected_block; assumption. }
  intros [r|]; [apply hoare_ret; auto |].
  apply keeps_hoare, keeps_collected_block; assumption.
Qed.

Lemma hoare_collected_loop (c : dict xtal_data) :
  (forall n, n ∈ dict_keys c -> plain_name n = true) ->
  hoare (collected vdir []) (for_return (positions c) (copy_xtal E self cdir))
    (fun r w => r = None -> collected vdir (dict_keys c) w) (fun _ => True).
Proof.
  intros Hplain.
  eapply hoare_conseq.
  - apply (hoare_for_return_steps
             (fun done => collected vdir (done.*2))
             (fun (_ : option unit) _ => True) (fun _ => True)).
    intros done [i n] rest Hpos.
    assert (Hkeys : dict_keys c = done.*2 ++ n :: rest.*2).
    { rewrite <- positions_snd, Hpos, fmap_app. reflexivity. }
    eapply hoare_conseq.
    + apply (hoare_collected_xtal (done.*2) i n).
      * apply Hplain. rewrite Hkeys. apply elem_of_app. right. left.
      * intros m Hm. apply Hplain. rewrite Hkeys. apply elem_of_app. auto.
    + auto.
    + intros r w Hw. destruct r; [exact I |].
      rewrite fmap_app. exact Hw.
    + auto.
  - auto.
  - intros r w Hw ->. rewrite positions_snd in Hw. exact Hw.
  - auto.
Qed.

(** When [_copy_files] returns, the directory of the crystallographic
    files holds what it made for the crystals of the upload. *)
Lemma copy_files_collected w r w' :
  version_dir w = Some vdir -> version_dir_ready (w_fs w) vdir ->
  (forall n, n ∈ dict_keys (crystals (w_meta w)) -> plain_name n = true) ->
  _copy_files E self w = (Ok r, w') ->
  collected vdir (dict_keys (crystals (w_meta w))) w'.
Proof.
  intros Hv Hready Hplain H.
  destruct (cryst_dir_cleared vdir (w_fs w) Hclean Hready)
    as (t1 & Hclear & Hnone & Hvd & _ & Hin).
  unfold _copy_files in H.
  apply bind_Ok in H as (d & w1 & Hd & H).
  apply get_version_dir_Ok in Hd as [Hd ->].
  assert (d = vdir) as -> by congruence. fold cdir in H.
  apply bind_Ok in H as (u1 & w2 & H1 & H).
  apply modify_Ok in H1 as ->.
  apply bind_Ok in H as (b & w3 & Hb & H).
  apply gets_Ok in Hb as [-> <-].
  change (w_fs (with_log _ w)) with (w_fs w) in H.
  apply bind_Ok in H as (u2 & w4 & Hrm & H).
  assert (Hw4 : w_fs w4 = t1 /\ crystals (w_meta w4) = crystals (w_meta w)).
  { destruct (exists_ (w_fs w) cdir).
    - apply bind_Ok in Hrm as (u & w5 & H5 & Hrm).
      apply modify_Ok in H5 as ->.
      apply on_fs_Ok in Hrm as (t' & Hrm & ->).
      change (w_fs (with_log _ (with_log _ w))) with (w_fs w) in Hrm.
      assert (t' = t1) as -> by congruence. split; reflexivity.
    - apply ret_Ok in Hrm as [_ <-]. subst t1. split; reflexivity. }
  destruct Hw4 as [Hfs4 Hc4].
  apply bind_Ok in H as (u3 & w5 & H5 & H).
  apply modify_Ok in H5 as ->.
  apply bind_Ok in H as (u4 & w6 & Hmk & H).
  apply on_fs_Ok in Hmk as (t2 & Hmk & ->).
  change (w_fs (with_log _ w4)) with (w_fs w4) in Hmk. rewrite Hfs4 in Hmk.
  unfold cdir, cryst_dir_of in Hmk.
  rewrite makedirs_join in Hmk;
    [| exact Hclean | reflexivity | unfold exists_; rewrite Hvd; reflexivity].
  apply mkdir_Ok in Hmk as (_ & ->).
  apply bind_Ok in H as (items & w7 & Hitems & H).
  apply gets_Ok in Hitems as [-> <-].
  apply bind_Ok in H as (r1 & w8 & Hloop & H).
  assert (w' = w8) as ->.
  { destruct r1; apply ret_Ok in H as [_ ->]; reflexivity. }
  pose proof (copy_loop_goes_on E self _ _ _ _ _ Hloop) as ->.
  simpl in Hloop. rewrite Hc4 in Hloop.
  pose proof (hoare_collected_loop (crystals (w_meta w)) Hplain) as Hh.
  match type of Hloop with for_return _ _ ?w0 = _ => specialize (Hh w0) end.
  rewrite Hloop in Hh. apply Hh; [|reflexivity].
  unfold collected. simpl. split; [apply lookup_insert_eq |].
  split; [intros n Hn; inversion Hn |].
  intros q node Hq Hnode. exfalso.
  rewrite lookup_insert_ne in Hnode.
  - rewrite (Hin q Hq) in Hnode. discriminate.
  - intros <-. fold cdir in Hq.
    rewrite below_self in Hq by apply cryst_dir_clean, Hclean. discriminate.
Qed.

End content.

(** X10: for an upload whose tags are distinct names of directory
    entries (not empty, without a separator or NUL, not [.] or [..]) and whose
    files are there,
    and a version directory that is ready, [_copy_files] returns and
    leaves in the directory [crystallographic] of the version directory
    one directory for every crystal of the upload and nothing else but
    copies of their files, each at the path made of the tag and the
    extension of its kind: whatever an earlier run had left in the
    directory is gone. *)
Theorem copy_files_leaves_only_copies E self vdir w :
  version_dir w = Some vdir -> clean vdir ->
  version_dir_ready (w_fs w) vdir ->
  NoDup (dict_keys (crystals (w_meta w))) ->
  (forall n, n ∈ dict_keys (crystals (w_meta w)) -> entry_name n = true) ->
  (forall i n x k, crystals (w_meta w) !! i = Some (n, x) ->
     source_ok (base_dir self) (cryst_dir_of vdir) (w_fs w)
       (get_file k (crystallographic_files x)) = true) ->
  exists w',
    _copy_files E self w = (Ok (Some tt), w') /\
    only_copies vdir (dict_keys (crystals (w_meta w))) (w_fs w').
Proof.
  intros Hv Hclean Hready Hnodup Hentry Hsources.
  assert (Hplain : forall n,
            n ∈ dict_keys (crystals (w_meta w)) -> plain_name n = true)
    by (intros n Hn; apply entry_name_plain, Hentry, Hn).
  destruct (copy_files_run E self vdir (w_fs w) (crystals (w_meta w))
              Hclean Hnodup Hentry Hsources w Hv eq_refl eq_refl Hready)
    as (w' & Hrun & _).
  exists w'. split; [exact Hrun |].
  apply (copy_files_collected E self vdir Hclean w _ w' Hv Hready Hplain Hrun).
Qed.


Lemma copy_files_leaves_only_copies_witness :
  let w := with_version_dir (Some "/out/upload_2")
             (Examples.start Examples.fs_rerun
                [("Mpro-x0072", Examples.x0072)]) in
  exists w',
    _copy_files Examples.collator_externals (Examples.collator_config []) w
      = (Ok (Some tt), w') /\
    only_copies "/out/upload_2" ["Mpro-x0072"] (w_fs w').
Proof.
  intros w.
  apply (copy_files_leaves_only_copies Examples.collator_externals
           (Examples.collator_config []) "/out/upload_2" w).
  - reflexivity.
  - split; [discriminate | reflexivity].
  - split; [vm_compute; reflexivity |]. split; [vm_compute; reflexivity |].
    intros Hex. vm_compute in Hex. discriminate.
  - apply NoDup_singleton.
  - intros n Hn. change (n ∈ ["Mpro-x0072"]) in Hn.
    apply list_elem_of_singleton in Hn. subst n. vm_compute. reflexivity.
  - intros [|i] n x k Hx; [|discriminate]. injection Hx as <- <-.
    destruct k; vm_compute; reflexivity.
Defined.

(** ** A crystal named [.] or [..] *)

Section dot_names.
Context (E : externals) (self : config) (vdir : string) (Hclean : clean vdir).

Local Abbreviation cdir := (cryst_dir_of vdir).







End dot_names.


End CollatorCopy.

(* ===================================================================== *)
(** * The outcome of the history merge *)
(* ===================================================================== *)

Module CollatorMunge.
Import Path FS Collator PyFacts PathFacts FSFacts WorldFacts CollatorFacts.
Import VersionFacts FrameFacts DictFacts.

Section munge.
Context (E : externals) (self : config).

(** The fields of the state when [_munge_history] returns. *)
Lemma munge_history_fields w all new w' :
  _munge_history E self w = (Ok (all, new), w') ->
  NoDup (dict_keys (crystals (w_meta w))) ->
  all_xtals w' = Some all /\ new_or_updated_xtals w' = Some new /\
  w_fs w' = w_fs w /\ version_dir w' = version_dir w /\
  meta_history w' = meta_history w.
Proof.
  intros H Hnd. unfold _munge_history in H.
  apply bind_Ok in H as (d & w1 & H1 & H).
  apply get_deprecations_Ok in H1 as [-> ->].
  apply bind_Ok in H as (? & w2 & H2 & H).
  apply logf_Ok in H2 as (t2 & _ & ->).
  apply bind_Ok in H as (history & w3 & H3 & H).
  apply gets_Ok in H3 as [-> <-].
  apply bind_Ok in H as ([count a0] & w4 & H4 & H).
  apply munge_old_metas_Ok in H4 as (-> & Hc4 & Hs4).
  apply bind_Ok in H as (? & w5 & H5 & H).
  apply logf_Ok in H5 as (t5 & _ & ->).
  apply bind_Ok in H as (items & w6 & H6 & H).
  apply gets_Ok in H6 as [-> <-]. simpl in H. rewrite Hc4 in H.
  apply bind_Ok in H as ([all1 new1] & w7 & H7 & H).
  apply munge_loop_Ok in H7 as (Hs7 & _).
  2: { rewrite positions_fst. apply NoDup_seq. }
  2: { rewrite positions_snd. exact Hnd. }
  apply bind_Ok in H as (? & w8 & H8 & H).
  apply logf_Ok in H8 as (t8 & _ & ->).
  apply bind_Ok in H as (? & w9 & H9 & H).
  apply logf_Ok in H9 as (t9 & _ & ->).
  apply bind_Ok in H as (? & w10 & H10 & H).
  apply modify_Ok in H10 as ->.
  apply ret_Ok in H as [[= <- <-] <-]. simpl.
  destruct Hs7 as (Hf7 & Hv7 & Hh7 & _).
  destruct Hs4 as (Hf4 & Hv4 & Hh4 & _). simpl in *.
  split; [reflexivity |]. split; [reflexivity |].
  repeat split; congruence.
Qed.

(** What the loop did for a crystal is what the comparison of the dates
    says. *)
Lemma outcome_compared history xs new i name x st :
  xs !! i = Some (name, x) ->
  outcome E (merged_history history) [] xs new i name st ->
  st = compared_status E history name x /\
  dict_get new name =
    if String.eqb st "unchanged" then None else Some (Cur i).
Proof.
  intros Hx Hout. unfold compared_status.
  destruct Hout as [(Hnone & -> & Hnew) |
    (old_ref & old & x' & od & nd & odt & ndt & Hg & (w1 & Hd) & Ho & (k & Hx') &
     Hn & _ & _ & Hop & Hnp & Hcmp)].
  - rewrite Hnone. auto.
  - rewrite Hg. destruct (merged_history_Hist _ _ _ Hg) as (old' & ->).
    simpl in Hd. injection Hd as ->.
    rewrite Hx in Hx'. injection Hx' as _ <-.
    unfold date_of. rewrite Ho, Hn, Hop, Hnp.
    destruct Hcmp as [(Hlt & -> & Hnew) | (Hge & -> & Hnew)].
    + apply Z.ltb_lt in Hlt. rewrite Hlt. auto.
    + apply Z.ltb_ge in Hge. rewrite Hge. auto.
Qed.

(** What [_munge_history] has done when it returns: the records of the
    upload and the two maps. *)
Lemma munge_history_outcome w all new w' :
  NoDup (dict_keys (crystals (w_meta w))) ->
  _munge_history E self w = (Ok (all, new), w') ->
  crystals (w_meta w') =
    map (munged E self (meta_history w)) (crystals (w_meta w)) /\
  (forall i name x, crystals (w_meta w) !! i = Some (name, x) ->
     dict_get all name = Some (Cur i) /\
     dict_get new name =
       if String.eqb (compared_status E (meta_history w) name x) "unchanged"
       then None else Some (Cur i)) /\
  (forall name, name ∉ dict_keys (crystals (w_meta w)) ->
     dict_get all name = dict_get (merged_history (meta_history w)) name /\
     dict_get new name = None).
Proof.
  intros Hnd Hrun.
  pose proof (keeps_munge_history E self
                (fun w1 => dict_keys (crystals (w_meta w1)) =
                           dict_keys (crystals (w_meta w)))) as Hkeys.
  specialize (Hkeys ltac:(intros a b _ _ Hk Ha; congruence) w eq_refl).
  rewrite Hrun in Hkeys. simpl in Hkeys.
  apply munge_history_Ok in Hrun as (_ & Hothers & Hitems); [|exact Hnd].
  split; [|split; [|exact Hothers]].
  - apply list_eq. intros i. rewrite list_lookup_fmap.
    destruct (crystals (w_meta w) !! i) as [[name x]|] eqn:Hx.
    + destruct (Hitems i name x Hx) as (_ & st & Hrec & Hout).
      apply (outcome_compared _ _ _ _ _ x) in Hout as [-> _]; [|exact Hx].
      rewrite Hrec. reflexivity.
    + apply lookup_ge_None in Hx. apply lookup_ge_None.
      assert (Hlen : length (crystals (w_meta w')) =
                     length (crystals (w_meta w))).
      { apply (f_equal length) in Hkeys. unfold dict_keys in Hkeys.
        rewrite !length_map in Hkeys. exact Hkeys. }
      lia.
  - intros i name x Hx.
    destruct (Hitems i name x Hx) as (Ha & st & _ & Hout).
    split; [exact Ha |].
    apply (outcome_compared _ _ _ _ _ x) in Hout as [<- Hn]; [|exact Hx].
    exact Hn.
Qed.

(** X11: for an upload with distinct tags in which every crystal that an
    earlier version has is dated, as is its record there,
    [_munge_history] returns, and the upload is then the upload it was
    given with a status set in every record: [new] for a crystal that no
    earlier version has, [supersedes] for one whose date is later than the
    date of its last record in the earlier versions, and [unchanged]
    otherwise; a crystal that the operator deprecated has the status
    [deprecated] and the reason instead. Nothing else in a record
    changes, and the order of the crystals is kept. The map of all
    crystals names the record of the upload for every crystal of the
    upload and the last earlier record for every other tag; the map of
    the new or updated crystals has exactly the crystals of the upload
    whose comparison did not give [unchanged]. Both maps are stored in the
    collator, and the file system is left as it was. *)
Theorem munge_history_result w :
  NoDup (dict_keys (crystals (w_meta w))) -> history_dated E w ->
  exists all new w',
    _munge_history E self w = (Ok (all, new), w') /\
    crystals (w_meta w') =
      map (munged E self (meta_history w)) (crystals (w_meta w)) /\
    (forall i name x, crystals (w_meta w) !! i = Some (name, x) ->
       dict_get all name = Some (Cur i) /\
       dict_get new name =
         if String.eqb (compared_status E (meta_history w) name x) "unchanged"
         then None else Some (Cur i)) /\
    (forall name, name ∉ dict_keys (crystals (w_meta w)) ->
       dict_get all name = dict_get (merged_history (meta_history w)) name /\
       dict_get new name = None) /\
    all_xtals w' = Some all /\ new_or_updated_xtals w' = Some new /\
    w_fs w' = w_fs w.
Proof.
  intros Hnd Hdated.
  destruct (munge_history_returns E self w Hnd Hdated) as (all & new & w' & Hrun).
  exists all, new, w'. split; [exact Hrun |].
  destruct (munge_history_fields w all new w' Hrun Hnd)
    as (Hall & Hnew & Hfs & _ & _).
  destruct (munge_history_outcome w all new w' Hnd Hrun)
    as (Hupload & Hitems & Hothers).
  split; [exact Hupload |]. split; [exact Hitems |].
  split; [exact Hothers |]. split; [exact Hall |].
  split; [exact Hnew | exact Hfs].
Qed.

End munge.

Lemma munge_history_result_witness :
  let w := Examples.munge_state [Examples.upload_1]
             [("ABC123", Examples.dated "2024-02-01");
              ("XYZ999", Examples.dated "2024-01-01");
              ("NEW001", Examples.dated "2024-02-01")] in
  exists all new w',
    _munge_history Examples.collator_externals
      (Examples.collator_config []) w = (Ok (all, new), w') /\
    crystals (w_meta w') =
      [("ABC123", set_status "supersedes" (Examples.dated "2024-02-01"));
       ("XYZ999", set_status "unchanged" (Examples.dated "2024-01-01"));
       ("NEW001", set_status "new" (Examples.dated "2024-02-01"))] /\
    dict_get new "XYZ999" = None.
Proof.
  intros w.
  destruct (munge_history_result Examples.collator_externals
              (Examples.collator_config []) w)
    as (all & new & w' & Hrun & Hc & Hitems & _).
  - apply (bool_decide_unpack _). vm_compute. exact I.
  - intros [|[|[|j]]] n y old Hy Hold; try discriminate Hy;
      injection Hy as <- <-; vm_compute in Hold;
      try discriminate Hold; injection Hold as <-;
      split; eexists _, _; (split; [reflexivity |]);
        (split; [discriminate | vm_compute; reflexivity]).
  - exists all, new, w'. split; [exact Hrun |]. split; [exact Hc |].
    destruct (Hitems 1 "XYZ999" (Examples.dated "2024-01-01") eq_refl)
      as (_ & Hn).
    exact Hn.
Defined.

End CollatorMunge.

(* ===================================================================== *)
(** * The documents that a run writes *)
(* ===================================================================== *)

Module CollatorWrite.
Import Path FS Collator PyFacts PathFacts FSFacts WorldFacts CollatorFacts.
Import VersionFacts FrameFacts CopyFacts DictFacts.

Lemma write_file_run p content (t : fs) :
  t !! p <> Some Dir -> parent_ok t p = Ok tt ->
  write_file p content t = (Ok tt, <[p := File content]> t).
Proof.
  intros Hp Hparent. unfold write_file. rewrite Hparent.
  destruct (t !! p) as [[|c]|]; [congruence | reflexivity..].
Qed.

Lemma join_plain_inj d a b :
  clean d -> plain_name a = true -> plain_name b = true ->
  join d a = join d b -> a = b.
Proof.
  intros Hd Ha Hb. rewrite !join_clean by auto using plain_name_no_sep.
  intros H. apply String.app_inj in H. apply String.app_inj in H. exact H.
Qed.

Lemma join_plain_not_dir d a : clean d -> plain_name a = true -> join d a <> d.
Proof.
  intros Hd Ha Heq.
  pose proof (below_join d a (no_sep_isabs _ (plain_name_no_sep _ Ha))) as Hb.
  rewrite Heq, (below_self _ Hd) in Hb. discriminate.
Qed.

Section write.
Context (E : externals) (vdir : string) (Hclean : clean vdir).

Lemma write_metadata_run meta all new w :
  version_dir w = Some vdir -> w_fs w !! vdir = Some Dir ->
  (forall name, name ∈ yaml_names -> w_fs w !! join vdir name <> Some Dir) ->
  _write_metadata E meta all new w = (Ok tt, written E vdir meta all new w).
Proof.
  intros Hv Hdir Hfree. unfold _write_metadata, get_version_dir.
  erewrite bind_run by (erewrite bind_run by reflexivity; rewrite Hv; reflexivity).
  erewrite bind_run by reflexivity.
  assert (Hparent : forall (t : fs) name,
            t !! vdir = Some Dir -> plain_name name = true ->
            parent_ok t (join vdir name) = Ok tt).
  { intros t name Ht Hn. apply parent_ok_join; assumption. }
  erewrite bind_run.
  2:{ apply on_fs_run, write_file_run.
      - apply Hfree. left.
      - apply Hparent; [exact Hdir | reflexivity]. }
  erewrite bind_run by reflexivity.
  erewrite bind_run.
  2:{ apply on_fs_run, write_file_run.
      - simpl. rewrite lookup_insert_ne.
        + apply Hfree. right. left.
        + intros Heq. apply join_plain_inj in Heq; [discriminate | auto..].
      - apply Hparent; [|reflexivity]. simpl.
        rewrite lookup_insert_ne; [exact Hdir |].
        apply join_plain_not_dir; [exact Hclean | reflexivity]. }
  erewrite bind_run by reflexivity.
  erewrite on_fs_run; [reflexivity |].
  apply write_file_run.
  - simpl. rewrite !lookup_insert_ne.
    + apply Hfree. right. right. left.
    + intros Heq. apply join_plain_inj in Heq; [discriminate | auto..].
    + intros Heq. apply join_plain_inj in Heq; [discriminate | auto..].
  - apply Hparent; [|reflexivity]. simpl.
    rewrite !lookup_insert_ne; [exact Hdir | |];
      apply join_plain_not_dir; (exact Hclean || reflexivity).
Qed.

(** X12: with a working version directory that is a directory and in
    which none of the paths [metadata.yaml], [all_xtals.yaml] and
    [new_xtals.yaml] is a directory, [_write_metadata] returns and the
    three files hold what the YAML writer makes of the metadata (of
    [None] when no metadata is given), of the map of all crystals and of
    the map of the new or updated ones. A record of the upload is written
    as it is at that moment, with whatever was set in it after it was put
    into a map. Every other path and the upload are left as they were. *)
Theorem write_metadata_writes meta all new w :
  version_dir w = Some vdir -> w_fs w !! vdir = Some Dir ->
  targets_free (w_fs w) vdir ->
  exists w',
    _write_metadata E meta all new w = (Ok tt, w') /\
    w_fs w' !! join vdir "metadata.yaml" =
      Some (File (yaml_dump_meta E
                    (match meta with
                     | Some _ => Some (w_meta w)
                     | None => None
                     end))) /\
    w_fs w' !! join vdir "all_xtals.yaml" =
      Some (File (yaml_dump_xtals E (resolve w all))) /\
    w_fs w' !! join vdir "new_xtals.yaml" =
      Some (File (yaml_dump_xtals E (resolve w new))) /\
    (forall name i n x,
       (name, Cur i) ∈ all -> crystals (w_meta w) !! i = Some (n, x) ->
       (name, x) ∈ resolve w all) /\
    (forall q, (forall name, name ∈ yaml_names -> q <> join vdir name) ->
       w_fs w' !! q = w_fs w !! q) /\
    w_meta w' = w_meta w.
Proof.
  intros Hv Hdir Hfree. exists (written E vdir meta all new w).
  split; [apply write_metadata_run; assumption |].
  assert (Hne : forall a b, plain_name a = true -> plain_name b = true ->
                  a <> b -> join vdir a <> join vdir b).
  { intros a b Ha Hb Hab Heq. apply Hab.
    eapply join_plain_inj; eassumption. }
  unfold written. simpl. split; [|split; [|split; [|split; [|split]]]].
  - rewrite !lookup_insert_ne by (apply Hne; (reflexivity || discriminate)).
    apply lookup_insert_eq.
  - rewrite lookup_insert_ne by (apply Hne; (reflexivity || discriminate)).
    apply lookup_insert_eq.
  - apply lookup_insert_eq.
  - intros name i n x Hin Hx. unfold resolve.
    apply list_elem_of_omap. exists (name, Cur i). split; [exact Hin |].
    simpl. rewrite Hx. reflexivity.
  - intros q Hq. rewrite !lookup_insert_ne; [reflexivity | | |];
      intros Heq; symmetry in Heq; revert Heq; apply Hq;
      unfold yaml_names; set_solver.
  - reflexivity.
Qed.

End write.

(** ** The copy of the configuration *)

Lemma copy_config_run self vdir w content :
  clean vdir -> version_dir w = Some vdir -> w_fs w !! vdir = Some Dir ->
  w_fs w !! config_file self = Some (File content) ->
  basename (config_file self) <> "" ->
  config_file self <> join vdir (basename (config_file self)) ->
  w_fs w !! join vdir (basename (config_file self)) <> Some Dir ->
  _copy_config self w =
    (Ok true,
     with_fs (fun t => <[join vdir (basename (config_file self)) :=
                           File content]> t) w).
Proof.
  intros Hclean Hv Hdir Hsrc Hname Hne Hdst.
  assert (Hplain : plain_name (basename (config_file self)) = true).
  { unfold plain_name. rewrite basename_no_sep.
    apply String.eqb_neq in Hname. rewrite Hname. reflexivity. }
  unfold _copy_config, get_version_dir.
  erewrite bind_run by (erewrite bind_run by reflexivity; rewrite Hv; reflexivity).
  erewrite bind_run.
  2:{ apply on_fs_run. unfold copy2, isdir. rewrite Hdir.
      apply String.eqb_neq in Hne. rewrite Hne, Hsrc.
      rewrite (parent_ok_join _ _ _ Hclean Hplain Hdir).
      destruct (w_fs w !! join vdir (basename (config_file self)))
        as [[|c]|]; [congruence | reflexivity..]. }
  assert (Hf : String.eqb (join vdir (basename (config_file self))) "" = false).
  { apply String.eqb_neq, ValidatorFacts.join_nonempty, Hname. }
  rewrite Hf. reflexivity.
Qed.

Lemma write_metadata_writes_witness :
  let w := with_version_dir (Some "/out/upload_2")
             (Examples.start Examples.fs_two_versions
                [("Mpro-x0072", Examples.x0072)]) in
  exists w',
    _write_metadata Examples.collator_externals (Some tt)
      [("Mpro-x0072", Cur 0)] [] w = (Ok tt, w') /\
    w_fs w' !! "/out/upload_2/all_xtals.yaml" = Some (File "xtals") /\
    ("Mpro-x0072", Examples.x0072) ∈ resolve w [("Mpro-x0072", Cur 0)].
Proof.
  intros w.
  destruct (write_metadata_writes Examples.collator_externals "/out/upload_2"
              ltac:(split; [discriminate | reflexivity])
              (Some tt) [("Mpro-x0072", Cur 0)] [] w)
    as (w' & Hrun & _ & Hall & _ & Hshown & _).
  - reflexivity.
  - reflexivity.
  - intros name Hin. unfold yaml_names in Hin.
    repeat (apply elem_of_cons in Hin as [-> | Hin];
            [vm_compute; discriminate |]).
    inversion Hin.
  - exists w'. split; [exact Hrun |]. split; [exact Hall |].
    apply (Hshown "Mpro-x0072" 0 "Mpro-x0072" Examples.x0072);
      [left | reflexivity].
Defined.

End CollatorWrite.

(* ===================================================================== *)
(** * A run of the collator *)
(* ===================================================================== *)

Module CollatorRun.
Import Path FS Collator PyFacts PathFacts FSFacts WorldFacts CollatorFacts.
Import VersionFacts FrameFacts CopyFacts DictFacts.
Import CollatorVersions CollatorCopy CollatorMunge CollatorWrite.

(** What a computation keeps, it has kept in the state that it ends in. *)
Lemma keeps_run {W A} (I : W -> Prop) (m : M W A) w r w' :
  keeps I m -> I w -> m w = (r, w') -> I w'.
Proof. intros Hk Hw Hrun. specialize (Hk w Hw). rewrite Hrun in Hk. exact Hk. Qed.

(** ** [_copy_files] changes the entries of the files only *)

Lemma same_but_files_refl w : same_but_files w w.
Proof.
  repeat split. intros i n x Hx. exists (crystallographic_files x).
  rewrite Hx. destruct x. reflexivity.
Qed.

Section files_only.
Context (E : externals) (self : config) (w0 : world).

Local Abbreviation kept := (same_but_files w0).

Lemma keeps_files_log level args : keeps kept (log level args).
Proof. intros w Hw. exact Hw. Qed.

Lemma keeps_files_logf level template args :
  keeps kept (logf level template args).
Proof.
  unfold logf. apply keeps_bind; [apply keeps_lift | intros text].
  apply keeps_files_log.
Qed.

Lemma keeps_files_on_fs {A} (m : M fs A) : keeps kept (on_fs m).
Proof. apply keeps_on_fs. intros w Hw. exact Hw. Qed.

Lemma keeps_files_update i (g : xtal_data -> xtal_files) :
  keeps kept (update_xtal i (fun x => set_files (g x) x)).
Proof.
  intros w (Hv & Hh & Ha & Hn & Hlen & Hrec). cbn -[alter].
  repeat (split; [assumption |]).
  change (crystals (w_meta (with_crystals ?f w))) with (f (crystals (w_meta w))).
  split.
  - rewrite length_alter. exact Hlen.
  - intros j n x Hx. destruct (Hrec j n x Hx) as (files & Hj).
    destruct (decide (j = i)) as [->|Hne].
    + rewrite list_lookup_alter_eq, Hj. simpl. eexists. reflexivity.
    + rewrite list_lookup_alter_ne by congruence. eauto.
Qed.

Lemma keeps_files_block i dir name k :
  keeps kept (copy_block E self i dir name k).
Proof.
  unfold copy_block.
  apply keeps_bind; [apply keeps_get_xtal | intros data].
  destruct (entry_truthy _).
  - apply keeps_bind.
    { destruct (get_file k _);
        [apply keeps_raise | apply keeps_lift | apply keeps_raise]. }
    intros input. apply keeps_bind; [apply keeps_files_on_fs | intros f].
    destruct (String.eqb f "").
    + apply keeps_bind; [apply keeps_files_logf | intros u; apply keeps_ret].
    + apply keeps_bind.
      { unfold gen_sha256. apply keeps_bind; [apply keeps_files_on_fs |].
        intros content. apply keeps_ret. }
      intros digest. apply keeps_bind; [|intros u; apply keeps_ret].
      apply (keeps_files_update i
               (fun x => set_file k (Copied _ digest) (crystallographic_files x))).
  - apply keeps_bind; [apply keeps_files_logf | intros u; apply keeps_ret].
Qed.

Lemma keeps_files_copy_files : keeps kept (_copy_files E self).
Proof.
  unfold _copy_files.
  apply keeps_bind; [apply keeps_get_version_dir | intros d].
  apply keeps_bind; [apply keeps_files_log | intros u].
  apply keeps_bind; [apply keeps_gets | intros cryst_exists].
  apply keeps_bind.
  { destruct cryst_exists; [|apply keeps_ret].
    apply keeps_bind; [apply keeps_files_log | intros u'].
    apply keeps_files_on_fs. }
  intros u'. apply keeps_bind; [apply keeps_files_log | intros u''].
  apply keeps_bind; [apply keeps_files_on_fs | intros u3].
  apply keeps_bind; [apply keeps_gets | intros items].
  apply keeps_bind; [|intros [returned|]; apply keeps_ret].
  apply keeps_for_return. intros [i n] _. unfold copy_xtal.
  apply keeps_bind; [apply keeps_files_on_fs | intros u4].
  apply keeps_bind; [apply keeps_files_block | intros [r|]; [apply keeps_ret |]].
  apply keeps_bind; [apply keeps_files_block | intros [r|]; [apply keeps_ret |]].
  apply keeps_files_block.
Qed.

End files_only.

(** The comparison of the dates does not look at the files. *)
Lemma compared_status_files E history name files x :
  compared_status E history name (set_files files x) =
  compared_status E history name x.
Proof. reflexivity. Qed.

Lemma dated_files E files x : dated E x -> dated E (set_files files x).
Proof. intros H. exact H. Qed.

Lemma same_records_keys (c c' : dict xtal_data) :
  length c' = length c ->
  (forall i n x, c !! i = Some (n, x) ->
     exists files, c' !! i = Some (n, set_files files x)) ->
  dict_keys c' = dict_keys c.
Proof.
  intros Hlen Hrec. unfold dict_keys.
  apply list_eq. intros i. rewrite !list_lookup_fmap.
  destruct (c !! i) as [[n x]|] eqn:Hx.
  - destruct (Hrec i n x Hx) as (files & ->). reflexivity.
  - apply lookup_ge_None in Hx. rewrite <- Hlen in Hx.
    apply lookup_ge_None in Hx. rewrite Hx. reflexivity.
Qed.

(** What is in the version directory beside the directory of the
    crystallographic files is not in that directory. *)
Lemma outside_cryst_dir vdir name :
  clean vdir -> plain_name name = true -> name <> "crystallographic" ->
  within (cryst_dir_of vdir) (join vdir name) = false.
Proof.
  intros Hclean Hname Hne.
  destruct (within (cryst_dir_of vdir) (join vdir name)) eqn:Hw; [|reflexivity].
  exfalso. apply Hne.
  apply (join_disjoint vdir name "crystallographic" (join vdir name));
    [exact Hclean | exact Hname | reflexivity | apply within_self | exact Hw].
Qed.

Lemma yaml_name_plain name :
  name ∈ yaml_names -> plain_name name = true /\ name <> "crystallographic".
Proof.
  intros H. unfold yaml_names in H.
  repeat (apply elem_of_cons in H as [-> | H];
          [split; [reflexivity | discriminate] |]).
  inversion H.
Qed.

Section run.
Context (E : externals) (self : config).

Local Abbreviation out := (cfg_output_dir self).

(** X13: a run of the collator on a fresh collator. The output directory
    has the versions 1 to [c + 1], the metadata documents of the versions
    1 to [c] are there, and the version directory [c + 1] is ready: the
    paths of the three documents and of the copy of the configuration are
    not directories there, and the configuration is a file outside it.
    The tags of the upload are distinct names of directory entries (not
    empty, without a separator or NUL, not [.] or [..]), its files are
    there, and every crystal that an earlier version has is dated, as is
    its record there.
    Then [run] returns the metadata. In the upload every record has its
    status, set from the documents of the earlier versions, and its files
    are the copies below the version directory, with their digests. The
    documents [metadata.yaml], [all_xtals.yaml] and [new_xtals.yaml] of
    the version directory hold the upload and the two maps as they are at
    the end of the run, and the configuration file is copied into the
    version directory under its name. *)
Theorem run_collates w c metas :
  let vdir := version_path out (S c) in
  current_version (w_fs w) out = S c ->
  map (document E (w_fs w) out) (seq 1 c) = map Some metas ->
  meta_history w = [] ->
  version_dir_ready (w_fs w) vdir ->
  targets_free (w_fs w) vdir ->
  config_ready self (w_fs w) vdir ->
  NoDup (dict_keys (crystals (w_meta w))) ->
  (forall n, n ∈ dict_keys (crystals (w_meta w)) -> entry_name n = true) ->
  (forall i n x k, crystals (w_meta w) !! i = Some (n, x) ->
     source_ok (base_dir self) (cryst_dir_of vdir) (w_fs w)
       (get_file k (crystallographic_files x)) = true) ->
  (forall i n x old, crystals (w_meta w) !! i = Some (n, x) ->
     dict_get (merged_history metas) n = Some (Hist old) ->
     dated E old /\ dated E x) ->
  exists w' all new,
    run E self w = (Ok (Some tt), w') /\
    version_dir w' = Some vdir /\
    all_xtals w' = Some all /\ new_or_updated_xtals w' = Some new /\
    (forall i n x, crystals (w_meta w) !! i = Some (n, x) ->
       exists files,
         crystals (w_meta w') !! i =
           Some (munged E self metas (n, set_files files x)) /\
         dict_get all n = Some (Cur i) /\
         forall k,
           copied_entry E (base_dir self) (w_fs w) (w_fs w') vdir n k
             (get_file k (crystallographic_files x)) (get_file k files)) /\
    w_fs w' !! join vdir "metadata.yaml" =
      Some (File (yaml_dump_meta E (Some (w_meta w')))) /\
    w_fs w' !! join vdir "all_xtals.yaml" =
      Some (File (yaml_dump_xtals E (resolve w' all))) /\
    w_fs w' !! join vdir "new_xtals.yaml" =
      Some (File (yaml_dump_xtals E (resolve w' new))) /\
    w_fs w' !! join vdir (basename (config_file self)) =
      w_fs w !! config_file self.
Proof.
  intros vdir Hcur Hdocs Hhist Hready Hfree Hconfig Hnodup Hentry Hsources Hdated.
  assert (Hplain : forall n,
            n ∈ dict_keys (crystals (w_meta w)) -> plain_name n = true)
    by (intros n Hn; apply entry_name_plain, Hentry, Hn).
  assert (Hclean : clean vdir) by apply version_path_clean.
  destruct Hconfig as (Hisfile & Hbelow & Hname & Hnc & Hny & Hdst).
  assert (Hcplain : plain_name (basename (config_file self)) = true).
  { unfold plain_name. rewrite basename_no_sep.
    apply String.eqb_neq in Hname. rewrite Hname. reflexivity. }
  assert (Hsrc : exists content,
            w_fs w !! config_file self = Some (File content)).
  { unfold isfile in Hisfile.
    destruct (w_fs w !! config_file self) as [[|content]|]; try discriminate.
    eauto. }
  destruct Hsrc as (content & Hsrc).
  assert (Hvd : w_fs w !! vdir = Some Dir).
  { destruct Hready as (Hd & _). unfold isdir in Hd.
    destruct (w_fs w !! vdir) as [[|x]|]; congruence. }
  unfold run. erewrite bind_run by reflexivity.
  match goal with |- context [bind (_read_versions E self) _ ?s] =>
    destruct (read_versions_run E self s c metas Hcur Hdocs)
      as (w1 & Hrv & (Hfs1 & Hmeta1 & _) & Hv1 & Hh1)
  end.
  fold vdir in Hrv, Hv1. simpl in Hfs1, Hmeta1, Hh1. rewrite Hhist in Hh1.
  erewrite bind_run by exact Hrv. cbv beta iota.
  assert (String.eqb vdir "" = false) as ->
    by (apply String.eqb_neq, Hclean).
  erewrite bind_run by (apply logf_1_run; reflexivity).
  erewrite bind_run by reflexivity.
  match goal with |- context [bind (_copy_files E self) _ ?s] =>
    assert (Hfs2 : w_fs s = w_fs w) by exact Hfs1;
    assert (Hc2 : crystals (w_meta s) = crystals (w_meta w))
      by (simpl; rewrite Hmeta1; reflexivity);
    destruct (copy_files_run E self vdir (w_fs w) (crystals (w_meta w))
                Hclean Hnodup Hentry Hsources s Hv1 Hfs2 Hc2 Hready)
      as (w3 & Hcopy & (Hframe & Hfresh & Hrecs));
    pose proof (keeps_run _ _ _ _ _ (keeps_files_copy_files E self s)
                  (same_but_files_refl s) Hcopy)
      as (Hv3 & Hh3 & _ & _ & Hlen3 & Hrec3)
  end.
  simpl in Hv3, Hh3, Hlen3, Hrec3.
  rewrite Hmeta1 in Hlen3, Hrec3. rewrite Hh1 in Hh3. rewrite Hv1 in Hv3.
  erewrite bind_run by exact Hcopy.
  erewrite bind_run by reflexivity.
  pose proof (same_records_keys _ _ Hlen3 Hrec3) as Hkeys3.
  assert (Hnodup3 : NoDup (dict_keys (crystals (w_meta w3))))
    by (rewrite Hkeys3; exact Hnodup).
  match goal with |- context [bind (_munge_history E self) _ ?s] =>
    assert (Hdated3 : history_dated E s);
      [| destruct (munge_history_returns E self s Hnodup3 Hdated3)
           as (all & new & w4 & Hmunge);
         destruct (munge_history_outcome E self s all new w4 Hnodup3 Hmunge)
           as (Hc4 & Hitems & _);
         destruct (munge_history_fields E self s all new w4 Hmunge Hnodup3)
           as (Hall & Hnew & Hfs4 & Hv4 & _)]
  end.
  { intros i name x3 old Hx3 Hold. simpl in Hx3, Hold. rewrite Hh3 in Hold.
    destruct (crystals (w_meta w) !! i) as [[n x]|] eqn:Hx.
    - destruct (Hrec3 i n x Hx) as (files & Hx3').
      rewrite Hx3' in Hx3. injection Hx3 as <- <-.
      destruct (Hdated i n x old Hx Hold) as [Ho Hn]. split; assumption.
    - apply lookup_ge_None in Hx. apply lookup_lt_Some in Hx3. lia. }
  simpl in Hc4, Hitems, Hfs4, Hv4. rewrite Hh3 in Hc4, Hitems.
  rewrite Hv3 in Hv4.
  erewrite bind_run by exact Hmunge. cbv beta iota.
  erewrite bind_run by reflexivity.
  destruct Hframe as (_ & Hcd3 & Hout3).
  assert (Hvd4 : w_fs w4 !! vdir = Some Dir).
  { rewrite Hfs4, Hout3 by (apply cryst_dir_not_above, Hclean). exact Hvd. }
  assert (Hyaml : forall name, name ∈ yaml_names ->
            w_fs w4 !! join vdir name = w_fs w !! join vdir name).
  { intros name Hin. apply yaml_name_plain in Hin as [Hp Hne].
    rewrite Hfs4. apply Hout3, outside_cryst_dir; assumption. }
  erewrite bind_run.
  2:{ apply (write_metadata_run E vdir Hclean); [exact Hv4 | exact Hvd4 |].
      intros name Hin. simpl. rewrite (Hyaml name Hin). apply Hfree, Hin. }
  erewrite bind_run by reflexivity.
  assert (Hcfg_out : within (cryst_dir_of vdir)
                       (join vdir (basename (config_file self))) = false)
    by (apply outside_cryst_dir; assumption).
  assert (Hcfg_ne : forall name, name ∈ yaml_names ->
            join vdir (basename (config_file self)) <> join vdir name).
  { intros name Hin Heq. apply Hny.
    apply yaml_name_plain in Hin as Hp. destruct Hp as [Hp _].
    apply join_plain_inj in Heq; [|assumption..]. rewrite Heq. exact Hin. }
  assert (Hsrc_ne : forall name, plain_name name = true ->
            config_file self <> join vdir name).
  { intros name Hp Heq. rewrite Heq in Hbelow.
    rewrite below_join in Hbelow; [discriminate |].
    apply no_sep_isabs, plain_name_no_sep, Hp. }
  assert (Hsrc_out : within (cryst_dir_of vdir) (config_file self) = false).
  { apply (not_below_inner vdir); [apply cryst_dir_below | exact Hbelow]. }
  erewrite bind_run.
  2:{ apply (copy_config_run self vdir _ content Hclean); simpl.
      - exact Hv4.
      - rewrite !lookup_insert_ne
          by (apply join_plain_not_dir; (exact Hclean || reflexivity)).
        exact Hvd4.
      - rewrite !lookup_insert_ne by (symmetry; apply Hsrc_ne; reflexivity).
        rewrite Hfs4, Hout3 by exact Hsrc_out. exact Hsrc.
      - exact Hname.
      - apply Hsrc_ne, Hcplain.
      - rewrite !lookup_insert_ne
          by (intros Heq; symmetry in Heq; revert Heq; apply Hcfg_ne;
              unfold yaml_names;
              repeat first [apply list_elem_of_here | apply list_elem_of_further]).
        rewrite Hfs4, Hout3 by exact Hcfg_out. exact Hdst. }
  erewrite bind_run by reflexivity.
  eexists _, all, new. split; [reflexivity |]. simpl.
  split; [exact Hv4 |]. split; [exact Hall |]. split; [exact Hnew |].
  split; [|split; [|split; [|split]]].
  - intros i n x Hx. destruct (Hrec3 i n x Hx) as (files & Hx3).
    exists files. split; [|split].
    + rewrite Hc4, list_lookup_fmap, Hx3. reflexivity.
    + destruct (Hitems i n (set_files files x) Hx3) as [Ha _]. exact Ha.
    + intros k. destruct (Hrecs i n x Hx) as (x' & Hx' & Hdone).
      cbv beta in Hdone. rewrite decide_True in Hdone.
      2:{ apply lookup_lt_Some in Hx. unfold positions.
          rewrite length_imap. exact Hx. }
      rewrite Hx3 in Hx'. injection Hx' as <-.
      assert (Hp : plain_name n = true).
      { apply Hplain. unfold dict_keys. apply list_elem_of_fmap.
        exists (n, x). split; [reflexivity |].
        eapply list_elem_of_lookup_2, Hx. }
      apply (entry_copied_stable E self vdir (w_fs w) (w_fs w3));
        [|apply Hdone].
      pose proof (copied_path_in_cryst_dir vdir n k Hp) as Hin.
      rewrite !lookup_insert_ne; [rewrite Hfs4; reflexivity | | | |];
        intros Heq; rewrite <- Heq in Hin;
        first [ rewrite Hcfg_out in Hin
              | rewrite outside_cryst_dir in Hin
                  by (exact Hclean || reflexivity || discriminate) ];
        discriminate.
  - rewrite !lookup_insert_ne
      by first [ apply Hcfg_ne; unfold yaml_names;
                 repeat first [apply list_elem_of_here | apply list_elem_of_further]
               | intros Heq; apply join_plain_inj in Heq;
                 [discriminate | auto..] ].
    apply lookup_insert_eq.
  - rewrite !lookup_insert_ne
      by first [ apply Hcfg_ne; unfold yaml_names;
                 repeat first [apply list_elem_of_here | apply list_elem_of_further]
               | intros Heq; apply join_plain_inj in Heq;
                 [discriminate | auto..] ].
    apply lookup_insert_eq.
  - rewrite lookup_insert_ne by (apply Hcfg_ne; right; right; left).
    apply lookup_insert_eq.
  - rewrite lookup_insert_eq. symmetry. exact Hsrc.
Qed.

End run.

Lemma run_collates_witness :
  let w := Examples.start Examples.fs_two_versions
             [("Mpro-x0072", Examples.x0072)] in
  exists w' files,
    run Examples.collator_externals (Examples.collator_config []) w =
      (Ok (Some tt), w') /\
    crystals (w_meta w') !! 0 =
      Some ("Mpro-x0072", set_status "new" (set_files files Examples.x0072)) /\
    w_fs w' !! "/out/upload_2/collator.yaml" = Some (File "base_dir: ...").
Proof.
  intros w.
  destruct (run_collates Examples.collator_externals
              (Examples.collator_config []) w 1 [mk_meta "" [] "" []])
    as (w' & all & new & Hrun & _ & _ & _ & Hrecs & _ & _ & _ & Hcfg).
  - vm_compute. reflexivity.
  - vm_compute. reflexivity.
  - reflexivity.
  - split; [vm_compute; reflexivity |]. split; [vm_compute; reflexivity |].
    intros _ q Hq.
    destruct (w_fs w !! q) as [v|] eqn:Hl; [exfalso | reflexivity].
    apply elem_of_list_to_map_2 in Hl.
    repeat (apply elem_of_cons in Hl as [Hl | Hl];
            [injection Hl as -> _; vm_compute in Hq; discriminate |]).
    inversion Hl.
  - intros name Hin. unfold yaml_names in Hin.
    repeat (apply elem_of_cons in Hin as [-> | Hin];
            [vm_compute; discriminate |]).
    inversion Hin.
  - split; [vm_compute; reflexivity |]. split; [vm_compute; reflexivity |].
    split; [vm_compute; discriminate |]. split; [vm_compute; discriminate |].
    split; [|vm_compute; discriminate].
    intros Hin. unfold yaml_names in Hin.
    repeat (apply elem_of_cons in Hin as [Hin | Hin];
            [vm_compute in Hin; discriminate |]).
    inversion Hin.
  - apply NoDup_singleton.
  - intros n Hn. change (n ∈ ["Mpro-x0072"]) in Hn.
    apply list_elem_of_singleton in Hn. subst n. vm_compute. reflexivity.
  - intros [|i] n x k Hx; [|discriminate]. injection Hx as <- <-.
    destruct k; vm_compute; reflexivity.
  - intros i n x old _ Hold. vm_compute in Hold. discriminate.
  - destruct (Hrecs 0 "Mpro-x0072" Examples.x0072 eq_refl)
      as (files & Hx & _).
    exists w', files. split; [exact Hrun |]. split; [exact Hx |].
    exact Hcfg.
Defined.

End CollatorRun.

(* ===================================================================== *)
(** * The datasets of the aligner *)
(* ===================================================================== *)

Module AlignerDatasets.
Import Path Aligner PyFacts DictFacts.

(** ** Dictionaries filled in a loop *)

Lemma fold_set_get {A V} (key : A -> string) (val : A -> V) (l : list A) :
  forall acc k,
  dict_get (fold_left (fun d a => dict_set d (key a) (val a)) l acc) k =
  match find (fun a => String.eqb (key a) k) (rev l) with
  | Some a => Some (val a)
  | None => dict_get acc k
  end.
Proof.
  induction l as [|a l IH]; intros acc k; [reflexivity |].
  simpl fold_left. rewrite IH. simpl rev.
  rewrite ValidatorFacts.find_app_first.
  destruct (find _ (rev l)); [reflexivity |]. simpl.
  rewrite dict_get_set. destruct (String.eqb (key a) k); reflexivity.
Qed.

Lemma find_rev_unique {A} (key : A -> string) (l : list A) a :
  NoDup (map key l) -> a ∈ l ->
  find (fun b => String.eqb (key b) (key a)) (rev l) = Some a.
Proof.
  induction l as [|b l IH]; intros Hnd Hin; [inversion Hin |].
  simpl in Hnd. apply NoDup_cons in Hnd as [Hb Hnd].
  simpl rev. rewrite ValidatorFacts.find_app_first.
  apply elem_of_cons in Hin as [-> | Hin].
  - destruct (find _ (rev l)) as [c|] eqn:Hfind.
    + exfalso. apply find_some in Hfind as [Hc Heq].
      apply String.eqb_eq in Heq. apply Hb. rewrite <- Heq.
      apply list_elem_of_fmap. exists c. split; [reflexivity |].
      apply list_elem_of_In, in_rev, Hc.
    + simpl. rewrite String.eqb_refl. reflexivity.
  - rewrite (IH Hnd Hin). reflexivity.
Qed.

Lemma find_rev_none {A} (key : A -> string) (l : list A) k :
  k ∉ map key l -> find (fun b => String.eqb (key b) k) (rev l) = None.
Proof.
  intros Hk. destruct (find _ (rev l)) as [c|] eqn:Hfind; [|reflexivity].
  exfalso. apply find_some in Hfind as [Hc Heq].
  apply String.eqb_eq in Heq. apply Hk. rewrite <- Heq.
  apply list_elem_of_fmap. exists c. split; [reflexivity |].
  apply list_elem_of_In, in_rev, Hc.
Qed.

Lemma fold_set_keys {A V} (key : A -> string) (val : A -> V) (l : list A) :
  forall acc,
  NoDup (map key l) -> (forall a, a ∈ l -> key a ∉ dict_keys acc) ->
  dict_keys (fold_left (fun d a => dict_set d (key a) (val a)) l acc) =
  dict_keys acc ++ map key l.
Proof.
  induction l as [|a l IH]; intros acc Hnd Hfresh.
  - simpl. rewrite app_nil_r. reflexivity.
  - simpl in Hnd. apply NoDup_cons in Hnd as [Ha Hnd].
    simpl fold_left. rewrite IH; [| exact Hnd |].
    + rewrite dict_keys_set_order.
      assert (dict_mem acc (key a) = false) as ->.
      { destruct (dict_mem acc (key a)) eqn:Hm; [|reflexivity].
        apply dict_mem_keys in Hm. destruct (Hfresh a); [left | exact Hm]. }
      rewrite <- app_assoc. reflexivity.
    + intros b Hb Hin. rewrite dict_keys_set_order in Hin.
      destruct (dict_mem acc (key a)).
      * apply (Hfresh b); [right; exact Hb | exact Hin].
      * apply elem_of_app in Hin as [Hin | Hin].
        -- apply (Hfresh b); [right; exact Hb | exact Hin].
        -- apply list_elem_of_singleton in Hin. apply Ha. rewrite <- Hin.
           apply list_elem_of_fmap. exists b. auto.
Qed.

Section datasets.
Context (K : constants) (output_path : string).

Local Abbreviation entry :=
  (fun item : string * xtal_data => dataset_for output_path (fst item) (snd item)).

(** The pass for a collated crystal. *)
Lemma dataset_of_crystal_run ds refs new dtag crystal tr :
  collated crystal ->
  dataset_of_crystal K output_path (ds, refs, new) (dtag, crystal) tr =
  (Ok (dict_set ds dtag (dataset_for output_path dtag crystal), refs,
       if is_new K crystal
       then dict_set new dtag (dataset_for output_path dtag crystal)
       else new), tr).
Proof.
  intros (Hpdb & Hmtz & Hstatus).
  unfold dataset_of_crystal, dataset_for, is_new.
  destruct (xtal_pdb (crystallographic_files crystal)) as [|p|p dp];
    try discriminate.
  destruct (xtal_mtz (crystallographic_files crystal)) as [|m|m dm];
    try discriminate.
  destruct (status crystal) as [s|]; [reflexivity | congruence].
Qed.

Lemma datasets_loop_run : forall xtals ds refs new tr,
  (forall dtag crystal, (dtag, crystal) ∈ xtals -> collated crystal) ->
  for_fold xtals (dataset_of_crystal K output_path) (ds, refs, new) tr =
  (Ok (fold_left (fun d item => dict_set d (fst item) (entry item)) xtals ds,
       refs,
       fold_left (fun d item => dict_set d (fst item) (entry item))
         (filter (fun item => is_new K (snd item) = true) xtals) new), tr).
Proof.
  induction xtals as [|[dtag crystal] xtals IH];
    intros ds refs new tr Hall; [reflexivity |].
  simpl for_fold.
  erewrite bind_run.
  2:{ apply dataset_of_crystal_run. apply (Hall dtag). left. }
  rewrite IH by (intros d c Hin; apply (Hall d); right; exact Hin).
  destruct (is_new K crystal) eqn:Hnew.
  - rewrite filter_cons_True by exact Hnew. reflexivity.
  - rewrite filter_cons_False by (simpl; congruence). reflexivity.
Qed.

(** X14: for a metadata document with at least one crystal, distinct
    tags, and records as the collator leaves them, the function
    [get_datasets_from_crystals] returns without a call to the outside.
    The datasets have the tags of the crystals in their order, each with
    the paths of its structure and reflections put below the output path
    as [pathlib] does it, [str(output_path / file)]: an absolute path of
    a file stands for itself, and the text is normalised. The new datasets are those of the crystals whose status is the one
    for new crystals, and no others. *)
Theorem get_datasets_result crystals tr :
  crystals <> [] -> NoDup (dict_keys crystals) ->
  (forall dtag crystal, (dtag, crystal) ∈ crystals -> collated crystal) ->
  exists datasets refs new,
    get_datasets_from_crystals K crystals output_path tr =
      (Ok (datasets, refs, new), tr) /\
    dict_keys datasets = dict_keys crystals /\
    (forall dtag crystal, (dtag, crystal) ∈ crystals ->
       dict_get datasets dtag = Some (dataset_for output_path dtag crystal) /\
       dict_get new dtag =
         if is_new K crystal
         then Some (dataset_for output_path dtag crystal) else None) /\
    (forall dtag, dtag ∉ dict_keys crystals -> dict_get new dtag = None).
Proof.
  intros Hne Hnd Hall. unfold get_datasets_from_crystals.
  erewrite bind_run by (apply datasets_loop_run; exact Hall). cbv beta iota.
  set (datasets := fold_left _ crystals []).
  set (new := fold_left _ (filter _ crystals) []).
  assert (Hkeys : dict_keys datasets = dict_keys crystals).
  { unfold datasets. rewrite fold_set_keys; [reflexivity | exact Hnd |].
    intros a _. apply not_elem_of_nil. }
  assert (Hlen : (length datasets =? 0) = false).
  { apply Nat.eqb_neq. intros Hlen.
    apply (f_equal length) in Hkeys. unfold dict_keys in Hkeys.
    rewrite !length_map in Hkeys. destruct crystals; [congruence |].
    simpl in Hkeys. lia. }
  rewrite Hlen. simpl orb. cbv iota.
  exists datasets, [], new. split; [reflexivity |]. split; [exact Hkeys |].
  assert (Hsub : forall item,
            item ∈ filter (fun item => is_new K (snd item) = true) crystals ->
            item ∈ crystals /\ is_new K (snd item) = true).
  { intros item Hin. apply list_elem_of_filter in Hin as [Hnew Hin]. auto. }
  assert (Hndf : NoDup (map fst
                   (filter (fun item => is_new K (snd item) = true) crystals))).
  { clear -Hnd. unfold dict_keys in Hnd.
    induction crystals as [|[d c] xtals IH]; [constructor |].
    simpl in Hnd. apply NoDup_cons in Hnd as [Hd Hnd].
    destruct (is_new K c) eqn:Hnew.
    - rewrite filter_cons_True by exact Hnew.
      simpl. apply NoDup_cons. split; [|apply IH, Hnd].
      intros Hin. apply Hd.
      apply list_elem_of_fmap in Hin as ([d' c'] & -> & Hin).
      apply list_elem_of_filter in Hin as [_ Hin].
      apply list_elem_of_fmap. exists (d', c'). auto.
    - rewrite filter_cons_False by (simpl; congruence). apply IH, Hnd. }
  split.
  - intros dtag crystal Hin. split.
    + unfold datasets. rewrite fold_set_get.
      pose proof (find_rev_unique fst crystals (dtag, crystal) Hnd Hin) as Hf.
      simpl in Hf. rewrite Hf. reflexivity.
    + unfold new. rewrite fold_set_get.
      destruct (is_new K crystal) eqn:Hnew.
      * pose proof (find_rev_unique fst _ (dtag, crystal) Hndf) as Hf.
        simpl in Hf. rewrite Hf; [reflexivity |].
        apply list_elem_of_filter. auto.
      * rewrite find_rev_none; [reflexivity |].
        intros Hk. apply list_elem_of_fmap in Hk as ([d c] & Hd & Hk).
        simpl in Hd. subst d. apply Hsub in Hk as [Hk Hc]. simpl in Hc.
        assert (c = crystal) as ->; [|congruence].
        pose proof (dict_get_elem _ _ _ Hnd Hk) as H1.
        pose proof (dict_get_elem _ _ _ Hnd Hin) as H2. congruence.
  - intros dtag Hout. unfold new. rewrite fold_set_get.
    rewrite find_rev_none; [reflexivity |].
    intros Hk. apply Hout. apply list_elem_of_fmap in Hk as (item & -> & Hk).
    apply Hsub in Hk as [Hk _]. apply list_elem_of_fmap. exists item. auto.
Qed.

Lemma dataset_of_crystal_raises ds refs new dtag crystal tr e :
  dataset_error crystal = Some e ->
  dataset_of_crystal K output_path (ds, refs, new) (dtag, crystal) tr =
  (Raise e, tr).
Proof.
  unfold dataset_error, dataset_of_crystal.
  destruct (xtal_pdb (crystallographic_files crystal)) as [|p|p dp];
    simpl; try (intros [= <-]; reflexivity).
  destruct (xtal_mtz (crystallographic_files crystal)) as [|m|m dm];
    simpl; try (intros [= <-]; reflexivity).
  destruct (status crystal) as [s|]; [discriminate |].
  intros [= <-]. reflexivity.
Qed.

(** X15: [get_datasets_from_crystals] raises a plain [Exception] for a
    metadata document without crystals. At the first crystal whose record
    is not as the collator leaves it, it raises [TypeError] when the
    structure has no copied file, else [AttributeError] when the
    reflections have none, else [KeyError] when the status is missing; no
    dataset is returned, and nothing outside is called. *)
Theorem get_datasets_raises tr :
  get_datasets_from_crystals K [] output_path tr = (Raise PlainException, tr) /\
  forall before dtag crystal after e,
    (forall d c, (d, c) ∈ before -> collated c) ->
    dataset_error crystal = Some e ->
    get_datasets_from_crystals K (before ++ (dtag, crystal) :: after)
      output_path tr = (Raise e, tr).
Proof.
  split; [reflexivity |].
  intros before dtag crystal after e Hbefore He.
  unfold get_datasets_from_crystals.
  erewrite bind_run_raise; [reflexivity |].
  eapply for_fold_raise.
  - apply datasets_loop_run. exact Hbefore.
  - apply dataset_of_crystal_raises, He.
Qed.

End datasets.

Lemma get_datasets_result_witness :
  exists datasets refs new,
    get_datasets_from_crystals spec_constants Examples.collated_crystals
      "." [] = (Ok (datasets, refs, new), []) /\
    dict_keys datasets =
      ["Mpro-x0072"; "Mpro-x0104"; "Mpro-x0107"; "Mpro-x0115"] /\
    dict_get new "Mpro-x0104" =
      Some (mk_dataset "Mpro-x0104"
              "crystallographic/Mpro-x0104/Mpro-x0104.pdb"
              "crystallographic/Mpro-x0104/Mpro-x0104.mtz").
Proof.
  destruct (get_datasets_result spec_constants "."
              Examples.collated_crystals [])
    as (datasets & refs & new & Hrun & Hkeys & Hitems & _).
  - discriminate.
  - apply (bool_decide_unpack _). vm_compute. exact I.
  - intros dtag crystal Hin. unfold Examples.collated_crystals in Hin.
    repeat (apply elem_of_cons in Hin as [[= -> ->] | Hin];
            [split; [reflexivity | split; [reflexivity | discriminate]] |]).
    inversion Hin.
  - exists datasets, refs, new. split; [exact Hrun |]. split; [exact Hkeys |].
    destruct (Hitems "Mpro-x0104" (Examples.collated "Mpro-x0104")) as [_ Hn].
    + right. left.
    + exact Hn.
Defined.

End AlignerDatasets.

(* ===================================================================== *)
(** * The extraction of the components, again *)
(* ===================================================================== *)

Module AlignerExtract.
Import Path Aligner PyFacts DictFacts AlignerFacts.

(** A loop over the items raises where a pass raises. *)
Lemma for_items_raise {V} (body : nat -> string -> V -> M trace (nat * V))
    k0 v0 after e :
  (forall n tr, exists tr', body n k0 v0 tr = (Raise e, tr')) ->
  forall before,
  (forall n k v tr, (k, v) ∈ before ->
     exists n' v' tr', body n k v tr = (Ok (n', v'), tr')) ->
  forall n tr,
    exists tr',
      for_items (before ++ (k0, v0) :: after) body n tr = (Raise e, tr').
Proof.
  intros Hraise. induction before as [|[k v] before IH]; intros Hbody n tr.
  - destruct (Hraise n tr) as (tr' & H). exists tr'. simpl.
    erewrite bind_run_raise by exact H. reflexivity.
  - destruct (Hbody n k v tr (list_elem_of_here _ _)) as (n1 & v1 & tr1 & H1).
    destruct (IH (fun n k v tr Hin =>
                    Hbody n k v tr (list_elem_of_further _ _ _ Hin)) n1 tr1)
      as (tr2 & H2).
    exists tr2. simpl. erewrite bind_run by exact H1. cbv beta iota.
    erewrite bind_run_raise by exact H2. reflexivity.
Qed.

Lemma map_items_idem {V} (f : string -> V -> V) (d : dict V) :
  (forall k v, (k, v) ∈ d -> f k (f k v) = f k v) ->
  map_items f (map_items f d) = map_items f d.
Proof.
  unfold map_items. induction d as [|[k v] d IH]; intros Hf; [reflexivity |].
  simpl. rewrite (Hf k v) by left. f_equal.
  apply IH. intros k' v' Hin. apply Hf. right. exact Hin.
Qed.

Lemma sum_items_map {V} (c : string -> V -> nat) (f : string -> V -> V)
    (d : dict V) :
  (forall k v, (k, v) ∈ d -> c k (f k v) = c k v) ->
  sum_items c (map_items f d) = sum_items c d.
Proof.
  unfold sum_items, map_items.
  induction d as [|[k v] d IH]; intros Hc; [reflexivity |].
  simpl. rewrite (Hc k v) by left. f_equal.
  apply IH. intros k' v' Hin. apply Hc. right. exact Hin.
Qed.

Lemma map_items_keys {V} (f : string -> V -> V) (d : dict V) :
  dict_keys (map_items f d) = dict_keys d.
Proof.
  unfold dict_keys, map_items. rewrite map_map. reflexivity.
Qed.

Lemma map_items_elem {V} (f : string -> V -> V) (d : dict V) k v' :
  (k, v') ∈ map_items f d -> exists v, (k, v) ∈ d /\ v' = f k v.
Proof.
  unfold map_items. intros Hin.
  apply list_elem_of_fmap in Hin as ([k0 v] & [= -> ->] & Hin). eauto.
Qed.

Section extract.
Context {doc cell : Type}.
Context (K : constants) (E : externals doc cell) (self : aligner).

(** ** A crystal without ligand description *)

Lemma extract_section_raises crystals n k1 assigned files tr :
  existsb (String.eqb k1)
    [META_CONFORMER_SITES K; META_CANONICAL_SITES K; META_XTALFORM_SITES K]
  = false ->
  cif_of crystals k1 = None ->
  exists tr',
    extract_section K E self crystals n k1 (CrystalOutput assigned files) tr =
    (Raise AttributeError, tr').
Proof.
  intros Hkey Hcif. unfold extract_section. cbv zeta. rewrite Hkey.
  simpl negb. cbv iota.
  erewrite bind_run by reflexivity. cbv iota.
  erewrite bind_run by reflexivity.
  unfold cif_of in Hcif. unfold get_cif_file.
  destruct (dict_get crystals k1) as [crystal|].
  - destruct (ligand_cif (crystallographic_files crystal)) as [|p|cif digest];
      [| | congruence]; eexists; reflexivity.
  - eexists; reflexivity.
Qed.

(** X16: [_extract_components] raises [AttributeError] at an alignment
    output of a crystal whose ligand description in the metadata is null
    or a bare path, not the copied file with its digest, or that has no
    record at all, when the values before it can be handled: the path of
    the description is looked up before any site of the crystal is
    handled, and no count of failures is returned. *)
Theorem extract_components_needs_cif crystals before k1 assigned files after tr :
  (forall k v, (k, v) ∈ before -> extractable K E crystals k v) ->
  existsb (String.eqb k1)
    [META_CONFORMER_SITES K; META_CANONICAL_SITES K; META_XTALFORM_SITES K]
  = false ->
  cif_of crystals k1 = None ->
  exists tr',
    _extract_components K E self crystals
      (before ++ (k1, CrystalOutput assigned files) :: after) tr =
    (Raise AttributeError, tr').
Proof.
  intros Hbefore Hkey Hcif. unfold _extract_components.
  apply for_items_raise.
  - intros n tr0. apply extract_section_raises; assumption.
  - intros n k v tr0 Hin.
    destruct (extract_section_run K E self crystals n k v tr0 (Hbefore k v Hin))
      as (tr' & Hrun).
    eauto.
Qed.

(** ** A second extraction *)

Lemma site_fails_result cif_file k2 k3 v4 :
  site_fails E self (site_result E self cif_file k2 k3 v4) = site_fails E self v4.
Proof.
  unfold site_result. destruct (site_fails E self v4) eqn:Hf; [exact Hf |].
  exact Hf.
Qed.

Lemma site_result_idem cif_file k2 k3 v4 :
  site_result E self cif_file k2 k3 (site_result E self cif_file k2 k3 v4) =
  site_result E self cif_file k2 k3 v4.
Proof.
  unfold site_result at 1. rewrite site_fails_result.
  unfold site_result. destruct (site_fails E self v4); [reflexivity |].
  unfold site_extracted. simpl.
  destruct (negb (String.eqb cif_file "")); reflexivity.
Qed.

Lemma files_result_idem cif_file files :
  files_result E self cif_file (files_result E self cif_file files) =
  files_result E self cif_file files.
Proof.
  unfold files_result. apply map_items_idem. intros k2 v2 _.
  apply map_items_idem. intros k3 v3 _.
  apply map_items_idem. intros k4 v4 _. apply site_result_idem.
Qed.

Lemma files_failures_result cif_file files :
  files_failures E self (files_result E self cif_file files) =
  files_failures E self files.
Proof.
  unfold files_failures, files_result. apply sum_items_map. intros k2 v2 _.
  apply sum_items_map. intros k3 v3 _.
  apply sum_items_map. intros k4 v4 _. rewrite site_fails_result. reflexivity.
Qed.

Lemma section_result_idem crystals k1 v1 :
  section_result E self crystals k1 (section_result E self crystals k1 v1) =
  section_result E self crystals k1 v1.
Proof.
  unfold section_result.
  destruct v1 as [x|d|assigned files|t]; try reflexivity.
  destruct (cif_of crystals k1) as [cif|] eqn:Hcif; simpl; rewrite ?Hcif;
    [|reflexivity].
  rewrite files_result_idem. reflexivity.
Qed.

Lemma section_failures_result crystals k1 v1 :
  section_failures E self (section_result E self crystals k1 v1) =
  section_failures E self v1.
Proof.
  unfold section_result, section_failures.
  destruct v1 as [x|d|assigned files|t]; try reflexivity.
  destruct (cif_of crystals k1) as [cif|]; [|reflexivity].
  apply files_failures_result.
Qed.

Lemma extractable_result crystals k1 v1 :
  extractable K E crystals k1 v1 ->
  extractable K E crystals k1 (section_result E self crystals k1 v1).
Proof.
  unfold section_result.
  destruct v1 as [x|d|assigned files|t]; try (intros H; exact H).
  destruct (cif_of crystals k1) as [cif|]; intros H; exact H.
Qed.

(** X17: the extraction can be run again. For metadata whose values can
    all be handled, [_extract_components] returns a count and the metadata
    with the same keys in the same order, and on that metadata it returns
    the same count and leaves the metadata as it is. *)
Theorem extract_components_again crystals
    (aligner_meta : dict (section doc cell)) tr :
  (forall k1 v1, (k1, v1) ∈ aligner_meta -> extractable K E crystals k1 v1) ->
  exists n aligner_meta' tr1 tr2,
    _extract_components K E self crystals aligner_meta tr =
      (Ok (n, aligner_meta'), tr1) /\
    dict_keys aligner_meta' = dict_keys aligner_meta /\
    _extract_components K E self crystals aligner_meta' tr1 =
      (Ok (n, aligner_meta'), tr2).
Proof.
  intros Hall. unfold _extract_components.
  destruct (for_items_total (section_result E self crystals)
              (fun _ => section_failures E self)
              (extract_section K E self crystals) aligner_meta) with
    (n := 0) (tr := tr) as (tr1 & Hrun1).
  { intros n k1 v1 tr0 Hin. apply extract_section_run, Hall, Hin. }
  destruct (for_items_total (section_result E self crystals)
              (fun _ => section_failures E self)
              (extract_section K E self crystals)
              (map_items (section_result E self crystals) aligner_meta)) with
    (n := 0) (tr := tr1) as (tr2 & Hrun2).
  { intros n k1 v1 tr0 Hin. apply extract_section_run.
    apply map_items_elem in Hin as (v & Hin & ->).
    apply extractable_result, Hall, Hin. }
  eexists _, _, tr1, tr2. split; [exact Hrun1 |].
  split; [apply map_items_keys |].
  rewrite Hrun2.
  rewrite sum_items_map
    by (intros k v _; apply section_failures_result).
  rewrite map_items_idem by (intros k v _; apply section_result_idem).
  reflexivity.
Qed.

End extract.

Lemma extract_components_needs_cif_witness :
  exists tr',
    _extract_components spec_constants (Examples.aligner_externals [])
      Examples.the_aligner Examples.apo_crystals
      [Examples.aligned_output "Mpro-x0072"; Examples.aligned_output "Mpro-x0200"]
      [] = (Raise AttributeError, tr').
Proof.
  apply (extract_components_needs_cif spec_constants
           (Examples.aligner_externals []) Examples.the_aligner
           Examples.apo_crystals [Examples.aligned_output "Mpro-x0072"]
           "Mpro-x0200" "xtalform1" _ [] []).
  - intros k v Hin. apply list_elem_of_singleton in Hin.
    injection Hin as -> ->. split; [reflexivity | discriminate].
  - reflexivity.
  - reflexivity.
Defined.

Lemma extract_components_again_witness :
  exists n aligner_meta' tr1 tr2,
    _extract_components spec_constants
      (Examples.aligner_externals [Examples.lost_file]) Examples.the_aligner
      Examples.collated_crystals
      [Examples.aligned_output "Mpro-x0072"; Examples.aligned_output "Mpro-x0104"]
      [] = (Ok (n, aligner_meta'), tr1) /\
    n = 1 /\
    _extract_components spec_constants
      (Examples.aligner_externals [Examples.lost_file]) Examples.the_aligner
      Examples.collated_crystals aligner_meta' tr1 = (Ok (n, aligner_meta'), tr2).
Proof.
  destruct (extract_components_again spec_constants
              (Examples.aligner_externals [Examples.lost_file])
              Examples.the_aligner Examples.collated_crystals
              [Examples.aligned_output "Mpro-x0072";
               Examples.aligned_output "Mpro-x0104"] [])
    as (n & meta' & tr1 & tr2 & Hrun1 & _ & Hrun2).
  - intros k v Hin.
    repeat (apply elem_of_cons in Hin as [[= -> ->] | Hin];
            [split; [reflexivity | discriminate] |]).
    inversion Hin.
  - exists n, meta', tr1, tr2. split; [exact Hrun1 |]. split; [|exact Hrun2].
    vm_compute in Hrun1. injection Hrun1 as <- _ _. reflexivity.
Defined.

End AlignerExtract.

(* ===================================================================== *)
(** * The validation of the aligner *)
(* ===================================================================== *)

Module AlignerValidate.
Import Path FS Aligner PyFacts.

(** The messages of one call of [validate]. *)
Lemma validate_run t self c :
  let vd := p_version_dir self in
  let mf := metadata_file self in
  let xf := xtalforms_file self in
  let msgs :=
    if negb (exists_ t vd) then ["version dir " +:+ vd +:+ " does not exist"]
    else if negb (isdir t vd) then ["version dir " +:+ vd +:+ " is not a directory"]
    else
      (if negb (exists_ t mf)
       then ["metadata file " +:+ mf +:+ " does not exist"] else []) ++
      (if negb (isfile t mf)
       then ["metadata file " +:+ mf +:+ " is not a file"] else []) ++
      (if negb (exists_ t xf)
       then ["xtalforms file " +:+ xf +:+ " does not exist"]
       else if negb (isfile t xf)
       then ["xtalforms file " +:+ xf +:+ " is not a file"] else []) in
  validate t self c =
  (Ok (length (a_errors c) + length msgs, length (a_warnings c)),
   mk_checks (a_log c ++ map (Log 2) msgs) (a_errors c ++ msgs) (a_warnings c)).
Proof.
  cbv zeta. unfold validate. destruct c as [lg errs warns].
  destruct (exists_ t (p_version_dir self)), (isdir t (p_version_dir self)),
    (exists_ t (metadata_file self)), (isfile t (metadata_file self)),
    (exists_ t (xtalforms_file self)), (isfile t (xtalforms_file self));
    cbn -[String.append];
    rewrite <- ?app_assoc, ?length_app, ?app_nil_r, ?Nat.add_0_r;
    cbn -[String.append]; rewrite <- ?Nat.add_assoc; reflexivity.
Qed.

(** X18: [Aligner.validate] returns the number of all the errors that the
    aligner has recorded, those of earlier calls included, and the number
    of its warnings, to which it adds none; every message it records goes
    to the logger as an error. It records no message exactly when the
    version directory is a directory and the metadata file and the file of
    the crystal forms are regular files. Below a version directory, a
    metadata file that is not there is recorded twice, as missing and as
    not being a file. *)
Theorem validate_reports t self c :
  exists msgs,
    validate t self c =
      (Ok (length (a_errors c) + length msgs, length (a_warnings c)),
       mk_checks (a_log c ++ map (Log 2) msgs) (a_errors c ++ msgs)
         (a_warnings c)) /\
    (msgs = [] <->
       isdir t (p_version_dir self) = true /\
       isfile t (metadata_file self) = true /\
       isfile t (xtalforms_file self) = true) /\
    (isdir t (p_version_dir self) = true ->
     exists_ t (metadata_file self) = false ->
     exists rest,
       msgs =
         ("metadata file " +:+ metadata_file self +:+ " does not exist") ::
         ("metadata file " +:+ metadata_file self +:+ " is not a file") :: rest).
Proof.
  pose proof (validate_run t self c) as Hrun. cbv zeta in Hrun.
  eexists. split; [exact Hrun |]. clear Hrun.
  unfold exists_, isdir, isfile.
  destruct (t !! p_version_dir self) as [[|?]|];
    destruct (t !! metadata_file self) as [[|?]|];
    destruct (t !! xtalforms_file self) as [[|?]|];
    cbn -[String.append];
    (split; [split; [discriminate || (intros _; repeat split; reflexivity)
                    | (intros (? & ? & ?); congruence) || reflexivity]
            | intros; try discriminate; eexists; reflexivity]).
Qed.

End AlignerValidate.
